(** * llama-agent: planning state machine, context store, agent registry
      and subagent manager

    A shallow embedding of the orchestration core of the agent
    (src/tools/agent) together with the properties its specification
    states about it.  C++ [std::string] is [string]; [nlohmann::ordered_json]
    is the inductive type [json] whose objects are association lists in
    insertion order; [std::map] is [gmap]; exceptions are an explicit
    error monad; the file system is a finite map from paths to contents
    with an oracle that says which stream operations fail. *)

From Stdlib Require Import String Ascii List ZArith Lia Bool.
From stdpp Require Import base option list gmap strings pretty sorting.
Import ListNotations.

Set Warnings "-register-all".

Local Open Scope string_scope.
Local Open Scope list_scope.

(* ===================================================================== *)
(** * Characters *)
(* ===================================================================== *)

Module Chr.

Definition code (c : ascii) : nat := nat_of_ascii c.

(** [std::islower] and [std::isdigit] in the "C" locale. *)
Definition islower (c : ascii) : bool :=
  (97 <=? code c)%nat && (code c <=? 122)%nat.

Definition isdigit (c : ascii) : bool :=
  (48 <=? code c)%nat && (code c <=? 57)%nat.

Definition hyphen : ascii := "-"%char.

Definition eqb (a b : ascii) : bool := Ascii.eqb a b.

End Chr.

(* ===================================================================== *)
(** * Agent registry: name validation (agent-registry.cpp) *)
(* ===================================================================== *)

Module AgentName.

(** The body of the [for (char c : name)] loop of [validate_name],
    with [prev_hyphen] as an accumulator. *)
Fixpoint scan (prev_hyphen : bool) (cs : list ascii) : bool :=
  match cs with
  | [] => true
  | c :: rest =>
      if Chr.eqb c Chr.hyphen then
        if prev_hyphen then false else scan true rest
      else if Chr.islower c || Chr.isdigit c then scan false rest
      else false
  end.

Definition front (cs : list ascii) : option ascii := head cs.
Definition back (cs : list ascii) : option ascii := last cs.

Definition is_hyphen (o : option ascii) : bool :=
  match o with Some c => Chr.eqb c Chr.hyphen | None => false end.

(** [agent_registry::validate_name]. *)
Definition validate_name (name : string) : bool :=
  let cs := list_ascii_of_string name in
  if (Nat.eqb (List.length cs) 0) || (64 <? List.length cs)%nat then false
  else if is_hyphen (front cs) || is_hyphen (back cs) then false
  else scan false cs.

(** ** The pattern of the specification, as a regular expression *)

Inductive regex : Type :=
| Eps : regex
| Cls : (ascii -> bool) -> regex
| Seq : regex -> regex -> regex
| Star : regex -> regex.

Definition Plus (r : regex) : regex := Seq r (Star r).

Inductive matches : regex -> list ascii -> Prop :=
| MEps : matches Eps []
| MCls f c : f c = true -> matches (Cls f) [c]
| MSeq r1 r2 s1 s2 :
    matches r1 s1 -> matches r2 s2 -> matches (Seq r1 r2) (s1 ++ s2)
| MStar0 r : matches (Star r) []
| MStarS r s1 s2 :
    matches r s1 -> matches (Star r) s2 -> matches (Star r) (s1 ++ s2).

Definition in_range (lo hi c : ascii) : bool :=
  (nat_of_ascii lo <=? nat_of_ascii c)%nat && (nat_of_ascii c <=? nat_of_ascii hi)%nat.

(** [[a-z0-9]] *)
Definition alnum (c : ascii) : bool := in_range "a" "z" c || in_range "0" "9" c.
(** [-] *)
Definition dash (c : ascii) : bool := Chr.eqb c Chr.hyphen.

(** [-[a-z0-9]+] *)
Definition dash_group : regex := Seq (Cls dash) (Plus (Cls alnum)).

(** [^[a-z0-9]+(-[a-z0-9]+)*$] *)
Definition name_regex : regex := Seq (Plus (Cls alnum)) (Star dash_group).

(** The last character is no hyphen. *)
Definition endok (cs : list ascii) : Prop :=
  is_hyphen (last cs) = false.

(** A name of 65 characters. *)
Definition name65 : string :=
  "aaaaaaaaaaaaaaaaaaaaaaaaaaaaaaaaaaaaaaaaaaaaaaaaaaaaaaaaaaaaaaaaa".

End AgentName.

(* ===================================================================== *)
(** * [std::string] *)
(* ===================================================================== *)

Module Str.

Definition size (s : string) : nat := String.length s.

Definition empty (s : string) : bool :=
  match s with EmptyString => true | _ => false end.

(** [s.substr(pos, n)] for [pos <= s.size()]. *)
Definition substr (s : string) (pos n : nat) : string := String.substring pos n s.

(** [s.substr(pos)] *)
Fixpoint drop (n : nat) (s : string) : string :=
  match n, s with
  | O, _ => s
  | S n', String _ s' => drop n' s'
  | S _, EmptyString => EmptyString
  end.

Fixpoint starts_with (needle s : string) : bool :=
  match needle, s with
  | EmptyString, _ => true
  | String a n', String b s' => Ascii.eqb a b && starts_with n' s'
  | String _ _, EmptyString => false
  end.

(** Search of [needle] in the suffix [s], whose first character has
    index [idx] in the whole string. *)
Fixpoint find_at (needle s : string) (idx : nat) : option nat :=
  if starts_with needle s then Some idx
  else match s with
       | EmptyString => None
       | String _ s' => find_at needle s' (S idx)
       end.

(** [s.find(needle, pos)]; [None] is [npos]. *)
Definition find (s needle : string) (pos : nat) : option nat :=
  if (pos <=? size s)%nat then find_at needle (drop pos s) pos else None.

(** [s[i]] *)
Definition at_ (s : string) (i : nat) : option ascii := String.get i s.

Definition back (s : string) : option ascii :=
  match size s with O => None | S n => String.get n s end.

(** [s.pop_back()] *)
Definition pop_back (s : string) : string := substr s 0 (size s - 1).

Definition nl : ascii := ascii_of_nat 10.
Definition cr : ascii := ascii_of_nat 13.
Definition space : ascii := " "%char.
Definition quote : ascii := ascii_of_nat 34.
Definition backslash : ascii := ascii_of_nat 92.

Definition newline : string := String nl EmptyString.

(** Text with double quotes written as apostrophes: [dq] puts the
    double quotes back.  Used to write JSON texts in examples. *)
Fixpoint dq (s : string) : string :=
  match s with
  | EmptyString => EmptyString
  | String c s' => String (if Ascii.eqb c "'"%char then quote else c) (dq s')
  end.

End Str.

(* ===================================================================== *)
(** * Exceptions *)
(* ===================================================================== *)

(** The exceptions the modelled code can meet.  [type_error] and
    [parse_error] derive from [json::exception]; [filesystem_error] is
    thrown by the [std::filesystem] calls that take no [error_code]. *)
Inductive exn : Type :=
| type_error (id : nat)
| parse_error
| filesystem_error.

Inductive outcome (A : Type) : Type :=
| Ret (a : A)
| Raise (e : exn).
Arguments Ret {A} a.
Arguments Raise {A} e.

Definition obind {A B} (m : outcome A) (k : A -> outcome B) : outcome B :=
  match m with
  | Ret a => k a
  | Raise e => Raise e
  end.

#[export] Instance outcome_ret : MRet outcome := fun A a => Ret a.
#[export] Instance outcome_bind : MBind outcome := fun A B k m => obind m k.

Definition returned {A} (m : outcome A) : bool :=
  match m with Ret _ => true | Raise _ => false end.

(* ===================================================================== *)
(** * [nlohmann::ordered_json] *)
(* ===================================================================== *)

Module Json.

(** Objects keep insertion order ([ordered_json]); numbers are integers
    or decimal literals kept as a rational. *)
Inductive json : Type :=
| JNull
| JBool (b : bool)
| JNum (z : Z)
| JFloat (num : Z) (den : positive)
| JStr (s : string)
| JArr (items : list json)
| JObj (members : list (string * json)).

Fixpoint assoc (k : string) (kv : list (string * json)) : option json :=
  match kv with
  | [] => None
  | (k', v) :: rest => if String.eqb k k' then Some v else assoc k rest
  end.

(** [j.contains(key)] *)
Definition contains (j : json) (key : string) : bool :=
  match j with
  | JObj kv => match assoc key kv with Some _ => true | None => false end
  | _ => false
  end.

(** [j[key]] on a const object that contains [key]. *)
Definition get (j : json) (key : string) : json :=
  match j with
  | JObj kv => match assoc key kv with Some v => v | None => JNull end
  | _ => JNull
  end.

Definition is_array (j : json) : bool :=
  match j with JArr _ => true | _ => false end.

Definition is_string (j : json) : bool :=
  match j with JStr _ => true | _ => false end.

(** [j.empty()] *)
Definition empty (j : json) : bool :=
  match j with
  | JNull => true
  | JArr [] => true
  | JObj [] => true
  | _ => false
  end.

(** [j.size()] *)
Definition size (j : json) : nat :=
  match j with
  | JNull => 0
  | JArr l => List.length l
  | JObj kv => List.length kv
  | _ => 1
  end.

(** The elements a range-[for] visits: the items of an array, the
    values of an object, nothing for null and the value itself for any
    other primitive. *)
Definition items (j : json) : list json :=
  match j with
  | JArr l => l
  | JObj kv => List.map snd kv
  | JNull => []
  | _ => [j]
  end.

(** [j.get<std::string>()] *)
Definition get_string (j : json) : outcome string :=
  match j with
  | JStr s => Ret s
  | _ => Raise (type_error 302)
  end.

Definition to_int32 (z : Z) : Z :=
  ((z + 2147483648) mod 4294967296 - 2147483648)%Z.

(** [j.get<int>()]: every arithmetic value converts, booleans included. *)
Definition get_int (j : json) : outcome Z :=
  match j with
  | JNum z => Ret (to_int32 z)
  | JFloat n d => Ret (to_int32 (Z.quot n (Zpos d)))
  | JBool b => Ret (if b then 1%Z else 0%Z)
  | _ => Raise (type_error 302)
  end.

Definition get_bool (j : json) : outcome bool :=
  match j with
  | JBool b => Ret b
  | _ => Raise (type_error 302)
  end.

(** [j.value(key, default)]: the member converted to the type of the
    default when present, the default when absent, [type_error] 306 on
    a value that is no object. *)
Definition value {A} (conv : json -> outcome A) (j : json) (key : string)
           (default : A) : outcome A :=
  match j with
  | JObj kv =>
      match assoc key kv with
      | Some v => conv v
      | None => Ret default
      end
  | _ => Raise (type_error 306)
  end.

Definition value_string := value get_string.
Definition value_int := value get_int.
Definition value_bool := value get_bool.
Definition value_json := value (fun v : json => Ret v).

Fixpoint set_assoc (k : string) (v : json) (kv : list (string * json))
  : list (string * json) :=
  match kv with
  | [] => [(k, v)]
  | (k', v') :: rest =>
      if String.eqb k k' then (k', v) :: rest else (k', v') :: set_assoc k v rest
  end.

(** [j[key] = v] on a mutable value: null becomes an object. *)
Definition set (j : json) (key : string) (v : json) : outcome json :=
  match j with
  | JNull => Ret (JObj [(key, v)])
  | JObj kv => Ret (JObj (set_assoc key v kv))
  | _ => Raise (type_error 305)
  end.

(** [j.push_back(v)]: null becomes an array. *)
Definition push_back (j : json) (v : json) : outcome json :=
  match j with
  | JNull => Ret (JArr [v])
  | JArr l => Ret (JArr (l ++ [v]))
  | _ => Raise (type_error 308)
  end.

Definition of_strings (l : list string) : json := JArr (List.map JStr l).

End Json.
Export Json.

(* ===================================================================== *)
(** * JSON text: [json::parse] and [json::dump(2)] *)
(* ===================================================================== *)

(** The embedding of the agent takes the parser and the printer of the
    JSON library as parameters.  This module gives one instance of them,
    for integers, strings with the simple escapes, arrays and objects; it
    is what the examples below run on. *)
Module JsonText.

Definition is_ws (c : ascii) : bool :=
  Ascii.eqb c Str.space || Ascii.eqb c Str.nl || Ascii.eqb c Str.cr ||
  Ascii.eqb c (ascii_of_nat 9).

Fixpoint skip_ws (cs : list ascii) : list ascii :=
  match cs with
  | c :: rest => if is_ws c then skip_ws rest else cs
  | [] => []
  end.

Definition unescape (c : ascii) : option ascii :=
  if Ascii.eqb c Str.quote then Some Str.quote
  else if Ascii.eqb c Str.backslash then Some Str.backslash
  else if Ascii.eqb c "/"%char then Some "/"%char
  else if Ascii.eqb c "n"%char then Some Str.nl
  else if Ascii.eqb c "r"%char then Some Str.cr
  else if Ascii.eqb c "t"%char then Some (ascii_of_nat 9)
  else if Ascii.eqb c "b"%char then Some (ascii_of_nat 8)
  else if Ascii.eqb c "f"%char then Some (ascii_of_nat 12)
  else None.

(** The characters of a string literal after its opening quote. *)
Fixpoint string_body (cs : list ascii) (acc : list ascii)
  : option (string * list ascii) :=
  match cs with
  | [] => None
  | c :: rest =>
      if Ascii.eqb c Str.quote then
        Some (string_of_list_ascii (rev acc), rest)
      else if Ascii.eqb c Str.backslash then
        match rest with
        | e :: rest' =>
            match unescape e with
            | Some d => string_body rest' (d :: acc)
            | None => None
            end
        | [] => None
        end
      else if (nat_of_ascii c <? 32)%nat then None
      else string_body rest (c :: acc)
  end.

Definition digit_val (c : ascii) : option Z :=
  if Chr.isdigit c then Some (Z.of_nat (nat_of_ascii c) - 48)%Z else None.

Fixpoint digits (cs : list ascii) (acc : Z) : Z * list ascii :=
  match cs with
  | c :: rest =>
      match digit_val c with
      | Some d => digits rest (10 * acc + d)%Z
      | None => (acc, cs)
      end
  | [] => (acc, [])
  end.

Definition starts_fraction (cs : list ascii) : bool :=
  match cs with
  | c :: _ => Ascii.eqb c "."%char || Ascii.eqb c "e"%char || Ascii.eqb c "E"%char
  | [] => false
  end.

Definition natural (cs : list ascii) : option (Z * list ascii) :=
  match cs with
  | c :: rest =>
      match digit_val c with
      | Some d =>
          let '(z, rest') := digits rest d in
          if starts_fraction rest' then None
          else if Z.eqb d 0 && negb (Nat.eqb (List.length rest') (List.length rest))
               then None
               else Some (z, rest')
      | None => None
      end
  | [] => None
  end.

Definition literal (word : string) (v : json) (cs : list ascii)
  : option (json * list ascii) :=
  let w := list_ascii_of_string word in
  if bool_decide (firstn (List.length w) cs = w)
  then Some (v, skipn (List.length w) cs) else None.

Fixpoint value (fuel : nat) (cs : list ascii) : option (json * list ascii) :=
  match fuel with
  | O => None
  | S f =>
      match skip_ws cs with
      | [] => None
      | c :: rest =>
          if Ascii.eqb c Str.quote then
            match string_body rest [] with
            | Some (s, r) => Some (JStr s, r)
            | None => None
            end
          else if Ascii.eqb c "["%char then
            match skip_ws rest with
            | d :: r => if Ascii.eqb d "]"%char then Some (JArr [], r)
                        else elements f rest []
            | [] => None
            end
          else if Ascii.eqb c "{"%char then
            match skip_ws rest with
            | d :: r => if Ascii.eqb d "}"%char then Some (JObj [], r)
                        else members f rest []
            | [] => None
            end
          else if Ascii.eqb c "-"%char then
            match natural rest with
            | Some (z, r) => Some (JNum (- z), r)
            | None => None
            end
          else if Chr.isdigit c then
            match natural (c :: rest) with
            | Some (z, r) => Some (JNum z, r)
            | None => None
            end
          else if Ascii.eqb c "n"%char then literal "null" JNull (c :: rest)
          else if Ascii.eqb c "t"%char then literal "true" (JBool true) (c :: rest)
          else if Ascii.eqb c "f"%char then literal "false" (JBool false) (c :: rest)
          else None
      end
  end
with elements (fuel : nat) (cs : list ascii) (acc : list json)
  : option (json * list ascii) :=
  match fuel with
  | O => None
  | S f =>
      match value f cs with
      | Some (v, r) =>
          match skip_ws r with
          | d :: r' =>
              if Ascii.eqb d ","%char then elements f r' (v :: acc)
              else if Ascii.eqb d "]"%char then Some (JArr (rev (v :: acc)), r')
              else None
          | [] => None
          end
      | None => None
      end
  end
with members (fuel : nat) (cs : list ascii) (acc : list (string * json))
  : option (json * list ascii) :=
  match fuel with
  | O => None
  | S f =>
      match skip_ws cs with
      | q :: r0 =>
          if Ascii.eqb q Str.quote then
            match string_body r0 [] with
            | Some (k, r1) =>
                match skip_ws r1 with
                | colon :: r2 =>
                    if Ascii.eqb colon ":"%char then
                      match value f r2 with
                      | Some (v, r3) =>
                          let acc' :=
                            if existsb (fun kv => String.eqb (fst kv) k) acc
                            then List.map (fun kv => if String.eqb (fst kv) k
                                                     then (k, v) else kv) acc
                            else (k, v) :: acc in
                          match skip_ws r3 with
                          | d :: r4 =>
                              if Ascii.eqb d ","%char then members f r4 acc'
                              else if Ascii.eqb d "}"%char
                                   then Some (JObj (rev acc'), r4)
                                   else None
                          | [] => None
                          end
                      | None => None
                      end
                    else None
                | [] => None
                end
            | None => None
            end
          else None
      | [] => None
      end
  end.

(** [json::parse(text)]; [None] is a [parse_error]. *)
Definition parse (text : string) : option json :=
  let cs := list_ascii_of_string text in
  match value (2 * List.length cs + 2) cs with
  | Some (j, rest) => match skip_ws rest with [] => Some j | _ => None end
  | None => None
  end.

(** [stream >> j]: one value is read; what follows it stays in the
    stream. *)
Definition read_value (text : string) : option json :=
  let cs := list_ascii_of_string text in
  match value (2 * List.length cs + 2) cs with
  | Some (j, _) => Some j
  | None => None
  end.

Definition hex_digit (n : nat) : ascii :=
  if (n <? 10)%nat then ascii_of_nat (48 + n) else ascii_of_nat (87 + n).

Definition escape_char (c : ascii) : string :=
  if Ascii.eqb c Str.quote then String Str.backslash (String Str.quote "")
  else if Ascii.eqb c Str.backslash then String Str.backslash (String Str.backslash "")
  else if Ascii.eqb c Str.nl then String Str.backslash "n"
  else if Ascii.eqb c Str.cr then String Str.backslash "r"
  else if Ascii.eqb c (ascii_of_nat 9) then String Str.backslash "t"
  else if Ascii.eqb c (ascii_of_nat 8) then String Str.backslash "b"
  else if Ascii.eqb c (ascii_of_nat 12) then String Str.backslash "f"
  else if (nat_of_ascii c <? 32)%nat then
    String Str.backslash
      ("u00" +:+ String (hex_digit (nat_of_ascii c / 16))
                  (String (hex_digit (nat_of_ascii c mod 16)) ""))
  else String c "".

Fixpoint escape (s : string) : string :=
  match s with
  | EmptyString => EmptyString
  | String c s' => escape_char c +:+ escape s'
  end.

Definition quoted (s : string) : string :=
  String Str.quote (escape s +:+ String Str.quote "").

Fixpoint spaces (n : nat) : string :=
  match n with O => "" | S n' => String Str.space (spaces n') end.

Fixpoint join_lines (sep : string) (l : list string) : string :=
  match l with
  | [] => ""
  | [x] => x
  | x :: rest => x +:+ sep +:+ join_lines sep rest
  end.

(** [j.dump(2)] at the indentation [ind]. *)
Fixpoint dump_at (ind : nat) (j : json) : string :=
  match j with
  | JNull => "null"
  | JBool true => "true"
  | JBool false => "false"
  | JNum z => pretty z
  | JFloat n d => pretty (Z.quot n (Zpos d)) +:+ ".0"
  | JStr s => quoted s
  | JArr [] => "[]"
  | JArr l =>
      "[" +:+ Str.newline +:+
      join_lines ("," +:+ Str.newline)
        (List.map (fun v => spaces (ind + 2) +:+ dump_at (ind + 2) v) l) +:+
      Str.newline +:+ spaces ind +:+ "]"
  | JObj [] => "{}"
  | JObj kv =>
      "{" +:+ Str.newline +:+
      join_lines ("," +:+ Str.newline)
        (List.map (fun p => spaces (ind + 2) +:+ quoted (fst p) +:+ ": " +:+
                            dump_at (ind + 2) (snd p)) kv) +:+
      Str.newline +:+ spaces ind +:+ "}"
  end.

Definition dump (j : json) : string := dump_at 0 j.

End JsonText.

(* ===================================================================== *)
(** * The file system *)
(* ===================================================================== *)

Module Fs.

(** Regular files with their contents, and directories. *)
Record t : Type := mk {
  files : gmap string string;
  dirs : gset string
}.

Definition empty_fs : t := {| files := ∅; dirs := ∅ |}.

(** The environment decides which operations fail: opening a stream
    for writing or for reading, writing through an open stream,
    renaming, creating a directory.  A write that fails fails either
    when the data are put into the stream, or later, when the stream
    is flushed at its close: [fails_late p] tells which, and [kept p]
    how many characters had reached the file when the flush failed. *)
Record faults : Type := mk_faults {
  open_fails : string -> bool;
  write_fails : string -> bool;
  read_fails : string -> bool;
  rename_fails : string -> bool;
  mkdir_fails : string -> bool;
  fails_late : string -> bool;
  kept : string -> nat
}.

Definition no_faults : faults :=
  {| open_fails := fun _ => false; write_fails := fun _ => false;
     read_fails := fun _ => false; rename_fails := fun _ => false;
     mkdir_fails := fun _ => false; fails_late := fun _ => false;
     kept := fun _ => 0%nat |}.

Definition with_files (f : gmap string string -> gmap string string) (fs : t) : t :=
  {| files := f (files fs); dirs := dirs fs |}.

(** [fs::exists(p)] *)
Definition exists_ (fs : t) (p : string) : bool :=
  bool_decide (is_Some (files fs !! p)) || bool_decide (p ∈ dirs fs).

(** [fs::create_directories(p)]; [None] when it fails. *)
Definition create_directories (F : faults) (fs : t) (p : string) : option t :=
  if mkdir_fails F p then None
  else Some {| files := files fs; dirs := {[p]} ∪ dirs fs |}.

(** [std::ofstream f(p)]: the file is created or truncated. *)
Definition open_out (F : faults) (fs : t) (p : string) : option t :=
  if open_fails F p then None else Some (with_files (<[p := ""]>) fs).

(** [f << data] on a stream that was just opened on [p], tested
    after its close: a failed write is seen whenever it happens; it
    leaves the file as the open left it. *)
Definition write_out (F : faults) (fs : t) (p data : string) : bool * t :=
  if write_fails F p then (false, fs)
  else (true, with_files (<[p := data]>) fs).

(** [f << data] on a stream that was just opened on [p], tested
    before the stream is flushed or closed: the test sees a write
    that fails at once, and does not see one that fails at the flush,
    which leaves in the file the characters that were kept. *)
Definition write_unflushed (F : faults) (fs : t) (p data : string) : bool * t :=
  if write_fails F p then
    if fails_late F p
    then (true, with_files (<[p := Str.substr data 0 (kept F p)]>) fs)
    else (false, fs)
  else (true, with_files (<[p := data]>) fs).

(** [std::ifstream f(p)] and the reading of the whole file. *)
Definition read_in (F : faults) (fs : t) (p : string) : option string :=
  if read_fails F p then None else files fs !! p.

(** [fs::rename(from, to)]; [None] when it fails. *)
Definition rename (F : faults) (fs : t) (from to : string) : option t :=
  if rename_fails F from then None
  else match files fs !! from with
       | Some c => Some (with_files (fun m => <[to := c]> (delete from m)) fs)
       | None => None
       end.

(** [fs::remove(p)] *)
Definition remove (fs : t) (p : string) : t := with_files (delete p) fs.

(** The characters before the last [/] of [p]. *)
Fixpoint parent_chars (cs : list ascii) : list ascii :=
  match cs with
  | [] => []
  | c :: rest =>
      if existsb (Ascii.eqb "/"%char) rest then c :: parent_chars rest else []
  end.

(** [fs::path(p).parent_path()] *)
Definition parent_path (p : string) : string :=
  string_of_list_ascii (parent_chars (list_ascii_of_string p)).

(** The three stream operations of an atomic write to [p] succeed. *)
Definition writable (F : Fs.faults) (p : string) : Prop :=
  Fs.open_fails F (p +:+ ".tmp") = false /\
  Fs.write_fails F (p +:+ ".tmp") = false /\
  Fs.rename_fails F (p +:+ ".tmp") = false.

End Fs.

(* ===================================================================== *)
(** * The planning state machine (plan-state.h, plan-state.cpp) *)
(* ===================================================================== *)

Module Planning.

Inductive planning_state : Type :=
| IDLE
| EXPLORING
| SYNTHESIZING
| QUESTIONING
| AWAITING_ANSWERS
| REFINING
| AWAITING_APPROVAL
| APPROVED
| ABORTED.

#[export] Instance planning_state_eq_dec : EqDecision planning_state.
Proof. solve_decision. Defined.

Definition state_to_string (s : planning_state) : string :=
  match s with
  | IDLE => "idle"
  | EXPLORING => "exploring"
  | SYNTHESIZING => "synthesizing"
  | QUESTIONING => "questioning"
  | AWAITING_ANSWERS => "awaiting_answers"
  | REFINING => "refining"
  | AWAITING_APPROVAL => "awaiting_approval"
  | APPROVED => "approved"
  | ABORTED => "aborted"
  end.

Definition string_to_state (s : string) : planning_state :=
  if String.eqb s "idle" then IDLE
  else if String.eqb s "exploring" then EXPLORING
  else if String.eqb s "synthesizing" then SYNTHESIZING
  else if String.eqb s "questioning" then QUESTIONING
  else if String.eqb s "awaiting_answers" then AWAITING_ANSWERS
  else if String.eqb s "refining" then REFINING
  else if String.eqb s "awaiting_approval" then AWAITING_APPROVAL
  else if String.eqb s "approved" then APPROVED
  else if String.eqb s "aborted" then ABORTED
  else IDLE.

Record planning_session : Type := mk_session {
  state : planning_state;
  context_id : string;
  task : string;
  exploration_findings : string;
  plan_content : string;
  questions : json;
  answers : json;
  iteration : Z;
  plan_path : string;
  created_at : string;
  updated_at : string
}.

(** [planning_session{}] *)
Definition fresh_session : planning_session :=
  {| state := IDLE; context_id := ""; task := ""; exploration_findings := "";
     plan_content := ""; questions := JNull; answers := JNull; iteration := 0;
     plan_path := ""; created_at := ""; updated_at := "" |}.

Definition set_state (st : planning_state) (s : planning_session) :=
  mk_session st (context_id s) (task s) (exploration_findings s) (plan_content s)
             (questions s) (answers s) (iteration s) (plan_path s)
             (created_at s) (updated_at s).

Definition set_context_id (id : string) (s : planning_session) :=
  mk_session (state s) id (task s) (exploration_findings s) (plan_content s)
             (questions s) (answers s) (iteration s) (plan_path s)
             (created_at s) (updated_at s).

Definition set_updated_at (ts : string) (s : planning_session) :=
  mk_session (state s) (context_id s) (task s) (exploration_findings s)
             (plan_content s) (questions s) (answers s) (iteration s)
             (plan_path s) (created_at s) ts.

Definition set_plan_path (p : string) (s : planning_session) :=
  mk_session (state s) (context_id s) (task s) (exploration_findings s)
             (plan_content s) (questions s) (answers s) (iteration s)
             p (created_at s) (updated_at s).

Definition to_json (s : planning_session) : json :=
  JObj [("state", JStr (state_to_string (state s)));
        ("context_id", JStr (context_id s));
        ("task", JStr (task s));
        ("exploration_findings", JStr (exploration_findings s));
        ("plan_content", JStr (plan_content s));
        ("questions", questions s);
        ("answers", answers s);
        ("iteration", JNum (iteration s));
        ("plan_path", JStr (plan_path s));
        ("created_at", JStr (created_at s));
        ("updated_at", JStr (updated_at s))].

Definition from_json (j : json) : outcome planning_session :=
  st ← Json.value_string j "state" "idle";
  cid ← Json.value_string j "context_id" "";
  tk ← Json.value_string j "task" "";
  ef ← Json.value_string j "exploration_findings" "";
  pc ← Json.value_string j "plan_content" "";
  qs ← Json.value_json j "questions" (JArr []);
  ans ← Json.value_json j "answers" (JArr []);
  it ← Json.value_int j "iteration" 0%Z;
  pp ← Json.value_string j "plan_path" "";
  ca ← Json.value_string j "created_at" "";
  ua ← Json.value_string j "updated_at" "";
  Ret (mk_session (string_to_state st) cid tk ef pc qs ans it pp ca ua).

(** [context_manager::context_path] *)
Definition context_path (base id : string) : string :=
  base +:+ "/contexts/" +:+ id.

(** The machine: its session and the base path of the context manager
    it refers to. *)
Record machine : Type := mk_machine {
  session_ : planning_session;
  base_path : string
}.

(** The constructor. *)
Definition new_machine (base : string) : machine :=
  {| session_ := fresh_session; base_path := base |}.

Definition with_session (f : planning_session -> planning_session) (m : machine) :=
  {| session_ := f (session_ m); base_path := base_path m |}.

Definition current_state (m : machine) : planning_state := state (session_ m).

Definition get_plan_path (m : machine) : string :=
  context_path (base_path m) (context_id (session_ m)) +:+ "/plan.md".

Definition get_state_path (m : machine) : string :=
  context_path (base_path m) (context_id (session_ m)) +:+ "/plan_state.json".

Definition validate_transition (from to : planning_state) : bool :=
  match from with
  | IDLE => bool_decide (to = EXPLORING)
  | EXPLORING => bool_decide (to = SYNTHESIZING) || bool_decide (to = ABORTED)
  | SYNTHESIZING =>
      bool_decide (to = QUESTIONING) || bool_decide (to = AWAITING_APPROVAL) ||
      bool_decide (to = ABORTED)
  | QUESTIONING => bool_decide (to = AWAITING_ANSWERS) || bool_decide (to = ABORTED)
  | AWAITING_ANSWERS => bool_decide (to = REFINING) || bool_decide (to = ABORTED)
  | REFINING =>
      bool_decide (to = QUESTIONING) || bool_decide (to = AWAITING_APPROVAL) ||
      bool_decide (to = ABORTED)
  | AWAITING_APPROVAL =>
      bool_decide (to = APPROVED) || bool_decide (to = REFINING) ||
      bool_decide (to = ABORTED)
  | APPROVED | ABORTED => bool_decide (to = IDLE)
  end.

Definition is_active (m : machine) : bool :=
  negb (bool_decide (current_state m = IDLE)) &&
  negb (bool_decide (current_state m = APPROVED)) &&
  negb (bool_decide (current_state m = ABORTED)).

Definition is_interactive (m : machine) : bool :=
  bool_decide (current_state m = AWAITING_ANSWERS) ||
  bool_decide (current_state m = AWAITING_APPROVAL).

(** The transition table of the specification (section 4.8). *)
Definition transition_table : list (planning_state * planning_state) :=
  [ (IDLE, EXPLORING);
    (EXPLORING, SYNTHESIZING); (EXPLORING, ABORTED);
    (SYNTHESIZING, QUESTIONING); (SYNTHESIZING, AWAITING_APPROVAL);
    (SYNTHESIZING, ABORTED);
    (QUESTIONING, AWAITING_ANSWERS); (QUESTIONING, ABORTED);
    (AWAITING_ANSWERS, REFINING); (AWAITING_ANSWERS, ABORTED);
    (REFINING, QUESTIONING); (REFINING, AWAITING_APPROVAL); (REFINING, ABORTED);
    (AWAITING_APPROVAL, APPROVED); (AWAITING_APPROVAL, REFINING);
    (AWAITING_APPROVAL, ABORTED);
    (APPROVED, IDLE); (ABORTED, IDLE) ].

Definition all_states : list planning_state :=
  [IDLE; EXPLORING; SYNTHESIZING; QUESTIONING; AWAITING_ANSWERS; REFINING;
   AWAITING_APPROVAL; APPROVED; ABORTED].

(** The nine recognised state strings. *)
Definition state_strings : list string := List.map state_to_string all_states.

(** The [state] member of a persisted session, when there is one. *)
Definition state_field (j : json) : option json :=
  match j with
  | JObj kv => Json.assoc "state" kv
  | _ => None
  end.

Section WithEnvironment.

(** [json::parse], [json::dump(2)] and the faults of the file system. *)
Variable parse : string -> option json.
Variable dump : json -> string.
Variable F : Fs.faults.

(** [planning_state_machine::save]; the stream is closed before it is
    tested, so that a write that fails is seen whenever it fails.  The
    texts of a session are taken to be valid UTF-8, on which [dump]
    returns. *)
Definition save (m : machine) (fs : Fs.t) : outcome bool * Fs.t :=
  let path := get_state_path m in
  let parent := Fs.parent_path path in
  let made :=
    if Fs.exists_ fs parent then Some fs
    else Fs.create_directories F fs parent in
  match made with
  | None => (Raise filesystem_error, fs)
  | Some fs1 =>
      let temp_path := path +:+ ".tmp" in
      match Fs.open_out F fs1 temp_path with
      | None => (Ret false, fs1)
      | Some fs2 =>
          let '(ok, fs3) :=
            Fs.write_out F fs2 temp_path (dump (to_json (session_ m))) in
          if negb ok then (Ret false, Fs.remove fs3 temp_path)
          else match Fs.rename F fs3 temp_path path with
               | None => (Raise filesystem_error, fs3)
               | Some fs4 => (Ret true, fs4)
               end
      end
  end.

(** [planning_state_machine::start]; [now] is [get_timestamp()]. *)
Definition start (now : string) (task_ ctx : string) (m : machine) (fs : Fs.t)
  : outcome bool * machine * Fs.t :=
  if negb (bool_decide (current_state m = IDLE)) then (Ret false, m, fs)
  else
    let s0 := mk_session EXPLORING ctx task_ "" "" JNull JNull 0 "" now now in
    let m0 := {| session_ := s0; base_path := base_path m |} in
    let m1 := with_session (set_plan_path (get_plan_path m0)) m0 in
    let '(r, fs') := save m1 fs in (r, m1, fs').

(** [planning_state_machine::abort] *)
Definition abort (now : string) (m : machine) (fs : Fs.t)
  : outcome bool * machine * Fs.t :=
  let m1 := with_session (fun s => set_updated_at now (set_state ABORTED s)) m in
  let '(r, fs') := save m1 fs in (r, m1, fs').

(** [planning_state_machine::complete] *)
Definition complete (now : string) (m : machine) (fs : Fs.t)
  : outcome bool * machine * Fs.t :=
  let m1 := with_session (fun s => set_updated_at now (set_state APPROVED s)) m in
  let '(r, fs') := save m1 fs in (r, m1, fs').

(** [planning_state_machine::transition_to] *)
Definition transition_to (now : string) (new_state : planning_state)
           (m : machine) (fs : Fs.t) : outcome bool * machine * Fs.t :=
  if negb (validate_transition (current_state m) new_state) then (Ret false, m, fs)
  else
    let m1 := with_session (fun s => set_updated_at now (set_state new_state s)) m in
    let '(r, fs') := save m1 fs in (r, m1, fs').

(** [planning_state_machine::has_saved_session] *)
Definition has_saved_session (m : machine) (fs : Fs.t) (ctx : string) : bool :=
  Fs.exists_ fs (context_path (base_path m) ctx +:+ "/plan_state.json").

(** [planning_state_machine::load] *)
Definition load (ctx : string) (m : machine) (fs : Fs.t) : bool * machine :=
  let m1 := with_session (set_context_id ctx) m in
  let path := get_state_path m1 in
  if negb (Fs.exists_ fs path) then
    (false, with_session (fun _ => set_context_id ctx fresh_session) m1)
  else
    match Fs.read_in F fs path with
    | None => (false, m1)
    | Some text =>
        match parse text with
        | None => (false, m1)
        | Some j =>
            match from_json j with
            | Ret s => (true, with_session (fun _ => set_context_id ctx s) m1)
            | Raise _ => (false, m1)
            end
        end
    end.

(** The test of [handle_plan_impl] that decides whether the saved
    session is offered for resumption. *)
Definition offers_resume (ctx : string) (m : machine) (fs : Fs.t) : bool :=
  if has_saved_session m fs ctx then
    let '(ok, m') := load ctx m fs in
    if ok then is_active m' else false
  else false.

End WithEnvironment.

(** A machine whose session was approved. *)
Definition approved_machine : machine :=
  {| session_ := set_context_id "c1" (set_state APPROVED fresh_session);
     base_path := "/data" |}.

(** The [state] member is missing, or is not one of the nine strings. *)
Definition unrecognized_state (j : json) : Prop :=
  forall st, state_field j = Some (JStr st) -> ~ In st state_strings.

(** A persisted session whose state is no state of the machine. *)
Definition bogus_state_fs : Fs.t :=
  {| Fs.files :=
       {[ "/data/contexts/c1/plan_state.json" :=
            Str.dq "{'state': 'paused', 'task': 'refactor foo', 'iteration': 2}" ]};
     Fs.dirs := ∅ |}.

End Planning.

(* ===================================================================== *)
(** * UTF-8 and [dump] *)
(* ===================================================================== *)

Module Utf8.

(** What the decoder waits for: a first byte, or [more] continuation
    bytes of which the next lies between [lo] and [hi]. *)
Fixpoint well_formed (more : nat) (lo hi : N) (bytes : list N) : bool :=
  match bytes with
  | [] => match more with O => true | S _ => false end
  | b :: rest =>
      match more with
      | O =>
          if (b <=? 127)%N then well_formed 0 128 191 rest
          else if (194 <=? b)%N && (b <=? 223)%N then well_formed 1 128 191 rest
          else if (b =? 224)%N then well_formed 2 160 191 rest
          else if ((225 <=? b)%N && (b <=? 236)%N) ||
                  ((238 <=? b)%N && (b <=? 239)%N)
               then well_formed 2 128 191 rest
          else if (b =? 237)%N then well_formed 2 128 159 rest
          else if (b =? 240)%N then well_formed 3 144 191 rest
          else if (241 <=? b)%N && (b <=? 243)%N then well_formed 3 128 191 rest
          else if (b =? 244)%N then well_formed 3 128 143 rest
          else false
      | S more' =>
          if (lo <=? b)%N && (b <=? hi)%N then well_formed more' 128 191 rest
          else false
      end
  end.

(** The strings that the serializer of [dump] accepts: well-formed
    UTF-8 (its decoder is the automaton of the Unicode standard's
    table of well-formed byte sequences). *)
Definition valid (s : string) : bool :=
  well_formed 0 128 191 (List.map N_of_ascii (list_ascii_of_string s)).

(** [j.dump(2)] returns: every string and every key of [j] is valid
    UTF-8.  On any other value it throws [type_error] 316. *)
Fixpoint dumps (j : json) : bool :=
  match j with
  | JStr s => valid s
  | JArr items => forallb dumps items
  | JObj members => forallb (fun kv => valid (fst kv) && dumps (snd kv)) members
  | _ => true
  end.

End Utf8.

(* ===================================================================== *)
(** * The context store (context-manager.h, context-manager.cpp) *)
(* ===================================================================== *)

Module Context.

Record conversation_state : Type := mk_state {
  id : string;
  created_at : string;
  updated_at : string;
  messages : json;
  metadata : json
}.

Record compact_entry : Type := mk_entry {
  timestamp : string;
  user_messages : list string;
  files_modified : list string;
  commands_run : list string;
  plan_ref : string;
  summary : string;
  key_decisions : json;
  current_state : string;
  pending_tasks : list string
}.

Definition set_timestamp (ts : string) (e : compact_entry) : compact_entry :=
  mk_entry ts (user_messages e) (files_modified e) (commands_run e) (plan_ref e)
           (summary e) (key_decisions e) (current_state e) (pending_tasks e).

(** [conversation_state::to_json] *)
Definition to_json (st : conversation_state) : json :=
  JObj ([("id", JStr (id st)); ("created_at", JStr (created_at st));
         ("updated_at", JStr (updated_at st)); ("messages", messages st)]
        ++ (if Json.empty (metadata st) then [] else [("metadata", metadata st)])).

(** [conversation_state::from_json] *)
Definition from_json (j : json) : outcome conversation_state :=
  i ← Json.value_string j "id" "";
  ca ← Json.value_string j "created_at" "";
  ua ← Json.value_string j "updated_at" "";
  ms ← Json.value_json j "messages" (JArr []);
  md ← Json.value_json j "metadata" (JObj []);
  Ret (mk_state i ca ua ms md).

(** [compact_entry::to_json] *)
Definition entry_to_json (e : compact_entry) : json :=
  JObj ([("timestamp", JStr (timestamp e));
         ("user_messages", Json.of_strings (user_messages e));
         ("files_modified", Json.of_strings (files_modified e));
         ("commands_run", Json.of_strings (commands_run e))]
        ++ (if Str.empty (plan_ref e) then [] else [("plan_ref", JStr (plan_ref e))])
        ++ [("summary", JStr (summary e)); ("key_decisions", key_decisions e)]
        ++ (if Str.empty (current_state e) then []
            else [("current_state", JStr (current_state e))])
        ++ (match pending_tasks e with
            | [] => []
            | _ => [("pending_tasks", Json.of_strings (pending_tasks e))]
            end)).

Definition context_path (base id : string) : string :=
  base +:+ "/contexts/" +:+ id.

(** [for (x : items) ss << "- " << x << "\n"] *)
Fixpoint bullet_list (l : list string) : string :=
  match l with
  | [] => ""
  | x :: rest => "- " +:+ x +:+ Str.newline +:+ bullet_list rest
  end.

(** The body of the synthetic system message of [compact_context];
    [has_plan] is [!compact.plan_ref.empty() || fs::exists(plan.md)]. *)
Definition restoration_message (compact : compact_entry) (has_plan : bool) : string :=
  "# Previous Context Summary" +:+ Str.newline +:+ Str.newline +:+
  summary compact +:+ Str.newline +:+
  (if Str.empty (current_state compact) then ""
   else Str.newline +:+ "## Current State" +:+ Str.newline +:+
        current_state compact +:+ Str.newline) +:+
  (match pending_tasks compact with
   | [] => ""
   | _ => Str.newline +:+ "## Pending Tasks" +:+ Str.newline +:+
          bullet_list (pending_tasks compact)
   end) +:+
  (match files_modified compact with
   | [] => ""
   | _ => Str.newline +:+ "## Files Modified" +:+ Str.newline +:+
          bullet_list (files_modified compact)
   end) +:+
  (if has_plan then
     Str.newline +:+ "## Active Plan" +:+ Str.newline +:+
     "plan.md exists - use read_plan tool to review if needed" +:+ Str.newline
   else "").

(** The record appended to [metadata.archives]. *)
Definition archive_record (ts : string) (message_count : nat) : json :=
  JObj [("timestamp", JStr ts);
        ("message_count", JNum (Json.to_int32 (Z.of_nat message_count)));
        ("compact_ref", JStr ("compact_" +:+ ts +:+ ".json"))].

Definition system_message (body : string) : json :=
  JObj [("role", JStr "system"); ("content", JStr body)].

Section WithEnvironment.

(** [json::parse] is not used by the store: it reads with
    [stream >> j] and writes with [dump(2)]. *)
Variable read_value : string -> option json.
Variable dump : json -> string.
Variable F : Fs.faults.
(** The base path of the manager. *)
Variable base_path : string.

(** [context_manager::ensure_directory] *)
Definition ensure_directory (fs : Fs.t) (path : string) : bool * Fs.t :=
  match Fs.create_directories F fs path with
  | Some fs' => (true, fs')
  | None => (false, fs)
  end.

(** [context_manager::read_json] *)
Definition read_json (fs : Fs.t) (path : string) : option json :=
  match Fs.read_in F fs path with
  | None => None
  | Some text =>
      match read_value text with
      | Some j => Some j
      | None => None
      end
  end.

(** [context_manager::write_json]: [data.dump(2)] throws on a string
    that is not UTF-8, the temporary file being open; the stream is
    tested before it is closed. *)
Definition write_json (fs : Fs.t) (path : string) (data : json)
  : outcome bool * Fs.t :=
  let temp_path := path +:+ ".tmp" in
  match Fs.open_out F fs temp_path with
  | None => (Ret false, fs)
  | Some fs1 =>
      if negb (Utf8.dumps data) then (Raise (type_error 316), fs1)
      else
        let '(ok, fs2) := Fs.write_unflushed F fs1 temp_path (dump data) in
        if negb ok then (Ret false, fs2)
        else match Fs.rename F fs2 temp_path path with
             | Some fs3 => (Ret true, fs3)
             | None => (Ret false, Fs.remove fs2 temp_path)
             end
  end.

(** [context_manager::load_context] *)
Definition load_context (fs : Fs.t) (ctx : string)
  : outcome (option conversation_state) :=
  let path := context_path base_path ctx +:+ "/conversation.json" in
  match read_json fs path with
  | None => Ret None
  | Some j => st ← from_json j; Ret (Some st)
  end.

(** [context_manager::save_context] *)
Definition save_context (fs : Fs.t) (st : conversation_state)
  : outcome bool * Fs.t :=
  let path := context_path base_path (id st) in
  let '(ok, fs1) := ensure_directory fs path in
  if negb ok then (Ret false, fs1)
  else write_json fs1 (path +:+ "/conversation.json") (to_json st).

(** The update of the metadata in [compact_context]. *)
Definition add_archive (md : json) (record : json) : outcome json :=
  md1 ← (if Json.contains md "archives" then Ret md
         else Json.set md "archives" (JArr []));
  archives ← Json.push_back (Json.get md1 "archives") record;
  Json.set md1 "archives" archives.

(** [context_manager::compact_context]; [ts] is [timestamp_now()] and
    [now] is [iso8601_now()]. *)
Definition compact_context (ts now : string) (fs : Fs.t) (ctx : string)
           (entry : compact_entry) : outcome bool * Fs.t :=
  match load_context fs ctx with
  | Raise e => (Raise e, fs)
  | Ret None => (Ret false, fs)
  | Ret (Some st) =>
      let ctx_path := context_path base_path ctx in
      let archive_path := ctx_path +:+ "/conversation_" +:+ ts +:+ ".json" in
      match write_json fs archive_path (messages st) with
      | (Raise e, fs1) => (Raise e, fs1)
      | (Ret false, fs1) => (Ret false, fs1)
      | (Ret true, fs1) =>
        let compact := set_timestamp ts entry in
        let compact_path := ctx_path +:+ "/compact_" +:+ ts +:+ ".json" in
        match write_json fs1 compact_path (entry_to_json compact) with
        | (Raise e, fs2) => (Raise e, fs2)
        | (Ret false, fs2) => (Ret false, fs2)
        | (Ret true, fs2) =>
          match add_archive (metadata st)
                            (archive_record ts (Json.size (messages st))) with
          | Raise e => (Raise e, fs2)
          | Ret md1 =>
              let has_plan :=
                negb (Str.empty (plan_ref compact)) ||
                Fs.exists_ fs2 (ctx_path +:+ "/plan.md") in
              match (if has_plan then Json.set md1 "plan_ref" (JStr "plan.md")
                     else Ret md1) with
              | Raise e => (Raise e, fs2)
              | Ret md2 =>
                  let st' :=
                    mk_state (id st) (created_at st) now
                             (JArr [system_message
                                      (restoration_message compact has_plan)])
                             md2 in
                  save_context fs2 st'
              end
          end
        end
      end
  end.

(** [context_manager::save_plan_md] *)
Definition save_plan_md (now : string) (fs : Fs.t) (ctx content : string)
  : outcome bool * Fs.t :=
  let path := context_path base_path ctx in
  let '(ok, fs1) := ensure_directory fs path in
  if negb ok then (Ret false, fs1)
  else
    let plan_path := path +:+ "/plan.md" in
    match Fs.open_out F fs1 plan_path with
    | None => (Ret false, fs1)
    | Some fs2 =>
        let '(ok2, fs3) := Fs.write_unflushed F fs2 plan_path content in
        if negb ok2 then (Ret false, fs3)
        else
          match load_context fs3 ctx with
          | Raise e => (Raise e, fs3)
          | Ret None => (Ret true, fs3)
          | Ret (Some st) =>
              match Json.set (metadata st) "plan_ref" (JStr "plan.md") with
              | Raise e => (Raise e, fs3)
              | Ret md =>
                  let st' := mk_state (id st) (created_at st) now (messages st) md in
                  match save_context fs3 st' with
                  | (Raise e, fs4) => (Raise e, fs4)
                  | (Ret _, fs4) => (Ret true, fs4)
                  end
              end
          end
    end.

End WithEnvironment.

(** Metadata as the store writes it: an object whose [archives] member,
    when it has one, is an array. *)
Definition wf_metadata (md : json) : Prop :=
  exists kv, md = JObj kv /\
    (Json.assoc "archives" kv = None \/
     exists l, Json.assoc "archives" kv = Some (JArr l)).

(** The records of [metadata.archives]. *)
Definition archives_of (md : json) : list json :=
  match Json.get md "archives" with
  | JArr l => l
  | _ => []
  end.

(** A conversation, the files that hold it and a compact entry for it. *)
Definition example_state : conversation_state :=
  mk_state "c1" "2026-01-01T10:00:00.000Z" "2026-01-01T10:05:00.000Z"
           (JArr [JObj [("role", JStr "system"); ("content", JStr "You are an agent.")];
                  JObj [("role", JStr "user"); ("content", JStr "write /a and /b")];
                  JObj [("role", JStr "assistant"); ("content", JStr "done")]])
           (JObj []).

Definition example_fs : Fs.t :=
  {| Fs.files := {[ "/data/contexts/c1/conversation.json" :=
                      JsonText.dump (to_json example_state) ]};
     Fs.dirs := {[ "/data/contexts/c1" ]} |}.

Definition example_entry : compact_entry :=
  mk_entry "" ["write /a and /b"] ["/a"; "/b"] ["ls"] "" "done" JNull
           "both files written" ["run the tests"].

(** A conversation file that is no JSON text. *)
Definition broken_fs : Fs.t :=
  {| Fs.files := {[ "/data/contexts/c1/conversation.json" := "{ not json" ]};
     Fs.dirs := {[ "/data/contexts/c1" ]} |}.

End Context.

(* ===================================================================== *)
(** * Plan markdown (plan-format.h, plan-format.cpp) *)
(* ===================================================================== *)

Module PlanFormat.

Record plan_data : Type := mk_plan_data {
  task_summary : string;
  created_at : string;
  version : Z;
  status : string;
  executive_summary : string;
  design_decisions : list (string * string);
  plan_body : string
}.

(** The header and the metadata block. *)
Definition header (d : plan_data) : string :=
  "# Implementation Plan: " +:+ task_summary d +:+ Str.newline +:+ Str.newline +:+
  "## Metadata" +:+ Str.newline +:+
  "- Created: " +:+ created_at d +:+ Str.newline +:+
  "- Version: " +:+ pretty (version d) +:+ Str.newline +:+
  "- Status: " +:+ status d +:+ Str.newline +:+ Str.newline.

Fixpoint decision_lines (l : list (string * string)) : string :=
  match l with
  | [] => ""
  | (question, answer) :: rest =>
      "- **" +:+ question +:+ "**: " +:+ answer +:+ Str.newline +:+
      decision_lines rest
  end.

Definition decisions_section (d : plan_data) : string :=
  match design_decisions d with
  | [] => ""
  | l => "## Design Decisions" +:+ Str.newline +:+ Str.newline +:+
         "Based on the following user preferences:" +:+ Str.newline +:+ Str.newline +:+
         decision_lines l +:+ Str.newline
  end.

Definition body_section (d : plan_data) : string :=
  if Str.empty (plan_body d) then ""
  else plan_body d +:+
       (if bool_decide (Str.back (plan_body d) = Some Str.nl) then ""
        else Str.newline).

(** [plan_formatter::generate] *)
Definition generate (d : plan_data) : string :=
  header d +:+
  (if Str.empty (executive_summary d) then ""
   else "## Executive Summary" +:+ Str.newline +:+ Str.newline +:+
        executive_summary d +:+ Str.newline +:+ Str.newline) +:+
  decisions_section d +:+
  body_section d.

End PlanFormat.

(* ===================================================================== *)
(** * The approval step of the [/plan] command *)
(* ===================================================================== *)

Module PlanCommand.
Import Planning.

Section WithEnvironment.
Variable dump : json -> string.
Variable F : Fs.faults.

(** [save_plan_file] *)
Definition save_plan_file (fs : Fs.t) (plan_path content : string)
  : outcome bool * Fs.t :=
  let parent := Fs.parent_path plan_path in
  let made :=
    if Fs.exists_ fs parent then Some fs
    else Fs.create_directories F fs parent in
  match made with
  | None => (Raise filesystem_error, fs)
  | Some fs1 =>
      match Fs.open_out F fs1 plan_path with
      | None => (Ret false, fs1)
      | Some fs2 =>
          let '(ok, fs3) := Fs.write_unflushed F fs2 plan_path content in
          (Ret ok, fs3)
      end
  end.

(** The plan data built on approval: no executive summary and no
    design decisions are put in. *)
Definition approved_plan_data (m : machine) (plan_content : string)
  : PlanFormat.plan_data :=
  {| PlanFormat.task_summary := task (session_ m);
     PlanFormat.created_at := created_at (session_ m);
     PlanFormat.version := (iteration (session_ m) + 1)%Z;
     PlanFormat.status := "approved";
     PlanFormat.executive_summary := "";
     PlanFormat.design_decisions := [];
     PlanFormat.plan_body := plan_content |}.

(** The branch of [run_planning_workflow] taken when
    [prompt_approval] answers yes.  The result says whether the plan
    file was saved. *)
Definition approve (now : string) (plan_content : string)
           (m : machine) (fs : Fs.t) : outcome bool * machine * Fs.t :=
  let '(r1, m1, fs1) := transition_to dump F now APPROVED m fs in
  match r1 with
  | Raise e => (Raise e, m1, fs1)
  | Ret _ =>
      let final_plan := PlanFormat.generate (approved_plan_data m1 plan_content) in
      let plan_path := get_plan_path m1 in
      let '(r2, fs2) := save_plan_file fs1 plan_path final_plan in
      match r2 with
      | Raise e => (Raise e, m1, fs2)
      | Ret false => (Ret false, m1, fs2)
      | Ret true =>
          let m2 := with_session (set_plan_path plan_path) m1 in
          let '(r3, fs3) := save dump F m2 fs2 in
          match r3 with
          | Raise e => (Raise e, m2, fs3)
          | Ret _ => (Ret true, m2, fs3)
          end
      end
  end.

(** The approval of [resume_planning_session]. *)
Definition approve_on_resume (now : string) (m : machine) (fs : Fs.t)
  : outcome bool * machine * Fs.t :=
  transition_to dump F now APPROVED m fs.

End WithEnvironment.

(** The final plan of the specification: header, metadata, the
    design-decisions section built from the answers, and the body. *)
Definition spec_final_plan (m : machine) (decisions : list (string * string))
           (plan_content : string) : string :=
  PlanFormat.generate
    {| PlanFormat.task_summary := task (session_ m);
       PlanFormat.created_at := created_at (session_ m);
       PlanFormat.version := (iteration (session_ m) + 1)%Z;
       PlanFormat.status := "approved";
       PlanFormat.executive_summary := "";
       PlanFormat.design_decisions := decisions;
       PlanFormat.plan_body := plan_content |}.

(** An answered question, as [qa_session::to_json] writes it. *)
Definition answered : json :=
  JObj [("questions",
         JArr [JObj [("id", JNum 1); ("text", JStr "Which store?");
                     ("options", JArr [JStr "sqlite"; JStr "files"]);
                     ("selected_answer", JStr "sqlite");
                     ("is_custom", JBool false);
                     ("selected_option_index", JNum 0)]]);
        ("current_question_index", JNum 0)].

(** A session that waits for approval, over an older plan file. *)
Definition waiting : machine :=
  {| session_ := mk_session AWAITING_APPROVAL "c1" "refactor foo" "findings"
                            "## Phase 1" answered answered 1
                            "/data/contexts/c1/plan.md"
                            "2026-01-01T10:00:00" "2026-01-01T10:04:00";
     base_path := "/data" |}.

Definition old_plan_fs : Fs.t :=
  {| Fs.files := {[ "/data/contexts/c1/plan.md" := "# old plan" ]};
     Fs.dirs := {[ "/data/contexts/c1" ]} |}.

(** The write through the stream on [plan.md] fails. *)
Definition plan_write_fails : Fs.faults :=
  {| Fs.open_fails := fun _ => false;
     Fs.write_fails := fun p => String.eqb p "/data/contexts/c1/plan.md";
     Fs.read_fails := fun _ => false;
     Fs.rename_fails := fun _ => false;
     Fs.mkdir_fails := fun _ => false;
     Fs.fails_late := fun _ => false;
     Fs.kept := fun _ => 0%nat |}.

End PlanCommand.

(* ===================================================================== *)
(** * Planning questions (plan-questions.h, plan-questions.cpp) *)
(* ===================================================================== *)

Module Questions.

Record plan_question : Type := mk_question {
  q_id : Z;
  text : string;
  options : list string;
  selected_answer : string;
  is_custom : bool;
  selected_option_index : Z
}.

Record qa_session : Type := mk_qa {
  questions : list plan_question;
  current_question_index : Z
}.

(** [qa_session{}] *)
Definition empty_session : qa_session :=
  {| questions := []; current_question_index := 0 |}.

(** The strings among the items of an array. *)
Fixpoint string_items (l : list json) : list string :=
  match l with
  | [] => []
  | JStr s :: rest => s :: string_items rest
  | _ :: rest => string_items rest
  end.

(** One turn of the loop of [parse_questions_from_json]: the question
    read from [qj], kept when it has a text and an option. *)
Definition parse_question (id : Z) (qj : json) : outcome (option plan_question) :=
  qid ← Json.value_int qj "id" id;
  txt ← (if Json.contains qj "text" then Json.get_string (Json.get qj "text")
         else if Json.contains qj "question"
              then Json.get_string (Json.get qj "question")
              else Ret "");
  let opts :=
    if Json.contains qj "options" && Json.is_array (Json.get qj "options")
    then string_items (Json.items (Json.get qj "options"))
    else if Json.contains qj "answers" && Json.is_array (Json.get qj "answers")
         then string_items (Json.items (Json.get qj "answers"))
         else [] in
  if negb (Str.empty txt) && negb (match opts with [] => true | _ => false end)
  then Ret (Some (mk_question qid txt opts "" false (-1)))
  else Ret None.

Fixpoint parse_loop (id : Z) (l : list json) (acc : list plan_question)
  : outcome (list plan_question) :=
  match l with
  | [] => Ret acc
  | qj :: rest =>
      q ← parse_question id qj;
      parse_loop (id + 1) rest
                 (match q with Some q' => acc ++ [q'] | None => acc end)
  end.

(** [parse_questions_from_json] *)
Definition parse_questions_from_json (agent_output : json) : outcome qa_session :=
  let questions_array :=
    if Json.contains agent_output "questions" &&
       Json.is_array (Json.get agent_output "questions")
    then Some (Json.get agent_output "questions")
    else if Json.is_array agent_output then Some agent_output
         else None in
  match questions_array with
  | None => Ret empty_session
  | Some arr =>
      qs ← parse_loop 1 (Json.items arr) [];
      Ret (mk_qa qs 0)
  end.

End Questions.

(* ===================================================================== *)
(** * Extraction of the questions from the reply of the planning agent *)
(* ===================================================================== *)

Module Extract.
Import Questions.

Definition is_blank (c : ascii) : bool :=
  Ascii.eqb c Str.nl || Ascii.eqb c Str.cr || Ascii.eqb c Str.space.

(** [while (content_start < size && blank(s[content_start])) content_start++],
    on the suffix that starts at [idx]. *)
Fixpoint skip_blanks (suffix : string) (idx : nat) : nat :=
  match suffix with
  | String c rest => if is_blank c then skip_blanks rest (S idx) else idx
  | EmptyString => idx
  end.

Fixpoint drop_blanks (cs : list ascii) : list ascii :=
  match cs with
  | c :: rest => if is_blank c then drop_blanks rest else cs
  | [] => []
  end.

(** [while (!s.empty() && blank(s.back())) s.pop_back()] *)
Definition trim_trailing (s : string) : string :=
  string_of_list_ascii (rev (drop_blanks (rev (list_ascii_of_string s)))).

Definition fence_lower : string := "```json".
Definition fence_upper : string := "```JSON".
Definition fence_close : string := "```".

(** [{"questions"] *)
Definition questions_literal : string :=
  String "{" (String Str.quote ("questions" +:+ String Str.quote "")).

(** The position of the opening fence. *)
Definition fence_start (agent_output : string) : option nat :=
  match Str.find agent_output fence_lower 0 with
  | Some p => Some p
  | None => Str.find agent_output fence_upper 0
  end.

(** Strategy 1: the text between the fences. *)
Definition fenced_text (agent_output : string) : string :=
  match fence_start agent_output with
  | None => ""
  | Some fs =>
      let content_start := skip_blanks (Str.drop (fs + 7) agent_output) (fs + 7) in
      match Str.find agent_output fence_close content_start with
      | None => ""
      | Some content_end =>
          trim_trailing
            (Str.substr agent_output content_start (content_end - content_start))
      end
  end.

(** The loop of strategy 2 over the characters from index [i] on; the
    result is the index of the brace that brings the count back to 0. *)
Fixpoint brace_scan (cs : list ascii) (i : nat) (brace_count : Z)
         (in_string escape_next : bool) : option nat :=
  match cs with
  | [] => None
  | c :: rest =>
      if escape_next then brace_scan rest (S i) brace_count in_string false
      else if Ascii.eqb c Str.backslash && in_string
      then brace_scan rest (S i) brace_count in_string true
      else if Ascii.eqb c Str.quote
      then brace_scan rest (S i) brace_count (negb in_string) false
      else if negb in_string then
        let count1 := if Ascii.eqb c "{"%char then (brace_count + 1)%Z
                      else brace_count in
        if Ascii.eqb c "}"%char then
          if Z.eqb (count1 - 1) 0 then Some i
          else brace_scan rest (S i) (count1 - 1)%Z in_string false
        else brace_scan rest (S i) count1 in_string false
      else brace_scan rest (S i) brace_count in_string false
  end.

(** Strategy 2: the object that starts at the literal. *)
Definition inline_text (agent_output : string) : string :=
  match Str.find agent_output questions_literal 0 with
  | None => ""
  | Some direct_start =>
      match brace_scan (list_ascii_of_string (Str.drop direct_start agent_output))
                       direct_start 0 false false with
      | Some i => Str.substr agent_output direct_start (i - direct_start + 1)
      | None => ""
      end
  end.

Definition json_text (agent_output : string) : string :=
  let json_str := fenced_text agent_output in
  if Str.empty json_str then inline_text agent_output else json_str.

Section WithParser.
Variable parse : string -> option json.

(** [extract_questions] *)
Definition extract_questions (agent_output : string) : qa_session :=
  let json_str := json_text agent_output in
  if negb (Str.empty json_str) then
    match parse json_str with
    | Some j =>
        match parse_questions_from_json j with
        | Ret session => session
        | Raise _ => empty_session
        end
    | None => empty_session
    end
  else empty_session.

End WithParser.

(** ** The specification's reading of the fence *)

Definition tolower (c : ascii) : ascii :=
  if (65 <=? nat_of_ascii c)%nat && (nat_of_ascii c <=? 90)%nat
  then ascii_of_nat (nat_of_ascii c + 32) else c.

Fixpoint lower (s : string) : string :=
  match s with
  | EmptyString => EmptyString
  | String c s' => String (tolower c) (lower s')
  end.

(** The first fence, whatever the case of its letters. *)
Definition fence_start_any_case (agent_output : string) : option nat :=
  Str.find (lower agent_output) fence_lower 0.

(** A question with the alias keys: [question] for [text] and
    [answers] for [options]. *)
Definition alias_key (k : string) : string :=
  if String.eqb k "text" then "question"
  else if String.eqb k "options" then "answers"
  else k.

Definition with_aliases (kv : list (string * json)) : list (string * json) :=
  List.map (fun p => (alias_key (fst p), snd p)) kv.

(** The characters of a string literal between its quotes: a backslash
    takes the character after it with it, and no other character is a
    quote. *)
Inductive string_text : list ascii -> Prop :=
| ST_nil : string_text []
| ST_char c t :
    c <> Str.quote -> c <> Str.backslash -> string_text t -> string_text (c :: t)
| ST_escape c t : string_text t -> string_text (Str.backslash :: c :: t).

(** Text whose braces are balanced outside its string literals, as the
    text of the members of a JSON object is. *)
Inductive balanced : list ascii -> Prop :=
| B_nil : balanced []
| B_plain c t :
    c <> Str.quote -> c <> "{"%char -> c <> "}"%char -> balanced t ->
    balanced (c :: t)
| B_string body t :
    string_text body -> balanced t ->
    balanced (Str.quote :: body ++ Str.quote :: t)
| B_object inner t :
    balanced inner -> balanced t -> balanced ("{"%char :: inner ++ "}"%char :: t).

(** [needle] occurs in [s] at position [p]; [p] is its first occurrence. *)
Definition occurs_at (needle s : string) (p : nat) : Prop :=
  Str.starts_with needle (Str.drop p s) = true.

Definition first_occurrence (needle s : string) (p : nat) : Prop :=
  occurs_at needle s p /\ forall q, (q < p)%nat -> ~ occurs_at needle s q.

(** Replies of the planning agent, and the session read from the first. *)
Definition one_question : qa_session :=
  mk_qa [mk_question 1 "Which store?" ["sqlite"; "files"] "" false (-1)] 0.

Definition fenced_reply : string :=
  Str.dq ("# Plan" +:+ Str.newline +:+ "```json" +:+ Str.newline +:+
          "{ 'questions': [ {'id': 1, 'text': 'Which store?', " +:+
          "'options': ['sqlite', 'files']} ] }" +:+ Str.newline +:+ "```").

Definition mixed_case_reply : string :=
  Str.dq ("# Plan" +:+ Str.newline +:+ "```Json" +:+ Str.newline +:+
          "{ 'questions': [ {'id': 1, 'text': 'Which store?', " +:+
          "'options': ['sqlite', 'files']} ] }" +:+ Str.newline +:+ "```").

Definition inline_reply : string :=
  Str.dq ("Plan. {'questions':[{'question':'Use {braces} or \'quotes\'?'," +:+
          "'answers':['yes','no']}]} trailing } text").

Definition two_fences_reply : string :=
  Str.dq ("```JSON" +:+ Str.newline +:+ "[{'text':'first?','options':['a']}]" +:+
          Str.newline +:+ "```" +:+ Str.newline +:+
          "```json" +:+ Str.newline +:+ "[{'text':'second?','options':['b']}]" +:+
          Str.newline +:+ "```").

Definition malformed_reply : string :=
  Str.dq ("```json" +:+ Str.newline +:+ "{ 'questions': [ {'id': 1, " +:+
          Str.newline +:+ "```").

End Extract.

(* ===================================================================== *)
(** * Transcripts *)
(* ===================================================================== *)

Module Transcript.

(** A tool call of an assistant message. *)
Record tool_call : Type := mk_call {
  call_id : string;
  call_name : string;
  call_arguments : string
}.

(** A message: [tool_calls] is present on assistant messages that call
    tools, [tool_call_id] on tool messages. *)
Record message : Type := mk_message {
  role : string;
  content : string;
  tool_calls : option (list tool_call);
  tool_call_id : option string
}.

Definition call_to_json (tc : tool_call) : json :=
  JObj [("id", JStr (call_id tc)); ("type", JStr "function");
        ("function", JObj [("name", JStr (call_name tc));
                           ("arguments", JStr (call_arguments tc))])].

Definition to_json (m : message) : json :=
  JObj ([("role", JStr (role m)); ("content", JStr (content m))]
        ++ match tool_calls m with
           | Some calls => [("tool_calls", JArr (List.map call_to_json calls))]
           | None => []
           end
        ++ match tool_call_id m with
           | Some i => [("tool_call_id", JStr i)]
           | None => []
           end).

Definition transcript_to_json (t : list message) : json :=
  JArr (List.map to_json t).

End Transcript.

(* ===================================================================== *)
(** * The subagent manager (subagent-manager.h, subagent-manager.cpp) *)
(* ===================================================================== *)

Module Subagent.

(** The de-duplicating [push_back] of [extract_modifications]. *)
Definition add_unique (path : string) (files : list string) : list string :=
  if existsb (String.eqb path) files then files else files ++ [path].

(** [if (cmd.size() > 200) cmd = cmd.substr(0, 197) + "..."] *)
Definition truncate_command (cmd : string) : string :=
  if (200 <? Str.size cmd)%nat then Str.substr cmd 0 197 +:+ "..." else cmd.

(** [for (f : result_json["files_modified"])]: the loop stops at the
    first item that is no string, which throws.  The flag says whether
    the loop ran to its end. *)
Fixpoint add_files (l : list json) (files : list string) : list string * bool :=
  match l with
  | [] => (files, true)
  | f :: rest =>
      match Json.get_string f with
      | Ret path => add_files rest (add_unique path files)
      | Raise _ => (files, false)
      end
  end.

Fixpoint add_commands (l : list json) (cmds : list string) : list string * bool :=
  match l with
  | [] => (cmds, true)
  | c :: rest =>
      match Json.get_string c with
      | Ret cmd => add_commands rest (cmds ++ [cmd])
      | Raise _ => (cmds, false)
      end
  end.

(** The search of the tool-result message of a call. *)
Fixpoint find_tool_result (call_id : string) (msgs : list json)
  : outcome (option json) :=
  match msgs with
  | [] => Ret None
  | result_msg :: rest =>
      r ← Json.value_string result_msg "role" "";
      if String.eqb r "tool" then
        i ← Json.value_string result_msg "tool_call_id" "";
        if String.eqb i call_id then Ret (Some result_msg)
        else find_tool_result call_id rest
      else find_tool_result call_id rest
  end.

Section WithParser.
Variable parse : string -> option json.

(** The inner [try] block: the fields of a nested result. *)
Definition add_nested (content : string) (acc : list string * list string)
  : list string * list string :=
  let '(files, cmds) := acc in
  match parse content with
  | None => (files, cmds)
  | Some result_json =>
      let '(files1, ok) :=
        if Json.contains result_json "files_modified"
        then add_files (Json.items (Json.get result_json "files_modified")) files
        else (files, true) in
      if ok && Json.contains result_json "commands_run"
      then (files1,
            fst (add_commands (Json.items (Json.get result_json "commands_run"))
                              cmds))
      else (files1, cmds)
  end.

(** The outer [try] block for one tool call whose arguments are
    [args_str]; an exception leaves the lists as they are. *)
Definition apply_call (messages : list json) (tc : json)
           (tool_name args_str : string) (acc : list string * list string)
  : list string * list string :=
  let '(files, cmds) := acc in
  match parse args_str with
  | None => acc
  | Some args =>
      if String.eqb tool_name "write" || String.eqb tool_name "edit" then
        match Json.value_string args "file_path" "" with
        | Ret path => if Str.empty path then acc else (add_unique path files, cmds)
        | Raise _ => acc
        end
      else if String.eqb tool_name "bash" then
        match Json.value_string args "command" "" with
        | Ret cmd => if Str.empty cmd then acc
                     else (files, cmds ++ [truncate_command cmd])
        | Raise _ => acc
        end
      else if String.eqb tool_name "spawn_agent" then
        match Json.value_string tc "id" "" with
        | Ret call_id =>
            match find_tool_result call_id messages with
            | Ret (Some result_msg) =>
                match Json.value_string result_msg "content" "" with
                | Ret content => add_nested content acc
                | Raise _ => acc
                end
            | _ => acc
            end
        | Raise _ => acc
        end
      else acc
  end.

(** The body of the loop over the tool calls of a message. *)
Definition visit_call (messages : list json) (tc : json)
           (acc : list string * list string)
  : outcome (list string * list string) :=
  fn ← Json.value_json tc "function" (JObj []);
  tool_name ← Json.value_string fn "name" "";
  fn' ← Json.value_json tc "function" (JObj []);
  args_str ← Json.value_string fn' "arguments" "";
  Ret (apply_call messages tc tool_name args_str acc).

Fixpoint visit_calls (messages : list json) (calls : list json)
         (acc : list string * list string)
  : outcome (list string * list string) :=
  match calls with
  | [] => Ret acc
  | tc :: rest =>
      acc' ← visit_call messages tc acc;
      visit_calls messages rest acc'
  end.

Fixpoint visit_messages (messages : list json) (msgs : list json)
         (acc : list string * list string)
  : outcome (list string * list string) :=
  match msgs with
  | [] => Ret acc
  | msg :: rest =>
      r ← Json.value_string msg "role" "";
      acc' ← (if String.eqb r "assistant" && Json.contains msg "tool_calls"
              then visit_calls messages (Json.items (Json.get msg "tool_calls")) acc
              else Ret acc);
      visit_messages messages rest acc'
  end.

(** [subagent_manager::extract_modifications]: the two output
    vectors, or the exception that leaves the function. *)
Definition extract_modifications (messages : json)
  : outcome (list string * list string) :=
  visit_messages (Json.items messages) (Json.items messages) ([], []).

End WithParser.

End Subagent.

(* ===================================================================== *)
(** * Modifications of a transcript, as the specification words them *)
(* ===================================================================== *)

Module Modifications.
Import Transcript.

(** The leading strings of a list of values. *)
Fixpoint leading_strings (l : list json) : list string :=
  match l with
  | JStr s :: rest => s :: leading_strings rest
  | _ => []
  end.

Fixpoint all_strings (l : list json) : bool :=
  match l with
  | [] => true
  | JStr _ :: rest => all_strings rest
  | _ => false
  end.

(** De-duplication that keeps the first occurrence of each element:
    what follows an element is cleared of it. *)
Fixpoint dedup (l : list string) : list string :=
  match l with
  | [] => []
  | x :: rest => x :: List.filter (fun y => negb (String.eqb y x)) (dedup rest)
  end.

Section WithParser.
Variable parse : string -> option json.

Definition string_member (j : json) (key : string) : option string :=
  match j with
  | JObj kv => match Json.assoc key kv with
               | Some (JStr s) => Some s
               | _ => None
               end
  | _ => None
  end.

(** The tool-result message of a call. *)
Definition result_of (t : list message) (id : string) : option message :=
  List.find (fun m => String.eqb (role m) "tool" &&
                      String.eqb (default "" (tool_call_id m)) id) t.

Definition nested_files (result_json : json) : list string :=
  if Json.contains result_json "files_modified"
  then leading_strings (Json.items (Json.get result_json "files_modified"))
  else [].

Definition nested_commands (result_json : json) : list string :=
  if Json.contains result_json "commands_run" &&
     (negb (Json.contains result_json "files_modified") ||
      all_strings (Json.items (Json.get result_json "files_modified")))
  then leading_strings (Json.items (Json.get result_json "commands_run"))
  else [].

Definition nested_result (t : list message) (tc : tool_call) : option json :=
  match result_of t tc.(call_id) with
  | Some m => parse (content m)
  | None => None
  end.

(** The files a tool call contributes. *)
Definition files_of_call (t : list message) (tc : tool_call) : list string :=
  match parse tc.(call_arguments) with
  | None => []
  | Some args =>
      if String.eqb tc.(call_name) "write" || String.eqb tc.(call_name) "edit" then
        match string_member args "file_path" with
        | Some p => if Str.empty p then [] else [p]
        | None => []
        end
      else if String.eqb tc.(call_name) "bash" then []
      else if String.eqb tc.(call_name) "spawn_agent" then
        match nested_result t tc with
        | Some r => nested_files r
        | None => []
        end
      else []
  end.

(** The commands a tool call contributes. *)
Definition commands_of_call (t : list message) (tc : tool_call) : list string :=
  match parse tc.(call_arguments) with
  | None => []
  | Some args =>
      if String.eqb tc.(call_name) "write" || String.eqb tc.(call_name) "edit" then []
      else if String.eqb tc.(call_name) "bash" then
        match string_member args "command" with
        | Some c => if Str.empty c then [] else [Subagent.truncate_command c]
        | None => []
        end
      else if String.eqb tc.(call_name) "spawn_agent" then
        match nested_result t tc with
        | Some r => nested_commands r
        | None => []
        end
      else []
  end.

(** The tool calls of the assistant messages, in order. *)
Definition assistant_calls (t : list message) : list tool_call :=
  flat_map (fun m => if String.eqb (role m) "assistant"
                     then default [] (tool_calls m) else []) t.

Definition files_modified (t : list message) : list string :=
  dedup (flat_map (files_of_call t) (assistant_calls t)).

Definition commands_run (t : list message) : list string :=
  flat_map (commands_of_call t) (assistant_calls t).

End WithParser.

(** The vector of files after the calls that contribute [l], when it
    held [seen] before. *)
Definition dedup_onto (seen l : list string) : list string :=
  fold_left (fun acc x => Subagent.add_unique x acc) l seen.

Definition fresh (seen : list string) (y : string) : bool :=
  negb (existsb (String.eqb y) seen).

(** A command of 215 characters, and a child transcript that runs it. *)
Definition long_command : string :=
  "echo 0123456789012345678901234567890123456789012345678901234567890123456789" +:+
  "0123456789012345678901234567890123456789012345678901234567890123456789" +:+
  "0123456789012345678901234567890123456789012345678901234567890123456789".

Definition child_transcript : list message :=
  [ mk_message "system" "You are explorer-agent." None None;
    mk_message "user" "do it" None None;
    mk_message "assistant" ""
      (Some [mk_call "c1" "write" (Str.dq "{'file_path': '/a', 'content': 'x'}");
             mk_call "c2" "bash" (Str.dq "{'command': 'ls'}");
             mk_call "c3" "edit" (Str.dq "{'file_path': '/b'}")]) None;
    mk_message "tool" "ok" None (Some "c1");
    mk_message "tool" "a b" None (Some "c2");
    mk_message "tool" "ok" None (Some "c3");
    mk_message "assistant" ""
      (Some [mk_call "c4" "spawn_agent" (Str.dq "{'agent_name': 'x', 'task': 't'}");
             mk_call "c5" "write" (Str.dq "{'file_path': '/a'}");
             mk_call "c6" "bash" (Str.dq "{'command': '" +:+ long_command +:+ Str.dq "'}");
             mk_call "c7" "bash" "not json"]) None;
    mk_message "tool"
      (Str.dq "{'agent': 'x', 'files_modified': ['/b', '/c'], 'commands_run': ['make']}")
      None (Some "c4");
    mk_message "assistant" "done" None None ].

End Modifications.

(* ===================================================================== *)
(** * The agent registry (agent-registry.h, agent-registry.cpp) *)
(* ===================================================================== *)

Module Registry.

Record agent_definition : Type := mk_agent {
  name : string;
  description : string;
  instructions : string;
  allowed_tools : list string;
  max_iterations : Z;
  metadata : json;
  path : string;
  agent_dir : string
}.

Definition MIN_MAX_ITERATIONS : Z := 1.
Definition SUBAGENT_MAX_ITERATIONS_LIMIT : Z := 100.

(** [std::isspace] in the "C" locale. *)
Definition isspace (c : ascii) : bool :=
  let n := nat_of_ascii c in
  Nat.eqb n 32 || ((9 <=? n)%nat && (n <=? 13)%nat).

Definition is_space_or_tab (c : ascii) : bool :=
  Ascii.eqb c " "%char || Ascii.eqb c (ascii_of_nat 9).

Fixpoint drop_while (f : ascii -> bool) (cs : list ascii) : list ascii :=
  match cs with
  | c :: rest => if f c then drop_while f rest else cs
  | [] => []
  end.

Definition trim_right (f : ascii -> bool) (cs : list ascii) : list ascii :=
  rev (drop_while f (rev cs)).

(** The pieces of a text between its newlines. *)
Fixpoint split_newlines (cs : list ascii) : list (list ascii) :=
  match cs with
  | [] => [[]]
  | c :: rest =>
      if Ascii.eqb c Str.nl then [] :: split_newlines rest
      else match split_newlines rest with
           | h :: t => (c :: h) :: t
           | [] => [[c]]
           end
  end.

(** The lines that [std::getline] reads: a last piece that is empty is
    the end of the stream. *)
Definition getlines (cs : list ascii) : list (list ascii) :=
  let pieces := split_newlines cs in
  match rev pieces with
  | [] :: before => rev before
  | _ => pieces
  end.

Fixpoint split_colon (cs : list ascii) : option (list ascii * list ascii) :=
  match cs with
  | [] => None
  | c :: rest =>
      if Ascii.eqb c ":"%char then Some ([], rest)
      else match split_colon rest with
           | Some (k, v) => Some (c :: k, v)
           | None => None
           end
  end.

(** The words that [stream >> word] reads. *)
Fixpoint words_from (cs : list ascii) (cur : list ascii) : list string :=
  match cs with
  | [] => match cur with
          | [] => []
          | _ => [string_of_list_ascii (rev cur)]
          end
  | c :: rest =>
      if isspace c then
        match cur with
        | [] => words_from rest []
        | _ => string_of_list_ascii (rev cur) :: words_from rest []
        end
      else words_from rest (c :: cur)
  end.

Fixpoint leading_digits (cs : list ascii) (acc : Z) (seen : bool) : option Z :=
  match cs with
  | c :: rest =>
      if Chr.isdigit c
      then leading_digits rest (10 * acc + (Z.of_nat (nat_of_ascii c) - 48))%Z true
      else if seen then Some acc else None
  | [] => if seen then Some acc else None
  end.

(** [std::stoi]: [None] when it throws. *)
Definition stoi (value : string) : option Z :=
  let cs := drop_while isspace (list_ascii_of_string value) in
  let '(negative, digits) :=
    match cs with
    | c :: rest =>
        if Ascii.eqb c "-"%char then (true, rest)
        else if Ascii.eqb c "+"%char then (false, rest)
        else (false, cs)
    | [] => (false, [])
    end in
  match leading_digits digits 0 false with
  | Some n =>
      let v := if negative then (- n)%Z else n in
      if ((-2147483648 <=? v) && (v <=? 2147483647))%Z then Some v else None
  | None => None
  end.

Definition clamp_iterations (n : Z) : Z :=
  let n1 := if (n <? MIN_MAX_ITERATIONS)%Z then MIN_MAX_ITERATIONS else n in
  if (SUBAGENT_MAX_ITERATIONS_LIMIT <? n1)%Z then SUBAGENT_MAX_ITERATIONS_LIMIT else n1.

(** The body of the loop over the lines of the front matter. *)
Definition read_line (agent : agent_definition) (line : list ascii)
  : agent_definition :=
  match drop_while is_space_or_tab line with
  | [] => agent
  | c :: rest =>
      if Ascii.eqb c "#"%char then agent
      else
        match split_colon (c :: rest) with
        | None => agent
        | Some (k, v) =>
            let key := string_of_list_ascii (trim_right isspace k) in
            let value :=
              string_of_list_ascii (trim_right isspace (drop_while isspace v)) in
            if String.eqb key "name" then
              mk_agent value (description agent) (instructions agent)
                       (allowed_tools agent) (max_iterations agent) (metadata agent)
                       (path agent) (agent_dir agent)
            else if String.eqb key "description" then
              mk_agent (name agent) value (instructions agent)
                       (allowed_tools agent) (max_iterations agent) (metadata agent)
                       (path agent) (agent_dir agent)
            else if String.eqb key "allowed-tools" then
              mk_agent (name agent) (description agent) (instructions agent)
                       (allowed_tools agent
                        ++ words_from (list_ascii_of_string value) [])
                       (max_iterations agent) (metadata agent)
                       (path agent) (agent_dir agent)
            else if String.eqb key "max-iterations" then
              match stoi value with
              | Some n =>
                  mk_agent (name agent) (description agent) (instructions agent)
                           (allowed_tools agent) (clamp_iterations n) (metadata agent)
                           (path agent) (agent_dir agent)
              | None => agent
              end
            else
              mk_agent (name agent) (description agent) (instructions agent)
                       (allowed_tools agent) (max_iterations agent)
                       (match Json.set (metadata agent) key (JStr value) with
                        | Ret md => md
                        | Raise _ => metadata agent
                        end)
                       (path agent) (agent_dir agent)
        end
  end.

(** [agent_registry::parse_frontmatter] *)
Definition parse_frontmatter (content path_ : string) : option agent_definition :=
  if negb (String.eqb (Str.substr content 0 4) ("---" +:+ Str.newline)) &&
     negb (String.eqb (Str.substr content 0 3) "---")
  then None
  else
    let start := if bool_decide (Str.at_ content 3 = Some Str.nl) then 4%nat else 3%nat in
    match Str.find content (Str.newline +:+ "---") start with
    | None => None
    | Some end_ =>
        let frontmatter := Str.substr content start (end_ - start) in
        let body :=
          string_of_list_ascii
            (drop_while (Ascii.eqb Str.nl)
                        (list_ascii_of_string (Str.drop (end_ + 4) content))) in
        let agent0 :=
          mk_agent "" "" body [] 20 JNull path_ "" in
        let agent :=
          fold_left read_line (getlines (list_ascii_of_string frontmatter)) agent0 in
        if Str.empty (name agent) || negb (AgentName.validate_name (name agent))
        then None
        else if Str.empty (description agent) then None
        else Some agent
    end.

(** [agent_registry::parse_agent] on the files of [fs]. *)
Definition parse_agent_file (F : Fs.faults) (fs : Fs.t) (dir : string)
  : option agent_definition :=
  let agent_md_path := dir +:+ "/AGENT.md" in
  if negb (Fs.exists_ fs agent_md_path) then None
  else
    match Fs.read_in F fs agent_md_path with
    | None => None
    | Some content =>
        match parse_frontmatter content agent_md_path with
        | Some agent =>
            Some (mk_agent (name agent) (description agent) (instructions agent)
                           (allowed_tools agent) (max_iterations agent)
                           (metadata agent) (path agent) dir)
        | None => None
        end
    end.

(** What [discover] sees of the disk: which search paths exist, the
    entries a directory iterator yields (path, and whether it is a
    directory) in the order it yields them, and the definition that
    [parse_agent] reads in a directory. *)
Record disk : Type := mk_disk {
  exists_ : string -> bool;
  entries : string -> list (string * bool);
  parse_agent : string -> option agent_definition
}.

Definition has_key (m : gmap string agent_definition) (k : string) : bool :=
  match m !! k with Some _ => true | None => false end.

(** The order of [std::sort] in [discover]. *)
Definition name_le (a b : agent_definition) : Prop :=
  String.leb (name a) (name b) = true.

#[export] Instance name_le_dec a b : Decision (name_le a b).
Proof. unfold name_le. solve_decision. Defined.

Section Discover.
Variable D : disk.
(** [embedded_agents_] *)
Variable embedded : gmap string agent_definition.

(** The body of the loop over the entries of a search path. *)
Definition load_entry (agents_by_name : gmap string agent_definition)
           (entry : string * bool) : gmap string agent_definition :=
  if negb (snd entry) then agents_by_name
  else match parse_agent D (fst entry) with
       | Some agent =>
           if has_key embedded (name agent) then agents_by_name
           else <[name agent := agent]> agents_by_name
       | None => agents_by_name
       end.

(** The body of the loop over the search paths. *)
Definition load_path (agents_by_name : gmap string agent_definition)
           (search_path : string) : gmap string agent_definition :=
  if negb (exists_ D search_path) then agents_by_name
  else fold_left load_entry (entries D search_path) agents_by_name.

(** The map after the disk paths, taken in reverse order. *)
Definition disk_agents (search_paths : list string)
  : gmap string agent_definition :=
  fold_left load_path (rev search_paths) ∅.

(** The map after the embedded definitions are assigned: each key of
    [embedded] gets the embedded definition. *)
Definition agents_by_name (search_paths : list string)
  : gmap string agent_definition :=
  embedded ∪ disk_agents search_paths.

(** [agent_registry::discover]: the vector [agents_]. *)
Definition discover (search_paths : list string) : list agent_definition :=
  merge_sort name_le (List.map snd (map_to_list (agents_by_name search_paths))).

(** The definition named [n] that the search path [p] provides by
    itself. *)
Definition provided (p n : string) : option agent_definition :=
  load_path ∅ p !! n.

(** The first definition that the search paths provide, in their
    order. *)
Fixpoint first_provided (search_paths : list string) (n : string)
  : option agent_definition :=
  match search_paths with
  | [] => None
  | p :: rest =>
      match provided p n with
      | Some a => Some a
      | None => first_provided rest n
      end
  end.

End Discover.

(** [agent_registry::get_agent] *)
Definition get_agent (agents_ : list agent_definition) (n : string)
  : option agent_definition :=
  List.find (fun a => String.eqb (name a) n) agents_.

(** The definition [agent_md n] parses to, read in [dir]. *)
Definition agent_named (n dir : string) : agent_definition :=
  mk_agent n ("the agent " +:+ n) ("Do the work." +:+ Str.newline)
           ["read"; "glob"] 30 (JObj [("model", JStr "small")])
           (dir +:+ "/AGENT.md") dir.

(** An [AGENT.md] for the agent [n]. *)
Definition agent_md (n : string) : string :=
  "---" +:+ Str.newline +:+
  "name: " +:+ n +:+ Str.newline +:+
  "description: the agent " +:+ n +:+ Str.newline +:+
  "# tools" +:+ Str.newline +:+
  "allowed-tools: read  glob" +:+ Str.newline +:+
  "max-iterations: 30" +:+ Str.newline +:+
  "model: small" +:+ Str.newline +:+
  "---" +:+ Str.newline +:+ Str.newline +:+
  "Do the work." +:+ Str.newline.

Definition example_embedded : gmap string agent_definition :=
  {[ "planning-agent" := agent_named "planning-agent" "<embedded>";
     "explorer-agent" := agent_named "explorer-agent" "<embedded>" ]}.

Definition example_files : Fs.t :=
  {| Fs.files :=
       {[ "/proj/.llama-agent/agents/reviewer/AGENT.md" := agent_md "reviewer";
          "/proj/.llama-agent/agents/planning-agent/AGENT.md" := agent_md "planning-agent";
          "/proj/.llama-agent/agents/README.md" := "agents";
          "/home/u/.llama-agent/agents/reviewer/AGENT.md" := agent_md "reviewer";
          "/home/u/.llama-agent/agents/tester/AGENT.md" := agent_md "tester";
          "/home/u/.llama-agent/agents/broken/AGENT.md" := agent_md "Not-Valid" ]};
     Fs.dirs :=
       {[ "/proj/.llama-agent/agents"; "/home/u/.llama-agent/agents" ]} |}.

Definition example_disk : disk :=
  {| exists_ := Fs.exists_ example_files;
     entries := fun p =>
       if String.eqb p "/proj/.llama-agent/agents" then
         [("/proj/.llama-agent/agents/reviewer", true);
          ("/proj/.llama-agent/agents/planning-agent", true);
          ("/proj/.llama-agent/agents/README.md", false)]
       else if String.eqb p "/home/u/.llama-agent/agents" then
         [("/home/u/.llama-agent/agents/reviewer", true);
          ("/home/u/.llama-agent/agents/tester", true);
          ("/home/u/.llama-agent/agents/broken", true)]
       else [];
     parse_agent := parse_agent_file Fs.no_faults example_files |}.

End Registry.

(* ===================================================================== *)
(** * Spawning subagents (subagent-manager.cpp, spawn_agent tool) *)
(* ===================================================================== *)

Module Spawn.
Import Registry.

(** [constexpr int MAX_SPAWN_DEPTH = 3] *)
Definition MAX_SPAWN_DEPTH : Z := 3.
Definition DEFAULT_TOOL_TIMEOUT_MS : Z := 120000.

Inductive agent_stop_reason : Type :=
| COMPLETED
| MAX_ITERATIONS
| USER_CANCELLED
| AGENT_ERROR.

Record subagent_request : Type := mk_request {
  agent_name : string;
  task : string;
  context : json;
  req_max_iterations : Z;
  persist : bool;
  spawn_depth : Z;
  req_working_dir : string
}.

Record session_stats : Type := mk_stats {
  total_input : Z;
  total_output : Z;
  total_cached : Z;
  current_context_tokens : Z;
  n_ctx : Z;
  warned_70 : bool;
  warned_80 : bool
}.

Definition no_stats : session_stats := mk_stats 0 0 0 0 0 false false.

Record subagent_result : Type := mk_result {
  success : bool;
  output : string;
  artifacts : json;
  iterations : Z;
  stats : session_stats;
  error : string;
  files_modified : list string;
  commands_run : list string
}.

(** [subagent_result result;] *)
Definition fresh_result : subagent_result :=
  mk_result false "" JNull 0 no_stats "" [] [].

Definition with_error (msg : string) (r : subagent_result) : subagent_result :=
  mk_result (success r) (output r) (artifacts r) (iterations r) (stats r) msg
            (files_modified r) (commands_run r).

(** The fields of [agent_config] that [spawn] sets. *)
Record agent_config : Type := mk_config {
  cfg_max_iterations : Z;
  tool_timeout_ms : Z;
  cfg_working_dir : string;
  verbose : bool;
  yolo_mode : bool;
  shares_parent_permissions : bool;
  has_subagent_mgr : bool;
  context_base_path : string;
  cfg_allowed_tools : list string;
  (** the context the messages are appended to, when persistence is on *)
  persists_to : option string
}.

Record tool_def : Type := mk_tool {
  tool_name : string;
  tool_description : string;
  tool_signature : string
}.

(** What running a child agent loop gives. *)
Record loop_run : Type := mk_run {
  stop_reason : agent_stop_reason;
  final_response : string;
  run_iterations : Z;
  run_stats : session_stats;
  run_messages : json
}.

(** The effects of [spawn] on its collaborators. *)
Inductive event : Type :=
| SlotCleared
| VisualPushed (name : string) (max_iterations : Z)
| VisualPopped (iterations : Z)
| ContextCreated (id : string)
| LoopConstructed (cfg : agent_config)
| LoopRun (prompt : string).

(** The manager: its depth stack (top first), the messages of the last
    child, and the effects so far (oldest first). *)
Record manager : Type := mk_manager {
  working_dir_ : string;
  spawn_depth_stack_ : list Z;
  last_messages_ : json;
  events : list event
}.

Definition emit (e : event) (m : manager) : manager :=
  mk_manager (working_dir_ m) (spawn_depth_stack_ m) (last_messages_ m)
             (events m ++ [e]).

Definition push_depth (d : Z) (m : manager) : manager :=
  mk_manager (working_dir_ m) (d :: spawn_depth_stack_ m) (last_messages_ m)
             (events m).

Definition pop_depth (m : manager) : manager :=
  mk_manager (working_dir_ m) (tl (spawn_depth_stack_ m)) (last_messages_ m)
             (events m).

Definition set_last_messages (j : json) (m : manager) : manager :=
  mk_manager (working_dir_ m) (spawn_depth_stack_ m) j (events m).

(** [get_current_spawn_depth] *)
Definition get_current_spawn_depth (m : manager) : Z :=
  match spawn_depth_stack_ m with
  | [] => 0%Z
  | top :: _ => top
  end.

Definition constructed_loops (m : manager) : nat :=
  List.length (List.filter (fun e => match e with LoopConstructed _ => true
                                                | _ => false end) (events m)).

Section WithEnvironment.
Variable parse : string -> option json.
Variable dump : json -> string.
(** The agents of the registry. *)
Variable registry : list agent_definition.
(** [tool_registry::instance().get_tool] *)
Variable get_tool : string -> option tool_def.
(** [resolve_path]: the canonical directory, or the empty string. *)
Variable resolve_path : string -> string -> string.
(** [ctx_mgr_.create_context()] and [ctx_mgr_.base_path()] *)
Variable new_context_id : string.
Variable base_path : string.
(** Construction and run of the child agent loop.  The run is taken
    as a function of the configuration and the prompt: the calls that
    a child makes to [spawn] in its turn, through the manager that its
    configuration holds, are not followed, and neither is an exception
    that leaves the run. *)
Variable run_loop : agent_config -> string -> loop_run.

Definition short_description (description : string) : string :=
  match Str.find description "." 0 with
  | Some period_pos =>
      if (period_pos <? 100)%nat then Str.substr description 0 (period_pos + 1)
      else if (80 <? Str.size description)%nat
           then Str.substr description 0 77 +:+ "..."
           else description
  | None =>
      if (80 <? Str.size description)%nat
      then Str.substr description 0 77 +:+ "..."
      else description
  end.

Fixpoint tool_rows (names : list string) : string :=
  match names with
  | [] => ""
  | n :: rest =>
      match get_tool n with
      | Some tool =>
          "| " +:+ tool_name tool +:+ " | `" +:+ tool_signature tool +:+ "` | " +:+
          short_description (tool_description tool) +:+ " |" +:+ Str.newline
      | None => ""
      end +:+ tool_rows rest
  end.

(** [subagent_manager::generate_system_prompt] *)
Definition generate_system_prompt (agent : agent_definition) : string :=
  "You are " +:+ name agent +:+ ", a specialized subagent." +:+
  Str.newline +:+ Str.newline +:+
  (if Str.empty (instructions agent) then ""
   else instructions agent +:+ Str.newline +:+ Str.newline) +:+
  (match allowed_tools agent with
   | [] =>
       "# No Tools Available" +:+ Str.newline +:+ Str.newline +:+
       "You do not have access to any tools. Please provide your analysis and response based on the context provided." +:+
       Str.newline +:+ Str.newline
   | tools =>
       "# Available Tools" +:+ Str.newline +:+ Str.newline +:+
       "| Tool | Signature | Description |" +:+ Str.newline +:+
       "|------|-----------|-------------|" +:+ Str.newline +:+
       tool_rows tools +:+
       Str.newline +:+
       "Use `describe_tool(tool_name)` for full parameter documentation." +:+
       Str.newline +:+ Str.newline
   end) +:+
  "# Guidelines" +:+ Str.newline +:+ Str.newline +:+
  "- Focus on completing the task efficiently" +:+ Str.newline +:+
  "- Be concise in your responses" +:+ Str.newline +:+
  "- When finished, provide a clear summary of what you accomplished" +:+
  Str.newline.

(** The artifact of one assistant message, when it has one. *)
Definition artifact_of (content : string) : option json :=
  match Str.find content "```json" 0 with
  | None => None
  | Some start =>
      let json_start :=
        if (start + 7 <? Str.size content)%nat &&
           bool_decide (Str.at_ content (start + 7) = Some Str.nl)
        then (start + 8)%nat else (start + 7)%nat in
      match Str.find content "```" json_start with
      | None => None
      | Some json_end =>
          match parse (Str.substr content json_start (json_end - json_start)) with
          | Some parsed =>
              if Json.contains parsed "questions" then None else Some parsed
          | None => None
          end
      end
  end.

Fixpoint collect_artifacts (msgs : list json) (artifacts : json) : outcome json :=
  match msgs with
  | [] => Ret artifacts
  | msg :: rest =>
      r ← Json.value_string msg "role" "";
      if String.eqb r "assistant" then
        content ← Json.value_string msg "content" "";
        artifacts' ← (match artifact_of content with
                      | Some parsed => Json.set artifacts "data" parsed
                      | None => Ret artifacts
                      end);
        collect_artifacts rest artifacts'
      else collect_artifacts rest artifacts
  end.

(** [subagent_manager::extract_artifacts] *)
Definition extract_artifacts (messages : json) : outcome json :=
  collect_artifacts (Json.items messages) (JObj []).

Definition stop_error (r : agent_stop_reason) : string :=
  match r with
  | MAX_ITERATIONS => "Subagent reached max iterations"
  | USER_CANCELLED => "Subagent was cancelled"
  | AGENT_ERROR => "Subagent encountered an error"
  | COMPLETED => ""
  end.

(** [subagent_manager::spawn]: the result, or the exception that
    leaves the function, and the manager afterwards. *)
Definition spawn (request : subagent_request) (m : manager)
  : outcome subagent_result * manager :=
  if (MAX_SPAWN_DEPTH <=? spawn_depth request)%Z then
    (Ret (with_error ("Maximum spawn depth (" +:+ pretty MAX_SPAWN_DEPTH +:+
                      ") exceeded. Cannot spawn more subagents.") fresh_result),
     m)
  else
    match get_agent registry (agent_name request) with
    | None =>
        (Ret (with_error ("Unknown agent: " +:+ agent_name request) fresh_result), m)
    | Some agent_def =>
        let max_iter :=
          if (0 <? req_max_iterations request)%Z then req_max_iterations request
          else max_iterations agent_def in
        let m1 := emit (VisualPushed (agent_name request) max_iter) m in
        let m2 := emit SlotCleared m1 in
        let m3 := push_depth (spawn_depth request + 1) m2 in
        let '(sub_ctx_id, m4) :=
          if persist request
          then (new_context_id, emit (ContextCreated new_context_id) m3)
          else ("", m3) in
        let sub_working_dir :=
          if negb (Str.empty (req_working_dir request))
          then resolve_path (req_working_dir request) (working_dir_ m4)
          else working_dir_ m4 in
        if negb (Str.empty (req_working_dir request)) && Str.empty sub_working_dir
        then
          (Ret (with_error ("working_dir does not exist or is not a directory: "
                            +:+ req_working_dir request) fresh_result),
           emit (VisualPopped 0) (pop_depth m4))
        else
          let sub_config :=
            {| cfg_max_iterations := max_iter;
               tool_timeout_ms := DEFAULT_TOOL_TIMEOUT_MS;
               cfg_working_dir := sub_working_dir;
               verbose := false;
               yolo_mode := false;
               shares_parent_permissions := true;
               has_subagent_mgr := true;
               context_base_path := base_path;
               cfg_allowed_tools := allowed_tools agent_def;
               persists_to :=
                 if persist request && negb (Str.empty sub_ctx_id)
                 then Some sub_ctx_id else None |} in
          let m5 := emit (LoopConstructed sub_config) m4 in
          let task_prompt :=
            if negb (Json.empty (context request))
            then task request +:+ Str.newline +:+ Str.newline +:+ "## Context" +:+
                 Str.newline +:+ Str.newline +:+ "```json" +:+ Str.newline +:+
                 dump (context request) +:+ Str.newline +:+ "```"
            else task request in
          let full_prompt :=
            generate_system_prompt agent_def +:+ Str.newline +:+ Str.newline +:+
            "# Task" +:+ Str.newline +:+ Str.newline +:+ task_prompt in
          let run := run_loop sub_config full_prompt in
          let m6 := set_last_messages (run_messages run)
                                      (emit (LoopRun full_prompt) m5) in
          let ok := match stop_reason run with COMPLETED => true | _ => false end in
          match extract_artifacts (run_messages run) with
          | Raise e => (Raise e, m6)
          | Ret arts =>
              match Subagent.extract_modifications parse (run_messages run) with
              | Raise e => (Raise e, m6)
              | Ret (files, cmds) =>
                  let result :=
                    mk_result ok (final_response run) arts (run_iterations run)
                              (run_stats run)
                              (if ok then "" else stop_error (stop_reason run))
                              files cmds in
                  let m7 := match spawn_depth_stack_ m6 with
                            | [] => m6
                            | _ => pop_depth m6
                            end in
                  (Ret result,
                   emit (VisualPopped (run_iterations run)) (emit SlotCleared m7))
              end
          end
    end.

(** The request that [spawn_agent_execute] builds from the arguments
    of the tool call; [None] when a required argument is missing. *)
Definition spawn_agent_request (args : json) (m : manager)
  : outcome (option subagent_request) :=
  n ← Json.value_string args "agent_name" "";
  t ← Json.value_string args "task" "";
  c ← Json.value_json args "context" (JObj []);
  mi ← Json.value_int args "max_iterations" 20;
  if Str.empty n || Str.empty t then Ret None
  else
    wd ← Json.value_string args "working_dir" "";
    Ret (Some (mk_request n t c mi false (get_current_spawn_depth m) wd)).

End WithEnvironment.

(** The error of a request at the depth limit. *)
Definition depth_error : string :=
  "Maximum spawn depth (3) exceeded. Cannot spawn more subagents.".

(** A registry with one agent and an environment in which a child loop
    completes at once. *)
Definition explorer : agent_definition :=
  mk_agent "explorer-agent" "Explores the codebase." "Explore." ["read"; "glob"]
           20 JNull "<embedded>/explorer-agent" "<embedded>".

Definition idle_run (cfg : agent_config) (prompt : string) : loop_run :=
  mk_run COMPLETED "done" 1 no_stats (JArr []).

Definition no_tools (n : string) : option tool_def := None.

Definition same_dir (p b : string) : string := b.

(** The manager while a subagent spawned with [spawn_depth = 2] runs. *)
Definition at_depth_three : manager :=
  mk_manager "/proj" [3%Z; 2%Z; 1%Z] JNull
             [VisualPushed "explorer-agent" 20; SlotCleared].

Definition nested_request : subagent_request :=
  mk_request "explorer-agent" "look deeper" (JObj []) 20 false 3 "".

End Spawn.

(* ===================================================================== *)
(** * C++ integers *)
(* ===================================================================== *)

Module Cxx.

(** The values of an [int]. *)
Definition int32 (z : Z) : Prop := (-2147483648 <= z <= 2147483647)%Z.

End Cxx.

(* ===================================================================== *)
(** * The planning state machine: the rest of its interface *)
(* ===================================================================== *)

Module PlanningOps.
Import Planning.

(** [set_exploration_findings]; [now] is [get_timestamp()]. *)
Definition set_exploration_findings (now findings : string) (m : machine)
  : machine :=
  with_session
    (fun s => set_updated_at now
       (mk_session (state s) (context_id s) (task s) findings (plan_content s)
                   (questions s) (answers s) (iteration s) (plan_path s)
                   (created_at s) (updated_at s))) m.

(** [set_plan_content] *)
Definition set_plan_content (now content : string) (m : machine) : machine :=
  with_session
    (fun s => set_updated_at now
       (mk_session (state s) (context_id s) (task s) (exploration_findings s)
                   content (questions s) (answers s) (iteration s) (plan_path s)
                   (created_at s) (updated_at s))) m.

(** [set_questions] *)
Definition set_questions (now : string) (qs : json) (m : machine) : machine :=
  with_session
    (fun s => set_updated_at now
       (mk_session (state s) (context_id s) (task s) (exploration_findings s)
                   (plan_content s) qs (answers s) (iteration s) (plan_path s)
                   (created_at s) (updated_at s))) m.

(** [set_answers] *)
Definition set_answers (now : string) (ans : json) (m : machine) : machine :=
  with_session
    (fun s => set_updated_at now
       (mk_session (state s) (context_id s) (task s) (exploration_findings s)
                   (plan_content s) (questions s) ans (iteration s) (plan_path s)
                   (created_at s) (updated_at s))) m.

(** [increment_iteration]: [session_.iteration++], below [INT_MAX]. *)
Definition increment_iteration (now : string) (m : machine) : machine :=
  with_session
    (fun s => set_updated_at now
       (mk_session (state s) (context_id s) (task s) (exploration_findings s)
                   (plan_content s) (questions s) (answers s)
                   (iteration s + 1)%Z (plan_path s)
                   (created_at s) (updated_at s))) m.

(** One validated change of state. *)
Definition valid_step (from to : planning_state) : Prop :=
  validate_transition from to = true.

(** A machine that holds the session [s]. *)
Definition machine_of (base : string) (s : planning_session) : machine :=
  {| session_ := s; base_path := base |}.

(** A session in the middle of a refinement. *)
Definition refining_session : planning_session :=
  mk_session REFINING "c1" "refactor foo" "findings" "## Phase 1"
             (JArr [JObj [("id", JNum 1); ("text", JStr "Which store?")]])
             (JArr []) 2 "/data/contexts/c1/plan.md"
             "2026-01-01T10:00:00" "2026-01-01T10:04:00".

(** A state file that is no JSON text. *)
Definition garbled_state_fs : Fs.t :=
  {| Fs.files := {[ "/data/contexts/c1/plan_state.json" := "{ state" ]};
     Fs.dirs := {[ "/data/contexts/c1" ]} |}.

End PlanningOps.

(* ===================================================================== *)
(** * Questions and answers: serialisation and counts (plan-questions.cpp) *)
(* ===================================================================== *)

Module QaSession.
Import Questions.

(** The items of [j.get<std::vector<std::string>>()]. *)
Fixpoint get_string_list (l : list json) : outcome (list string) :=
  match l with
  | [] => Ret []
  | v :: rest =>
      s ← Json.get_string v;
      ss ← get_string_list rest;
      Ret (s :: ss)
  end.

(** [j.get<std::vector<std::string>>()] *)
Definition get_strings (j : json) : outcome (list string) :=
  match j with
  | JArr l => get_string_list l
  | _ => Raise (type_error 302)
  end.

(** [plan_question::to_json] *)
Definition question_to_json (q : plan_question) : json :=
  JObj [("id", JNum (q_id q));
        ("text", JStr (text q));
        ("options", Json.of_strings (options q));
        ("selected_answer", JStr (selected_answer q));
        ("is_custom", JBool (is_custom q));
        ("selected_option_index", JNum (selected_option_index q))].

(** [plan_question::from_json] *)
Definition question_from_json (j : json) : outcome plan_question :=
  i ← Json.value_int j "id" 0%Z;
  t ← Json.value_string j "text" "";
  o ← Json.value get_strings j "options" [];
  a ← Json.value_string j "selected_answer" "";
  c ← Json.value_bool j "is_custom" false;
  x ← Json.value_int j "selected_option_index" (-1)%Z;
  Ret (mk_question i t o a c x).

(** The loop of [qa_session::is_complete]. *)
Fixpoint all_answered (qs : list plan_question) : bool :=
  match qs with
  | [] => true
  | q :: rest =>
      if Str.empty (selected_answer q) then false else all_answered rest
  end.

(** [qa_session::is_complete] *)
Definition is_complete (s : qa_session) : bool :=
  if all_answered (questions s)
  then negb (match questions s with [] => true | _ => false end)
  else false.

(** The loop of [qa_session::answered_count]. *)
Fixpoint count_answered (qs : list plan_question) (count : Z) : Z :=
  match qs with
  | [] => count
  | q :: rest =>
      count_answered rest
        (if negb (Str.empty (selected_answer q)) then (count + 1)%Z else count)
  end.

(** [qa_session::answered_count] *)
Definition answered_count (s : qa_session) : Z := count_answered (questions s) 0.

(** [qa_session::to_json] *)
Definition to_json (s : qa_session) : json :=
  JObj [("questions", JArr (List.map question_to_json (questions s)));
        ("current_question_index", JNum (current_question_index s))].

Fixpoint questions_from_json (l : list json) : outcome (list plan_question) :=
  match l with
  | [] => Ret []
  | qj :: rest =>
      q ← question_from_json qj;
      qs ← questions_from_json rest;
      Ret (q :: qs)
  end.

(** [qa_session::from_json] *)
Definition from_json (j : json) : outcome qa_session :=
  idx ← Json.value_int j "current_question_index" 0%Z;
  qs ← (if Json.contains j "questions" && Json.is_array (Json.get j "questions")
        then questions_from_json (Json.items (Json.get j "questions"))
        else Ret []);
  Ret (mk_qa qs idx).

Fixpoint format_answers (qs : list plan_question) : string :=
  match qs with
  | [] => ""
  | q :: rest =>
      "Q" +:+ pretty (q_id q) +:+ ": " +:+ text q +:+ Str.newline +:+
      "Answer: " +:+ selected_answer q +:+
      (if is_custom q then " (custom response)" else "") +:+
      Str.newline +:+ Str.newline +:+ format_answers rest
  end.

(** [format_answers_for_prompt] *)
Definition format_answers_for_prompt (s : qa_session) : string :=
  "User's design decisions:" +:+ Str.newline +:+ Str.newline +:+
  format_answers (questions s).

(** The integers of a session are [int]s. *)
Definition ints_ok (s : qa_session) : Prop :=
  Cxx.int32 (current_question_index s) /\
  Forall (fun q => Cxx.int32 (q_id q) /\ Cxx.int32 (selected_option_index q))
         (questions s).

(** A question as [parse_questions_from_json] leaves it: it has a
    text and an option, and no answer. *)
Definition unanswered (q : plan_question) : Prop :=
  text q <> "" /\ options q <> [] /\ selected_answer q = "" /\
  is_custom q = false /\ selected_option_index q = (-1)%Z.

(** A session with one answer given and one custom answer. *)
Definition answered_session : qa_session :=
  mk_qa [mk_question 1 "Which store?" ["sqlite"; "files"] "sqlite" false 0;
         mk_question 2 "Which format?" ["json"] "toml, please" true (-1)] 1.

(** The reply of a planning agent, as JSON: one well-formed question,
    one without options and one under the alias keys. *)
Definition agent_questions : json :=
  JObj [("questions",
         JArr [JObj [("id", JNum 7); ("text", JStr "Which store?");
                     ("options", JArr [JStr "sqlite"; JNum 3; JStr "files"])];
               JObj [("text", JStr "No options?")];
               JObj [("question", JStr "Which format?");
                     ("answers", JArr [JStr "json"])]])].

End QaSession.

(* ===================================================================== *)
(** * The context store: the rest of its interface (context-manager.cpp) *)
(* ===================================================================== *)

Module ContextOps.
Import Context.

(** [if (j.contains(key) && j[key].is_array()) for (x : j[key])
    v.push_back(x.get<std::string>())] *)
Definition strings_member (j : json) (key : string) : outcome (list string) :=
  if Json.contains j key && Json.is_array (Json.get j key)
  then QaSession.get_string_list (Json.items (Json.get j key))
  else Ret [].

(** [compact_entry::from_json] *)
Definition entry_from_json (j : json) : outcome compact_entry :=
  ts ← Json.value_string j "timestamp" "";
  um ← strings_member j "user_messages";
  fm ← strings_member j "files_modified";
  cr ← strings_member j "commands_run";
  pr ← Json.value_string j "plan_ref" "";
  sm ← Json.value_string j "summary" "";
  kd ← Json.value_json j "key_decisions" (JObj []);
  cs ← Json.value_string j "current_state" "";
  pt ← strings_member j "pending_tasks";
  Ret (mk_entry ts um fm cr pr sm kd cs pt).

(** The first line of [content], cut to 80 characters. *)
Definition preview_of (content : string) : string :=
  let line :=
    match Str.find content Str.newline 0 with
    | Some newline => Str.substr content 0 newline
    | None => content
    end in
  if (80 <? String.length line)%nat then Str.substr line 0 77 +:+ "..." else line.

(** The loop of [get_preview], from the last message to the first. *)
Fixpoint preview_scan (reversed : list json) : outcome string :=
  match reversed with
  | [] => Ret "(empty)"
  | msg :: rest =>
      r ← Json.value_string msg "role" "";
      if String.eqb r "user" then
        content ← Json.value_string msg "content" "";
        Ret (preview_of content)
      else preview_scan rest
  end.

(** [context_manager::get_preview] *)
Definition get_preview (messages : json) : outcome string :=
  preview_scan (rev (Json.items messages)).

(** The test of [get_archives] on the name of a file. *)
Definition is_archive_name (filename : string) : bool :=
  Str.starts_with "conversation_" filename &&
  negb (String.eqb filename "conversation.json") &&
  (5 <=? Str.size filename)%nat &&
  String.eqb (Str.substr filename (Str.size filename - 5) 5) ".json".

(** [filename.substr(13, filename.length() - 18)]: the count is a
    [size_t]; below 18 characters it wraps around and the rest of the
    name is taken. *)
Definition archive_timestamp (filename : string) : option string :=
  if is_archive_name filename then
    let count := if (18 <=? Str.size filename)%nat
                 then (Str.size filename - 18)%nat
                 else Str.size filename in
    Some (Str.substr filename 13 count)
  else None.

Section WithEnvironment.
Variable read_value : string -> option json.
Variable dump : json -> string.
Variable F : Fs.faults.
Variable base_path : string.

(** [context_manager::context_exists] *)
Definition context_exists (fs : Fs.t) (ctx : string) : bool :=
  Fs.exists_ fs (context_path base_path ctx +:+ "/conversation.json").

(** [context_manager::has_plan] *)
Definition has_plan (fs : Fs.t) (ctx : string) : bool :=
  Fs.exists_ fs (context_path base_path ctx +:+ "/plan.md").

(** [context_manager::load_plan_md] *)
Definition load_plan_md (fs : Fs.t) (ctx : string) : string :=
  let path := context_path base_path ctx +:+ "/plan.md" in
  if negb (Fs.exists_ fs path) then ""
  else match Fs.read_in F fs path with
       | None => ""
       | Some content => content
       end.

(** [context_manager::create_context]; [uuid] is [generate_uuid()] and
    [now] is [iso8601_now()]. *)
Definition create_context (uuid now : string) (fs : Fs.t)
  : outcome string * Fs.t :=
  let path := context_path base_path uuid in
  let '(ok, fs1) := ensure_directory F fs path in
  if negb ok then (Ret "", fs1)
  else
    let st := mk_state uuid now now (JArr []) (JObj []) in
    match save_context dump F base_path fs1 st with
    | (Raise e, fs2) => (Raise e, fs2)
    | (Ret false, fs2) => (Ret "", fs2)
    | (Ret true, fs2) => (Ret uuid, fs2)
    end.

(** [context_manager::append_message] *)
Definition append_message (now : string) (fs : Fs.t) (ctx : string)
           (message : json) : outcome bool * Fs.t :=
  match load_context read_value F base_path fs ctx with
  | Raise e => (Raise e, fs)
  | Ret None => (Ret false, fs)
  | Ret (Some st) =>
      match Json.push_back (messages st) message with
      | Raise e => (Raise e, fs)
      | Ret msgs =>
          let st' := mk_state (id st) (created_at st) now msgs (metadata st) in
          save_context dump F base_path fs st'
      end
  end.

(** [context_manager::save_messages] *)
Definition save_messages (now : string) (fs : Fs.t) (ctx : string)
           (msgs : json) : outcome bool * Fs.t :=
  match load_context read_value F base_path fs ctx with
  | Raise e => (Raise e, fs)
  | Ret None => (Ret false, fs)
  | Ret (Some st) =>
      let st' := mk_state (id st) (created_at st) now msgs (metadata st) in
      save_context dump F base_path fs st'
  end.

End WithEnvironment.

(** [archive_ref]; the count is not initialised when the archive is
    not read as an array. *)
Record archive_ref : Type := mk_archive_ref {
  ar_timestamp : string;
  ar_filepath : string;
  ar_compact_filepath : string;
  ar_message_count : option Z
}.

(** The order of [std::sort] in [get_archives]. *)
Definition timestamp_le (a b : archive_ref) : Prop :=
  String.leb (ar_timestamp a) (ar_timestamp b) = true.

#[export] Instance timestamp_le_dec a b : Decision (timestamp_le a b).
Proof. unfold timestamp_le. solve_decision. Defined.

Section Archives.
Variable read_value : string -> option json.
Variable F : Fs.faults.
Variable base_path : string.
(** What [fs::directory_iterator] yields for a directory: the name of
    each entry and whether it is a regular file. *)
Variable entries : string -> list (string * bool).

(** The body of the loop of [get_archives]. *)
Definition archive_of (fs : Fs.t) (ctx_path : string) (entry : string * bool)
  : option archive_ref :=
  if negb (snd entry) then None
  else
    match archive_timestamp (fst entry) with
    | None => None
    | Some ts =>
        let filepath := ctx_path +:+ "/" +:+ fst entry in
        Some (mk_archive_ref ts filepath
                (ctx_path +:+ "/compact_" +:+ ts +:+ ".json")
                (match read_json read_value F fs filepath with
                 | Some (JArr l) =>
                     Some (Json.to_int32 (Z.of_nat (List.length l)))
                 | _ => None
                 end))
    end.

(** [context_manager::get_archives] *)
Definition get_archives (fs : Fs.t) (ctx : string) : list archive_ref :=
  let ctx_path := context_path base_path ctx in
  if negb (Fs.exists_ fs ctx_path) then []
  else merge_sort timestamp_le (omap (archive_of fs ctx_path) (entries ctx_path)).

End Archives.

(** The metadata that [from_json] gives back for what [to_json] wrote:
    empty metadata is not written, and is read as the empty object. *)
Definition normal_metadata (md : json) : json :=
  if Json.empty md then JObj [] else md.

Definition normal_state (st : conversation_state) : conversation_state :=
  mk_state (id st) (created_at st) (updated_at st) (messages st)
           (normal_metadata (metadata st)).

(** A conversation whose last user message has two lines, the first
    one of 100 characters. *)
Definition long_line : string :=
  "0123456789012345678901234567890123456789012345678901234567890123456789" +:+
  "012345678901234567890123456789".

Definition long_conversation : json :=
  JArr [JObj [("role", JStr "user"); ("content", JStr "first")];
        JObj [("role", JStr "user");
              ("content", JStr (long_line +:+ Str.newline +:+ "second line"))];
        JObj [("role", JStr "assistant"); ("content", JStr "ok")]].

(** The directory of a context after two compactions, as the
    directory iterator lists it. *)
Definition compacted_fs : Fs.t :=
  {| Fs.files :=
       {[ "/data/contexts/c1/conversation.json" := "{}";
          "/data/contexts/c1/conversation_20260102_090000.json" :=
            Str.dq "[{'role': 'user'}, {'role': 'assistant'}]";
          "/data/contexts/c1/compact_20260102_090000.json" := "{}";
          "/data/contexts/c1/conversation_20260101_100600.json" := "[]";
          "/data/contexts/c1/plan.md" := "# Plan" ]};
     Fs.dirs := {[ "/data/contexts/c1" ]} |}.

Definition compacted_listing (dir : string) : list (string * bool) :=
  if String.eqb dir "/data/contexts/c1" then
    [("conversation_20260102_090000.json", true);
     ("plan.md", true);
     ("conversation.json", true);
     ("compact_20260102_090000.json", true);
     ("conversation_20260101_100600.json", true)]
  else [].

End ContextOps.

(* ===================================================================== *)
(** * The [spawn_agent] tool (spawn-agent tool source) *)
(* ===================================================================== *)

Module SpawnTool.
Import Registry Spawn.

(** [tool_result] *)
Record tool_result : Type := mk_tool_result {
  tr_success : bool;
  tr_output : string;
  tr_error : string
}.

(** The frames of the console that the events open and close. *)
Definition frames_opened (es : list event) : nat :=
  List.length (List.filter (fun e => match e with VisualPushed _ _ => true
                                               | _ => false end) es).

Definition frames_closed (es : list event) : nat :=
  List.length (List.filter (fun e => match e with VisualPopped _ => true
                                               | _ => false end) es).

(** The JSON object that [spawn_agent_execute] returns on success;
    [with_stats] tells the branch taken when the context carries an
    interrupt flag, which adds the token counts. *)
Definition spawn_output (with_stats : bool) (agent_name : string)
           (result : subagent_result) : json :=
  JObj ([("agent", JStr agent_name);
         ("result", JStr (output result));
         ("iterations", JNum (iterations result))]
        ++ (if with_stats
            then [("stats",
                   JObj [("input_tokens", JNum (total_input (stats result)));
                         ("output_tokens", JNum (total_output (stats result)))])]
            else [])
        ++ (if negb (Json.empty (artifacts result))
            then [("artifacts", artifacts result)] else [])
        ++ (match files_modified result with
            | [] => []
            | l => [("files_modified", Json.of_strings l)]
            end)
        ++ (match commands_run result with
            | [] => []
            | l => [("commands_run", Json.of_strings l)]
            end)).

Section WithEnvironment.
Variable parse : string -> option json.
Variable dump : json -> string.
Variable registry : list agent_definition.
Variable get_tool : string -> option tool_def.
Variable resolve_path : string -> string -> string.
Variable new_context_id : string.
Variable base_path : string.
Variable run_loop : agent_config -> string -> loop_run.

(** The error of a failed subagent, in each of the two branches. *)
Definition failure_message (has_interrupt_flag : bool) (result : subagent_result)
  : string :=
  if has_interrupt_flag then
    if negb (Str.empty (output result))
    then output result +:+ Str.newline +:+ Str.newline +:+ "Error: " +:+
         error result
    else error result
  else if Str.empty (error result) then "Subagent failed" else error result.

(** [spawn_agent_execute]; [mgr] is [ctx.subagent_mgr] and
    [has_interrupt_flag] tells whether [ctx.is_interrupted] is set. *)
Definition spawn_agent_execute (has_interrupt_flag : bool) (args : json)
           (mgr : option manager) : outcome tool_result * option manager :=
  match mgr with
  | None =>
      (Ret (mk_tool_result false ""
              "Subagent manager not available in this context"), None)
  | Some m =>
      match (n ← Json.value_string args "agent_name" "";
             t ← Json.value_string args "task" "";
             c ← Json.value_json args "context" (JObj []);
             mi ← Json.value_int args "max_iterations" 20%Z;
             Ret (n, t, c, mi)) with
      | Raise e => (Raise e, Some m)
      | Ret (n, t, c, mi) =>
          if Str.empty n
          then (Ret (mk_tool_result false "" "agent_name is required"), Some m)
          else if Str.empty t
          then (Ret (mk_tool_result false "" "task is required"), Some m)
          else
            match Json.value_string args "working_dir" "" with
            | Raise e => (Raise e, Some m)
            | Ret wd =>
                let req := mk_request n t c mi false (get_current_spawn_depth m) wd in
                let '(r, m') :=
                  Spawn.spawn parse dump registry get_tool resolve_path
                              new_context_id base_path run_loop req m in
                match r with
                | Raise e => (Raise e, Some m')
                | Ret result =>
                    if negb (success result)
                    then (Ret (mk_tool_result false ""
                                 (failure_message has_interrupt_flag result)),
                          Some m')
                    else (Ret (mk_tool_result true
                                 (dump (spawn_output has_interrupt_flag n result))
                                 ""),
                          Some m')
                end
            end
      end
  end.

End WithEnvironment.

(** A child run that wrote two files and ran a command. *)
Definition writing_run (cfg : agent_config) (prompt : string) : loop_run :=
  mk_run COMPLETED "done" 2 no_stats
    (Transcript.transcript_to_json
       [Transcript.mk_message "assistant" ""
          (Some [Transcript.mk_call "c1" "write" (Str.dq "{'file_path': '/a'}");
                 Transcript.mk_call "c2" "bash" (Str.dq "{'command': 'make'}");
                 Transcript.mk_call "c3" "edit" (Str.dq "{'file_path': '/b'}");
                 Transcript.mk_call "c4" "write" (Str.dq "{'file_path': '/a'}")])
          None]).

Definition main_manager : manager := mk_manager "/proj" [] JNull [].

Definition explore_args : json :=
  JObj [("agent_name", JStr "explorer-agent"); ("task", JStr "look")].

End SpawnTool.

(* ===================================================================== *)
(** * The programmatic part of [/compact] (agent.cpp) *)
(* ===================================================================== *)

Module Compaction.

(** [if (content.size() > 1000) content = content.substr(0, 997) + "..."] *)
Definition truncate_message (content : string) : string :=
  if (1000 <? Str.size content)%nat then Str.substr content 0 997 +:+ "..."
  else content.

Section WithParser.
Variable parse : string -> option json.

(** Phase 1 of [/compact]: the loop over the messages.  The body of
    its assistant branch is, line for line, the loop over the tool
    calls of [subagent_manager::extract_modifications]. *)
Fixpoint scan (messages msgs : list json)
         (acc : list string * (list string * list string))
  : outcome (list string * (list string * list string)) :=
  match msgs with
  | [] => Ret acc
  | msg :: rest =>
      let '(user_messages, modifications) := acc in
      role ← Json.value_string msg "role" "";
      acc' ← (if String.eqb role "user" then
                content ← Json.value_string msg "content" "";
                Ret (if negb (Str.empty content)
                     then (user_messages ++ [truncate_message content],
                           modifications)
                     else acc)
              else if String.eqb role "assistant" then
                if Json.contains msg "tool_calls" then
                  modifications' ←
                    Subagent.visit_calls parse messages
                      (Json.items (Json.get msg "tool_calls")) modifications;
                  Ret (user_messages, modifications')
                else Ret acc
              else Ret acc);
      scan messages rest acc'
  end.

(** The three vectors of phase 1: user messages, files modified,
    commands run. *)
Definition extract (messages : json)
  : outcome (list string * (list string * list string)) :=
  scan (Json.items messages) (Json.items messages) ([], ([], [])).

End WithParser.

(** A conversation with a long user message and two tool calls. *)
Definition conversation : json :=
  Transcript.transcript_to_json
    [Transcript.mk_message "system" "You are an agent." None None;
     Transcript.mk_message "user" "write /a then list" None None;
     Transcript.mk_message "assistant" ""
       (Some [Transcript.mk_call "c1" "write" (Str.dq "{'file_path': '/a'}");
              Transcript.mk_call "c2" "bash" (Str.dq "{'command': 'ls'}")]) None;
     Transcript.mk_message "tool" "ok" None (Some "c1");
     Transcript.mk_message "tool" "a" None (Some "c2");
     Transcript.mk_message "user" "" None None;
     Transcript.mk_message "assistant" "done" None None].

End Compaction.

(* ===================================================================== *)
(** * The [/compact] command (agent.cpp) *)
(* ===================================================================== *)

Module CompactCommand.
Import Context.

(** [llm_compact_result] *)
Module Llm.
Record result : Type := mk_result {
  success : bool;
  summary : string;
  key_decisions : json;
  current_state : string;
  pending_tasks : list string;
  error : string
}.
End Llm.

(** The summary of phase 3 when the model gave none. *)
Definition fallback_summary (user_messages_list files_modified commands_run
                             : list string) : string :=
  "Conversation with " +:+ pretty (length user_messages_list) +:+
  " user messages. " +:+
  (match files_modified with
   | [] => ""
   | _ => "Modified " +:+ pretty (length files_modified) +:+ " files. "
   end) +:+
  (match commands_run with
   | [] => ""
   | _ => "Ran " +:+ pretty (length commands_run) +:+ " commands."
   end).

(** Phase 3 of [/compact]: the entry, from the vectors of phase 1, the
    plan reference and the result of the model. *)
Definition build_entry (user_messages_list files_modified commands_run
                        : list string) (plan_ref : string)
           (llm_result : Llm.result) : compact_entry :=
  if Llm.success llm_result then
    mk_entry "" user_messages_list files_modified commands_run plan_ref
             (Llm.summary llm_result) (Llm.key_decisions llm_result)
             (Llm.current_state llm_result) (Llm.pending_tasks llm_result)
  else
    mk_entry "" user_messages_list files_modified commands_run plan_ref
             (fallback_summary user_messages_list files_modified commands_run)
             JNull "" [].

Section WithEnvironment.
Variable parse : string -> option json.
Variable read_value : string -> option json.
Variable dump : json -> string.
Variable F : Fs.faults.
Variable base_path : string.

(** The [/compact] branch of the loop of [main], up to its call of
    [compact_context], which no handler surrounds: [messages] is
    [agent.get_messages()], [llm_result] what [run_llm_compaction]
    returned; what follows the call prints and reloads. *)
Definition compact_command (ts now : string) (fs : Fs.t)
           (current_context_id : string) (messages : json)
           (llm_result : Llm.result) : outcome bool * Fs.t :=
  match Compaction.extract parse messages with
  | Raise e => (Raise e, fs)
  | Ret (user_messages_list, (files_modified, commands_run)) =>
      let plan_ref :=
        if ContextOps.has_plan base_path fs current_context_id then "plan.md"
        else "" in
      compact_context read_value dump F base_path ts now fs current_context_id
        (build_entry user_messages_list files_modified commands_run plan_ref
                     llm_result)
  end.

End WithEnvironment.

(** A user message of more than 1000 bytes, valid UTF-8, in which the
    two bytes of a letter e with an acute accent follow [n] letters a. *)
Definition accent_after (n : nat) : string :=
  string_of_list_ascii (repeat "a"%char n) +:+
  String (ascii_of_nat 195) (String (ascii_of_nat 169) " is the last word").

(** A conversation that holds the message, and the store that holds
    the conversation. *)
Definition conversation_with (content : string) : conversation_state :=
  mk_state "c1" "2026-01-01T10:00:00.000Z" "2026-01-01T10:05:00.000Z"
           (JArr [JObj [("role", JStr "system"); ("content", JStr "You are an agent.")];
                  JObj [("role", JStr "user"); ("content", JStr content)];
                  JObj [("role", JStr "assistant"); ("content", JStr "done")]])
           (JObj []).

Definition store_of (st : conversation_state) : Fs.t :=
  {| Fs.files := {[ "/data/contexts/c1/conversation.json" :=
                      JsonText.dump (to_json st) ]};
     Fs.dirs := {[ "/data/contexts/c1" ]} |}.

(** The accented letter is the bytes of index 996 and 997: the cut
    to the first 997 bytes keeps the first of them only. *)
Definition split_state : conversation_state := conversation_with (accent_after 996).

(** The accented letter is the bytes of index 995 and 996: the cut
    keeps it whole. *)
Definition whole_state : conversation_state := conversation_with (accent_after 995).

(** [/compact] typed in the conversation [st], at a fixed time. *)
Definition compact_of (st : conversation_state) (llm_result : Llm.result)
  : outcome bool * Fs.t :=
  compact_command JsonText.parse JsonText.read_value JsonText.dump Fs.no_faults
    "/data" "20260101_100600" "2026-01-01T10:06:00.000Z"
    (store_of st) "c1" (messages st) llm_result.

(** A summary as the model returns it. *)
Definition llm_done : Llm.result :=
  Llm.mk_result true "One long message was answered." JNull "" [] "".

End CompactCommand.

(* ===================================================================== *)
(** * Agent definitions: what the front matter guarantees *)
(* ===================================================================== *)

Module RegistryOps.
Import Registry.

(** A tool name as [stream >> tool] reads it: not empty, without a
    white-space character. *)
Definition is_word (w : string) : Prop :=
  w <> "" /\ forallb (fun c => negb (isspace c)) (list_ascii_of_string w) = true.

(** The invariants of a definition that [parse_frontmatter] accepted. *)
Record well_formed (a : agent_definition) : Prop := mk_well_formed {
  wf_name : AgentName.validate_name (name a) = true;
  wf_description : description a <> "";
  wf_iterations : (MIN_MAX_ITERATIONS <= max_iterations a
                   <= SUBAGENT_MAX_ITERATIONS_LIMIT)%Z;
  wf_tools : Forall is_word (allowed_tools a);
  wf_instructions : Str.starts_with Str.newline (instructions a) = false
}.

(** A front matter with an iteration count out of range and tools
    separated by several blanks. *)
Definition greedy_md : string :=
  "---" +:+ Str.newline +:+
  "name: greedy" +:+ Str.newline +:+
  "description: wants it all" +:+ Str.newline +:+
  "allowed-tools:   bash    write " +:+ Str.newline +:+
  "max-iterations: 5000" +:+ Str.newline +:+
  "---" +:+ Str.newline +:+ Str.newline +:+ Str.newline +:+
  "Take everything.".

End RegistryOps.

(* ===================================================================== *)
(** * Common utilities (agent-common.h) *)
(* ===================================================================== *)

Module Common.

(** The [switch] of [escape_xml]. *)
Definition escape_xml_char (c : ascii) : string :=
  if Ascii.eqb c "&"%char then "&amp;"
  else if Ascii.eqb c "<"%char then "&lt;"
  else if Ascii.eqb c ">"%char then "&gt;"
  else if Ascii.eqb c Str.quote then "&quot;"
  else if Ascii.eqb c "'"%char then "&apos;"
  else String c "".

(** [escape_xml] *)
Fixpoint escape_xml (str : string) : string :=
  match str with
  | EmptyString => EmptyString
  | String c rest => escape_xml_char c +:+ escape_xml rest
  end.

(** The characters that [escape_xml] replaces. *)
Definition special (c : ascii) : bool :=
  Ascii.eqb c "&"%char || Ascii.eqb c "<"%char || Ascii.eqb c ">"%char ||
  Ascii.eqb c Str.quote || Ascii.eqb c "'"%char.

(** The characters that end or open markup or an attribute value. *)
Definition markup (c : ascii) : bool :=
  Ascii.eqb c "<"%char || Ascii.eqb c ">"%char ||
  Ascii.eqb c Str.quote || Ascii.eqb c "'"%char.

End Common.

(* ===================================================================== *)
(** * The command dispatcher (command-handler.h, command-handler.cpp) *)
(* ===================================================================== *)

Module Dispatcher.

Inductive command_result : Type :=
| CONTINUE
| EXIT
| RUN_PROMPT.

Section WithContext.
(** What a handler may change: the state behind [command_context]. *)
Variable State : Type.

Definition command_handler : Type := string -> State -> command_result * State.

(** [handlers_[name] = handler] on the map, kept as the list of its
    entries in the order of their keys. *)
Fixpoint register_command (name : string) (handler : command_handler)
         (handlers_ : list (string * command_handler))
  : list (string * command_handler) :=
  match handlers_ with
  | [] => [(name, handler)]
  | (k, h) :: rest =>
      if String.eqb name k then (k, handler) :: rest
      else if String.ltb name k then (name, handler) :: (k, h) :: rest
      else (k, h) :: register_command name handler rest
  end.

(** [command_dispatcher::dispatch] *)
Fixpoint dispatch (handlers_ : list (string * command_handler))
         (input : string) (ctx : State) : command_result * State :=
  match handlers_ with
  | [] => (RUN_PROMPT, ctx)
  | (cmd_name, handler) :: rest =>
      if String.eqb input cmd_name then handler "" ctx
      else if Str.starts_with (cmd_name +:+ " ") input
      then handler (Str.drop (String.length cmd_name + 1) input) ctx
      else dispatch rest input ctx
  end.

Fixpoint any_command (handlers_ : list (string * command_handler))
         (input : string) : bool :=
  match handlers_ with
  | [] => false
  | (cmd_name, _) :: rest =>
      if String.eqb input cmd_name || Str.starts_with (cmd_name +:+ " ") input
      then true
      else any_command rest input
  end.

(** [command_dispatcher::is_command] *)
Definition is_command (handlers_ : list (string * command_handler))
           (input : string) : bool :=
  if Str.empty input || negb (bool_decide (Str.at_ input 0 = Some "/"%char))
  then false
  else any_command handlers_ input.

(** [command_dispatcher::get_command_names] *)
Definition get_command_names (handlers_ : list (string * command_handler))
  : list string :=
  List.map fst handlers_.

(** The handlers after the registrations, made in the order given. *)
Definition registered (l : list (string * command_handler))
  : list (string * command_handler) :=
  fold_left (fun hs p => register_command (fst p) (snd p) hs) l [].

End WithContext.

(** [input] is the command [name], alone or followed by a blank and
    arguments. *)
Definition calls (name args input : string) : Prop :=
  (input = name /\ args = "") \/ input = name +:+ " " +:+ args.

(** A command name of the agent: no blank in it. *)
Definition plain (name : string) : Prop :=
  ~ In " "%char (list_ascii_of_string name).

(** The commands that [main] registers, in its order, each with a
    handler that records its name and its arguments. *)
Definition recorder (name : string) : command_handler (list (string * string)) :=
  fun args log =>
    (if String.eqb name "/exit" || String.eqb name "/quit" then EXIT else CONTINUE,
     log ++ [(name, args)]).

Definition main_commands : list (string * command_handler (list (string * string))) :=
  registered (list (string * string))
    (List.map (fun n => (n, recorder n))
       ["/exit"; "/quit"; "/clear"; "/list"; "/switch"; "/delete";
        "/tools"; "/stats"; "/skills"; "/subagents"; "/plan"]).

Arguments dispatch {State} handlers_ input ctx.
Arguments is_command {State} handlers_ input.
Arguments any_command {State} handlers_ input.
Arguments register_command {State} name handler handlers_.
Arguments get_command_names {State} handlers_.

End Dispatcher.

(* ===================================================================== *)
(** * Contexts by prefix (command-handler.cpp) *)
(* ===================================================================== *)

Module ContextPrefix.

(** [context_summary] *)
Record context_summary : Type := mk_summary {
  cs_id : string;
  cs_updated_at : string;
  cs_preview : string;
  cs_message_count : Z
}.

(** The two trimming loops of [find_context_by_prefix]. *)
Definition trim_spaces (s : string) : string :=
  string_of_list_ascii
    (Registry.trim_right Registry.isspace
       (Registry.drop_while Registry.isspace (list_ascii_of_string s))).

(** The loop over the contexts: the id matched last and the count. *)
Fixpoint count_matches (target : string) (contexts : list context_summary)
         (matched_id : string) (match_count : Z) : string * Z :=
  match contexts with
  | [] => (matched_id, match_count)
  | ctx :: rest =>
      if Str.starts_with target (cs_id ctx)
      then count_matches target rest (cs_id ctx) (match_count + 1)%Z
      else count_matches target rest matched_id match_count
  end.

(** [find_context_by_prefix] on the list that [list_contexts]
    returned: the matched id and, on an error, the message put in
    [error_msg]. *)
Definition find_context_by_prefix (contexts : list context_summary)
           (prefix : string) : string * option string :=
  let target := trim_spaces prefix in
  if Str.empty target then ("", Some "No context ID specified.")
  else
    let '(matched_id, match_count) := count_matches target contexts "" 0 in
    if Z.eqb match_count 0
    then ("", Some ("No context matching '" +:+ target +:+ "' found."))
    else if (1 <? match_count)%Z
    then ("", Some ("Multiple contexts match '" +:+ target +:+
                    "'. Be more specific."))
    else (matched_id, None).

(** The contexts whose id begins with [target]. *)
Definition candidates (target : string) (contexts : list context_summary)
  : list context_summary :=
  List.filter (fun c => Str.starts_with target (cs_id c)) contexts.

Definition three_contexts : list context_summary :=
  [mk_summary "0a1b2c3d-0000" "2026-01-03" "third" 4;
   mk_summary "0a1bffff-0000" "2026-01-02" "second" 2;
   mk_summary "77aa0000-0000" "2026-01-01" "first" 9].

End ContextPrefix.

(* ===================================================================== *)
(** * The [read_plan] tool *)
(* ===================================================================== *)

Module ReadPlan.
Import SpawnTool.

(** The fields of [tool_context] that the tool reads. *)
Record tool_context : Type := mk_tool_context {
  tc_working_dir : string;
  tc_context_base_path : string;
  tc_context_id : string
}.

Section WithEnvironment.
Variable F : Fs.faults.
(** [find_most_recent_plan]: the path of the plan written last under
    a directory of contexts and the id of its context, when there is
    one. *)
Variable find_most_recent_plan : Fs.t -> string -> option (string * string).

(** [read_plan_execute] *)
Definition read_plan_execute (args : json) (ctx : tool_context) (fs : Fs.t)
  : outcome tool_result :=
  context_id0 ← Json.value_string args "context_id" "";
  let base_path :=
    if Str.empty (tc_context_base_path ctx)
    then tc_working_dir ctx +:+ "/.llama-agent"
    else tc_context_base_path ctx in
  let contexts_dir := base_path +:+ "/contexts" in
  let context_id1 :=
    if Str.empty context_id0 && negb (Str.empty (tc_context_id ctx))
    then tc_context_id ctx else context_id0 in
  let located :=
    if Str.empty context_id1 then
      match find_most_recent_plan fs contexts_dir with
      | Some (plan_path, found_id) =>
          if Str.empty plan_path then None else Some (plan_path, found_id)
      | None => None
      end
    else Some (contexts_dir +:+ "/" +:+ context_id1 +:+ "/plan.md", context_id1) in
  match located with
  | None =>
      Ret (mk_tool_result false ""
             ("No plans found in: " +:+ contexts_dir +:+ Str.newline +:+
              "Use context_id parameter to specify a specific plan."))
  | Some (plan_path, context_id) =>
      if negb (Fs.exists_ fs plan_path) then
        let json_path := contexts_dir +:+ "/" +:+ context_id +:+ "/plan.json" in
        if Fs.exists_ fs json_path then
          match Fs.read_in F fs json_path with
          | None =>
              Ret (mk_tool_result false ""
                     ("Failed to read legacy plan.json for context: " +:+ context_id))
          | Some text =>
              Ret (mk_tool_result true
                     ("Note: This is a legacy JSON plan format." +:+ Str.newline
                      +:+ Str.newline +:+ text) "")
          end
        else
          Ret (mk_tool_result false ""
                 ("No plan found for context: " +:+ context_id +:+ Str.newline +:+
                  "Expected path: " +:+ plan_path))
      else
        match Fs.read_in F fs plan_path with
        | None =>
            Ret (mk_tool_result false "" ("Failed to read plan file: " +:+ plan_path))
        | Some content =>
            if Str.empty content
            then Ret (mk_tool_result false ""
                        ("Plan file is empty: " +:+ plan_path))
            else Ret (mk_tool_result true
                        ("# Plan from context: " +:+ context_id +:+ Str.newline +:+
                         "# Path: " +:+ plan_path +:+ Str.newline +:+ Str.newline
                         +:+ content) "")
        end
  end.

End WithEnvironment.

(** No plan is the most recent one. *)
Definition none_recent (fs : Fs.t) (dir : string) : option (string * string) := None.

End ReadPlan.

(* ===================================================================== *)
(** * The interactive Q&A screen (interactive-qa.h, interactive-qa.cpp) *)
(* ===================================================================== *)

Module QaUi.
Import Questions QaSession.

(** [qa_result] *)
Inductive qa_result : Type :=
| COMPLETED
| ABORTED
| INTERRUPTED.

(** The members of [interactive_qa_ui] that its logic reads; the
    session is the one the caller passed by reference.  What the screen
    prints is left out; the accesses that printing makes are kept (see
    [render]). *)
Record ui : Type := mk_ui {
  session_ : qa_session;
  current_option_index_ : Z;
  in_custom_mode_ : bool;
  custom_input_ : string
}.

(** [static_cast<int>(v.size())] *)
Definition size {A} (v : list A) : Z := Z.of_nat (List.length v).

(** [v[i]] for an [int] index: outside the vector the behaviour is
    undefined, which is [None] here and in every function below. *)
Definition at_ {A} (v : list A) (i : Z) : option A :=
  if (i <? 0)%Z then None else v !! Z.to_nat i.

(** The key codes read by [read_char]. *)
Definition KEY_ESC : Z := 27.
Definition KEY_ENTER : Z := 13.
Definition KEY_NEWLINE : Z := 10.
Definition KEY_TAB : Z := 9.
Definition KEY_CTRL_D : Z := 4.
Definition KEY_BRACKET : Z := 91.
Definition KEY_A : Z := 65.
Definition KEY_B : Z := 66.
Definition KEY_C : Z := 67.
Definition KEY_D : Z := 68.
Definition KEY_h : Z := 104.
Definition KEY_j : Z := 106.
Definition KEY_k : Z := 107.
Definition KEY_l : Z := 108.
Definition KEY_q : Z := 113.
Definition KEY_y : Z := 121.
Definition KEY_Y : Z := 89.
Definition KEY_DEL : Z := 127.
Definition KEY_BS : Z := 8.

Definition set_session (s : qa_session) (u : ui) : ui :=
  mk_ui s (current_option_index_ u) (in_custom_mode_ u) (custom_input_ u).

Definition set_option_index (i : Z) (u : ui) : ui :=
  mk_ui (session_ u) i (in_custom_mode_ u) (custom_input_ u).

Definition set_custom_mode (b : bool) (u : ui) : ui :=
  mk_ui (session_ u) (current_option_index_ u) b (custom_input_ u).

Definition set_custom_input (t : string) (u : ui) : ui :=
  mk_ui (session_ u) (current_option_index_ u) (in_custom_mode_ u) t.

(** The answer of a question, written through the reference [q]. *)
Definition answer (a : string) (index : Z) (custom : bool) (q : plan_question)
  : plan_question :=
  mk_question (q_id q) (text q) (options q) a custom index.

(** The session with its question [i] replaced. *)
Definition put_question (i : Z) (q : plan_question) (s : qa_session) : qa_session :=
  mk_qa (<[Z.to_nat i := q]> (questions s)) (current_question_index s).

Definition no_questions (s : qa_session) : bool :=
  match questions s with [] => true | _ => false end.

(** The constructor. *)
Definition new_ui (session : qa_session) : option ui :=
  let u := mk_ui session 0 false "" in
  if no_questions session then Some u
  else
    q ← at_ (questions session) (current_question_index session);
    if (0 <=? selected_option_index q)%Z
    then Some (set_option_index (selected_option_index q) u)
    else if is_custom q
         then Some (mk_ui session (size (options q)) true (selected_answer q))
         else Some u.

(** [render]: [render_question], [render_options] and [clear_ui_area]
    (through [option_count]) read the current question after the test
    [current_question_index >= questions.size()]. *)
Definition render (u : ui) : option unit :=
  let s := session_ u in
  if (size (questions s) <=? current_question_index s)%Z then Some tt
  else
    _ ← at_ (questions s) (current_question_index s);
    Some tt.

(** [option_count] *)
Definition option_count (u : ui) : option Z :=
  let s := session_ u in
  if (size (questions s) <=? current_question_index s)%Z then Some 0%Z
  else
    q ← at_ (questions s) (current_question_index s);
    Some (size (options q) + 1)%Z.

(** [all_answered] *)
Definition all_answered (u : ui) : bool := is_complete (session_ u).

(** The block that restores the selection for the question [q] shown
    next; it stands three times in the source. *)
Definition restore_selection (q : plan_question) (u : ui) : ui :=
  let u1 :=
    if is_custom q
    then set_custom_input (selected_answer q)
           (set_option_index (size (options q)) u)
    else if (0 <=? selected_option_index q)%Z
         then set_option_index (selected_option_index q) u
         else set_option_index 0 u in
  set_custom_mode false u1.

Definition set_question_index (i : Z) (u : ui) : ui :=
  set_session (mk_qa (questions (session_ u)) i) u.

(** [save_current_selection] *)
Definition save_current_selection (u : ui) : option ui :=
  if in_custom_mode_ u && negb (Str.empty (custom_input_ u)) then
    let s := session_ u in
    q ← at_ (questions s) (current_question_index s);
    Some (set_session
            (put_question (current_question_index s)
               (answer (custom_input_ u) (-1) true q) s) u)
  else Some u.

(** [next_tab] *)
Definition next_tab (u : ui) : option ui :=
  u1 ← save_current_selection u;
  let s := session_ u1 in
  if (current_question_index s <? size (questions s) - 1)%Z then
    let u2 := set_question_index (current_question_index s + 1) u1 in
    q ← at_ (questions (session_ u2)) (current_question_index (session_ u2));
    Some (restore_selection q u2)
  else Some u1.

(** [prev_tab] *)
Definition prev_tab (u : ui) : option ui :=
  u1 ← save_current_selection u;
  let s := session_ u1 in
  if (0 <? current_question_index s)%Z then
    let u2 := set_question_index (current_question_index s - 1) u1 in
    q ← at_ (questions (session_ u2)) (current_question_index (session_ u2));
    Some (restore_selection q u2)
  else Some u1.

(** [next_option] *)
Definition next_option (u : ui) : option ui :=
  n ← option_count u;
  Some (if (current_option_index_ u <? n - 1)%Z
        then set_option_index (current_option_index_ u + 1) u
        else u).

(** [prev_option] *)
Definition prev_option (u : ui) : ui :=
  if (0 <? current_option_index_ u)%Z
  then set_option_index (current_option_index_ u - 1) u
  else u.

(** [select_current_option] *)
Definition select_current_option (u : ui) : option ui :=
  let s := session_ u in
  if (size (questions s) <=? current_question_index s)%Z then Some u
  else
    q ← at_ (questions s) (current_question_index s);
    if (current_option_index_ u <? size (options q))%Z then
      a ← at_ (options q) (current_option_index_ u);
      Some (set_session
              (put_question (current_question_index s)
                 (answer a (current_option_index_ u) false q) s) u)
    else if in_custom_mode_ u && negb (Str.empty (custom_input_ u)) then
      Some (set_session
              (put_question (current_question_index s)
                 (answer (custom_input_ u) (-1) true q) s) u)
    else Some u.

(** [toggle_custom_mode] *)
Definition toggle_custom_mode (u : ui) : option ui :=
  let s := session_ u in
  q ← at_ (questions s) (current_question_index s);
  let u1 := set_custom_mode (negb (in_custom_mode_ u)) u in
  if in_custom_mode_ u1 then
    let u2 := set_option_index (size (options q)) u1 in
    Some (set_custom_input (if is_custom q then selected_answer q else "") u2)
  else Some u1.

(** [static_cast<char>(ch)] for a printable [ch]. *)
Definition char_of (ch : Z) : ascii := ascii_of_N (Z.to_N ch).

(** [handle_custom_input] *)
Definition handle_custom_input (ch : Z) (u : ui) : option ui :=
  if (ch =? KEY_ENTER)%Z || (ch =? KEY_NEWLINE)%Z then
    if negb (Str.empty (custom_input_ u)) then
      u1 ← select_current_option u;
      Some (set_custom_mode false u1)
    else Some u
  else if (ch =? KEY_DEL)%Z || (ch =? KEY_BS)%Z then
    if negb (Str.empty (custom_input_ u))
    then Some (set_custom_input (Str.pop_back (custom_input_ u)) u)
    else Some u
  else if (32 <=? ch)%Z && (ch <? 127)%Z then
    Some (set_custom_input (custom_input_ u +:+ String (char_of ch) "") u)
  else Some u.

(** The loop of the Enter key that looks for the next question
    without an answer: [turns] turns are left, the next has counter
    [i]. *)
Fixpoint seek_unanswered (turns : nat) (i start n : Z) (u : ui) : option ui :=
  match turns with
  | O => Some u
  | S turns' =>
      let idx := Z.rem (start + i) n in
      q ← at_ (questions (session_ u)) idx;
      if Str.empty (selected_answer q)
      then Some (restore_selection q (set_question_index idx u))
      else seek_unanswered turns' (i + 1) start n u
  end.

(** What reading from the terminal gives: a value and the keys not
    yet read; nothing, the keys typed so far being used up (the read
    blocks); or undefined behaviour. *)
Inductive reading (A : Type) : Type :=
| Got (a : A) (rest : list Z)
| Blocked
| Undefined.
Arguments Got {A} a rest.
Arguments Blocked {A}.
Arguments Undefined {A}.

Definition defined {A} (o : option A) (rest : list Z) : reading A :=
  match o with
  | Some a => Got a rest
  | None => Undefined
  end.

(** [confirm_abort] *)
Definition confirm_abort (keys : list Z) : reading bool :=
  match keys with
  | [] => Blocked
  | ch :: rest => Got ((ch =? KEY_y)%Z || (ch =? KEY_Y)%Z) rest
  end.

(** [if (confirm_abort()) return false;] and the [return true] that
    follows. *)
Definition abort_or_continue (keys : list Z) (u : ui) : reading (bool * ui) :=
  match confirm_abort keys with
  | Got yes rest => Got (negb yes, u) rest
  | Blocked => Blocked
  | Undefined => Undefined
  end.

Definition continue (o : option ui) (rest : list Z) : reading (bool * ui) :=
  defined (u ← o; Some (true, u)) rest.

(** [handle_input]: [keys] are the results of the calls of
    [read_char] to come (0 when a read fails). *)
Definition handle_input (keys : list Z) (u : ui) : reading (bool * ui) :=
  match keys with
  | [] => Blocked
  | ch :: keys1 =>
      if (ch =? 0)%Z then Got (true, u) keys1
      else if (ch =? KEY_ESC)%Z then
        match keys1 with
        | [] => Blocked
        | next :: keys2 =>
            if (next =? KEY_BRACKET)%Z then
              match keys2 with
              | [] => Blocked
              | code :: keys3 =>
                  if (code =? KEY_A)%Z then
                    Got (true, if in_custom_mode_ u then u else prev_option u) keys3
                  else if (code =? KEY_B)%Z then
                    continue (if in_custom_mode_ u then Some u else next_option u) keys3
                  else if (code =? KEY_C)%Z then
                    continue (if in_custom_mode_ u then Some u else next_tab u) keys3
                  else if (code =? KEY_D)%Z then
                    continue (if in_custom_mode_ u then Some u else prev_tab u) keys3
                  else Got (true, u) keys3
              end
            else if (next =? 0)%Z || (next =? KEY_ESC)%Z then
              if in_custom_mode_ u
              then Got (true, set_custom_input "" (set_custom_mode false u)) keys2
              else abort_or_continue keys2 u
            else Got (true, u) keys2
        end
      else if in_custom_mode_ u then continue (handle_custom_input ch u) keys1
      else if (ch =? KEY_ENTER)%Z || (ch =? KEY_NEWLINE)%Z then
        defined
          (u1 ← select_current_option u;
           if all_answered u1 then Some (false, u1)
           else
             let start := current_question_index (session_ u1) in
             let n := size (questions (session_ u1)) in
             u2 ← seek_unanswered (Z.to_nat n) 1 start n u1;
             Some (true, u2))
          keys1
      else if (ch =? KEY_TAB)%Z then continue (toggle_custom_mode u) keys1
      else if (ch =? KEY_CTRL_D)%Z then Got (negb (all_answered u), u) keys1
      else if (ch =? KEY_j)%Z then continue (next_option u) keys1
      else if (ch =? KEY_k)%Z then Got (true, prev_option u) keys1
      else if (ch =? KEY_h)%Z then continue (prev_tab u) keys1
      else if (ch =? KEY_l)%Z then continue (next_tab u) keys1
      else if (ch =? KEY_q)%Z then abort_or_continue keys1 u
      else Got (true, u) keys1
  end.

(** The loop of [run]: [is_interrupted i] is what the flag holds when
    the loop tests it for the [i]-th time.  Every turn that goes on
    reads a key, so [fuel] above the number of keys is never used up. *)
Fixpoint loop (fuel : nat) (is_interrupted : nat -> bool) (i : nat)
         (keys : list Z) (u : ui) : reading (qa_result * ui) :=
  match fuel with
  | O => Blocked
  | S fuel' =>
      if is_interrupted i then Got (INTERRUPTED, u) keys
      else
        match handle_input keys u with
        | Got (false, u1) rest => Got (COMPLETED, u1) rest
        | Got (true, u1) rest =>
            match render u1 with
            | None => Undefined
            | Some _ => loop fuel' is_interrupted (S i) rest u1
            end
        | Blocked => Blocked
        | Undefined => Undefined
        end
  end.

(** [interactive_qa_ui::show]: the constructor, then [run];
    [raw_mode] tells whether the terminal could be put in raw mode.
    The session returned is the caller's after the call. *)
Definition show (raw_mode : bool) (is_interrupted : nat -> bool)
           (keys : list Z) (session : qa_session)
  : reading (qa_result * qa_session) :=
  match new_ui session with
  | None => Undefined
  | Some u =>
      if no_questions (session_ u) then Got (COMPLETED, session_ u) keys
      else if negb raw_mode then Got (ABORTED, session_ u) keys
      else
        match render u with
        | None => Undefined
        | Some _ =>
            match loop (S (List.length keys)) is_interrupted 0 keys u with
            | Got (result, u1) rest =>
                let s := session_ u1 in
                match at_ (questions s) (current_question_index s) with
                | None => Undefined
                | Some q =>
                    if Str.empty (selected_answer q) && negb (all_answered u1)
                    then Got (ABORTED, s) rest
                    else Got (result, s) rest
                end
            | Blocked => Blocked
            | Undefined => Undefined
            end
        end
  end.

(** What the screen never changes of a question. *)
Definition frame (q : plan_question) : Z * string * list string :=
  (q_id q, text q, options q).

(** An option index that is recorded names the recorded answer. *)
Definition consistent (q : plan_question) : Prop :=
  (-1 <= selected_option_index q < size (options q))%Z /\
  (0 <= selected_option_index q ->
   options q !! Z.to_nat (selected_option_index q) = Some (selected_answer q))%Z.

(** A session that the screen can show: the current question is one
    of the questions and the recorded option indices are those of
    options. *)
Definition well_formed (s : qa_session) : Prop :=
  (questions s = [] \/
   (0 <= current_question_index s < size (questions s))%Z) /\
  Forall consistent (questions s).

(** What holds of the screen between two keys: the current question
    is one of the questions, the highlighted entry is one of its
    options or the custom entry, and in custom mode it is the custom
    entry. *)
Definition inv (u : ui) : Prop :=
  let s := session_ u in
  Forall consistent (questions s) /\
  exists q,
    at_ (questions s) (current_question_index s) = Some q /\
    (0 <= current_option_index_ u <= size (options q))%Z /\
    (in_custom_mode_ u = true -> current_option_index_ u = size (options q)).

(** The questions of [u'] are those of [u], answers apart. *)
Definition same_frame (u u' : ui) : Prop :=
  List.map frame (questions (session_ u')) = List.map frame (questions (session_ u)).

(** The answer given by pressing Enter on a question as it is first
    shown: its first option. *)
Definition first_option (q : plan_question) : plan_question :=
  match options q with
  | [] => q
  | a :: _ => answer a 0 false q
  end.

(** A question as [parse_questions_from_json] leaves it whose first
    option is not the empty text. *)
Definition fresh (q : plan_question) : Prop :=
  unanswered q /\ forall a rest, options q = a :: rest -> a <> "".

(** The questions after the first [k] of them got their first
    option for an answer. *)
Definition answered_prefix (k : nat) (qs : list plan_question)
  : list plan_question :=
  List.map first_option (take k qs) ++ drop k qs.

(** The screen on question [i], its first entry highlighted. *)
Definition on_question (qs : list plan_question) (i : Z) : ui :=
  mk_ui (mk_qa qs i) 0 false "".

(** Two questions as [parse_questions_from_json] leaves them. *)
Definition two_questions : qa_session :=
  mk_qa [mk_question 1 "Which store?" ["sqlite"; "files"] "" false (-1);
         mk_question 2 "Which format?" ["json"] "" false (-1)] 0.

Definition never : nat -> bool := fun _ => false.

End QaUi.

(* ===================================================================== *)
(** * The [/plan] command on a saved session (cmd-plan.cpp) *)
(* ===================================================================== *)

Module PlanResume.
Import Planning PlanningOps Questions Dispatcher.

(** [response.find(c) != std::string::npos] *)
Definition contains_char (c : ascii) (s : string) : bool :=
  existsb (Ascii.eqb c) (list_ascii_of_string s).

(** The answer to the question whether to resume: [readline]
    returned a line that holds a [y] or a [Y]. *)
Definition wants_resume (response : option string) : bool :=
  match response with
  | Some line => contains_char "y" line || contains_char "Y" line
  | None => false
  end.

Section WithEnvironment.
Variable dump : json -> string.
Variable parse : string -> option json.
Variable F : Fs.faults.

(** What the command reads besides the files: the clock, the
    terminal and the model.  [Env] is the state of that world. *)
Variable Env : Type.
(** [planning_state_machine::get_timestamp] *)
Variable get_timestamp : Env -> string * Env.
(** [console::readline]: the line read, when the call returns true. *)
Variable readline : Env -> option string * Env.
(** [interactive_qa_ui::show]: its result and the session as the
    screen leaves it. *)
Variable show : qa_session -> Env -> QaUi.qa_result * qa_session * Env.
(** [prompt_approval] *)
Variable prompt_approval : string -> Env -> bool * Env.
(** [run_planning_workflow] *)
Variable run_planning_workflow :
  machine -> Fs.t -> Env -> outcome command_result * machine * Fs.t * Env.

(** [psm.transition_to]: the clock is read when the transition is
    valid. *)
Definition psm_transition_to (new_state : planning_state)
           (m : machine) (fs : Fs.t) (e : Env)
  : outcome bool * machine * Fs.t * Env :=
  if validate_transition (current_state m) new_state then
    let '(now, e1) := get_timestamp e in
    (transition_to dump F now new_state m fs, e1)
  else (Ret false, m, fs, e).

(** [psm.start]: the clock is read when the machine is idle. *)
Definition psm_start (task_ ctx : string) (m : machine) (fs : Fs.t) (e : Env)
  : outcome bool * machine * Fs.t * Env :=
  if bool_decide (current_state m = IDLE) then
    let '(now, e1) := get_timestamp e in
    (start dump F now task_ ctx m fs, e1)
  else (Ret false, m, fs, e).

(** The cases REFINING and AWAITING_APPROVAL of
    [resume_planning_session], which the cases before them fall
    through to. *)
Definition approval (m : machine) (fs : Fs.t) (e : Env)
  : outcome command_result * machine * Fs.t * Env :=
  match psm_transition_to AWAITING_APPROVAL m fs e with
  | (Raise x, m1, fs1, e1) => (Raise x, m1, fs1, e1)
  | (Ret _, m1, fs1, e1) =>
      let '(yes, e2) := prompt_approval "Approve this plan?" e1 in
      if yes then
        match psm_transition_to APPROVED m1 fs1 e2 with
        | (Raise x, m2, fs2, e3) => (Raise x, m2, fs2, e3)
        | (Ret _, m2, fs2, e3) => (Ret CONTINUE, m2, fs2, e3)
        end
      else (Ret CONTINUE, m1, fs1, e2)
  end.

(** [resume_planning_session]; the machine returned is [psm] as the
    function leaves it. *)
Definition resume_planning_session (m : machine) (fs : Fs.t) (e : Env)
  : outcome command_result * machine * Fs.t * Env :=
  match current_state m with
  | EXPLORING | SYNTHESIZING => run_planning_workflow m fs e
  | QUESTIONING | AWAITING_ANSWERS =>
      match QaSession.from_json (Planning.questions (session_ m)) with
      | Raise x => (Raise x, m, fs, e)
      | Ret qa =>
          match Questions.questions qa with
          | [] =>
              match psm_transition_to AWAITING_APPROVAL m fs e with
              | (Raise x, m1, fs1, e1) => (Raise x, m1, fs1, e1)
              | (Ret _, m1, fs1, e1) => approval m1 fs1 e1
              end
          | _ :: _ =>
              let '(result, qa1, e1) := show qa e in
              match result with
              | QaUi.COMPLETED =>
                  let '(now, e2) := get_timestamp e1 in
                  approval (set_answers now (QaSession.to_json qa1) m) fs e2
              | _ =>
                  match save dump F m fs with
                  | (Raise x, fs1) => (Raise x, m, fs1, e1)
                  | (Ret _, fs1) => (Ret CONTINUE, m, fs1, e1)
                  end
              end
          end
      end
  | REFINING | AWAITING_APPROVAL => approval m fs e
  | APPROVED => (Ret CONTINUE, m, fs, e)
  | ABORTED =>
      match psm_start (task (session_ m)) (context_id (session_ m)) m fs e with
      | (Raise x, m1, fs1, e1) => (Raise x, m1, fs1, e1)
      | (Ret _, m1, fs1, e1) => run_planning_workflow m1 fs1 e1
      end
  | IDLE => (Ret CONTINUE, m, fs, e)
  end.

(** [handle_plan_impl]: [agents] is the registry of the command
    context, [base] the base path of its context manager and
    [current_context_id] its context. *)
Definition handle_plan_impl (agents : list Registry.agent_definition)
           (base current_context_id : string)
           (args : string) (fs : Fs.t) (e : Env)
  : outcome command_result * machine * Fs.t * Env :=
  let task_ := args in
  let psm := new_machine base in
  match Registry.get_agent agents "planning-agent" with
  | None => (Ret CONTINUE, psm, fs, e)
  | Some _ =>
      let fresh_start (psm1 : machine) (e1 : Env) :=
        if Str.empty task_ then (Ret CONTINUE, psm1, fs, e1)
        else
          match psm_start task_ current_context_id psm1 fs e1 with
          | (Raise x, m1, fs1, e2) => (Raise x, m1, fs1, e2)
          | (Ret false, m1, fs1, e2) => (Ret CONTINUE, m1, fs1, e2)
          | (Ret true, m1, fs1, e2) => run_planning_workflow m1 fs1 e2
          end in
      if has_saved_session psm fs current_context_id then
        let '(loaded, psm1) := load parse F current_context_id psm fs in
        if loaded then
          if is_active psm1 then
            let '(response, e1) := readline e in
            if wants_resume response
            then resume_planning_session psm1 fs e1
            else fresh_start psm1 e1
          else fresh_start psm1 e
        else fresh_start psm1 e
      else fresh_start psm e
  end.

(** What a call leaves: its result, [psm], the files. *)
Definition result_of (x : outcome command_result * machine * Fs.t * Env)
  : outcome command_result := fst (fst (fst x)).
Definition machine_after (x : outcome command_result * machine * Fs.t * Env)
  : machine := snd (fst (fst x)).
Definition files_after (x : outcome command_result * machine * Fs.t * Env)
  : Fs.t := snd (fst x).

End WithEnvironment.

Arguments result_of {Env} x.
Arguments machine_after {Env} x.
Arguments files_after {Env} x.

(** A terminal script: the keys still to be read. *)
Definition scripted_show (qa : qa_session) (keys : list Z)
  : QaUi.qa_result * qa_session * list Z :=
  match QaUi.show true QaUi.never keys qa with
  | QaUi.Got (r, qa1) rest => (r, qa1, rest)
  | _ => (QaUi.ABORTED, qa, [])
  end.

Definition scripted_approval (prompt : string) (keys : list Z) : bool * list Z :=
  match keys with
  | [] => (false, [])
  | ch :: rest => ((ch =? QaUi.KEY_y)%Z || (ch =? QaUi.KEY_Y)%Z, rest)
  end.

(** A line is a run of keys up to a newline. *)
Fixpoint scripted_readline (keys : list Z) : option string * list Z :=
  match keys with
  | [] => (None, [])
  | ch :: rest =>
      if (ch =? QaUi.KEY_NEWLINE)%Z then (Some "", rest)
      else
        let '(line, rest1) := scripted_readline rest in
        (match line with
         | Some l => Some (String (QaUi.char_of ch) l)
         | None => None
         end, rest1)
  end.

Definition frozen_clock (keys : list Z) : string * list Z :=
  ("2026-01-01T11:00:00", keys).

Definition no_workflow (m : machine) (fs : Fs.t) (keys : list Z)
  : outcome command_result * machine * Fs.t * list Z :=
  (Ret EXIT, m, fs, keys).

(** A session saved while its questions were shown. *)
Definition questioning_session : planning_session :=
  mk_session QUESTIONING "c1" "refactor foo" "findings" "## Phase 1"
             (QaSession.to_json QaUi.two_questions) (JArr []) 0
             "/data/contexts/c1/plan.md"
             "2026-01-01T10:00:00" "2026-01-01T10:04:00".

Definition questioning_fs : Fs.t :=
  {| Fs.files :=
       {[ "/data/contexts/c1/plan_state.json" :=
            JsonText.dump (Planning.to_json questioning_session) ]};
     Fs.dirs := {[ "/data/contexts/c1" ]} |}.

(** The user asks to resume, answers both questions with Enter and
    approves. *)
Definition resume_answer_approve : list Z :=
  [QaUi.KEY_y; QaUi.KEY_NEWLINE; QaUi.KEY_ENTER; QaUi.KEY_ENTER; QaUi.KEY_y].

Definition planner : Registry.agent_definition :=
  Registry.agent_named "planning-agent" "<embedded>".

End PlanResume.

(* ===================================================================== *)
(** * The workflow of the [/plan] command (cmd-plan.cpp) *)
(* ===================================================================== *)

Module PlanWorkflow.
Import Planning PlanningOps Questions Dispatcher.

(** [build_task_aware_exploration_prompt] *)
Definition build_task_aware_exploration_prompt (task_ : string) : string :=
  "## User Task" +:+ Str.newline +:+ Str.newline +:+ task_ +:+
  Str.newline +:+ Str.newline +:+
  "## Your Mission" +:+ Str.newline +:+ Str.newline +:+
  "Explore the codebase to understand what exists and how the user's task should integrate." +:+
  Str.newline +:+ Str.newline +:+
  "## Deliverables" +:+ Str.newline +:+ Str.newline +:+
  "1. **Relevant Files**: List files directly related to the task with brief descriptions" +:+
  Str.newline +:+
  "2. **Architecture Overview**: How does this codebase organize code?" +:+
  Str.newline +:+
  "3. **Integration Points**: Where should the new functionality hook in?" +:+
  Str.newline +:+
  "4. **Existing Patterns**: What conventions/patterns are already in use?" +:+
  Str.newline +:+
  "5. **Dependencies**: What systems/modules would this task touch?" +:+
  Str.newline +:+ Str.newline +:+
  "Use glob for structure, read for content. Be thorough - your findings will be used to create an implementation plan.".

(** [build_planning_prompt] *)
Definition build_planning_prompt (task_ exploration_findings : string) : string :=
  "## User Task" +:+ Str.newline +:+ Str.newline +:+ task_ +:+
  Str.newline +:+ Str.newline +:+
  "## Codebase Exploration Results" +:+ Str.newline +:+ Str.newline +:+
  exploration_findings +:+ Str.newline +:+ Str.newline +:+
  "## Your Mission" +:+ Str.newline +:+ Str.newline +:+
  "Create a comprehensive implementation plan based on the exploration findings above." +:+
  Str.newline +:+ Str.newline +:+
  "You do NOT need to explore the codebase - findings are provided above." +:+
  Str.newline +:+
  "Focus entirely on strategic planning and design decisions." +:+
  Str.newline +:+ Str.newline +:+
  "## Required Output" +:+ Str.newline +:+ Str.newline +:+
  "1. A markdown implementation plan with phases, files to modify, and steps" +:+
  Str.newline +:+
  "2. **5-7 design decision questions** to align with user intent" +:+
  Str.newline +:+ Str.newline +:+
  "Output questions in JSON format:" +:+ Str.newline +:+
  "```json" +:+ Str.newline +:+
  "{" +:+ Str.newline +:+
  Str.dq "  'questions': [" +:+ Str.newline +:+
  "    {" +:+ Str.newline +:+
  Str.dq "      'id': 1," +:+ Str.newline +:+
  Str.dq "      'text': 'Which approach do you prefer?'," +:+ Str.newline +:+
  Str.dq "      'options': ['Option A', 'Option B', 'Option C']" +:+ Str.newline +:+
  "    }" +:+ Str.newline +:+
  "  ]" +:+ Str.newline +:+
  "}" +:+ Str.newline +:+
  "```" +:+ Str.newline +:+ Str.newline +:+
  "Remember: Ask many thoughtful questions to ensure alignment with user intent.".

(** The prompt of a further turn of the planning agent. *)
Definition continuation_prompt (qa : qa_session) : string :=
  QaSession.format_answers_for_prompt qa +:+
  Str.newline +:+ Str.newline +:+
  "Please refine the plan based on these decisions. " +:+
  "If any critical design decisions remain unclear, generate follow-up questions.".

(** [extract_plan_content] *)
Definition extract_plan_content (agent_output : string) : string :=
  match Str.find agent_output Extract.fence_lower 0 with
  | Some json_start => Str.substr agent_output 0 json_start
  | None =>
      match Str.find agent_output Extract.questions_literal 0 with
      | Some inline_json => Str.substr agent_output 0 inline_json
      | None => agent_output
      end
  end.

(** The request of step 1. *)
Definition explore_req (explorer_agent : Registry.agent_definition)
           (task_ : string) : Spawn.subagent_request :=
  Spawn.mk_request "explorer-agent" (build_task_aware_exploration_prompt task_)
                   JNull (Registry.max_iterations explorer_agent) false 0 "".

Section WithEnvironment.
Variable dump : json -> string.
Variable parse : string -> option json.
Variable F : Fs.faults.

(** The world outside the files, as in [PlanResume]: the clock, the
    terminal, and here also the two agents. *)
Variable Env : Type.
Variable get_timestamp : Env -> string * Env.
Variable show : qa_session -> Env -> QaUi.qa_result * qa_session * Env.
Variable prompt_approval : string -> Env -> bool * Env.
(** [ctx.subagent_mgr.spawn] *)
Variable spawn : Spawn.subagent_request -> Env -> Spawn.subagent_result * Env.
(** [planning_loop.run], of the loop constructed for the planning
    agent. *)
Variable run : Registry.agent_definition -> string -> Env -> Spawn.loop_run * Env.
(** [psm.abort()]; the workflow of the source is the instance at
    [Planning.abort] (see [run_planning_workflow]). *)
Variable abort_ : string -> machine -> Fs.t -> outcome bool * machine * Fs.t.

(** A step of the workflow: it reads and changes [psm], the files and
    the world, and returns, throws, or (the loop of questions only) is
    still running when the rounds allowed are used up. *)
Definition step (A : Type) : Type :=
  machine -> Fs.t -> Env -> option (outcome A * machine * Fs.t * Env).

#[local] Instance step_ret : MRet step :=
  fun A a m fs e => Some (Ret a, m, fs, e).

#[local] Instance step_bind : MBind step :=
  fun A B k c m fs e =>
    match c m fs e with
    | Some (Ret a, m1, fs1, e1) => k a m1 fs1 e1
    | Some (Raise x, m1, fs1, e1) => Some (Raise x, m1, fs1, e1)
    | None => None
    end.

Definition still_running {A : Type} : step A := fun _ _ _ => None.

(** [psm.transition_to(T)] *)
Definition psm_transition_to (T : planning_state) : step bool :=
  fun m fs e => Some (PlanResume.psm_transition_to dump F Env get_timestamp T m fs e).

(** [psm.abort()] *)
Definition psm_abort : step bool :=
  fun m fs e => let '(now, e1) := get_timestamp e in Some (abort_ now m fs, e1).

(** [psm.save()] *)
Definition psm_save : step bool :=
  fun m fs e => let '(r, fs1) := save dump F m fs in Some (r, m, fs1, e).

(** The setters of [psm], which read the clock. *)
Definition psm_set (f : string -> machine -> machine) : step unit :=
  fun m fs e => let '(now, e1) := get_timestamp e in Some (Ret tt, f now m, fs, e1).

(** [psm.session()], read and written. *)
Definition psm_get : step machine := fun m fs e => Some (Ret m, m, fs, e).
Definition psm_put (m1 : machine) : step unit :=
  fun _ fs e => Some (Ret tt, m1, fs, e).

(** A call to the world. *)
Definition ask {A : Type} (f : Env -> A * Env) : step A :=
  fun m fs e => let '(a, e1) := f e in Some (Ret a, m, fs, e1).

(** [save_plan_file] *)
Definition save_plan_file (plan_path content : string) : step bool :=
  fun m fs e =>
    let '(r, fs1) := PlanCommand.save_plan_file F fs plan_path content in
    Some (r, m, fs1, e).

(** Step 5, the approval. *)
Definition approval_step (plan_content : string) : step command_result :=
  _ ← psm_transition_to AWAITING_APPROVAL;
  yes ← ask (prompt_approval "Approve this plan?");
  if (yes : bool) then
    _ ← psm_transition_to APPROVED;
    psm ← psm_get;
    let final_plan :=
      PlanFormat.generate (PlanCommand.approved_plan_data psm plan_content) in
    let plan_path := get_plan_path psm in
    saved ← save_plan_file plan_path final_plan;
    if (saved : bool) then
      _ ← psm_put (with_session (set_plan_path plan_path) psm);
      _ ← psm_save;
      mret CONTINUE
    else mret CONTINUE
  else
    _ ← psm_save;
    mret CONTINUE.

(** Steps 3 and 4, the loop [while (!qa.questions.empty())], for at
    most [rounds] rounds, and what follows it. *)
Fixpoint qa_loop (rounds : nat) (planning_agent : Registry.agent_definition)
         (qa : qa_session) (plan_content : string) : step command_result :=
  match Questions.questions qa with
  | [] => approval_step plan_content
  | _ :: _ =>
      match rounds with
      | O => still_running
      | S rounds' =>
          _ ← psm_transition_to QUESTIONING;
          _ ← psm_set (fun now => set_questions now (QaSession.to_json qa));
          _ ← psm_save;
          _ ← psm_transition_to AWAITING_ANSWERS;
          ui ← ask (show qa);
          match ui with
          | (QaUi.ABORTED, _) =>
              _ ← psm_abort;
              mret CONTINUE
          | (QaUi.INTERRUPTED, _) =>
              _ ← psm_save;
              mret CONTINUE
          | (QaUi.COMPLETED, qa1) =>
              _ ← psm_set (fun now => set_answers now (QaSession.to_json qa1));
              _ ← psm_transition_to REFINING;
              _ ← psm_set increment_iteration;
              refine_result ← ask (run planning_agent (continuation_prompt qa1));
              match Spawn.stop_reason refine_result with
              | Spawn.COMPLETED =>
                  let plan_content1 :=
                    extract_plan_content (Spawn.final_response refine_result) in
                  _ ← psm_set (fun now => set_plan_content now plan_content1);
                  qa_loop rounds' planning_agent
                          (Extract.extract_questions parse
                             (Spawn.final_response refine_result))
                          plan_content1
              | _ => approval_step plan_content
              end
          end
      end
  end.

(** [run_planning_workflow], with [abort_] for [psm.abort()]; what it
    prints and what it does to the slot of the server are left out. *)
Definition run_planning_workflow_with (rounds : nat)
           (agents : list Registry.agent_definition) : step command_result :=
  match Registry.get_agent agents "explorer-agent",
        Registry.get_agent agents "planning-agent" with
  | Some explorer_agent, Some planning_agent =>
      _ ← psm_transition_to EXPLORING;
      psm ← psm_get;
      explore_result ← ask (spawn (explore_req explorer_agent (task (session_ psm))));
      if negb (Spawn.success explore_result) then
        _ ← psm_abort;
        mret CONTINUE
      else
        let exploration_findings := Spawn.output explore_result in
        _ ← psm_set (fun now => set_exploration_findings now exploration_findings);
        _ ← psm_transition_to SYNTHESIZING;
        psm1 ← psm_get;
        let user_prompt :=
          build_planning_prompt (task (session_ psm1)) exploration_findings in
        plan_result ← ask (run planning_agent user_prompt);
        match Spawn.stop_reason plan_result with
        | Spawn.COMPLETED =>
            let plan_content :=
              extract_plan_content (Spawn.final_response plan_result) in
            _ ← psm_set (fun now => set_plan_content now plan_content);
            qa_loop rounds planning_agent
                    (Extract.extract_questions parse
                       (Spawn.final_response plan_result))
                    plan_content
        | _ =>
            _ ← psm_abort;
            mret CONTINUE
        end
  | _, _ =>
      _ ← psm_abort;
      mret CONTINUE
  end.

End WithEnvironment.

(** [run_planning_workflow] *)
Definition run_planning_workflow (dump : json -> string)
           (parse : string -> option json) (F : Fs.faults) (Env : Type)
           (get_timestamp : Env -> string * Env)
           (show : qa_session -> Env -> QaUi.qa_result * qa_session * Env)
           (prompt_approval : string -> Env -> bool * Env)
           (spawn : Spawn.subagent_request -> Env -> Spawn.subagent_result * Env)
           (run : Registry.agent_definition -> string -> Env -> Spawn.loop_run * Env)
  := run_planning_workflow_with dump parse F Env get_timestamp show
       prompt_approval spawn run (Planning.abort dump F).

(** Two steps agree on the active sessions. *)
Definition agree {Env A : Type} (c1 c2 : step Env A) : Prop :=
  forall m fs e, is_active m = true -> c1 m fs e = c2 m fs e.

(** A step leaves an active session active. *)
Definition keeps_active {Env A : Type} (c : step Env A) : Prop :=
  forall m fs e r m1 fs1 e1,
    is_active m = true -> c m fs e = Some (r, m1, fs1, e1) -> is_active m1 = true.

(** [psm.abort()] as a request to the table. *)
Definition validated_abort (dump : json -> string) (F : Fs.faults)
           (now : string) (m : machine) (fs : Fs.t)
  : outcome bool * machine * Fs.t :=
  transition_to dump F now ABORTED m fs.

End PlanWorkflow.

(** ** Scripted runs of the workflow *)

Module PlanRuns.
Import Planning Questions Dispatcher PlanWorkflow.

(** A scripted world: the keys still to be typed and the replies the
    agents still have to give. *)
Record script : Type := mk_script {
  keys : list Z;
  replies : list string
}.

Definition clock (w : script) : string * script := ("2026-01-01T11:00:00", w).

Definition show (qa : qa_session) (w : script)
  : QaUi.qa_result * qa_session * script :=
  let '(r, qa1, rest) := PlanResume.scripted_show qa (keys w) in
  (r, qa1, mk_script rest (replies w)).

Definition prompt_approval (prompt : string) (w : script) : bool * script :=
  let '(yes, rest) := PlanResume.scripted_approval prompt (keys w) in
  (yes, mk_script rest (replies w)).

Definition readline (w : script) : option string * script :=
  let '(line, rest) := PlanResume.scripted_readline (keys w) in
  (line, mk_script rest (replies w)).

(** The explorer fails when no reply is left. *)
Definition spawn (req : Spawn.subagent_request) (w : script)
  : Spawn.subagent_result * script :=
  match replies w with
  | [] => (Spawn.with_error "no reply" Spawn.fresh_result, w)
  | r :: rest =>
      (Spawn.mk_result true r JNull 1 Spawn.no_stats "" [] [],
       mk_script (keys w) rest)
  end.

Definition run (a : Registry.agent_definition) (prompt : string) (w : script)
  : Spawn.loop_run * script :=
  match replies w with
  | [] => (Spawn.mk_run Spawn.AGENT_ERROR "" 0 Spawn.no_stats JNull, w)
  | r :: rest =>
      (Spawn.mk_run Spawn.COMPLETED r 1 Spawn.no_stats JNull,
       mk_script (keys w) rest)
  end.

Definition agents : list Registry.agent_definition :=
  [Registry.agent_named "explorer-agent" "<embedded>"; PlanResume.planner].

(** The workflow of the source in the scripted world. *)
Definition workflow (rounds : nat) (agents_ : list Registry.agent_definition)
  : step script command_result :=
  run_planning_workflow JsonText.dump JsonText.parse Fs.no_faults script
    clock show prompt_approval spawn run rounds agents_.

(** A session as [start] leaves it. *)
Definition started : machine :=
  {| session_ := mk_session EXPLORING "c1" "refactor foo" "" "" JNull JNull 0
                            "/data/contexts/c1/plan.md"
                            "2026-01-01T11:00:00" "2026-01-01T11:00:00";
     base_path := "/data" |}.

(** The states of the sessions that a run leaves in memory and on
    disk. *)
Definition state_in_memory
           (r : option (outcome command_result * machine * Fs.t * script))
  : option planning_state :=
  match r with
  | Some (_, m, _, _) => Some (current_state m)
  | None => None
  end.

Definition state_on_disk
           (r : option (outcome command_result * machine * Fs.t * script))
  : option planning_state :=
  match r with
  | Some (_, _, fs, _) =>
      match Fs.files fs !! "/data/contexts/c1/plan_state.json" with
      | Some text =>
          match JsonText.parse text with
          | Some j =>
              match Planning.from_json j with
              | Ret s => Some (state s)
              | Raise _ => None
              end
          | None => None
          end
      | None => None
      end
  | None => None
  end.

End PlanRuns.

(* ===================================================================== *)
(** * Properties *)
(* ===================================================================== *)

(** ** Strings, JSON values and files *)

Module StrFacts.

Lemma append_assoc (a b c : string) : (a +:+ b) +:+ c = a +:+ (b +:+ c).
Proof.
  induction a as [|x a IH]; [reflexivity|].
  change (String x ((a +:+ b) +:+ c) = String x (a +:+ (b +:+ c))).
  now f_equal.
Qed.

Lemma append_inj_prefix (p a b : string) : p +:+ a = p +:+ b -> a = b.
Proof.
  induction p as [|x p IH]; intros H; [exact H|].
  change (String x (p +:+ a) = String x (p +:+ b)) in H.
  injection H as H. now apply IH.
Qed.

Lemma append_length (a b : string) :
  String.length (a +:+ b) = (String.length a + String.length b)%nat.
Proof.
  induction a as [|x a IH]; [reflexivity|].
  change (S (String.length (a +:+ b)) = S (String.length a + String.length b)).
  now f_equal.
Qed.

Lemma append_nonempty_neq (a b : string) : b <> "" -> a <> a +:+ b.
Proof.
  intros Hb H. apply (f_equal String.length) in H.
  rewrite append_length in H. destruct b; [congruence|simpl in H; lia].
Qed.

Lemma list_ascii_of_append (a b : string) :
  list_ascii_of_string (a +:+ b) = list_ascii_of_string a ++ list_ascii_of_string b.
Proof.
  induction a as [|x a IH]; [reflexivity|].
  change (x :: list_ascii_of_string (a +:+ b)
          = x :: (list_ascii_of_string a ++ list_ascii_of_string b)).
  now f_equal.
Qed.

Lemma drop_append (a b : string) : Str.drop (String.length a) (a +:+ b) = b.
Proof. induction a as [|x a IH]; [reflexivity|exact IH]. Qed.

Lemma substring_prefix (a b : string) :
  String.substring 0 (String.length a) (a +:+ b) = a.
Proof.
  induction a as [|x a IH].
  - destruct b; reflexivity.
  - change (String x (String.substring 0 (String.length a) (a +:+ b)) = String x a).
    now f_equal.
Qed.

(** [(a + b + c).substr(a.size(), b.size())] is [b]. *)
Lemma substr_middle (a b c : string) :
  Str.substr (a +:+ b +:+ c) (String.length a) (String.length b) = b.
Proof.
  unfold Str.substr. induction a as [|x a IH].
  - exact (substring_prefix b c).
  - exact IH.
Qed.

End StrFacts.

(** Two paths under the same directory differ as soon as their parts
    after the directory differ on a literal character. *)
Ltac paths_differ :=
  rewrite ?StrFacts.append_assoc;
  let H := fresh in
  intros H; apply StrFacts.append_inj_prefix in H; cbv [append] in H;
  discriminate H.

Module JsonFacts.

Lemma assoc_set_assoc_eq k v kv : Json.assoc k (Json.set_assoc k v kv) = Some v.
Proof.
  induction kv as [|[k' v'] kv IH]; simpl.
  - now rewrite String.eqb_refl.
  - destruct (String.eqb k k') eqn:E; simpl; rewrite E; [reflexivity|exact IH].
Qed.

Lemma assoc_set_assoc_ne k k' v kv :
  k <> k' -> Json.assoc k' (Json.set_assoc k v kv) = Json.assoc k' kv.
Proof.
  intros Hne. induction kv as [|[k0 v0] kv IH]; simpl.
  - destruct (String.eqb_spec k' k); [congruence|reflexivity].
  - destruct (String.eqb_spec k k0) as [->|Hk]; simpl.
    + destruct (String.eqb_spec k' k0); [congruence|reflexivity].
    + destruct (String.eqb k' k0); [reflexivity|exact IH].
Qed.

End JsonFacts.

Module FsFacts.

Lemma parent_chars_file (l n : list ascii) :
  existsb (Ascii.eqb "/"%char) n = false ->
  Fs.parent_chars (l ++ "/"%char :: n) = l.
Proof.
  intros Hn. induction l as [|c l IH]; simpl.
  - now rewrite Hn.
  - rewrite existsb_app. simpl. rewrite orb_true_r. now rewrite IH.
Qed.

(** The directory of a file whose name has no slash. *)
Lemma parent_path_file (dir name : string) :
  existsb (Ascii.eqb "/"%char) (list_ascii_of_string name) = false ->
  Fs.parent_path (dir +:+ String "/" name) = dir.
Proof.
  intros Hn. unfold Fs.parent_path.
  rewrite StrFacts.list_ascii_of_append.
  change (list_ascii_of_string (String "/" name))
    with ("/"%char :: list_ascii_of_string name).
  rewrite parent_chars_file by assumption.
  apply string_of_list_ascii_of_string.
Qed.

Lemma exists_ext (fs fs' : Fs.t) q :
  Fs.files fs' !! q = Fs.files fs !! q -> Fs.dirs fs' = Fs.dirs fs ->
  Fs.exists_ fs' q = Fs.exists_ fs q.
Proof. unfold Fs.exists_. now intros -> ->. Qed.

End FsFacts.

(** ** Name validation *)

Module AgentNameFacts.
Import AgentName.

Lemma dash_not_alnum c : dash c = true -> alnum c = false.
Proof.
  unfold dash, alnum, Chr.eqb. intros H.
  apply Ascii.eqb_eq in H. subst c. reflexivity.
Qed.

Lemma scan_alnum_cons b c cs :
  alnum c = true -> scan b (c :: cs) = scan false cs.
Proof.
  intros H. simpl. fold (dash c). change (Chr.islower c || Chr.isdigit c) with (alnum c).
  destruct (dash c) eqn:D.
  - apply dash_not_alnum in D. congruence.
  - now rewrite H.
Qed.

Lemma scan_dash_cons c cs :
  dash c = true -> scan false (c :: cs) = scan true cs.
Proof. intros H. simpl. fold (dash c). now rewrite H. Qed.

Lemma matches_star_alnum s :
  matches (Star (Cls alnum)) s -> Forall (fun c => alnum c = true) s.
Proof.
  remember (Star (Cls alnum)) as r eqn:E. intros M.
  induction M; try discriminate.
  - constructor.
  - injection E as ->. inversion M1; subst.
    simpl. constructor; [assumption | now apply IHM2].
Qed.

Lemma matches_plus_alnum s :
  matches (Plus (Cls alnum)) s ->
  exists c w, s = c :: w /\ alnum c = true /\ Forall (fun c => alnum c = true) w.
Proof.
  intros M. inversion M as [| |r1 r2 s1 s2 M1 M2| |]; subst.
  inversion M1 as [|f c Hc| | |]; subst.
  exists c, s2. repeat split; [assumption|now apply matches_star_alnum].
Qed.

Lemma scan_alnum_app b w rest :
  Forall (fun c => alnum c = true) w -> w <> [] ->
  scan b (w ++ rest) = scan false rest.
Proof.
  intros F. revert b. induction F as [|c w Hc F IH]; intros b Hne.
  - congruence.
  - simpl app. rewrite scan_alnum_cons by assumption.
    destruct w as [|d w'].
    + reflexivity.
    + apply IH. discriminate.
Qed.

Lemma last_app_nonempty (a b : list ascii) :
  b <> [] -> last (a ++ b) = last b.
Proof.
  intros Hb. destruct b as [|x b] using rev_ind; [congruence|].
  now rewrite app_assoc, !last_snoc.
Qed.

Lemma endok_alnum_word w :
  Forall (fun c => alnum c = true) w -> endok w.
Proof.
  unfold endok. intros F. destruct w as [|x w] using rev_ind.
  - reflexivity.
  - rewrite last_snoc. apply Forall_app in F as [_ F].
    inversion F; subst. simpl. fold (dash x).
    destruct (dash x) eqn:D; [|reflexivity].
    apply dash_not_alnum in D. congruence.
Qed.

(** Every word of [(-[a-z0-9]+)*] is accepted by the loop entered with
    [prev_hyphen = false], and does not end in a hyphen. *)
Lemma matches_groups_scan s :
  matches (Star dash_group) s -> scan false s = true /\ endok s.
Proof.
  remember (Star dash_group) as r eqn:E. intros M.
  induction M; try discriminate.
  - split; reflexivity.
  - injection E as ->. destruct (IHM2 eq_refl) as [IHs IHe]. clear IHM1 IHM2.
    inversion M1 as [| |r1 r2 d w Md Mw| |]; subst.
    inversion Md as [|f c Hc| | |]; subst.
    apply matches_plus_alnum in Mw as (a & w' & -> & Ha & Fw).
    assert (Fall : Forall (fun c => alnum c = true) (a :: w')) by now constructor.
    split.
    + simpl app. rewrite scan_dash_cons by assumption.
      change (a :: w' ++ s2) with ((a :: w') ++ s2).
      rewrite scan_alnum_app; [assumption|assumption|discriminate].
    + unfold endok in *. destruct s2 as [|x s2].
      * rewrite app_nil_r. change ([c] ++ a :: w') with ([c] ++ (a :: w')).
        rewrite last_app_nonempty by discriminate.
        now apply endok_alnum_word.
      * rewrite last_app_nonempty by discriminate. assumption.
Qed.

Lemma regex_accepts s :
  matches name_regex s ->
  scan false s = true /\ is_hyphen (front s) = false /\
  is_hyphen (back s) = false /\ s <> [].
Proof.
  intros M. inversion M as [| |r1 r2 u v Mu Mv| |]; subst.
  apply matches_plus_alnum in Mu as (a & w & -> & Ha & Fw).
  apply matches_groups_scan in Mv as [Sv Ev].
  assert (Fall : Forall (fun c => alnum c = true) (a :: w)) by now constructor.
  repeat split.
  - rewrite scan_alnum_app; [assumption|assumption|discriminate].
  - simpl. fold (dash a). destruct (dash a) eqn:D; [|reflexivity].
    apply dash_not_alnum in D. congruence.
  - unfold back. destruct v as [|x v].
    + rewrite app_nil_r. now apply endok_alnum_word.
    + rewrite last_app_nonempty by discriminate. assumption.
  - discriminate.
Qed.

Lemma endok_tail c s : s <> [] -> endok (c :: s) -> endok s.
Proof.
  unfold endok. intros Hne H.
  change (c :: s) with ([c] ++ s) in H.
  now rewrite last_app_nonempty in H.
Qed.

(** The two loop states against their languages. *)
Lemma scan_matches s :
  (scan false s = true -> endok s ->
   matches (Seq (Star (Cls alnum)) (Star dash_group)) s) /\
  (scan true s = true -> endok s -> s <> [] ->
   matches (Seq (Plus (Cls alnum)) (Star dash_group)) s).
Proof.
  induction s as [|c s [IHf IHt]].
  - split.
    + intros _ _. apply (MSeq _ _ [] []); constructor.
    + intros _ _ H. congruence.
  - assert (Htail : endok (c :: s) -> s = [] \/ (s <> [] /\ endok s)).
    { intros E. destruct s as [|d s']; [now left|right].
      split; [discriminate|]. eapply endok_tail; [discriminate|eassumption]. }
    split.
    + intros Hs He. destruct (dash c) eqn:D.
      * rewrite scan_dash_cons in Hs by assumption.
        destruct (Htail He) as [->|[Hne He']].
        { unfold endok in He. simpl in He. fold (dash c) in He. congruence. }
        specialize (IHt Hs He' Hne).
        inversion IHt as [| |r1 r2 u v Mu Mv| |]; subst.
        apply (MSeq _ _ [] ((c :: u) ++ v)); [constructor|].
        apply MStarS; [|assumption].
        apply (MSeq _ _ [c] u); [now constructor|assumption].
      * assert (A : alnum c = true).
        { simpl in Hs. fold (dash c) in Hs. rewrite D in Hs.
          change (Chr.islower c || Chr.isdigit c) with (alnum c) in Hs. destruct (alnum c); [reflexivity|discriminate]. }
        rewrite scan_alnum_cons in Hs by assumption.
        assert (He' : endok s).
        { destruct (Htail He) as [->|[_ ?]]; [reflexivity|assumption]. }
        specialize (IHf Hs He').
        inversion IHf as [| |r1 r2 u v Mu Mv| |]; subst.
        apply (MSeq _ _ (c :: u) v); [|assumption].
        apply (MStarS _ [c] u); [now constructor|assumption].
    + intros Hs He _. destruct (dash c) eqn:D.
      * simpl in Hs. fold (dash c) in Hs. rewrite D in Hs. discriminate.
      * assert (A : alnum c = true).
        { simpl in Hs. fold (dash c) in Hs. rewrite D in Hs.
          change (Chr.islower c || Chr.isdigit c) with (alnum c) in Hs. destruct (alnum c); [reflexivity|discriminate]. }
        rewrite scan_alnum_cons in Hs by assumption.
        assert (He' : endok s).
        { destruct (Htail He) as [->|[_ ?]]; [reflexivity|assumption]. }
        specialize (IHf Hs He').
        inversion IHf as [| |r1 r2 u v Mu Mv| |]; subst.
        apply (MSeq _ _ (c :: u) v); [|assumption].
        apply (MSeq _ _ [c] u); [now constructor|assumption].
Qed.

Lemma code_accepts s :
  s <> [] -> is_hyphen (front s) = false -> is_hyphen (back s) = false ->
  scan false s = true -> matches name_regex s.
Proof.
  intros Hne Hf Hb Hs. destruct s as [|c s]; [congruence|].
  assert (D : dash c = false) by exact Hf.
  assert (A : alnum c = true).
  { simpl in Hs. fold (dash c) in Hs. rewrite D in Hs.
    change (Chr.islower c || Chr.isdigit c) with (alnum c) in Hs. destruct (alnum c); [reflexivity|discriminate]. }
  rewrite scan_alnum_cons in Hs by assumption.
  assert (He : endok s).
  { destruct s as [|d s']; [reflexivity|].
    eapply endok_tail; [discriminate|exact Hb]. }
  destruct (scan_matches s) as [IHf _]. specialize (IHf Hs He).
  inversion IHf as [| |r1 r2 u v Mu Mv| |]; subst.
  apply (MSeq _ _ (c :: u) v); [|assumption].
  apply (MSeq _ _ [c] u); [now constructor|assumption].
Qed.

(** C8: [validate_name] accepts exactly the strings that match
    [^[a-z0-9]+(-[a-z0-9]+)*$] and have between 1 and 64 characters;
    [a], [a-b], [a1-b2] pass, and [-a], [a-], [a--b], [A], [a_b] and a
    65-character name fail. *)
Theorem validate_name_regex :
  (forall name : string,
     validate_name name = true <->
     matches name_regex (list_ascii_of_string name) /\
     (1 <= String.length name <= 64)%nat) /\
  validate_name "a" = true /\ validate_name "a-b" = true /\
  validate_name "a1-b2" = true /\
  validate_name "-a" = false /\ validate_name "a-" = false /\
  validate_name "a--b" = false /\ validate_name "A" = false /\
  validate_name "a_b" = false /\
  String.length name65 = 65%nat /\ validate_name name65 = false.
Proof.
  split; [|repeat split; reflexivity].
  intros name. unfold validate_name.
  assert (L : List.length (list_ascii_of_string name) = String.length name).
  { induction name; simpl; congruence. }
  rewrite L. set (cs := list_ascii_of_string name) in *.
  split.
  - intros H.
    destruct (Nat.eqb (String.length name) 0) eqn:E0; [discriminate|].
    destruct (64 <? String.length name)%nat eqn:E64; [discriminate|].
    simpl in H.
    destruct (is_hyphen (front cs)) eqn:Hf; [discriminate|].
    destruct (is_hyphen (back cs)) eqn:Hb; [discriminate|].
    simpl in H.
    apply Nat.eqb_neq in E0. apply Nat.ltb_ge in E64.
    split; [|lia].
    apply code_accepts; try assumption.
    intros ->. simpl in L. lia.
  - intros [M [Hlo Hhi]].
    apply regex_accepts in M as (Hs & Hf & Hb & Hne).
    assert (E0 : Nat.eqb (String.length name) 0 = false) by (apply Nat.eqb_neq; lia).
    assert (E64 : (64 <? String.length name)%nat = false) by (apply Nat.ltb_ge; lia).
    rewrite E0, E64, Hf, Hb. exact Hs.
Qed.

End AgentNameFacts.

Module JsonTextExamples.
Import JsonText.

Example parse_object :
  parse (Str.dq "{ 'a': [1, -2, true, null], 'b': 'x\ny' }") =
  Some (JObj [("a", JArr [JNum 1; JNum (-2); JBool true; JNull]);
              ("b", JStr ("x" +:+ Str.newline +:+ "y"))]).
Proof. vm_compute. reflexivity. Qed.

Example parse_rejects_truncated :
  parse (Str.dq "{ 'a': [1, -2") = None.
Proof. vm_compute. reflexivity. Qed.

Example dump_parse_roundtrip :
  let j := JObj [("state", JStr "idle"); ("questions", JArr []);
                 ("n", JNum 3); ("o", JObj [("k", JStr (Str.dq "a'b"))])] in
  parse (dump j) = Some j.
Proof. vm_compute. reflexivity. Qed.
End JsonTextExamples.

(** ** The planning state machine *)

Module PlanningFacts.
Import Planning.

Lemma validate_transition_table (from to : planning_state) :
  validate_transition from to = true <-> In (from, to) transition_table.
Proof.
  split.
  - destruct from, to; vm_compute; intros H; try discriminate; tauto.
  - intros H. unfold transition_table in H. simpl in H.
    repeat (destruct H as [H|H]; [injection H as <- <-; reflexivity|]).
    contradiction.
Qed.

Lemma save_written dump F m fs fs' :
  save dump F m fs = (Ret true, fs') ->
  Fs.files fs' !! get_state_path m = Some (dump (to_json (session_ m))).
Proof.
  unfold save.
  destruct (if Fs.exists_ fs _ then _ else _) as [fs1|]; [|discriminate].
  unfold Fs.open_out, Fs.write_out, Fs.rename, Fs.with_files.
  destruct (Fs.open_fails F _); [discriminate|].
  destruct (Fs.write_fails F _); simpl; [discriminate|].
  destruct (Fs.rename_fails F _); [discriminate|].
  rewrite lookup_insert_eq. intros H. injection H as <-.
  simpl. now rewrite lookup_insert_eq.
Qed.

Lemma save_no_faults dump m fs :
  exists fs', save dump Fs.no_faults m fs = (Ret true, fs').
Proof.
  unfold save, Fs.open_out, Fs.write_out, Fs.rename, Fs.with_files,
    Fs.create_directories. simpl.
  destruct (Fs.exists_ fs _); simpl; rewrite lookup_insert_eq; eauto.
Qed.

(** Requests to the table: a change of state requested through
    [transition_to] succeeds only when the pair is in the transition
    table; any other request returns failure and changes neither the
    session in memory nor the persisted one; a request in the table
    succeeds when the file system does not fail, and a successful one
    leaves the new session in [plan_state.json]. *)
Lemma transition_to_validated dump F now (T : planning_state) m fs :
  (validate_transition (current_state m) T = true <->
   In (current_state m, T) transition_table) /\
  (~ In (current_state m, T) transition_table ->
   transition_to dump F now T m fs = (Ret false, m, fs)) /\
  (forall m' fs',
     transition_to dump F now T m fs = (Ret true, m', fs') ->
     In (current_state m, T) transition_table /\ current_state m' = T /\
     Fs.files fs' !! get_state_path m' = Some (dump (to_json (session_ m')))) /\
  (In (current_state m, T) transition_table ->
   exists m' fs', transition_to dump Fs.no_faults now T m fs = (Ret true, m', fs')).
Proof.
  split; [apply validate_transition_table|].
  split; [|split].
  - intros Hn. unfold transition_to.
    destruct (validate_transition (current_state m) T) eqn:V; [|reflexivity].
    apply validate_transition_table in V. contradiction.
  - intros m' fs'. unfold transition_to.
    destruct (validate_transition (current_state m) T) eqn:V; simpl.
    + destruct (save dump F _ fs) as [r fs1] eqn:S. intros H.
      injection H as -> <- ->.
      split; [now apply validate_transition_table|].
      split; [reflexivity|]. now apply save_written in S.
    + discriminate.
  - intros Hin. apply validate_transition_table in Hin.
    unfold transition_to. rewrite Hin. simpl.
    destruct (save_no_faults dump
                (with_session (fun s => set_updated_at now (set_state T s)) m) fs)
      as [fs' ->].
    eauto.
Qed.

(** [abort] itself does not consult the table: called on an APPROVED
    session it would set ABORTED, which the table does not allow, and
    persist it.  No caller does so: the [/plan] command calls [abort]
    on active sessions only (see [PlanWorkflowFacts]). *)
Example abort_ignores_table :
  validate_transition (current_state approved_machine) ABORTED = false /\
  ~ In (current_state approved_machine, ABORTED) transition_table /\
  exists m' fs',
    abort JsonText.dump Fs.no_faults "2026-01-01T00:00:00"
          approved_machine Fs.empty_fs = (Ret true, m', fs') /\
    current_state m' = ABORTED /\
    Fs.files Fs.empty_fs !! "/data/contexts/c1/plan_state.json" = None /\
    Fs.files fs' !! "/data/contexts/c1/plan_state.json"
    = Some (JsonText.dump (to_json (session_ m'))).
Proof.
  split; [reflexivity|]. split.
  { intros H. apply validate_transition_table in H. vm_compute in H. discriminate. }
  eexists _, _. split; [vm_compute; reflexivity|].
  split; [reflexivity|]. split; [reflexivity|]. vm_compute. reflexivity.
Qed.

(** *** Loading a persisted session *)

Lemma string_to_state_unrecognized st :
  ~ In st state_strings -> string_to_state st = IDLE.
Proof.
  intros Hn. unfold string_to_state.
  repeat match goal with
  | |- context [String.eqb st ?k] =>
      destruct (String.eqb_spec st k) as [->|_];
      [exfalso; apply Hn; vm_compute; tauto|]
  end.
  reflexivity.
Qed.

Lemma from_json_state j s :
  from_json j = Ret s ->
  exists st, Json.value_string j "state" "idle" = Ret st /\
             state s = string_to_state st.
Proof.
  unfold from_json, mbind, outcome_bind, obind, mret, outcome_ret.
  repeat match goal with
  | |- context [match ?v with Ret _ => _ | Raise _ => _ end] =>
      destruct v eqn:?; [|discriminate]
  end.
  intros H. injection H as <-. eauto.
Qed.

Lemma from_json_unrecognized j s :
  unrecognized_state j -> from_json j = Ret s -> state s = IDLE.
Proof.
  intros U H. apply from_json_state in H as (st & Hv & ->).
  unfold Json.value_string, Json.value in Hv.
  destruct j as [| | | | |l|kv]; try discriminate.
  destruct (Json.assoc "state" kv) as [v|] eqn:A.
  - destruct v; try discriminate. injection Hv as ->.
    apply string_to_state_unrecognized. apply U. exact A.
  - injection Hv as <-. reflexivity.
Qed.



End PlanningFacts.

(** ** The context store *)

Module ContextFacts.
Import Context.

Section WithEnvironment.
Variable read_value : string -> option json.
Variable dump : json -> string.
Variable F : Fs.faults.
Variable base : string.

Lemma temp_differs path : path <> path +:+ ".tmp".
Proof. apply StrFacts.append_nonempty_neq. discriminate. Qed.

Lemma write_json_ok fs path data :
  Fs.writable F path ->
  Utf8.dumps data = true ->
  exists fs',
    write_json dump F fs path data = (Ret true, fs') /\
    Fs.files fs' !! path = Some (dump data) /\
    Fs.dirs fs' = Fs.dirs fs /\
    (forall q, q <> path -> q <> path +:+ ".tmp" ->
               Fs.files fs' !! q = Fs.files fs !! q).
Proof.
  intros (Ho & Hw & Hr) Hd.
  unfold write_json, Fs.open_out, Fs.write_unflushed, Fs.rename, Fs.with_files.
  rewrite Ho, Hd, Hw. simpl. rewrite Hr, lookup_insert_eq.
  eexists. split; [reflexivity|]. simpl.
  split; [now rewrite lookup_insert_eq|]. split; [reflexivity|].
  intros q Hq Hq'.
  rewrite lookup_insert_ne by congruence.
  rewrite lookup_delete_ne by congruence.
  rewrite !lookup_insert_ne by congruence. reflexivity.
Qed.

(** The target of [write_json] after the call: untouched unless the
    call returned true; then the new text, whole unless the write
    failed at the flush. *)
Lemma write_json_result fs path data :
  Fs.files (snd (write_json dump F fs path data)) !! path
  = match fst (write_json dump F fs path data) with
    | Ret true =>
        Some (if Fs.write_fails F (path +:+ ".tmp")
              then Str.substr (dump data) 0 (Fs.kept F (path +:+ ".tmp"))
              else dump data)
    | _ => Fs.files fs !! path
    end.
Proof.
  pose proof (temp_differs path) as Hne.
  unfold write_json, Fs.open_out, Fs.write_unflushed, Fs.rename, Fs.remove,
    Fs.with_files.
  destruct (Fs.open_fails F _); simpl; [reflexivity|].
  destruct (Utf8.dumps data); simpl.
  2:{ now rewrite lookup_insert_ne by congruence. }
  destruct (Fs.write_fails F _); simpl.
  - destruct (Fs.fails_late F _); simpl.
    + destruct (Fs.rename_fails F _); simpl.
      { rewrite lookup_delete_ne by congruence.
        now rewrite !lookup_insert_ne by congruence. }
      rewrite lookup_insert_eq. simpl. now rewrite lookup_insert_eq.
    + now rewrite lookup_insert_ne by congruence.
  - destruct (Fs.rename_fails F _); simpl.
    { rewrite lookup_delete_ne by congruence.
      now rewrite !lookup_insert_ne by congruence. }
    rewrite lookup_insert_eq. simpl. now rewrite lookup_insert_eq.
Qed.

(** [write_json] touches its target and its temporary file only. *)
Lemma write_json_other fs path data q :
  q <> path -> q <> path +:+ ".tmp" ->
  Fs.files (snd (write_json dump F fs path data)) !! q = Fs.files fs !! q.
Proof.
  intros Hq Hq'.
  unfold write_json, Fs.open_out, Fs.write_unflushed, Fs.rename, Fs.remove,
    Fs.with_files.
  destruct (Fs.open_fails F _); simpl; [reflexivity|].
  destruct (Utf8.dumps data); simpl.
  2:{ now rewrite lookup_insert_ne by congruence. }
  destruct (Fs.write_fails F _); simpl.
  - destruct (Fs.fails_late F _); simpl.
    + destruct (Fs.rename_fails F _); simpl.
      { rewrite lookup_delete_ne by congruence.
        now rewrite !lookup_insert_ne by congruence. }
      rewrite lookup_insert_eq. simpl.
      rewrite lookup_insert_ne by congruence.
      rewrite lookup_delete_ne by congruence.
      now rewrite !lookup_insert_ne by congruence.
    + now rewrite lookup_insert_ne by congruence.
  - destruct (Fs.rename_fails F _); simpl.
    { rewrite lookup_delete_ne by congruence.
      now rewrite !lookup_insert_ne by congruence. }
    rewrite lookup_insert_eq. simpl.
    rewrite lookup_insert_ne by congruence.
    rewrite lookup_delete_ne by congruence.
    now rewrite !lookup_insert_ne by congruence.
Qed.

Lemma add_archive_ok md record :
  wf_metadata md ->
  exists kv', add_archive md record = Ret (JObj kv') /\
    Json.assoc "archives" kv' = Some (JArr (archives_of md ++ [record])).
Proof.
  intros (kv & -> & [Hn|[l Hl]]).
  - unfold add_archive, archives_of. simpl. rewrite Hn. simpl.
    rewrite JsonFacts.assoc_set_assoc_eq. simpl.
    eexists. split; [reflexivity|]. now rewrite JsonFacts.assoc_set_assoc_eq.
  - unfold add_archive, archives_of. simpl. rewrite Hl. simpl.
    rewrite Hl. simpl.
    eexists. split; [reflexivity|]. now rewrite JsonFacts.assoc_set_assoc_eq.
Qed.

(** C9 (amended): a read of the store yields the absent result when
    the file is missing, when it cannot be opened and also when it
    exists but does not parse; a value is returned exactly when the
    file is read and parses.  [load_context] passes the absent result
    on, so a parse error is not told apart from a missing file. *)
Theorem read_json_absent fs path :
  (Fs.files fs !! path = None -> read_json read_value F fs path = None) /\
  (forall text, Fs.read_in F fs path = Some text -> read_value text = None ->
                read_json read_value F fs path = None) /\
  (forall j, read_json read_value F fs path = Some j <->
             exists text, Fs.read_in F fs path = Some text /\
                          read_value text = Some j) /\
  (forall ctx,
     read_json read_value F fs (context_path base ctx +:+ "/conversation.json")
     = None ->
     load_context read_value F base fs ctx = Ret None).
Proof.
  unfold read_json, Fs.read_in. repeat split.
  - intros H. rewrite H. now destruct (Fs.read_fails F path).
  - intros text H. rewrite H. now intros ->.
  - destruct (if Fs.read_fails F path then None else Fs.files fs !! path)
      as [text|]; [|discriminate].
    destruct (read_value text) eqn:R; [|discriminate].
    intros H. injection H as <-. eauto.
  - intros (text & -> & ->). reflexivity.
  - intros ctx H. unfold load_context, read_json, Fs.read_in. now rewrite H.
Qed.

End WithEnvironment.

(** *** A context to compact *)

Example restoration_message_text :
  restoration_message (set_timestamp "20260101_100600" example_entry) true
  = "# Previous Context Summary" +:+ Str.newline +:+ Str.newline +:+
    "done" +:+ Str.newline +:+ Str.newline +:+
    "## Current State" +:+ Str.newline +:+ "both files written" +:+ Str.newline +:+
    Str.newline +:+
    "## Pending Tasks" +:+ Str.newline +:+ "- run the tests" +:+ Str.newline +:+
    Str.newline +:+
    "## Files Modified" +:+ Str.newline +:+ "- /a" +:+ Str.newline +:+
    "- /b" +:+ Str.newline +:+ Str.newline +:+
    "## Active Plan" +:+ Str.newline +:+
    "plan.md exists - use read_plan tool to review if needed" +:+ Str.newline.
Proof. vm_compute. reflexivity. Qed.

(** *** Reads *)

Lemma read_json_absent_witness :
  read_json JsonText.read_value Fs.no_faults broken_fs
            "/data/contexts/c1/conversation.json" = None.
Proof.
  apply (proj1 (proj2 (read_json_absent JsonText.read_value Fs.no_faults "/data"
                         broken_fs "/data/contexts/c1/conversation.json"))
           "{ not json").
  - reflexivity.
  - vm_compute. reflexivity.
Defined.

(** C9 as stated fails: a file that exists and does not parse gives
    the very result a missing file gives, from [read_json] and from
    [load_context]. *)
Lemma parse_error_reads_as_absent :
  Fs.files broken_fs !! "/data/contexts/c1/conversation.json" = Some "{ not json" /\
  JsonText.read_value "{ not json" = None /\
  Fs.files Fs.empty_fs !! "/data/contexts/c1/conversation.json" = None /\
  read_json JsonText.read_value Fs.no_faults broken_fs
            "/data/contexts/c1/conversation.json"
  = read_json JsonText.read_value Fs.no_faults Fs.empty_fs
              "/data/contexts/c1/conversation.json" /\
  load_context JsonText.read_value Fs.no_faults "/data" broken_fs "c1" = Ret None /\
  load_context JsonText.read_value Fs.no_faults "/data" Fs.empty_fs "c1" = Ret None.
Proof. repeat split; vm_compute; reflexivity. Qed.

End ContextFacts.

(** ** Approval of a plan *)

Module PlanCommandFacts.
Import Planning PlanCommand.

Section WithEnvironment.
Variable dump : json -> string.
Variable F : Fs.faults.

Lemma save_ok m fs :
  let P := context_path (base_path m) (context_id (session_ m)) in
  Fs.mkdir_fails F P = false ->
  Fs.writable F (P +:+ "/plan_state.json") ->
  exists fs',
    save dump F m fs = (Ret true, fs') /\
    Fs.files fs' !! (P +:+ "/plan_state.json") = Some (dump (to_json (session_ m))) /\
    (forall q, q <> P +:+ "/plan_state.json" ->
               q <> (P +:+ "/plan_state.json") +:+ ".tmp" ->
               Fs.files fs' !! q = Fs.files fs !! q).
Proof.
  intros P Hmk (Ho & Hw & Hr). unfold save, get_state_path. fold P.
  change (P +:+ "/plan_state.json") with (P +:+ String "/" "plan_state.json").
  rewrite FsFacts.parent_path_file by reflexivity.
  change (P +:+ String "/" "plan_state.json") with (P +:+ "/plan_state.json").
  unfold Fs.create_directories, Fs.open_out, Fs.write_out, Fs.rename,
    Fs.with_files.
  rewrite Hmk.
  destruct (Fs.exists_ fs P); simpl; rewrite Ho; simpl; rewrite Hw; simpl;
    rewrite Hr, lookup_insert_eq;
    (eexists; split; [reflexivity|]; simpl; split;
     [now rewrite lookup_insert_eq|];
     intros q Hq Hq'; rewrite lookup_insert_ne by congruence;
     rewrite lookup_delete_ne by congruence;
     now rewrite !lookup_insert_ne by congruence).
Qed.

Lemma save_plan_file_ok fs P content :
  Fs.mkdir_fails F P = false ->
  Fs.open_fails F (P +:+ "/plan.md") = false ->
  Fs.write_fails F (P +:+ "/plan.md") = false ->
  exists fs',
    save_plan_file F fs (P +:+ "/plan.md") content = (Ret true, fs') /\
    Fs.files fs' !! (P +:+ "/plan.md") = Some content /\
    (forall q, q <> P +:+ "/plan.md" -> Fs.files fs' !! q = Fs.files fs !! q).
Proof.
  intros Hmk Ho Hw. unfold save_plan_file.
  change (P +:+ "/plan.md") with (P +:+ String "/" "plan.md").
  rewrite FsFacts.parent_path_file by reflexivity.
  change (P +:+ String "/" "plan.md") with (P +:+ "/plan.md").
  unfold Fs.create_directories, Fs.open_out, Fs.write_unflushed, Fs.with_files.
  rewrite Hmk.
  destruct (Fs.exists_ fs P); simpl; rewrite Ho; simpl; rewrite Hw;
    (eexists; split; [reflexivity|]; simpl; split;
     [now rewrite lookup_insert_eq|];
     intros q Hq; now rewrite !lookup_insert_ne by congruence).
Qed.


End WithEnvironment.

(** *** A session waiting for approval *)



End PlanCommandFacts.

(** ** Extraction of the questions *)

Module ExtractFacts.
Import Questions Extract.

Lemma find_at_Some needle s idx p :
  Str.find_at needle s idx = Some p ->
  exists k, p = (idx + k)%nat /\ occurs_at needle s k /\
            forall j, (j < k)%nat -> ~ occurs_at needle s j.
Proof.
  revert idx. induction s as [|c s IH]; intros idx; simpl.
  - destruct (Str.starts_with needle "") eqn:E; [|discriminate].
    intros H. injection H as <-. exists 0%nat.
    split; [lia|]. split; [exact E|]. intros j Hj. lia.
  - destruct (Str.starts_with needle (String c s)) eqn:E.
    + intros H. injection H as <-. exists 0%nat.
      split; [lia|]. split; [exact E|]. intros j Hj. lia.
    + intros H. apply IH in H as (k & -> & Hk & Hmin).
      exists (S k). split; [lia|]. split; [exact Hk|].
      intros [|j] Hj; unfold occurs_at; simpl.
      * now rewrite E.
      * apply Hmin. lia.
Qed.

Lemma find_at_None needle s idx :
  Str.find_at needle s idx = None -> forall q, ~ occurs_at needle s q.
Proof.
  revert idx. induction s as [|c s IH]; intros idx; simpl.
  - destruct (Str.starts_with needle "") eqn:E; [discriminate|].
    intros _ q. unfold occurs_at. destruct q; simpl; now rewrite E.
  - destruct (Str.starts_with needle (String c s)) eqn:E; [discriminate|].
    intros H [|q]; unfold occurs_at; simpl.
    + now rewrite E.
    + eapply IH. exact H.
Qed.

(** [find] from position 0 returns the first occurrence. *)
Lemma find_first s needle p :
  Str.find s needle 0 = Some p -> first_occurrence needle s p.
Proof.
  unfold Str.find. simpl. intros H.
  apply find_at_Some in H as (k & -> & Hk & Hmin). split; assumption.
Qed.

Lemma find_none s needle :
  Str.find s needle 0 = None -> forall q, ~ occurs_at needle s q.
Proof. unfold Str.find. simpl. apply find_at_None. Qed.

Lemma assoc_alias_other kv k :
  k <> "text" -> k <> "options" -> k <> "question" -> k <> "answers" ->
  Json.assoc k (with_aliases kv) = Json.assoc k kv.
Proof.
  intros H1 H2 H3 H4. induction kv as [|[k0 v0] kv IH]; [reflexivity|].
  simpl. unfold alias_key.
  destruct (String.eqb_spec k0 "text") as [->|Ht].
  - destruct (String.eqb_spec k "question"); [congruence|].
    destruct (String.eqb_spec k "text"); [congruence|]. exact IH.
  - destruct (String.eqb_spec k0 "options") as [->|Ho].
    + destruct (String.eqb_spec k "answers"); [congruence|].
      destruct (String.eqb_spec k "options"); [congruence|]. exact IH.
    + destruct (String.eqb k k0); [reflexivity|exact IH].
Qed.

Lemma assoc_alias_gone kv k :
  k = "text" \/ k = "options" -> Json.assoc k (with_aliases kv) = None.
Proof.
  intros Hk. induction kv as [|[k0 v0] kv IH]; [reflexivity|].
  simpl. unfold alias_key.
  destruct (String.eqb_spec k0 "text") as [->|Ht].
  - destruct (String.eqb_spec k "question"); [destruct Hk; congruence|exact IH].
  - destruct (String.eqb_spec k0 "options") as [->|Ho].
    + destruct (String.eqb_spec k "answers"); [destruct Hk; congruence|exact IH].
    + destruct (String.eqb_spec k k0); [destruct Hk; congruence|exact IH].
Qed.

Lemma assoc_alias_renamed kv k a :
  (k = "text" /\ a = "question") \/ (k = "options" /\ a = "answers") ->
  Json.assoc a kv = None ->
  Json.assoc a (with_aliases kv) = Json.assoc k kv.
Proof.
  intros Hk. induction kv as [|[k0 v0] kv IH]; [reflexivity|].
  simpl. unfold alias_key.
  destruct (String.eqb_spec a k0) as [->|Ha]; [discriminate|].
  intros Hn. specialize (IH Hn).
  destruct (String.eqb_spec k0 "text") as [->|Ht].
  - destruct Hk as [[-> ->]|[-> ->]]; simpl; [reflexivity|exact IH].
  - destruct (String.eqb_spec k0 "options") as [->|Ho].
    + destruct Hk as [[-> ->]|[-> ->]]; simpl; [exact IH|reflexivity].
    + destruct (String.eqb_spec a k0); [congruence|].
      destruct (String.eqb_spec k k0) as [->|_]; [|exact IH].
      destruct Hk as [[-> _]|[-> _]]; congruence.
Qed.

(** A question written with the alias keys is read as the same
    question. *)
Lemma parse_question_aliases id kv :
  Json.assoc "question" kv = None -> Json.assoc "answers" kv = None ->
  parse_question id (JObj (with_aliases kv)) = parse_question id (JObj kv).
Proof.
  intros Hq Ha. unfold parse_question, Json.value_int, Json.value,
    Json.contains, Json.get.
  rewrite (assoc_alias_other kv "id") by discriminate.
  rewrite (assoc_alias_gone kv "text") by now left.
  rewrite (assoc_alias_gone kv "options") by now right.
  rewrite (assoc_alias_renamed kv "text" "question") by (auto; now left).
  rewrite (assoc_alias_renamed kv "options" "answers") by (auto; now right).
  rewrite Hq, Ha.
  destruct (Json.assoc "text" kv), (Json.assoc "options" kv); reflexivity.
Qed.

(** The first occurrence is what [find] returns. *)
Lemma find_of_first s needle p :
  first_occurrence needle s p -> Str.find s needle 0 = Some p.
Proof.
  intros [Hocc Hmin]. destruct (Str.find s needle 0) as [p'|] eqn:E.
  - apply find_first in E as [Hocc' Hmin']. f_equal.
    destruct (Nat.lt_trichotomy p' p) as [Hlt|[Heq|Hgt]]; [|exact Heq|].
    + exfalso. now apply (Hmin p').
    + exfalso. now apply (Hmin' p).
  - exfalso. now apply (find_none s needle E p).
Qed.

Lemma scan_plain c rest i n :
  c <> Str.quote -> c <> "{"%char -> c <> "}"%char ->
  brace_scan (c :: rest) i n false false = brace_scan rest (S i) n false false.
Proof.
  intros Hq Ho Hc. simpl. rewrite andb_false_r.
  destruct (Ascii.eqb_spec c Str.quote); [congruence|].
  destruct (Ascii.eqb_spec c "{"%char); [congruence|].
  destruct (Ascii.eqb_spec c "}"%char); [congruence|]. reflexivity.
Qed.

(** Inside a string literal nothing is counted, up to the closing
    quote. *)
Lemma scan_string body :
  string_text body ->
  forall rest i n,
    brace_scan (body ++ Str.quote :: rest) i n true false
    = brace_scan rest (i + List.length body + 1) n false false.
Proof.
  induction 1 as [|c t Hq Hb Ht IH|c t Ht IH]; intros rest i n.
  - simpl. f_equal. lia.
  - change ((c :: t) ++ Str.quote :: rest) with (c :: (t ++ Str.quote :: rest)).
    cbn [brace_scan].
    destruct (Ascii.eqb_spec c Str.backslash); [congruence|].
    destruct (Ascii.eqb_spec c Str.quote); [congruence|].
    simpl andb. cbv iota. simpl negb. cbv iota.
    rewrite IH. f_equal. simpl. lia.
  - change ((Str.backslash :: c :: t) ++ Str.quote :: rest)
      with (Str.backslash :: c :: (t ++ Str.quote :: rest)).
    cbn [brace_scan]. simpl Ascii.eqb. cbv iota. simpl andb. cbv iota.
    rewrite IH. f_equal. simpl. lia.
Qed.

(** Balanced text leaves the count as it found it. *)
Lemma scan_balanced t :
  balanced t ->
  forall rest i n, (0 < n)%Z ->
    brace_scan (t ++ rest) i n false false
    = brace_scan rest (i + List.length t) n false false.
Proof.
  induction 1 as [|c t Hq Ho Hc Ht IH|body t Hb Ht IH|inner t Hi IHi Ht IHt];
    intros rest i n Hn.
  - simpl. f_equal. lia.
  - change ((c :: t) ++ rest) with (c :: (t ++ rest)).
    rewrite scan_plain by assumption. rewrite IH by assumption.
    f_equal. simpl. lia.
  - change ((Str.quote :: body ++ Str.quote :: t) ++ rest)
      with (Str.quote :: ((body ++ Str.quote :: t) ++ rest)).
    rewrite <- app_assoc. change ((Str.quote :: t) ++ rest) with (Str.quote :: (t ++ rest)).
    cbn [brace_scan]. simpl Ascii.eqb. cbv iota. simpl andb. cbv iota. simpl negb.
    rewrite scan_string by assumption. rewrite IH by assumption.
    f_equal. simpl. rewrite length_app. simpl. lia.
  - change (("{"%char :: inner ++ "}"%char :: t) ++ rest)
      with ("{"%char :: ((inner ++ "}"%char :: t) ++ rest)).
    rewrite <- app_assoc.
    change (("}"%char :: t) ++ rest) with ("}"%char :: (t ++ rest)).
    cbn [brace_scan]. simpl Ascii.eqb. cbv iota. simpl andb. cbv iota. simpl negb.
    cbv iota.
    rewrite IHi by lia.
    cbn [brace_scan]. simpl Ascii.eqb. cbv iota. simpl andb. cbv iota. simpl negb.
    cbv iota.
    replace (n + 1 - 1)%Z with n by lia.
    destruct (Z.eqb_spec n 0); [lia|].
    rewrite IHt by assumption. f_equal. simpl. rewrite length_app. simpl. lia.
Qed.

(** The scan of an object whose members are balanced text stops at its
    closing brace. *)
Lemma scan_object inner post i :
  balanced inner ->
  brace_scan ("{"%char :: inner ++ "}"%char :: post) i 0 false false
  = Some (i + 1 + List.length inner)%nat.
Proof.
  intros Hb. cbn [brace_scan]. simpl Ascii.eqb. cbv iota. simpl andb. cbv iota.
  simpl negb. cbv iota.
  rewrite scan_balanced by (assumption || lia).
  cbn [brace_scan]. simpl Ascii.eqb. cbv iota. simpl andb. cbv iota. simpl negb.
  cbv iota. simpl Z.eqb. cbv iota. f_equal. lia.
Qed.

Lemma length_list_ascii (s : string) :
  List.length (list_ascii_of_string s) = String.length s.
Proof. induction s; simpl; congruence. Qed.

(** The inline strategy recovers the object that starts at the first
    [{"questions"], when its text is balanced. *)
Lemma inline_text_object (pre inner post : string) :
  balanced (list_ascii_of_string inner) ->
  first_occurrence questions_literal
    (pre +:+ String "{" (inner +:+ String "}" post)) (String.length pre) ->
  inline_text (pre +:+ String "{" (inner +:+ String "}" post))
  = String "{" (inner +:+ "}").
Proof.
  intros Hb Hfirst. unfold inline_text.
  rewrite (find_of_first _ _ _ Hfirst).
  rewrite StrFacts.drop_append.
  change (list_ascii_of_string (String "{" (inner +:+ String "}" post)))
    with ("{"%char :: list_ascii_of_string (inner +:+ String "}" post)).
  rewrite StrFacts.list_ascii_of_append.
  change (list_ascii_of_string (String "}" post))
    with ("}"%char :: list_ascii_of_string post).
  rewrite scan_object by assumption.
  rewrite length_list_ascii.
  replace (String.length pre + 1 + String.length inner - String.length pre + 1)%nat
    with (String.length (String "{" (inner +:+ "}"))).
  - change (String "{" (inner +:+ String "}" post))
      with (String "{" (inner +:+ ("}" +:+ post))).
    rewrite <- (StrFacts.append_assoc inner "}" post).
    change (String "{" ((inner +:+ "}") +:+ post))
      with (String "{" (inner +:+ "}") +:+ post).
    apply StrFacts.substr_middle.
  - change (String.length (String "{" (inner +:+ "}")))
      with (S (String.length (inner +:+ "}"))).
    rewrite StrFacts.append_length. simpl. lia.
Qed.

(** What [extract_questions] does: the fence that it finds is the first
    [```json], or, when the reply has none, the first [```JSON]; with no
    such fence the text is recovered by the brace scan from the first
    [{"questions"], in which an escaped character inside a string is
    skipped and braces inside a string are not counted, so that an
    object whose text is balanced is recovered whole; a question with
    the keys [question] and [answers] is read as one with [text] and
    [options]; and a text that does not parse gives the empty session. *)
Theorem extract_questions_strategies :
  (forall s p, fence_start s = Some p ->
     first_occurrence fence_lower s p \/
     ((forall q, ~ occurs_at fence_lower s q) /\ first_occurrence fence_upper s p)) /\
  (forall s, fence_start s = None ->
     (forall q, ~ occurs_at fence_lower s q) /\
     (forall q, ~ occurs_at fence_upper s q) /\
     json_text s = inline_text s) /\
  (forall c rest i n,
     brace_scan (Str.backslash :: c :: rest) i n true false
     = brace_scan rest (S (S i)) n true false) /\
  (forall c rest i n,
     c <> Str.quote -> c <> Str.backslash ->
     brace_scan (c :: rest) i n true false = brace_scan rest (S i) n true false) /\
  (forall id kv,
     Json.assoc "question" kv = None -> Json.assoc "answers" kv = None ->
     parse_question id (JObj (with_aliases kv)) = parse_question id (JObj kv)) /\
  (forall pre inner post,
     balanced (list_ascii_of_string inner) ->
     fence_start (pre +:+ String "{" (inner +:+ String "}" post)) = None ->
     first_occurrence questions_literal
       (pre +:+ String "{" (inner +:+ String "}" post)) (String.length pre) ->
     json_text (pre +:+ String "{" (inner +:+ String "}" post))
     = String "{" (inner +:+ "}")) /\
  (forall parse s, parse (json_text s) = None ->
     extract_questions parse s = empty_session) /\
  (forall parse s j e, parse (json_text s) = Some j ->
     parse_questions_from_json j = Raise e ->
     extract_questions parse s = empty_session).
Proof.
  repeat apply conj.
  - intros s p. unfold fence_start.
    destruct (Str.find s fence_lower 0) as [p'|] eqn:El.
    + intros H. injection H as <-. left. now apply find_first.
    + intros Hu. right. split; [now apply find_none|now apply find_first].
  - intros s. unfold fence_start, json_text, fenced_text, fence_start.
    destruct (Str.find s fence_lower 0) eqn:El; [discriminate|].
    intros Hu. rewrite Hu. split; [now apply find_none|].
    split; [now apply find_none|reflexivity].
  - intros c rest i n. reflexivity.
  - intros c rest i n Hq Hb. simpl.
    destruct (Ascii.eqb_spec c Str.backslash); [congruence|].
    destruct (Ascii.eqb_spec c Str.quote); [congruence|]. reflexivity.
  - apply parse_question_aliases.
  - intros pre inner post Hb Hf Hfirst.
    assert (E : json_text (pre +:+ String "{" (inner +:+ String "}" post))
                = inline_text (pre +:+ String "{" (inner +:+ String "}" post))).
    { unfold json_text, fenced_text. now rewrite Hf. }
    rewrite E. now apply inline_text_object.
  - intros parse s H. unfold extract_questions. rewrite H.
    now destruct (negb _).
  - intros parse s j e H Hr. unfold extract_questions. rewrite H, Hr.
    now destruct (negb _).
Qed.

(** *** Replies of the planning agent *)

Example fenced_reply_questions :
  extract_questions JsonText.parse fenced_reply = one_question.
Proof. vm_compute. reflexivity. Qed.

Example inline_reply_questions :
  extract_questions JsonText.parse inline_reply
  = mk_qa [mk_question 1 (Str.dq "Use {braces} or 'quotes'?") ["yes"; "no"]
                       "" false (-1)] 0.
Proof. vm_compute. reflexivity. Qed.

Example inline_text_recovers_object :
  inline_text (Str.dq "Plan: {'questions':[{'text':'a}b'}]} and more }")
  = Str.dq "{'questions':[{'text':'a}b'}]}".
Proof.
  apply (inline_text_object "Plan: " (Str.dq "'questions':[{'text':'a}b'}]") " and more }").
  - apply (B_string (list_ascii_of_string "questions")).
    { repeat (apply ST_char; [discriminate|discriminate|]). apply ST_nil. }
    apply B_plain; [discriminate..|]. apply B_plain; [discriminate..|].
    apply (B_object (list_ascii_of_string (Str.dq "'text':'a}b'"))).
    + apply (B_string (list_ascii_of_string "text")).
      { repeat (apply ST_char; [discriminate|discriminate|]). apply ST_nil. }
      apply B_plain; [discriminate..|].
      apply (B_string (list_ascii_of_string "a}b") []).
      { repeat (apply ST_char; [discriminate|discriminate|]). apply ST_nil. }
      apply B_nil.
    + apply B_plain; [discriminate..|]. apply B_nil.
  - split; [reflexivity|].
    intros q Hq. unfold occurs_at.
    do 6 (destruct q as [|q]; [vm_compute; discriminate|]). simpl in Hq. lia.
Qed.

Lemma extract_questions_strategies_witness :
  extract_questions JsonText.parse malformed_reply = empty_session.
Proof.
  apply (proj1 (proj2 (proj2 (proj2 (proj2 (proj2 (proj2
           extract_questions_strategies))))))).
  vm_compute. reflexivity.
Defined.

(** C5 (the defect): the search for the fence, which its comment
    calls a try of the case variations, knows two spellings only.  A
    fence written [```Json] is a json fence in any reading that ignores
    case, and it is not found, so that the questions inside it are
    lost, where the same reply with [```json] gives its question; and
    when a [```JSON] fence comes before a [```json] fence it is the
    second that is read, not the first. *)
Theorem fence_is_case_sensitive :
  fence_start_any_case mixed_case_reply = Some 7%nat /\
  fence_start mixed_case_reply = None /\
  extract_questions JsonText.parse mixed_case_reply = empty_session /\
  extract_questions JsonText.parse fenced_reply = one_question /\
  fence_start_any_case two_fences_reply = Some 0%nat /\
  fence_start two_fences_reply = Some 48%nat /\
  extract_questions JsonText.parse two_fences_reply
  = mk_qa [mk_question 1 "second?" ["b"] "" false (-1)] 0.
Proof. repeat split; vm_compute; reflexivity. Qed.

End ExtractFacts.

(** ** Modifications extracted from a transcript *)

Module ModificationsFacts.
Import Transcript Subagent Modifications.

Lemma dedup_onto_app seen a b :
  dedup_onto seen (a ++ b) = dedup_onto (dedup_onto seen a) b.
Proof. unfold dedup_onto. apply fold_left_app. Qed.

Lemma filter_fresh_seen seen x l :
  existsb (String.eqb x) seen = true ->
  List.filter (fresh seen) (List.filter (fun y => negb (String.eqb y x)) l)
  = List.filter (fresh seen) l.
Proof.
  intros Hx. induction l as [|y l IH]; [reflexivity|]. simpl.
  destruct (String.eqb_spec y x) as [->|Hne]; simpl.
  - unfold fresh at 2. rewrite Hx. simpl. exact IH.
  - destruct (fresh seen y); simpl; now rewrite IH.
Qed.

Lemma filter_fresh_snoc seen x l :
  List.filter (fresh (seen ++ [x])) l
  = List.filter (fresh seen) (List.filter (fun y => negb (String.eqb y x)) l).
Proof.
  induction l as [|y l IH]; [reflexivity|]. simpl.
  unfold fresh at 1. rewrite existsb_app. simpl. rewrite orb_false_r.
  destruct (String.eqb_spec y x) as [->|Hne]; simpl.
  - rewrite orb_true_r. simpl. exact IH.
  - rewrite orb_false_r. fold (fresh seen y).
    destruct (fresh seen y); simpl; now rewrite IH.
Qed.

(** The vector grown by [add_unique] is the de-duplication that keeps
    first occurrences. *)
Lemma dedup_onto_dedup seen l :
  dedup_onto seen l = seen ++ List.filter (fresh seen) (dedup l).
Proof.
  revert seen. induction l as [|x l IH]; intros seen.
  - simpl. now rewrite app_nil_r.
  - change (dedup_onto seen (x :: l)) with (dedup_onto (add_unique x seen) l).
    rewrite IH. unfold add_unique. cbn [dedup List.filter].
    destruct (existsb (String.eqb x) seen) eqn:Hx.
    + unfold fresh at 2. rewrite Hx. simpl. now rewrite filter_fresh_seen.
    + unfold fresh at 2. rewrite Hx. simpl.
      rewrite <- app_assoc. simpl. now rewrite filter_fresh_snoc.
Qed.

Lemma filter_all (l : list string) :
  List.filter (fresh []) l = l.
Proof. induction l as [|y l IH]; [reflexivity|]. simpl. now rewrite IH. Qed.

Lemma dedup_onto_nil l : dedup_onto [] l = dedup l.
Proof. rewrite dedup_onto_dedup. simpl. apply filter_all. Qed.

Lemma substring_length n s :
  (n <= String.length s)%nat -> String.length (String.substring 0 n s) = n.
Proof.
  revert s. induction n as [|n IH]; intros s Hn.
  - destruct s; reflexivity.
  - destruct s as [|c s]; simpl in *; [lia|]. rewrite IH; lia.
Qed.

(** A command longer than 200 characters becomes its first 197
    characters and an ellipsis, 200 characters in all; any other is
    kept. *)
Lemma truncate_command_spec cmd :
  ((200 < Str.size cmd)%nat ->
   truncate_command cmd = Str.substr cmd 0 197 +:+ "..." /\
   Str.size (truncate_command cmd) = 200%nat) /\
  ((Str.size cmd <= 200)%nat -> truncate_command cmd = cmd).
Proof.
  unfold truncate_command. split.
  - intros H. assert (E : (200 <? Str.size cmd)%nat = true) by now apply Nat.ltb_lt.
    rewrite E. split; [reflexivity|].
    unfold Str.size, Str.substr in *.
    rewrite StrFacts.append_length, substring_length by lia. reflexivity.
  - intros H. assert (E : (200 <? Str.size cmd)%nat = false) by now apply Nat.ltb_ge.
    now rewrite E.
Qed.

Lemma add_files_spec l files :
  add_files l files = (dedup_onto files (leading_strings l), all_strings l).
Proof.
  revert files. induction l as [|f l IH]; intros files; [reflexivity|].
  destruct f; try reflexivity. simpl. apply IH.
Qed.

Lemma add_commands_spec l cmds :
  add_commands l cmds = (cmds ++ leading_strings l, all_strings l).
Proof.
  revert cmds. induction l as [|c l IH]; intros cmds.
  - simpl. now rewrite app_nil_r.
  - destruct c; try (simpl; now rewrite app_nil_r).
    simpl. rewrite IH. now rewrite <- app_assoc.
Qed.

Lemma value_role m : Json.value_string (to_json m) "role" "" = Ret (role m).
Proof. reflexivity. Qed.

Lemma value_content m :
  Json.value_string (to_json m) "content" "" = Ret (content m).
Proof. reflexivity. Qed.

Lemma value_tool_call_id m :
  Json.value_string (to_json m) "tool_call_id" ""
  = Ret (default "" (tool_call_id m)).
Proof.
  unfold to_json. destruct (tool_calls m), (tool_call_id m); reflexivity.
Qed.

Lemma contains_tool_calls m :
  Json.contains (to_json m) "tool_calls"
  = match tool_calls m with Some _ => true | None => false end.
Proof.
  unfold to_json. destruct (tool_calls m), (tool_call_id m); reflexivity.
Qed.

Lemma items_tool_calls m calls :
  tool_calls m = Some calls ->
  Json.items (Json.get (to_json m) "tool_calls") = List.map call_to_json calls.
Proof. unfold to_json. intros ->. reflexivity. Qed.

Lemma find_tool_result_spec id t :
  find_tool_result id (List.map to_json t)
  = Ret (option_map to_json (result_of t id)).
Proof.
  induction t as [|m t IH]; [reflexivity|].
  change (List.map to_json (m :: t)) with (to_json m :: List.map to_json t).
  cbn [find_tool_result]. rewrite value_role.
  unfold mbind, outcome_bind, obind.
  unfold result_of. cbn [List.find].
  destruct (String.eqb (role m) "tool"); cbn [andb].
  - rewrite value_tool_call_id.
    destruct (String.eqb (default "" (tool_call_id m)) id); [reflexivity|].
    exact IH.
  - exact IH.
Qed.

Section WithParser.
Variable parse : string -> option json.

Lemma add_nested_spec content files cmds :
  add_nested parse content (files, cmds)
  = (dedup_onto files (match parse content with
                       | Some r => nested_files r
                       | None => []
                       end),
     cmds ++ match parse content with
             | Some r => nested_commands r
             | None => []
             end).
Proof.
  unfold add_nested, nested_files, nested_commands.
  destruct (parse content) as [r|]; [|simpl; now rewrite app_nil_r].
  destruct (Json.contains r "files_modified").
  - rewrite add_files_spec. simpl negb. simpl orb.
    destruct (all_strings _); simpl andb.
    + destruct (Json.contains r "commands_run"); simpl andb.
      * now rewrite add_commands_spec.
      * now rewrite app_nil_r.
    + rewrite andb_false_r. now rewrite app_nil_r.
  - simpl. destruct (Json.contains r "commands_run"); simpl.
    + now rewrite add_commands_spec.
    + now rewrite app_nil_r.
Qed.

Lemma value_string_member args key :
  match Json.value_string args key "" with
  | Ret v => if Str.empty v then None else Some v
  | Raise _ => None
  end
  = match string_member args key with
    | Some v => if Str.empty v then None else Some v
    | None => None
    end.
Proof.
  unfold Json.value_string, Json.value, string_member.
  destruct args; try reflexivity.
  destruct (Json.assoc key members) as [v|]; [|reflexivity].
  destruct v; reflexivity.
Qed.

Lemma apply_call_spec t tc files cmds :
  apply_call parse (List.map to_json t) (call_to_json tc)
             (call_name tc) (call_arguments tc) (files, cmds)
  = (dedup_onto files (files_of_call parse t tc),
     cmds ++ commands_of_call parse t tc).
Proof.
  unfold apply_call, files_of_call, commands_of_call.
  destruct (parse (call_arguments tc)) as [args|];
    [|simpl; now rewrite app_nil_r].
  destruct (String.eqb (call_name tc) "write" || String.eqb (call_name tc) "edit").
  { pose proof (value_string_member args "file_path") as H.
    destruct (Json.value_string args "file_path" "") as [v|e],
             (string_member args "file_path") as [w|];
      try destruct (Str.empty v) eqn:Ev; try destruct (Str.empty w) eqn:Ew;
      try discriminate; try (injection H as ->); simpl;
      rewrite ?app_nil_r; reflexivity. }
  destruct (String.eqb (call_name tc) "bash").
  { pose proof (value_string_member args "command") as H.
    destruct (Json.value_string args "command" "") as [v|e],
             (string_member args "command") as [w|];
      try destruct (Str.empty v) eqn:Ev; try destruct (Str.empty w) eqn:Ew;
      try discriminate; try (injection H as ->); simpl;
      rewrite ?app_nil_r; reflexivity. }
  destruct (String.eqb (call_name tc) "spawn_agent");
    [|simpl; now rewrite app_nil_r].
  change (Json.value_string (call_to_json tc) "id" "") with (Ret (call_id tc)).
  cbv iota beta. rewrite find_tool_result_spec. unfold nested_result.
  destruct (result_of t (call_id tc)) as [m|]; simpl option_map; cbv iota beta.
  - rewrite value_content. cbv iota beta. apply add_nested_spec.
  - simpl. now rewrite app_nil_r.
Qed.

Lemma visit_call_spec t tc files cmds :
  visit_call parse (List.map to_json t) (call_to_json tc) (files, cmds)
  = Ret (dedup_onto files (files_of_call parse t tc),
         cmds ++ commands_of_call parse t tc).
Proof.
  unfold visit_call.
  change (Json.value_json (call_to_json tc) "function" (JObj []))
    with (Ret (JObj [("name", JStr (call_name tc));
                     ("arguments", JStr (call_arguments tc))])).
  unfold mbind, outcome_bind, obind. cbv iota beta.
  change (Json.value_string
            (JObj [("name", JStr (call_name tc));
                   ("arguments", JStr (call_arguments tc))]) "name" "")
    with (Ret (call_name tc)).
  change (Json.value_string
            (JObj [("name", JStr (call_name tc));
                   ("arguments", JStr (call_arguments tc))]) "arguments" "")
    with (Ret (call_arguments tc)).
  cbv iota beta. now rewrite apply_call_spec.
Qed.

Lemma visit_calls_spec t calls files cmds :
  visit_calls parse (List.map to_json t) (List.map call_to_json calls)
              (files, cmds)
  = Ret (dedup_onto files (flat_map (files_of_call parse t) calls),
         cmds ++ flat_map (commands_of_call parse t) calls).
Proof.
  revert files cmds. induction calls as [|tc calls IH]; intros files cmds.
  - simpl. now rewrite app_nil_r.
  - change (List.map call_to_json (tc :: calls))
      with (call_to_json tc :: List.map call_to_json calls).
    cbn [visit_calls]. rewrite visit_call_spec.
    unfold mbind, outcome_bind, obind. rewrite IH.
    cbn [flat_map]. now rewrite dedup_onto_app, <- app_assoc.
Qed.

Lemma visit_messages_spec t t' files cmds :
  visit_messages parse (List.map to_json t) (List.map to_json t') (files, cmds)
  = Ret (dedup_onto files (flat_map (files_of_call parse t) (assistant_calls t')),
         cmds ++ flat_map (commands_of_call parse t) (assistant_calls t')).
Proof.
  revert files cmds. induction t' as [|m t' IH]; intros files cmds.
  - simpl. now rewrite app_nil_r.
  - change (List.map to_json (m :: t')) with (to_json m :: List.map to_json t').
    cbn [visit_messages]. rewrite value_role, contains_tool_calls.
    unfold mbind, outcome_bind, obind. cbv iota beta.
    unfold assistant_calls. cbn [flat_map]. fold (assistant_calls t').
    rewrite !flat_map_app.
    destruct (String.eqb (role m) "assistant"); cbn [andb].
    + destruct (tool_calls m) as [calls|] eqn:Ec.
      * rewrite (items_tool_calls m calls Ec), visit_calls_spec.
        rewrite IH. cbn [default].
        now rewrite dedup_onto_app, <- app_assoc.
      * rewrite IH. reflexivity.
    + rewrite IH. reflexivity.
Qed.

(** C6: on every transcript, [extract_modifications] returns, and
    its two vectors are the files and the commands of the assistant
    tool calls in order: the non-empty [file_path] of each [write] or
    [edit] call and the [files_modified] of the result of each
    [spawn_agent] call, de-duplicated with the first occurrence kept;
    the non-empty [command] of each [bash] call, cut to 197
    characters and [...] when longer than 200, and the [commands_run]
    of the result of each [spawn_agent] call. *)
Theorem extract_modifications_spec (t : list message) :
  extract_modifications parse (transcript_to_json t)
  = Ret (files_modified parse t, commands_run parse t) /\
  (forall cmd, (200 < Str.size cmd)%nat ->
     truncate_command cmd = Str.substr cmd 0 197 +:+ "..." /\
     Str.size (truncate_command cmd) = 200%nat) /\
  (forall cmd, (Str.size cmd <= 200)%nat -> truncate_command cmd = cmd).
Proof.
  split.
  - unfold extract_modifications, transcript_to_json. cbn [Json.items].
    rewrite visit_messages_spec. unfold files_modified, commands_run.
    now rewrite dedup_onto_nil.
  - split; intros cmd; apply truncate_command_spec.
Qed.

End WithParser.

(** *** A child transcript *)

Lemma extract_modifications_spec_witness :
  extract_modifications JsonText.parse (transcript_to_json child_transcript)
  = Ret (["/a"; "/b"; "/c"],
         ["ls"; "make"; Str.substr long_command 0 197 +:+ "..."]) /\
  Str.size (truncate_command long_command) = 200%nat.
Proof.
  destruct (extract_modifications_spec JsonText.parse child_transcript)
    as (H & Hlong & _).
  split.
  - rewrite H. vm_compute. reflexivity.
  - apply Hlong. vm_compute. lia.
Defined.

End ModificationsFacts.

(** ** Discovery of agent definitions *)

Module RegistryFacts.
Import Registry.

Section Discover.
Variable D : disk.
Variable embedded : gmap string agent_definition.

Lemma load_entry_lookup m e n :
  load_entry D embedded m e !! n
  = match load_entry D embedded ∅ e !! n with
    | Some a => Some a
    | None => m !! n
    end.
Proof.
  unfold load_entry. destruct (negb (snd e)); [now rewrite lookup_empty|].
  destruct (parse_agent D (fst e)) as [a|]; [|now rewrite lookup_empty].
  destruct (has_key embedded (name a)); [now rewrite lookup_empty|].
  destruct (decide (name a = n)) as [<-|Hne].
  - now rewrite !lookup_insert_eq.
  - rewrite !lookup_insert_ne by assumption. now rewrite lookup_empty.
Qed.

Lemma load_entries_lookup es m n :
  fold_left (load_entry D embedded) es m !! n
  = match fold_left (load_entry D embedded) es ∅ !! n with
    | Some a => Some a
    | None => m !! n
    end.
Proof.
  revert m. induction es as [|e es IH]; intros m; simpl.
  - now rewrite lookup_empty.
  - rewrite IH. rewrite (IH (load_entry D embedded ∅ e)).
    rewrite (load_entry_lookup m e n).
    destruct (fold_left _ es ∅ !! n); [reflexivity|].
    now destruct (load_entry D embedded ∅ e !! n).
Qed.

Lemma load_path_lookup m p n :
  load_path D embedded m p !! n
  = match provided D embedded p n with Some a => Some a | None => m !! n end.
Proof.
  unfold provided, load_path. destruct (negb (exists_ D p)).
  - now rewrite lookup_empty.
  - apply load_entries_lookup.
Qed.

Lemma disk_agents_lookup search_paths n :
  disk_agents D embedded search_paths !! n = first_provided D embedded search_paths n.
Proof.
  unfold disk_agents. induction search_paths as [|p ps IH]; simpl.
  - apply lookup_empty.
  - rewrite fold_left_app. simpl. rewrite load_path_lookup.
    now rewrite IH.
Qed.

Lemma load_entries_invariant (P : string -> agent_definition -> Prop) es m :
  (forall k a, m !! k = Some a -> P k a) ->
  (forall e b, In e es -> snd e = true -> parse_agent D (fst e) = Some b ->
               embedded !! name b = None -> P (name b) b) ->
  forall k a, fold_left (load_entry D embedded) es m !! k = Some a -> P k a.
Proof.
  revert m. induction es as [|e es IH]; intros m Hm Hes; simpl; [exact Hm|].
  apply IH; [|intros e' b Hin; apply Hes; now right].
  intros k a. unfold load_entry.
  destruct (snd e) eqn:Ed; simpl; [|apply Hm].
  destruct (parse_agent D (fst e)) as [b|] eqn:Ep; [|apply Hm].
  unfold has_key. destruct (embedded !! name b) eqn:Eb; [apply Hm|].
  destruct (decide (name b = k)) as [<-|Hne].
  - rewrite lookup_insert_eq. intros H. injection H as <-.
    apply (Hes e); [now left|assumption..].
  - rewrite lookup_insert_ne by assumption. apply Hm.
Qed.

(** What a path provides is a definition of that name, read in a
    directory of that path, which no embedded definition bears. *)
Lemma provided_name p n a :
  provided D embedded p n = Some a ->
  name a = n /\ embedded !! n = None /\ exists_ D p = true /\
  exists e, In e (entries D p) /\ snd e = true /\
            parse_agent D (fst e) = Some a.
Proof.
  unfold provided, load_path. destruct (exists_ D p); simpl.
  - apply (load_entries_invariant
             (fun k a => name a = k /\ embedded !! k = None /\ true = true /\
                         exists e, In e (entries D p) /\ snd e = true /\
                                   parse_agent D (fst e) = Some a)).
    + intros k b. now rewrite lookup_empty.
    + intros e b Hin Hd Hp He. repeat split; eauto.
  - now rewrite lookup_empty.
Qed.

Lemma first_provided_name ps n a :
  first_provided D embedded ps n = Some a -> name a = n /\ embedded !! n = None.
Proof.
  induction ps as [|p ps IH]; simpl; [discriminate|].
  destruct (provided D embedded p n) as [b|] eqn:E; [|exact IH].
  intros H. injection H as <-.
  destruct (provided_name p n b E) as (? & ? & _). now split.
Qed.

Lemma get_agent_lookup (m : gmap string agent_definition) n :
  (forall k a, m !! k = Some a -> name a = k) ->
  get_agent (merge_sort name_le (List.map snd (map_to_list m))) n = m !! n.
Proof.
  intros Hkeys. unfold get_agent.
  assert (Hin : forall a, In a (merge_sort name_le (List.map snd (map_to_list m)))
                          <-> m !! name a = Some a).
  { intros a. rewrite <- list_elem_of_In, merge_sort_Permutation.
    rewrite list_elem_of_fmap. split.
    - intros ([k b] & -> & Hkb). apply elem_of_map_to_list in Hkb.
      simpl. now rewrite (Hkeys _ _ Hkb).
    - intros Ha. exists (name a, a). split; [reflexivity|].
      now apply elem_of_map_to_list. }
  destruct (List.find _ _) as [a|] eqn:Ef.
  - apply List.find_some in Ef as [Ha En].
    apply String.eqb_eq in En. subst n. symmetry. now apply Hin.
  - destruct (m !! n) as [a|] eqn:En; [|reflexivity].
    pose proof (Hkeys _ _ En) as Hn. subst n.
    apply Hin in En. eapply List.find_none in Ef; [|exact En].
    simpl in Ef. now rewrite String.eqb_refl in Ef.
Qed.

(** The embedded definitions are stored under their names, as
    [register_embedded_agents] stores them. *)
Hypothesis embedded_keys :
  forall k a, embedded !! k = Some a -> name a = k.


End Discover.

(** *** A disk with a project-local and a user-global directory *)

Lemma example_embedded_keys k a :
  example_embedded !! k = Some a -> name a = k.
Proof.
  unfold example_embedded. intros H.
  destruct (decide (k = "planning-agent")) as [->|H1].
  - vm_compute in H. injection H as <-. reflexivity.
  - rewrite lookup_insert_ne in H by congruence.
    destruct (decide (k = "explorer-agent")) as [->|H2].
    + vm_compute in H. injection H as <-. reflexivity.
    + rewrite lookup_singleton_ne in H by congruence. discriminate.
Qed.


Example parse_agent_file_reviewer :
  parse_agent_file Fs.no_faults example_files "/proj/.llama-agent/agents/reviewer"
  = Some (agent_named "reviewer" "/proj/.llama-agent/agents/reviewer") /\
  parse_agent_file Fs.no_faults example_files "/home/u/.llama-agent/agents/broken"
  = None /\
  parse_agent_file Fs.no_faults example_files "/home/u/.llama-agent/agents/none"
  = None.
Proof. repeat split; vm_compute; reflexivity. Qed.

Example discover_listing :
  List.map name
    (discover example_disk example_embedded
              ["/proj/.llama-agent/agents"; "/home/u/.llama-agent/agents"])
  = ["explorer-agent"; "planning-agent"; "reviewer"; "tester"].
Proof. vm_compute. reflexivity. Qed.

End RegistryFacts.

(** ** The spawn depth limit *)

Module SpawnFacts.
Import Registry Spawn.

Section WithEnvironment.
Variable parse : string -> option json.
Variable dump : json -> string.
Variable registry : list agent_definition.
Variable get_tool : string -> option tool_def.
Variable resolve_path : string -> string -> string.
Variable new_context_id : string.
Variable base_path : string.
Variable run_loop : agent_config -> string -> loop_run.

#[local] Abbreviation spawn :=
  (Spawn.spawn parse dump registry get_tool resolve_path new_context_id
               base_path run_loop).

(** The request of a nested [spawn_agent] call inherits the current
    depth of the manager. *)
Lemma spawn_agent_request_depth args m request :
  spawn_agent_request args m = Ret (Some request) ->
  spawn_depth request = get_current_spawn_depth m.
Proof.
  unfold spawn_agent_request, mbind, outcome_bind, obind.
  destruct (Json.value_string args "agent_name" "") as [n|]; [|discriminate].
  destruct (Json.value_string args "task" "") as [t|]; [|discriminate].
  destruct (Json.value_json args "context" (JObj [])) as [c|]; [|discriminate].
  destruct (Json.value_int args "max_iterations" 20) as [mi|]; [|discriminate].
  destruct (Str.empty n || Str.empty t); [discriminate|].
  destruct (Json.value_string args "working_dir" "") as [wd|]; [|discriminate].
  intros H. injection H as <-. reflexivity.
Qed.

(** C2: a request whose [spawn_depth] is at least 3 gets a failed
    result whose error is the depth message; the manager is left as
    it was: same depth stack, no child agent loop constructed, no
    other effect.  A request built by the [spawn_agent] tool while
    the current depth is at least 3 is such a request. *)
Theorem spawn_depth_exceeded request m :
  (3 <= spawn_depth request)%Z ->
  spawn request m = (Ret (with_error depth_error fresh_result), m) /\
  success (with_error depth_error fresh_result) = false /\
  Str.starts_with "Maximum spawn depth" (error (with_error depth_error fresh_result))
  = true /\
  spawn_depth_stack_ (snd (spawn request m)) = spawn_depth_stack_ m /\
  constructed_loops (snd (spawn request m)) = constructed_loops m /\
  events (snd (spawn request m)) = events m /\
  (forall args nested,
     (3 <= get_current_spawn_depth m)%Z ->
     spawn_agent_request args m = Ret (Some nested) ->
     spawn nested m = (Ret (with_error depth_error fresh_result), m)).
Proof.
  assert (G : forall r, (3 <= spawn_depth r)%Z ->
                spawn r m = (Ret (with_error depth_error fresh_result), m)).
  { intros r Hr. unfold Spawn.spawn.
    assert (L : (MAX_SPAWN_DEPTH <=? spawn_depth r)%Z = true)
      by (apply Z.leb_le; unfold MAX_SPAWN_DEPTH; lia).
    rewrite L. reflexivity. }
  intros Hd. rewrite (G request Hd).
  repeat split; try reflexivity.
  intros args nested Hcur Hreq. apply G.
  now rewrite (spawn_agent_request_depth args m nested Hreq).
Qed.

End WithEnvironment.

(** *** A subagent at depth 2 calls [spawn_agent] *)

Lemma spawn_depth_exceeded_witness :
  spawn_agent_request (JObj [("agent_name", JStr "explorer-agent");
                             ("task", JStr "look deeper")]) at_depth_three
  = Ret (Some nested_request) /\
  Spawn.spawn JsonText.parse JsonText.dump [explorer] no_tools same_dir
              "ctx-1" "/proj/.llama-agent" idle_run nested_request at_depth_three
  = (Ret (with_error depth_error fresh_result), at_depth_three).
Proof.
  split; [reflexivity|].
  apply (spawn_depth_exceeded JsonText.parse JsonText.dump [explorer] no_tools
           same_dir "ctx-1" "/proj/.llama-agent" idle_run nested_request
           at_depth_three).
  simpl. lia.
Defined.

(** Below the limit the same request constructs and runs a child loop
    and leaves the stack as it found it. *)
Example spawn_below_limit :
  let request := mk_request "explorer-agent" "look" (JObj []) 20 false 2 "" in
  let m := mk_manager "/proj" [2%Z; 1%Z] JNull [] in
  let '(r, m') := Spawn.spawn JsonText.parse JsonText.dump [explorer] no_tools
                              same_dir "ctx-1" "/proj/.llama-agent" idle_run
                              request m in
  r = Ret (mk_result true "done" (JObj []) 1 no_stats "" [] []) /\
  spawn_depth_stack_ m' = [2%Z; 1%Z] /\ constructed_loops m' = 1%nat.
Proof. vm_compute. repeat split; reflexivity. Qed.

End SpawnFacts.

(** ** The planning state machine: persistence and the transition graph *)

Module PlanningOpsFacts.
Import Planning PlanningOps.

Lemma state_string_roundtrip st : string_to_state (state_to_string st) = st.
Proof. destruct st; reflexivity. Qed.

Lemma to_int32_small z : Cxx.int32 z -> Json.to_int32 z = z.
Proof.
  unfold Cxx.int32, Json.to_int32. intros H.
  rewrite Z.mod_small by lia. lia.
Qed.

Lemma from_to_json s :
  Cxx.int32 (iteration s) -> from_json (to_json s) = Ret s.
Proof.
  intros Hi. destruct s as [st cid tk ef pc qs ans it pp ca ua].
  simpl in Hi. unfold from_json, to_json.
  unfold mbind, outcome_bind, obind, mret, outcome_ret.
  cbn [Json.value_string Json.value_json Json.value_int Json.value Json.assoc
       String.eqb Ascii.eqb Bool.eqb Json.get_string Json.get_int
       state context_id task exploration_findings plan_content questions answers
       iteration plan_path created_at updated_at].
  now rewrite state_string_roundtrip, to_int32_small.
Qed.

(** X1: a session written by [to_json] is read back unchanged by
    [from_json], state included, as long as the iteration count is an
    [int]. *)
Theorem session_json_roundtrip (s : planning_session) :
  Cxx.int32 (iteration s) ->
  from_json (to_json s) = Ret s /\
  state_field (to_json s) = Some (JStr (state_to_string (state s))) /\
  In (state_to_string (state s)) state_strings.
Proof.
  intros Hi. split; [now apply from_to_json|]. split; [reflexivity|].
  destruct (state s); vm_compute; tauto.
Qed.

Lemma session_json_roundtrip_witness :
  from_json (to_json refining_session) = Ret refining_session.
Proof.
  refine (proj1 (session_json_roundtrip refining_session _)).
  unfold Cxx.int32. simpl. lia.
Defined.

Lemma state_path_ne_temp m : get_state_path m <> get_state_path m +:+ ".tmp".
Proof. apply StrFacts.append_nonempty_neq. discriminate. Qed.

(** X2: [save] is atomic on [plan_state.json]: whatever fails (creating
    the directory, opening, writing or renaming the temporary file),
    afterwards the state file holds the complete new session when
    [save] returned true and is untouched in every other case, a thrown
    [filesystem_error] included. *)
Theorem save_atomic dump F m fs :
  Fs.files (snd (save dump F m fs)) !! get_state_path m
  = match fst (save dump F m fs) with
    | Ret true => Some (dump (to_json (session_ m)))
    | _ => Fs.files fs !! get_state_path m
    end.
Proof.
  pose proof (state_path_ne_temp m) as Hne.
  unfold save.
  assert (Hmade : forall fs1,
            (if Fs.exists_ fs (Fs.parent_path (get_state_path m)) then Some fs
             else Fs.create_directories F fs (Fs.parent_path (get_state_path m)))
            = Some fs1 -> Fs.files fs1 = Fs.files fs).
  { intros fs1. destruct (Fs.exists_ fs _).
    - now intros [= <-].
    - unfold Fs.create_directories. destruct (Fs.mkdir_fails F _); [discriminate|].
      now intros [= <-]. }
  destruct (if Fs.exists_ fs _ then _ else _) as [fs1|]; [|reflexivity].
  specialize (Hmade fs1 eq_refl).
  unfold Fs.open_out, Fs.write_out, Fs.rename, Fs.remove, Fs.with_files.
  destruct (Fs.open_fails F _); simpl; [now rewrite Hmade|].
  destruct (Fs.write_fails F _); simpl.
  { rewrite lookup_delete_ne by congruence.
    rewrite lookup_insert_ne by congruence. now rewrite Hmade. }
  destruct (Fs.rename_fails F _); simpl.
  { rewrite !lookup_insert_ne by congruence. now rewrite Hmade. }
  rewrite lookup_insert_eq. simpl. now rewrite lookup_insert_eq.
Qed.

Lemma set_context_id_same s : set_context_id (context_id s) s = s.
Proof. now destruct s. Qed.

Lemma load_after_save parse dump F m fs fs' m0 :
  save dump F m fs = (Ret true, fs') ->
  parse (dump (to_json (session_ m))) = Some (to_json (session_ m)) ->
  Fs.read_fails F (get_state_path m) = false ->
  Cxx.int32 (iteration (session_ m)) ->
  base_path m0 = base_path m ->
  has_saved_session m0 fs' (context_id (session_ m)) = true /\
  load parse F (context_id (session_ m)) m0 fs' = (true, m).
Proof.
  intros Hs Hp Hr Hi Hb. apply PlanningFacts.save_written in Hs.
  assert (Hpath : get_state_path (with_session (set_context_id (context_id (session_ m))) m0)
                  = get_state_path m).
  { unfold get_state_path. simpl. now rewrite Hb. }
  assert (Hex : Fs.exists_ fs' (get_state_path m) = true).
  { unfold Fs.exists_. rewrite Hs. rewrite bool_decide_eq_true_2 by eauto.
    reflexivity. }
  split.
  { unfold has_saved_session. rewrite Hb. exact Hex. }
  unfold load. rewrite Hpath, Hex. simpl negb. cbv iota.
  unfold Fs.read_in. rewrite Hr, Hs, Hp, (from_to_json _ Hi).
  f_equal. destruct m as [s b], m0 as [s0 b0]. simpl in *. subst b0.
  unfold with_session. simpl. now rewrite set_context_id_same.
Qed.

(** X3: what [save] wrote, [load] reads back: after a successful
    [save], a machine over the same base path that loads the context
    of the session finds a saved session, returns true and holds the
    very session that was saved (the printer and the parser of the
    JSON library agreeing on its text). *)
Theorem saved_session_loads parse dump F m fs fs' m0 :
  save dump F m fs = (Ret true, fs') ->
  parse (dump (to_json (session_ m))) = Some (to_json (session_ m)) ->
  Fs.read_fails F (get_state_path m) = false ->
  Cxx.int32 (iteration (session_ m)) ->
  base_path m0 = base_path m ->
  has_saved_session m0 fs' (context_id (session_ m)) = true /\
  load parse F (context_id (session_ m)) m0 fs' = (true, m) /\
  is_active (snd (load parse F (context_id (session_ m)) m0 fs')) = is_active m.
Proof.
  intros Hs Hp Hr Hi Hb.
  destruct (load_after_save parse dump F m fs fs' m0 Hs Hp Hr Hi Hb) as [H1 H2].
  split; [exact H1|]. split; [exact H2|]. now rewrite H2.
Qed.

Lemma saved_session_loads_witness :
  exists fs',
    save JsonText.dump Fs.no_faults (machine_of "/data" refining_session)
         Fs.empty_fs = (Ret true, fs') /\
    load JsonText.parse Fs.no_faults "c1" (new_machine "/data") fs'
    = (true, machine_of "/data" refining_session).
Proof.
  eexists. split; [vm_compute; reflexivity|].
  refine (proj1 (proj2 (saved_session_loads JsonText.parse JsonText.dump
            Fs.no_faults (machine_of "/data" refining_session) Fs.empty_fs _
            (new_machine "/data") _ _ _ _ _))).
  - vm_compute. reflexivity.
  - vm_compute. reflexivity.
  - reflexivity.
  - unfold Cxx.int32. simpl. lia.
  - reflexivity.
Defined.

(** X4: [load] always leaves the session under the requested context
    id.  When no state file exists it resets the session to an empty
    IDLE one and returns false; when the file exists but cannot be read
    or is no session, it returns false and keeps every other field of
    the session it had. *)
Theorem load_sets_context_id parse F ctx m fs :
  let path := context_path (base_path m) ctx +:+ "/plan_state.json" in
  context_id (session_ (snd (load parse F ctx m fs))) = ctx /\
  base_path (snd (load parse F ctx m fs)) = base_path m /\
  (Fs.exists_ fs path = false ->
   load parse F ctx m fs
   = (false, machine_of (base_path m) (set_context_id ctx fresh_session))) /\
  (Fs.exists_ fs path = true -> fst (load parse F ctx m fs) = false ->
   session_ (snd (load parse F ctx m fs)) = set_context_id ctx (session_ m)).
Proof.
  cbv zeta. unfold load, get_state_path. simpl.
  destruct (Fs.exists_ fs _) eqn:E; simpl.
  - destruct (Fs.read_in F fs _) as [text|]; simpl.
    + destruct (parse text) as [j|]; simpl.
      * destruct (from_json j) as [s|e]; simpl.
        -- repeat split; try reflexivity; try discriminate.
        -- repeat split; try reflexivity; discriminate.
      * repeat split; try reflexivity; discriminate.
    + repeat split; try reflexivity; discriminate.
  - repeat split; try reflexivity; discriminate.
Qed.

Lemma load_sets_context_id_witness :
  load JsonText.parse Fs.no_faults "c1"
       (machine_of "/data" (set_context_id "c0" refining_session)) garbled_state_fs
  = (false, machine_of "/data" refining_session) /\
  load JsonText.parse Fs.no_faults "c2"
       (machine_of "/data" refining_session) garbled_state_fs
  = (false, machine_of "/data" (set_context_id "c2" fresh_session)).
Proof.
  split; [vm_compute; reflexivity|].
  refine (proj1 (proj2 (proj2 (load_sets_context_id JsonText.parse Fs.no_faults
            "c2" (machine_of "/data" refining_session) garbled_state_fs))) _).
  vm_compute. reflexivity.
Defined.

Ltac step s := apply (rtc_l valid_step _ s); [reflexivity|].

Lemma reach_from_idle t : rtc valid_step IDLE t.
Proof.
  destruct t.
  - apply rtc_refl.
  - step EXPLORING. apply rtc_refl.
  - step EXPLORING. step SYNTHESIZING. apply rtc_refl.
  - step EXPLORING. step SYNTHESIZING. step QUESTIONING. apply rtc_refl.
  - step EXPLORING. step SYNTHESIZING. step QUESTIONING. step AWAITING_ANSWERS.
    apply rtc_refl.
  - step EXPLORING. step SYNTHESIZING. step QUESTIONING. step AWAITING_ANSWERS.
    step REFINING. apply rtc_refl.
  - step EXPLORING. step SYNTHESIZING. step AWAITING_APPROVAL. apply rtc_refl.
  - step EXPLORING. step SYNTHESIZING. step AWAITING_APPROVAL. step APPROVED.
    apply rtc_refl.
  - step EXPLORING. step ABORTED. apply rtc_refl.
Qed.

Lemma reach_idle s : rtc valid_step s IDLE.
Proof.
  destruct s; try (step ABORTED; step IDLE; apply rtc_refl).
  - apply rtc_refl.
  - step IDLE. apply rtc_refl.
  - step IDLE. apply rtc_refl.
Qed.

(** X5: the transition table has no dead end and no self-loop: from
    every state every state can be reached through validated
    transitions (in particular IDLE, from which [start] opens a new
    session), no transition keeps the state, and ABORTED is a valid
    target exactly from the states in which the machine is active. *)
Theorem transition_graph_connected (m : machine) (s t : planning_state) :
  rtc valid_step s t /\
  validate_transition s s = false /\
  validate_transition (current_state m) ABORTED = is_active m.
Proof.
  split; [|split].
  - transitivity IDLE; [apply reach_idle|apply reach_from_idle].
  - now destruct s.
  - unfold is_active. now destruct (current_state m).
Qed.

(** X6: a session that [start] opened is found again: after a
    successful [start] the machine is EXPLORING at iteration 0 with the
    plan path of its context, the immediate [transition_to(EXPLORING)]
    of the workflow is refused and changes nothing, and a new machine
    on the same base path is offered the session for resumption. *)
Theorem started_session_is_resumable parse dump F now tk ctx base fs m' fs' :
  start dump F now tk ctx (new_machine base) fs = (Ret true, m', fs') ->
  parse (dump (to_json (session_ m'))) = Some (to_json (session_ m')) ->
  Fs.read_fails F (context_path base ctx +:+ "/plan_state.json") = false ->
  session_ m' = mk_session EXPLORING ctx tk "" "" JNull JNull 0
                           (context_path base ctx +:+ "/plan.md") now now /\
  (forall later, transition_to dump F later EXPLORING m' fs' = (Ret false, m', fs')) /\
  offers_resume parse F ctx (new_machine base) fs' = true.
Proof.
  unfold start. simpl.
  destruct (save dump F _ fs) as [r fs1] eqn:S. intros H Hp Hr.
  injection H as -> <- <-.
  split; [reflexivity|]. split; [reflexivity|].
  match type of S with save _ _ ?m _ = _ => set (m1 := m) in * end.
  destruct (load_after_save parse dump F m1 fs fs1 (new_machine base) S Hp Hr)
    as [H1 H2]; [unfold Cxx.int32; simpl; lia|reflexivity|].
  unfold offers_resume. simpl in H1, H2. rewrite H1, H2. reflexivity.
Qed.

Lemma started_session_is_resumable_witness :
  exists m' fs',
    start JsonText.dump Fs.no_faults "2026-01-01T10:00:00" "refactor foo" "c1"
          (new_machine "/data") Fs.empty_fs = (Ret true, m', fs') /\
    offers_resume JsonText.parse Fs.no_faults "c1" (new_machine "/data") fs' = true.
Proof.
  eexists _, _. split; [vm_compute; reflexivity|].
  refine (proj2 (proj2 (started_session_is_resumable JsonText.parse JsonText.dump
            Fs.no_faults "2026-01-01T10:00:00" "refactor foo" "c1" "/data"
            Fs.empty_fs _ _ _ _ _))).
  - vm_compute. reflexivity.
  - vm_compute. reflexivity.
  - reflexivity.
Defined.

End PlanningOpsFacts.

(** ** Questions and answers *)

Module QaSessionFacts.
Import Questions QaSession.

Lemma get_string_list_map l :
  get_string_list (List.map JStr l) = Ret l.
Proof.
  induction l as [|x l IH]; [reflexivity|].
  simpl. unfold mbind, outcome_bind, obind in *. now rewrite IH.
Qed.

Lemma question_roundtrip q :
  Cxx.int32 (q_id q) -> Cxx.int32 (selected_option_index q) ->
  question_from_json (question_to_json q) = Ret q.
Proof.
  intros Hi Hx. destruct q as [i t o a c x]. simpl in Hi, Hx.
  unfold question_from_json, question_to_json.
  unfold mbind, outcome_bind, obind, mret, outcome_ret.
  cbn [Json.value_string Json.value_json Json.value_int Json.value_bool
       Json.value Json.assoc String.eqb Ascii.eqb Bool.eqb Json.get_string
       Json.get_int Json.get_bool q_id text options selected_answer is_custom
       selected_option_index].
  unfold Json.of_strings, get_strings. rewrite get_string_list_map.
  now rewrite !PlanningOpsFacts.to_int32_small.
Qed.

Lemma questions_roundtrip qs :
  Forall (fun q => Cxx.int32 (q_id q) /\ Cxx.int32 (selected_option_index q)) qs ->
  questions_from_json (List.map question_to_json qs) = Ret qs.
Proof.
  induction 1 as [|q qs [Hi Hx] _ IH]; [reflexivity|].
  cbn [List.map questions_from_json].
  unfold mbind, outcome_bind, obind in *.
  now rewrite question_roundtrip, IH.
Qed.

(** X7: a Q&A session written by [qa_session::to_json] is read back
    unchanged by [qa_session::from_json]: questions, options, answers,
    custom flags and indices, as long as its integers are [int]s. *)
Theorem qa_session_json_roundtrip (s : qa_session) :
  ints_ok s -> from_json (to_json s) = Ret s.
Proof.
  intros [Hi Hq]. destruct s as [qs idx]. simpl in Hi, Hq.
  unfold from_json, to_json.
  unfold mbind, outcome_bind, obind, mret, outcome_ret.
  cbn [Json.value_int Json.value Json.assoc String.eqb Ascii.eqb Bool.eqb
       Json.get_int Json.contains Json.get Json.is_array Json.items andb
       questions current_question_index].
  rewrite questions_roundtrip by assumption.
  now rewrite PlanningOpsFacts.to_int32_small.
Qed.

Lemma qa_session_json_roundtrip_witness :
  from_json (to_json answered_session) = Ret answered_session.
Proof.
  apply (qa_session_json_roundtrip answered_session).
  split; [unfold Cxx.int32; simpl; lia|].
  repeat constructor; simpl; lia.
Defined.

Lemma count_answered_shift qs c :
  count_answered qs c = (c + count_answered qs 0)%Z.
Proof.
  revert c. induction qs as [|q qs IH]; intros c; simpl; [lia|].
  destruct (Str.empty (selected_answer q)); simpl.
  - apply IH.
  - rewrite (IH (c + 1)%Z), (IH (0 + 1)%Z). lia.
Qed.

Lemma count_answered_bounds qs :
  (0 <= count_answered qs 0 <= Z.of_nat (List.length qs))%Z.
Proof.
  induction qs as [|q qs IH]; simpl; [lia|].
  destruct (Str.empty (selected_answer q)); simpl.
  - lia.
  - rewrite count_answered_shift. lia.
Qed.

Lemma all_answered_count qs :
  all_answered qs = true <-> count_answered qs 0 = Z.of_nat (List.length qs).
Proof.
  induction qs as [|q qs IH]; simpl; [tauto|].
  pose proof (count_answered_bounds qs) as Hb.
  destruct (Str.empty (selected_answer q)); simpl.
  - split; [discriminate|]. lia.
  - rewrite count_answered_shift. rewrite IH. lia.
Qed.

(** X8: [is_complete] and [answered_count] agree: a session is
    complete exactly when it has a question and as many answers as
    questions; the count is never negative nor more than the number of
    questions, and an empty session is never complete. *)
Theorem is_complete_iff_all_counted (s : qa_session) :
  (is_complete s = true <->
   questions s <> [] /\ answered_count s = Z.of_nat (List.length (questions s))) /\
  (0 <= answered_count s <= Z.of_nat (List.length (questions s)))%Z /\
  is_complete empty_session = false.
Proof.
  split; [|split; [apply count_answered_bounds|reflexivity]].
  unfold is_complete, answered_count.
  rewrite <- all_answered_count.
  destruct (all_answered (questions s)), (questions s); simpl;
    split; try discriminate; try tauto; try (intros [H _]; congruence);
    try (intros [_ H]; discriminate).
  intros _. split; [discriminate|reflexivity].
Qed.

Lemma parse_question_unanswered id qj q :
  parse_question id qj = Ret (Some q) -> unanswered q.
Proof.
  unfold parse_question, mbind, outcome_bind, obind.
  destruct (Json.value_int qj "id" id) as [qid|]; [|discriminate].
  destruct (if Json.contains qj "text" then _ else _) as [txt|]; [|discriminate].
  match goal with
  | |- context [mk_question qid txt ?o] => set (opts := o); clearbody opts
  end.
  destruct (Str.empty txt) eqn:Et; simpl; [discriminate|].
  destruct opts as [|o opts']; simpl; [discriminate|].
  intros H. injection H as <-. unfold unanswered. simpl.
  repeat split; try reflexivity; try discriminate.
  intros ->. discriminate.
Qed.

Lemma parse_loop_unanswered l : forall id acc qs,
  Forall unanswered acc ->
  parse_loop id l acc = Ret qs ->
  Forall unanswered qs /\ (List.length qs <= List.length acc + List.length l)%nat.
Proof.
  induction l as [|qj l IH]; intros id acc qs Hacc; simpl.
  - intros H. injection H as <-. split; [exact Hacc|lia].
  - unfold mbind, outcome_bind, obind.
    destruct (parse_question id qj) as [[q|]|] eqn:P; [| |discriminate].
    + intros H. apply IH in H as [H1 H2].
      * split; [exact H1|]. rewrite length_app in H2. simpl in H2. lia.
      * apply Forall_app. split; [exact Hacc|].
        constructor; [|constructor]. eapply parse_question_unanswered; eauto.
    + intros H. apply IH in H as [H1 H2]; [|exact Hacc]. split; [exact H1|lia].
Qed.

Lemma unanswered_not_complete qs :
  Forall unanswered qs ->
  count_answered qs 0 = 0%Z /\
  (if all_answered qs then negb (match qs with [] => true | _ => false end)
   else false) = false.
Proof.
  induction 1 as [|q qs (_ & _ & Ha & _) _ [IH1 IH2]]; [split; reflexivity|].
  simpl. rewrite Ha. simpl. split; [exact IH1|reflexivity].
Qed.

(** X9: every question that [parse_questions_from_json] keeps has a
    text and at least one option and carries no answer, and the session
    starts at its first question; so a freshly parsed session has no
    answered question, is not complete, and holds at most as many
    questions as the reply listed. *)
Theorem parsed_questions_unanswered (agent_output : json) (s : qa_session) :
  parse_questions_from_json agent_output = Ret s ->
  Forall unanswered (questions s) /\
  current_question_index s = 0%Z /\
  answered_count s = 0%Z /\
  is_complete s = false /\
  (List.length (questions s) <= Json.size agent_output
   \/ List.length (questions s)
      <= Json.size (Json.get agent_output "questions"))%nat.
Proof.
  unfold parse_questions_from_json.
  assert (Hgen : forall arr qs,
            parse_loop 1 (Json.items arr) [] = Ret qs ->
            Forall unanswered qs /\ (List.length qs <= List.length (Json.items arr))%nat).
  { intros arr qs H. now apply parse_loop_unanswered in H. }
  assert (Hsz : forall arr, Json.is_array arr = true ->
                            List.length (Json.items arr) = Json.size arr).
  { intros [] E; try discriminate. reflexivity. }
  unfold is_complete, answered_count.
  destruct (Json.contains agent_output "questions" &&
            Json.is_array (Json.get agent_output "questions")) eqn:C.
  - apply andb_true_iff in C as [_ C].
    unfold mbind, outcome_bind, obind.
    destruct (parse_loop 1 _ []) as [qs|] eqn:P; [|discriminate].
    intros H. injection H as <-. simpl.
    apply Hgen in P as [P1 P2]. rewrite Hsz in P2 by assumption.
    destruct (unanswered_not_complete qs P1) as [U1 U2].
    repeat split; try assumption; try reflexivity. now right.
  - destruct (Json.is_array agent_output) eqn:A.
    + unfold mbind, outcome_bind, obind.
      destruct (parse_loop 1 _ []) as [qs|] eqn:P; [|discriminate].
      intros H. injection H as <-. simpl.
      apply Hgen in P as [P1 P2]. rewrite Hsz in P2 by assumption.
      destruct (unanswered_not_complete qs P1) as [U1 U2].
      repeat split; try assumption; try reflexivity. now left.
    + intros H. injection H as <-. simpl.
      split; [constructor|]. repeat (split; [reflexivity|]). left. lia.
Qed.

Lemma parsed_questions_unanswered_witness :
  parse_questions_from_json agent_questions
  = Ret (mk_qa [mk_question 7 "Which store?" ["sqlite"; "files"] "" false (-1);
                mk_question 3 "Which format?" ["json"] "" false (-1)] 0) /\
  is_complete (mk_qa [mk_question 7 "Which store?" ["sqlite"; "files"] "" false (-1);
                      mk_question 3 "Which format?" ["json"] "" false (-1)] 0)
  = false.
Proof.
  assert (H : parse_questions_from_json agent_questions
              = Ret (mk_qa [mk_question 7 "Which store?" ["sqlite"; "files"] ""
                                        false (-1);
                            mk_question 3 "Which format?" ["json"] "" false (-1)] 0))
    by (vm_compute; reflexivity).
  split; [exact H|].
  exact (proj1 (proj2 (proj2 (proj2
           (parsed_questions_unanswered agent_questions _ H))))).
Defined.

End QaSessionFacts.

(** ** The context store: serialisation, appends, previews, archives *)

Module ContextOpsFacts.
Import Context ContextOps.

Lemma strings_member_absent kv key :
  Json.assoc key kv = None -> strings_member (JObj kv) key = Ret [].
Proof. unfold strings_member, Json.contains. now intros ->. Qed.

Lemma strings_member_present kv key l :
  Json.assoc key kv = Some (Json.of_strings l) ->
  strings_member (JObj kv) key = Ret l.
Proof.
  unfold strings_member, Json.contains, Json.get. intros ->. simpl.
  apply QaSessionFacts.get_string_list_map.
Qed.

(** X10: a compact entry written by [compact_entry::to_json] is read
    back unchanged by [compact_entry::from_json], whatever it holds:
    the members that [to_json] leaves out when they are empty
    ([plan_ref], [current_state], [pending_tasks]) are read as empty. *)
Theorem compact_entry_json_roundtrip (e : compact_entry) :
  entry_from_json (entry_to_json e) = Ret e.
Proof.
  destruct e as [ts um fm cr pr sm kd cs pt].
  unfold entry_from_json, entry_to_json.
  cbn [timestamp user_messages files_modified commands_run plan_ref summary
       key_decisions current_state pending_tasks].
  unfold mbind, outcome_bind, obind, mret, outcome_ret.
  destruct pr as [|c1 pr], cs as [|c2 cs], pt as [|t pt];
    cbn [Str.empty app];
    cbn [Json.value_string Json.value_json Json.value Json.assoc String.eqb
         Ascii.eqb Bool.eqb Json.get_string];
    rewrite (strings_member_present _ "user_messages" um) by reflexivity;
    rewrite (strings_member_present _ "files_modified" fm) by reflexivity;
    rewrite (strings_member_present _ "commands_run" cr) by reflexivity;
    first [ rewrite (strings_member_absent _ "pending_tasks") by reflexivity
          | rewrite (strings_member_present _ "pending_tasks" (t :: pt))
              by reflexivity ];
    reflexivity.
Qed.

Lemma conv_from_to_json st : from_json (to_json st) = Ret (normal_state st).
Proof.
  destruct st as [i ca ua ms md]. unfold from_json, to_json, normal_state,
    normal_metadata. cbn [id created_at updated_at messages metadata].
  unfold mbind, outcome_bind, obind, mret, outcome_ret.
  destruct (Json.empty md); reflexivity.
Qed.

(** X11: a conversation written by [conversation_state::to_json] is
    read back by [from_json] with the same id, dates and messages;
    metadata is read back as written, except that empty metadata
    (null, the empty array or the empty object), which [to_json] does
    not write, comes back as the empty object.  Nothing is lost by
    that: the state read back is written as the same JSON. *)
Theorem conversation_json_roundtrip (st : conversation_state) :
  from_json (to_json st) = Ret (normal_state st) /\
  to_json (normal_state st) = to_json st /\
  normal_metadata (metadata st)
  = (if Json.empty (metadata st) then JObj [] else metadata st).
Proof.
  split; [apply conv_from_to_json|]. split; [|reflexivity].
  destruct st as [i ca ua ms md]. unfold to_json, normal_state, normal_metadata.
  cbn [id created_at updated_at messages metadata].
  destruct (Json.empty md) eqn:E; [reflexivity|]. now rewrite E.
Qed.

Section WithEnvironment.
Variable read_value : string -> option json.
Variable dump : json -> string.
Variable F : Fs.faults.
Variable base : string.

Lemma save_context_result fs st :
  let p := context_path base (id st) +:+ "/conversation.json" in
  Fs.files (snd (save_context dump F base fs st)) !! p
  = match fst (save_context dump F base fs st) with
    | Ret true =>
        Some (if Fs.write_fails F (p +:+ ".tmp")
              then Str.substr (dump (to_json st)) 0 (Fs.kept F (p +:+ ".tmp"))
              else dump (to_json st))
    | _ => Fs.files fs !! p
    end.
Proof.
  cbv zeta. unfold save_context, ensure_directory, Fs.create_directories.
  destruct (Fs.mkdir_fails F _); simpl; [reflexivity|].
  rewrite ContextFacts.write_json_result. reflexivity.
Qed.

Lemma save_context_other fs st q :
  q <> context_path base (id st) +:+ "/conversation.json" ->
  q <> (context_path base (id st) +:+ "/conversation.json") +:+ ".tmp" ->
  Fs.files (snd (save_context dump F base fs st)) !! q = Fs.files fs !! q.
Proof.
  intros Hq Hq'. unfold save_context, ensure_directory, Fs.create_directories.
  destruct (Fs.mkdir_fails F _); simpl; [reflexivity|].
  now rewrite ContextFacts.write_json_other.
Qed.

(** When [save_context] returns true, the write did not fail, or it
    failed at the flush. *)
Lemma save_context_true fs st :
  fst (save_context dump F base fs st) = Ret true ->
  Fs.write_fails F ((context_path base (id st) +:+ "/conversation.json") +:+ ".tmp")
  = true ->
  Fs.fails_late F ((context_path base (id st) +:+ "/conversation.json") +:+ ".tmp")
  = true.
Proof.
  unfold save_context, ensure_directory, Fs.create_directories.
  generalize (to_json st). intros j.
  destruct (Fs.mkdir_fails F _); simpl; [discriminate|].
  unfold write_json, Fs.open_out, Fs.write_unflushed.
  destruct (Fs.open_fails F _); simpl; [discriminate|].
  destruct (Utf8.dumps j); simpl; [|discriminate].
  intros H Hw. rewrite Hw in H.
  destruct (Fs.fails_late F _); [reflexivity|]. simpl in H. discriminate.
Qed.

(** A write that fails at the flush is not seen. *)
Lemma save_context_unseen fs st :
  let p := context_path base (id st) +:+ "/conversation.json" in
  Fs.mkdir_fails F (context_path base (id st)) = false ->
  Fs.open_fails F (p +:+ ".tmp") = false ->
  Fs.rename_fails F (p +:+ ".tmp") = false ->
  Utf8.dumps (to_json st) = true ->
  Fs.write_fails F (p +:+ ".tmp") = true ->
  Fs.fails_late F (p +:+ ".tmp") = true ->
  fst (save_context dump F base fs st) = Ret true.
Proof.
  cbv zeta. intros Hm Ho Hr Hd Hw Hl.
  unfold save_context, ensure_directory, Fs.create_directories.
  revert Hd. generalize (to_json st). intros j Hd.
  rewrite Hm. simpl.
  unfold write_json, Fs.open_out, Fs.write_unflushed, Fs.rename, Fs.with_files.
  rewrite Ho, Hd, Hw, Hl. simpl. rewrite Hr, lookup_insert_eq. reflexivity.
Qed.

(** X12: what [save_context] leaves in [conversation.json].  Unless
    it returns true (it returns false, or [dump] throws on a string
    that is not UTF-8), the file keeps its previous contents.  When it
    returns true the file holds the new state, complete unless the
    write failed at the flush of the stream: the stream is tested
    before it is closed, so that failure is not seen, [save_context]
    returns true all the same and the file holds only the characters
    that were kept.  No other file of the store than the conversation
    file and its temporary file is touched. *)
Theorem save_context_target fs st :
  let p := context_path base (id st) +:+ "/conversation.json" in
  (fst (save_context dump F base fs st) <> Ret true ->
   Fs.files (snd (save_context dump F base fs st)) !! p = Fs.files fs !! p) /\
  (fst (save_context dump F base fs st) = Ret true ->
   Fs.files (snd (save_context dump F base fs st)) !! p
   = Some (if Fs.write_fails F (p +:+ ".tmp")
           then Str.substr (dump (to_json st)) 0 (Fs.kept F (p +:+ ".tmp"))
           else dump (to_json st)) /\
   (Fs.write_fails F (p +:+ ".tmp") = true ->
    Fs.fails_late F (p +:+ ".tmp") = true)) /\
  (Fs.mkdir_fails F (context_path base (id st)) = false ->
   Fs.open_fails F (p +:+ ".tmp") = false ->
   Fs.rename_fails F (p +:+ ".tmp") = false ->
   Utf8.dumps (to_json st) = true ->
   Fs.write_fails F (p +:+ ".tmp") = true ->
   Fs.fails_late F (p +:+ ".tmp") = true ->
   fst (save_context dump F base fs st) = Ret true) /\
  (forall q, q <> p -> q <> p +:+ ".tmp" ->
             Fs.files (snd (save_context dump F base fs st)) !! q
             = Fs.files fs !! q).
Proof.
  cbv zeta. pose proof (save_context_result fs st) as Hres. cbv zeta in Hres.
  split; [|split; [|split]].
  - intros Hn. rewrite Hres.
    destruct (fst (save_context dump F base fs st)) as [[|]|]; congruence.
  - intros Ht. split; [now rewrite Hres, Ht|]. exact (save_context_true fs st Ht).
  - apply save_context_unseen.
  - intros q Hq Hq'. now apply save_context_other.
Qed.

Lemma load_saved fs st :
  fst (save_context dump F base fs st) = Ret true ->
  Fs.fails_late F ((context_path base (id st) +:+ "/conversation.json") +:+ ".tmp")
  = false ->
  read_value (dump (to_json st)) = Some (to_json st) ->
  Fs.read_fails F (context_path base (id st) +:+ "/conversation.json") = false ->
  load_context read_value F base (snd (save_context dump F base fs st)) (id st)
  = Ret (Some (normal_state st)) /\
  context_exists base (snd (save_context dump F base fs st)) (id st) = true.
Proof.
  intros Hok Hlate Hrv Hr. pose proof (save_context_result fs st) as Hf.
  cbv zeta in Hf. rewrite Hok in Hf.
  destruct (Fs.write_fails F _) eqn:Hw.
  { apply (save_context_true fs st Hok) in Hw. congruence. }
  split.
  - unfold load_context, read_json, Fs.read_in. rewrite Hr, Hf, Hrv.
    rewrite conv_from_to_json. reflexivity.
  - unfold context_exists, Fs.exists_. rewrite Hf.
    now rewrite bool_decide_eq_true_2 by eauto.
Qed.

(** X13: a message appended is a message kept: when the conversation
    of a context loads (under the id of its directory, with an array
    of messages) and [append_message] returns true, loading the
    context again gives the same conversation with the message added
    at the end and the new date, provided that a failing write of the
    temporary file is seen (it does not fail at the flush) and that
    the conversation file reads back as written. *)
Theorem append_message_appends now fs fs' ctx message st l :
  load_context read_value F base fs ctx = Ret (Some st) ->
  id st = ctx ->
  messages st = JArr l ->
  append_message read_value dump F base now fs ctx message = (Ret true, fs') ->
  Fs.fails_late F ((context_path base ctx +:+ "/conversation.json") +:+ ".tmp")
  = false ->
  let st' := mk_state ctx (created_at st) now (JArr (l ++ [message])) (metadata st) in
  read_value (dump (to_json st')) = Some (to_json st') ->
  Fs.read_fails F (context_path base ctx +:+ "/conversation.json") = false ->
  load_context read_value F base fs' ctx = Ret (Some (normal_state st')) /\
  messages (normal_state st') = JArr (l ++ [message]).
Proof.
  intros Hload Hid Hm. unfold append_message. rewrite Hload, Hm. simpl.
  rewrite Hid.
  destruct (save_context dump F base fs _) as [ok fs1] eqn:S.
  intros H. injection H as -> <-. intros Hlate Hrv Hr.
  split; [|reflexivity].
  match type of S with
  | save_context _ _ _ _ ?s = _ =>
      pose proof (load_saved fs s) as L; rewrite S in L; simpl in L
  end.
  now apply L.
Qed.

(** X14: a context that [create_context] reports by a non-empty id
    exists under that id and loads as an empty conversation created
    and updated at the time of the call, provided that a failing
    write of the temporary file is seen (it does not fail at the
    flush) and that the conversation file reads back as written. *)
Theorem created_context_loads uuid now fs i fs' :
  create_context dump F base uuid now fs = (Ret i, fs') ->
  i <> "" ->
  Fs.fails_late F ((context_path base uuid +:+ "/conversation.json") +:+ ".tmp")
  = false ->
  let st := mk_state uuid now now (JArr []) (JObj []) in
  read_value (dump (to_json st)) = Some (to_json st) ->
  Fs.read_fails F (context_path base uuid +:+ "/conversation.json") = false ->
  i = uuid /\
  context_exists base fs' i = true /\
  load_context read_value F base fs' i = Ret (Some st).
Proof.
  unfold create_context.
  destruct (ensure_directory F fs _) as [ok fs1] eqn:E.
  destruct ok; simpl; [|intros [= <- _]; congruence].
  destruct (save_context dump F base fs1 _) as [[[|]|e] fs2] eqn:S;
    [|intros [= <- _]; congruence|discriminate].
  intros [= <- <-] _ Hlate Hrv Hr.
  match type of S with
  | save_context _ _ _ _ ?s = _ =>
      pose proof (load_saved fs1 s) as L; rewrite S in L; simpl in L
  end.
  destruct (L eq_refl Hlate Hrv Hr) as [L1 L2].
  split; [reflexivity|]. split; assumption.
Qed.

End WithEnvironment.

Lemma append_message_appends_witness :
  load_context JsonText.read_value Fs.no_faults "/data"
    (snd (append_message JsonText.read_value JsonText.dump Fs.no_faults
            "/data" "2026-01-01T10:06:00.000Z" example_fs "c1"
            (JObj [("role", JStr "user"); ("content", JStr "next")])))
    "c1"
  = Ret (Some (mk_state "c1" "2026-01-01T10:00:00.000Z" "2026-01-01T10:06:00.000Z"
                 (JArr [JObj [("role", JStr "system");
                              ("content", JStr "You are an agent.")];
                        JObj [("role", JStr "user");
                              ("content", JStr "write /a and /b")];
                        JObj [("role", JStr "assistant"); ("content", JStr "done")];
                        JObj [("role", JStr "user"); ("content", JStr "next")]])
                 (JObj []))).
Proof.
  refine (proj1 (append_message_appends JsonText.read_value JsonText.dump
            Fs.no_faults "/data" "2026-01-01T10:06:00.000Z" example_fs _ "c1"
            (JObj [("role", JStr "user"); ("content", JStr "next")])
            example_state
            [JObj [("role", JStr "system"); ("content", JStr "You are an agent.")];
             JObj [("role", JStr "user"); ("content", JStr "write /a and /b")];
             JObj [("role", JStr "assistant"); ("content", JStr "done")]]
            _ _ _ _ _ _ _)).
  - vm_compute. reflexivity.
  - reflexivity.
  - reflexivity.
  - vm_compute. reflexivity.
  - reflexivity.
  - vm_compute. reflexivity.
  - reflexivity.
Defined.

Lemma created_context_loads_witness :
  exists fs',
    create_context JsonText.dump Fs.no_faults "/data" "0a1b2c3d" 
                   "2026-01-01T10:00:00.000Z" Fs.empty_fs = (Ret "0a1b2c3d", fs') /\
    load_context JsonText.read_value Fs.no_faults "/data" fs' "0a1b2c3d"
    = Ret (Some (mk_state "0a1b2c3d" "2026-01-01T10:00:00.000Z"
                          "2026-01-01T10:00:00.000Z" (JArr []) (JObj []))).
Proof.
  eexists. split; [vm_compute; reflexivity|].
  refine (proj2 (proj2 (created_context_loads JsonText.read_value JsonText.dump
            Fs.no_faults "/data" "0a1b2c3d" "2026-01-01T10:00:00.000Z"
            Fs.empty_fs "0a1b2c3d" _ _ _ _ _ _))).
  - vm_compute. reflexivity.
  - discriminate.
  - reflexivity.
  - vm_compute. reflexivity.
  - reflexivity.
Defined.

(** *** Previews *)

Lemma substring_le n s : (String.length (String.substring 0 n s) <= n)%nat.
Proof.
  revert s. induction n as [|n IH]; intros [|c s]; simpl; try lia.
  specialize (IH s). lia.
Qed.

Lemma substring_In c n s :
  In c (list_ascii_of_string (String.substring 0 n s)) ->
  In c (list_ascii_of_string s).
Proof.
  revert s. induction n as [|n IH]; intros [|d s]; simpl; try tauto.
  intros [H|H]; [now left|right; now apply IH].
Qed.

Lemma occurs_at_newline c s :
  Extract.occurs_at Str.newline (String c s) 0 <-> c = Str.nl.
Proof.
  unfold Extract.occurs_at.
  change (Ascii.eqb Str.nl c && true = true <-> c = Str.nl).
  destruct (Ascii.eqb_spec Str.nl c) as [<-|Hne]; split; try reflexivity;
    try discriminate.
  intros ->. now destruct Hne.
Qed.

(** No newline before the first occurrence of a newline. *)
Lemma no_newline_before n s :
  (forall q, (q < n)%nat -> ~ Extract.occurs_at Str.newline s q) ->
  ~ In Str.nl (list_ascii_of_string (String.substring 0 n s)).
Proof.
  revert s. induction n as [|n IH]; intros [|c s] Hq; simpl; try tauto.
  intros [H|H].
  - apply (Hq 0%nat); [lia|]. now apply occurs_at_newline.
  - revert H. apply IH. intros q Hlt Ho. apply (Hq (S q)); [lia|exact Ho].
Qed.

Lemma no_newline_at_all s :
  (forall q, ~ Extract.occurs_at Str.newline s q) ->
  ~ In Str.nl (list_ascii_of_string s).
Proof.
  induction s as [|c s IH]; intros Hq; simpl; [tauto|].
  intros [H|H].
  - apply (Hq 0%nat). now apply occurs_at_newline.
  - revert H. apply IH. intros q Ho. apply (Hq (S q)). exact Ho.
Qed.

Lemma preview_of_short content :
  (String.length (preview_of content) <= 80)%nat /\
  ~ In Str.nl (list_ascii_of_string (preview_of content)).
Proof.
  unfold preview_of.
  set (line := match Str.find content Str.newline 0 with
               | Some newline => Str.substr content 0 newline
               | None => content
               end).
  assert (Hline : ~ In Str.nl (list_ascii_of_string line)).
  { unfold line. destruct (Str.find content Str.newline 0) as [n|] eqn:E.
    - apply ExtractFacts.find_first in E as [_ Hmin].
      now apply no_newline_before.
    - apply no_newline_at_all. now apply ExtractFacts.find_none. }
  destruct (80 <? String.length line)%nat eqn:L.
  - apply Nat.ltb_lt in L. split.
    + rewrite StrFacts.append_length. pose proof (substring_le 77 line).
      unfold Str.substr. simpl. lia.
    + rewrite StrFacts.list_ascii_of_append. intros H.
      apply in_app_or in H as [H|H].
      * apply Hline. eapply substring_In. exact H.
      * simpl in H. unfold Str.nl in H.
        repeat (destruct H as [H|H]; [discriminate|]). exact H.
  - apply Nat.ltb_ge in L. split; [exact L|exact Hline].
Qed.

(** X15: the preview of a conversation is one short line: whenever
    [get_preview] returns, its result has at most 80 characters and no
    newline (the first line of the last user message, cut to 77
    characters and an ellipsis when it is longer than 80; [(empty)]
    when there is no user message). *)
Theorem preview_is_one_short_line (messages : json) (p : string) :
  get_preview messages = Ret p ->
  (String.length p <= 80)%nat /\ ~ In Str.nl (list_ascii_of_string p).
Proof.
  unfold get_preview. generalize (rev (Json.items messages)).
  intros l. induction l as [|msg l IH]; simpl.
  - intros H. injection H as <-. split; [simpl; lia|].
    simpl. unfold Str.nl. intros H.
    repeat (destruct H as [H|H]; [discriminate|]). exact H.
  - unfold mbind, outcome_bind, obind.
    destruct (Json.value_string msg "role" "") as [r|]; [|discriminate].
    destruct (String.eqb r "user").
    + destruct (Json.value_string msg "content" "") as [c|]; [|discriminate].
      intros H. injection H as <-. apply preview_of_short.
    + exact IH.
Qed.

Lemma preview_is_one_short_line_witness :
  get_preview long_conversation
  = Ret ("0123456789012345678901234567890123456789012345678901234567890123456789" +:+
         "0123456..." ) /\
  (String.length
     ("0123456789012345678901234567890123456789012345678901234567890123456789" +:+
      "0123456...") <= 80)%nat.
Proof.
  assert (H : get_preview long_conversation
              = Ret ("0123456789012345678901234567890123456789012345678901234567890123456789" +:+
                     "0123456...")) by (vm_compute; reflexivity).
  split; [exact H|].
  exact (proj1 (preview_is_one_short_line long_conversation _ H)).
Defined.

(** *** Archives *)

Lemma append_nil_r (s : string) : s +:+ "" = s.
Proof.
  induction s as [|c s IH]; [reflexivity|].
  change (String c (s +:+ "") = String c s). now f_equal.
Qed.

Lemma starts_with_append p s :
  Str.starts_with p s = true -> s = p +:+ Str.drop (String.length p) s.
Proof.
  revert s. induction p as [|a p IH]; intros s; [reflexivity|].
  destruct s as [|b s]; simpl; [discriminate|].
  destruct (Ascii.eqb_spec a b) as [->|]; simpl; [|discriminate].
  intros H. change (String b s = String b (p +:+ Str.drop (String.length p) s)).
  f_equal. now apply IH.
Qed.

Lemma substring_skip a n m s :
  String.substring (String.length a + n) m (a +:+ s) = String.substring n m s.
Proof. induction a as [|c a IH]; [reflexivity|exact IH]. Qed.

Lemma substring_split n m s :
  (n + m = String.length s)%nat ->
  s = String.substring 0 n s +:+ String.substring n m s.
Proof.
  revert s m. induction n as [|n IH]; intros s m H.
  - simpl in H. subst m.
    replace (String.substring 0 0 s) with "" by (destruct s; reflexivity).
    change (s = String.substring 0 (String.length s) s).
    rewrite <- (append_nil_r s) at 3. symmetry.
    rewrite (StrFacts.substring_prefix s ""). reflexivity.
  - destruct s as [|c s]; simpl in H; [lia|]. simpl.
    change (String c s = String c (String.substring 0 n s +:+ String.substring n m s)).
    f_equal. apply IH. lia.
Qed.

Lemma archive_name_timestamp ts :
  is_archive_name ("conversation_" +:+ ts +:+ ".json") = true /\
  archive_timestamp ("conversation_" +:+ ts +:+ ".json") = Some ts /\
  (18 <= Str.size ("conversation_" +:+ ts +:+ ".json"))%nat.
Proof.
  assert (Hsize : Str.size ("conversation_" +:+ ts +:+ ".json")
                  = (18 + String.length ts)%nat).
  { unfold Str.size. rewrite !StrFacts.append_length. simpl. lia. }
  assert (Hname : is_archive_name ("conversation_" +:+ ts +:+ ".json") = true).
  { unfold is_archive_name. rewrite Hsize.
    replace (18 + String.length ts - 5)%nat
      with (String.length ("conversation_" +:+ ts))
      by (rewrite StrFacts.append_length; simpl; lia).
    replace ("conversation_" +:+ ts +:+ ".json")
      with (("conversation_" +:+ ts) +:+ ".json" +:+ "")
      by (now rewrite append_nil_r, StrFacts.append_assoc).
    pose proof (StrFacts.substr_middle ("conversation_" +:+ ts) ".json" "") as Hm.
    change (String.length ".json") with 5%nat in Hm. rewrite Hm.
    reflexivity. }
  split; [exact Hname|]. split; [|lia].
  unfold archive_timestamp. rewrite Hname, Hsize. simpl Nat.leb. cbv iota.
  replace (18 + String.length ts - 18)%nat with (String.length ts) by lia.
  pose proof (StrFacts.substr_middle "conversation_" ts ".json") as Hm.
  change (String.length "conversation_") with 13%nat in Hm. now rewrite Hm.
Qed.

Lemma archive_name_shape f :
  is_archive_name f = true ->
  exists ts, f = "conversation_" +:+ ts +:+ ".json".
Proof.
  unfold is_archive_name. intros H.
  apply andb_true_iff in H as [H Hs]. apply andb_true_iff in H as [H _].
  apply andb_true_iff in H as [Hp _].
  apply starts_with_append in Hp. simpl String.length in Hp.
  set (r := Str.drop 13 f) in *. clearbody r. subst f.
  apply String.eqb_eq in Hs.
  destruct (Nat.lt_ge_cases (String.length r) 5) as [Hlt|Hge].
  - exfalso.
    destruct r as [|c1 [|c2 [|c3 [|c4 [|c5 r]]]]];
      try (vm_compute in Hs; discriminate Hs).
    simpl in Hlt. lia.
  - exists (String.substring 0 (String.length r - 5) r). f_equal.
    unfold Str.size, Str.substr in Hs. rewrite StrFacts.append_length in Hs.
    simpl String.length in Hs.
    replace (13 + String.length r - 5)%nat
      with (String.length "conversation_" + (String.length r - 5))%nat in Hs
      by (simpl; lia).
    rewrite substring_skip in Hs. rewrite <- Hs at 1.
    apply substring_split. lia.
Qed.

(** X16: [get_archives] recognises exactly the names
    [conversation_<ts>.json], for every text [ts] (the empty one
    included), and takes [ts] as the timestamp; on a name that passes
    the test the unsigned length computation does not wrap around,
    since such a name has at least 18 characters.  These are the names
    of the archives that [compact_context] writes. *)
Theorem archive_names_recognised (filename ts : string) :
  (archive_timestamp filename = Some ts <->
   filename = "conversation_" +:+ ts +:+ ".json") /\
  (is_archive_name filename = true <-> (exists t, archive_timestamp filename = Some t)) /\
  (is_archive_name filename = true -> (18 <= Str.size filename)%nat).
Proof.
  split; [|split].
  - split.
    + intros H.
      assert (E : is_archive_name filename = true).
      { unfold archive_timestamp in H.
        destruct (is_archive_name filename); [reflexivity|discriminate]. }
      apply archive_name_shape in E as [t ->].
      rewrite (proj1 (proj2 (archive_name_timestamp t))) in H.
      now injection H as ->.
    + intros ->. apply archive_name_timestamp.
  - unfold archive_timestamp. destruct (is_archive_name filename); split;
      eauto; try discriminate. intros [t H]. discriminate.
  - intros H. apply archive_name_shape in H as [t ->].
    apply archive_name_timestamp.
Qed.

#[local] Instance timestamp_le_total : Total timestamp_le.
Proof. intros a b. apply String.leb_total. Qed.

(** X17: [get_archives] reports exactly the archives of a context:
    for every regular file [conversation_<ts>.json] that the directory
    lists there is a reference with timestamp [ts], the path of that
    file, the path [compact_<ts>.json] beside it (where
    [compact_context] put the compact entry) and, when the file reads
    as an array, its number of messages; every reference comes from
    such a file; the references are sorted by timestamp; a context
    without directory has none. *)
Theorem get_archives_lists_archives read_value F base entries fs ctx :
  let P := context_path base ctx in
  let result := get_archives read_value F base entries fs ctx in
  (Fs.exists_ fs P = false -> result = []) /\
  (Fs.exists_ fs P = true ->
   (forall ts, In ("conversation_" +:+ ts +:+ ".json", true) (entries P) ->
      exists ref, In ref result /\ ar_timestamp ref = ts /\
        ar_filepath ref = P +:+ "/" +:+ "conversation_" +:+ ts +:+ ".json" /\
        ar_compact_filepath ref = P +:+ "/compact_" +:+ ts +:+ ".json" /\
        forall l, read_json read_value F fs (ar_filepath ref) = Some (JArr l) ->
                  ar_message_count ref
                  = Some (Json.to_int32 (Z.of_nat (List.length l)))) /\
   (forall ref, In ref result ->
      In ("conversation_" +:+ ar_timestamp ref +:+ ".json", true) (entries P) /\
      ar_filepath ref
      = P +:+ "/" +:+ "conversation_" +:+ ar_timestamp ref +:+ ".json" /\
      ar_compact_filepath ref
      = P +:+ "/compact_" +:+ ar_timestamp ref +:+ ".json")) /\
  Sorted timestamp_le result.
Proof.
  cbv zeta. unfold get_archives.
  destruct (Fs.exists_ fs (context_path base ctx)) eqn:E; simpl.
  2: { split; [reflexivity|]. split; [discriminate|constructor]. }
  split; [discriminate|]. split; [|apply Sorted_merge_sort; apply _].
  intros _. split.
  - intros ts Hin.
    eexists. split.
    + eapply Permutation_in; [symmetry; apply merge_sort_Permutation|].
      apply list_elem_of_In, list_elem_of_omap.
      exists ("conversation_" +:+ ts +:+ ".json", true).
      split; [now apply list_elem_of_In|].
      unfold archive_of. simpl.
      rewrite (proj1 (proj2 (archive_name_timestamp ts))). reflexivity.
    + simpl. repeat split. intros l ->. reflexivity.
  - intros ref Hin.
    eapply Permutation_in in Hin; [|apply merge_sort_Permutation].
    apply list_elem_of_In, list_elem_of_omap in Hin as ([name reg] & Hin & Hof).
    apply list_elem_of_In in Hin. unfold archive_of in Hof. simpl in Hof.
    destruct reg; simpl in Hof; [|discriminate].
    destruct (archive_timestamp name) as [ts|] eqn:T; [|discriminate].
    assert (Hn : is_archive_name name = true).
    { unfold archive_timestamp in T.
      destruct (is_archive_name name); [reflexivity|discriminate]. }
    apply archive_name_shape in Hn as [t ->].
    rewrite (proj1 (proj2 (archive_name_timestamp t))) in T.
    injection T as ->.
    injection Hof as <-. simpl. repeat split. exact Hin.
Qed.

Lemma get_archives_lists_archives_witness :
  get_archives JsonText.read_value Fs.no_faults "/data" compacted_listing
               compacted_fs "c1"
  = [mk_archive_ref "20260101_100600"
       "/data/contexts/c1/conversation_20260101_100600.json"
       "/data/contexts/c1/compact_20260101_100600.json" (Some 0%Z);
     mk_archive_ref "20260102_090000"
       "/data/contexts/c1/conversation_20260102_090000.json"
       "/data/contexts/c1/compact_20260102_090000.json" (Some 2%Z)] /\
  Sorted timestamp_le
    (get_archives JsonText.read_value Fs.no_faults "/data" compacted_listing
                  compacted_fs "c1").
Proof.
  split; [vm_compute; reflexivity|].
  exact (proj2 (proj2 (get_archives_lists_archives JsonText.read_value
                         Fs.no_faults "/data" compacted_listing compacted_fs
                         "c1"))).
Defined.

(** *** The plan of a context *)

(** Two texts that end in different characters differ. *)
Lemma ends_differ (a b : string) (c d : ascii) :
  c <> d -> a +:+ String c "" <> b +:+ String d "".
Proof.
  intros Hcd H. apply (f_equal list_ascii_of_string) in H.
  rewrite !StrFacts.list_ascii_of_append in H. simpl in H.
  apply app_inj_tail in H as [_ H]. contradiction.
Qed.

Section Plans.
Variable read_value : string -> option json.
Variable dump : json -> string.
Variable F : Fs.faults.
Variable base : string.

Lemma plan_ne_conversation ctx i :
  context_path base ctx +:+ "/plan.md"
  <> context_path base i +:+ "/conversation.json".
Proof.
  change "/plan.md" with ("/plan.m" +:+ "d").
  change "/conversation.json" with ("/conversation.jso" +:+ "n").
  rewrite <- !StrFacts.append_assoc. apply ends_differ. discriminate.
Qed.

Lemma plan_ne_conversation_tmp ctx i :
  context_path base ctx +:+ "/plan.md"
  <> (context_path base i +:+ "/conversation.json") +:+ ".tmp".
Proof.
  change "/plan.md" with ("/plan.m" +:+ "d").
  change ".tmp" with (".tm" +:+ "p").
  rewrite <- !StrFacts.append_assoc. apply ends_differ. discriminate.
Qed.

(** X18: a plan saved is a plan found: when the directory of the
    context can be made and [plan.md] can be opened, written and read,
    [save_plan_md] leaves the content in [plan.md], whatever happens
    to the update of the conversation's metadata that follows (a
    conversation that does not load, a failed save, even an exception
    from metadata that is no object): afterwards [has_plan] is true
    and [load_plan_md] returns the content, and the call returned true
    unless it threw. *)
Theorem saved_plan_is_loaded now fs ctx content :
  let plan := context_path base ctx +:+ "/plan.md" in
  Fs.mkdir_fails F (context_path base ctx) = false ->
  Fs.open_fails F plan = false ->
  Fs.write_fails F plan = false ->
  Fs.read_fails F plan = false ->
  let r := save_plan_md read_value dump F base now fs ctx content in
  (fst r = Ret true \/ exists e, fst r = Raise e) /\
  has_plan base (snd r) ctx = true /\
  load_plan_md F base (snd r) ctx = content.
Proof.
  intros plan Hmk Ho Hw Hr. cbv zeta.
  assert (Hfound : forall fs',
            Fs.files fs' !! plan = Some content ->
            has_plan base fs' ctx = true /\ load_plan_md F base fs' ctx = content).
  { intros fs' Hf. unfold has_plan, load_plan_md, Fs.exists_, Fs.read_in.
    fold plan. rewrite Hf, Hr.
    rewrite bool_decide_eq_true_2 by eauto. split; reflexivity. }
  unfold save_plan_md, ensure_directory, Fs.create_directories.
  rewrite Hmk. simpl negb. cbv iota. fold plan.
  unfold Fs.open_out, Fs.write_unflushed. rewrite Ho, Hw. simpl negb. cbv iota.
  set (fs3 := Fs.with_files _ (Fs.with_files _ _)).
  assert (H3 : Fs.files fs3 !! plan = Some content).
  { unfold fs3, Fs.with_files. simpl. now rewrite lookup_insert_eq. }
  destruct (load_context read_value F base fs3 ctx) as [[st|]|e]; simpl.
  - destruct (Json.set (metadata st) "plan_ref" (JStr "plan.md")) as [md|e];
      simpl.
    + match goal with
      | |- context [save_context dump F base fs3 ?s] =>
          pose proof (save_context_other dump F base fs3 s plan
                        (plan_ne_conversation ctx _)
                        (plan_ne_conversation_tmp ctx _)) as Hs;
          destruct (save_context dump F base fs3 s) as [[ok|e] fs4]
      end; simpl in Hs |- *.
      * split; [now left|]. apply Hfound. now rewrite Hs.
      * split; [right; eauto|]. apply Hfound. now rewrite Hs.
    + split; [right; eauto|]. now apply Hfound.
  - split; [now left|]. now apply Hfound.
  - split; [right; eauto|]. now apply Hfound.
Qed.

End Plans.

Lemma saved_plan_is_loaded_witness :
  load_plan_md Fs.no_faults "/data"
    (snd (save_plan_md JsonText.read_value JsonText.dump Fs.no_faults "/data"
            "2026-01-01T10:06:00.000Z" example_fs "c1" "# Plan")) "c1"
  = "# Plan".
Proof.
  refine (proj2 (proj2 (saved_plan_is_loaded JsonText.read_value JsonText.dump
            Fs.no_faults "/data" "2026-01-01T10:06:00.000Z" example_fs "c1"
            "# Plan" _ _ _ _))); reflexivity.
Defined.

(** *** Compaction *)

Section Compaction.
Variable read_value : string -> option json.
Variable dump : json -> string.
Variable F : Fs.faults.
Variable base : string.

Lemma write_json_dirs fs path data :
  Fs.dirs (snd (write_json dump F fs path data)) = Fs.dirs fs.
Proof.
  unfold write_json, Fs.open_out, Fs.write_unflushed, Fs.rename, Fs.remove,
    Fs.with_files.
  destruct (Fs.open_fails F _); simpl; [reflexivity|].
  destruct (Utf8.dumps data); simpl; [|reflexivity].
  destruct (Fs.write_fails F _); simpl.
  - destruct (Fs.fails_late F _); simpl; [|reflexivity].
    destruct (Fs.rename_fails F _); simpl; [reflexivity|].
    rewrite lookup_insert_eq. reflexivity.
  - destruct (Fs.rename_fails F _); simpl; [reflexivity|].
    rewrite lookup_insert_eq. reflexivity.
Qed.

(** A write that returned true and did not fail at the flush wrote the
    whole text. *)
Lemma write_json_true fs path data fs' :
  write_json dump F fs path data = (Ret true, fs') ->
  Fs.fails_late F (path +:+ ".tmp") = false ->
  Utf8.dumps data = true /\
  Fs.files fs' !! path = Some (dump data) /\
  Fs.dirs fs' = Fs.dirs fs /\
  (forall q, q <> path -> q <> path +:+ ".tmp" ->
             Fs.files fs' !! q = Fs.files fs !! q).
Proof.
  intros H Hl.
  pose proof (ContextFacts.write_json_result dump F fs path data) as R.
  pose proof (ContextFacts.write_json_other dump F fs path data) as O.
  pose proof (write_json_dirs fs path data) as D.
  assert (Hd : Utf8.dumps data = true /\ Fs.write_fails F (path +:+ ".tmp") = false).
  { revert H. unfold write_json, Fs.open_out, Fs.write_unflushed.
    destruct (Fs.open_fails F _); [discriminate|].
    destruct (Utf8.dumps data); simpl; [|discriminate].
    destruct (Fs.write_fails F _); [|tauto].
    rewrite Hl. simpl. discriminate. }
  destruct Hd as [Hd Hw].
  rewrite H in R, O, D. simpl in R, O, D. rewrite Hw in R.
  split; [exact Hd|]. split; [exact R|]. split; [exact D|].
  intros q Hq Hq'. now apply O.
Qed.

Lemma set_assoc_twice k v v' kv :
  Json.set_assoc k v (Json.set_assoc k v' kv) = Json.set_assoc k v kv.
Proof.
  induction kv as [|[k0 v0] kv IH]; simpl.
  - now rewrite String.eqb_refl.
  - destruct (String.eqb k k0) eqn:E; simpl; rewrite E; [reflexivity|].
    now rewrite IH.
Qed.

Lemma append_empty (s : string) : s +:+ "" = s.
Proof.
  induction s as [|c s IH]; [reflexivity|].
  change (String c (s +:+ "") = String c s). now f_equal.
Qed.

Lemma bullet_list_concat l :
  bullet_list l
  = String.concat "" (List.map (fun x => "- " +:+ x +:+ Str.newline) l).
Proof.
  induction l as [|x l IH]; [reflexivity|].
  simpl bullet_list. rewrite IH. destruct l as [|y l]; [reflexivity|].
  set (f := fun x : string => "- " +:+ x +:+ Str.newline).
  change (String.concat "" (List.map f (x :: y :: l)))
    with (("- " +:+ x +:+ Str.newline) +:+ String.concat "" (List.map f (y :: l))).
  now rewrite <- !StrFacts.append_assoc.
Qed.


(** The metadata after [compact_context] has added its record. *)
Lemma add_archive_result md record md1 :
  add_archive md record = Ret md1 ->
  let members := match md with JObj kv => kv | _ => [] end in
  let archives := match Json.assoc "archives" members with
                  | Some (JArr l) => l
                  | _ => []
                  end in
  md1 = JObj (Json.set_assoc "archives" (JArr (archives ++ [record])) members).
Proof.
  unfold add_archive. destruct md as [| | | | | |kv]; try discriminate.
  - simpl. intros H. now injection H as <-.
  - simpl. destruct (Json.assoc "archives" kv) as [a|] eqn:E; simpl.
    + rewrite E. destruct a; try discriminate; simpl; intros H;
        now injection H as <-.
    + rewrite JsonFacts.assoc_set_assoc_eq. simpl. intros H. injection H as <-.
      now rewrite set_assoc_twice.
Qed.

Lemma add_archive_returns md record :
  let members := match md with JObj kv => kv | _ => [] end in
  md = JNull \/ md = JObj members ->
  Json.assoc "archives" members = None \/
  Json.assoc "archives" members = Some JNull \/
  (exists l, Json.assoc "archives" members = Some (JArr l)) ->
  exists md1, add_archive md record = Ret md1.
Proof.
  cbv zeta. intros [->|Hm] Ha.
  - eexists. reflexivity.
  - destruct md as [| | | | | |kv]; try discriminate. clear Hm.
    unfold add_archive. simpl.
    destruct Ha as [E|[E|[l E]]]; rewrite E; simpl.
    + rewrite JsonFacts.assoc_set_assoc_eq. simpl. eauto.
    + rewrite E. simpl. eauto.
    + rewrite E. simpl. eauto.
Qed.


Lemma set_assoc_not_empty k v kv : Json.empty (JObj (Json.set_assoc k v kv)) = false.
Proof.
  destruct kv as [|[k0 v0] kv]; [reflexivity|]. simpl.
  now destruct (String.eqb k k0).
Qed.

(** The body of the system message, written out. *)
Lemma restoration_message_explicit entry ts has_plan :
  restoration_message (set_timestamp ts entry) has_plan
  = "# Previous Context Summary" +:+ Str.newline +:+ Str.newline +:+
    summary entry +:+ Str.newline +:+
    (if Str.empty (current_state entry) then ""
     else Str.newline +:+ "## Current State" +:+ Str.newline +:+
          current_state entry +:+ Str.newline) +:+
    (match pending_tasks entry with
     | [] => ""
     | _ :: _ =>
         Str.newline +:+ "## Pending Tasks" +:+ Str.newline +:+
         String.concat ""
           (List.map (fun task_ => "- " +:+ task_ +:+ Str.newline)
                     (pending_tasks entry))
     end) +:+
    (match files_modified entry with
     | [] => ""
     | _ :: _ =>
         Str.newline +:+ "## Files Modified" +:+ Str.newline +:+
         String.concat ""
           (List.map (fun f => "- " +:+ f +:+ Str.newline) (files_modified entry))
     end) +:+
    (if has_plan then
       Str.newline +:+ "## Active Plan" +:+ Str.newline +:+
       "plan.md exists - use read_plan tool to review if needed" +:+ Str.newline
     else "").
Proof.
  unfold restoration_message. destruct entry as [t u fm c p sm k cs pt]. simpl.
  rewrite !bullet_list_concat. destruct pt, fm; reflexivity.
Qed.

(** X31: what [compact_context] does to a conversation that loads.
    Whenever it returns true, and no write failed at the flush, where
    the test of the stream does not see it: the conversation file of
    the state's id holds the conversation with the same id and
    creation date, the new date, exactly one message, of role system,
    whose body is the title, the summary, the current state when not
    empty, the pending tasks and the files modified as lists when
    there are any, and the plan notice when the entry names a plan or
    [plan.md] exists; its metadata are the old members with the record
    of timestamp, message count and compact reference added at the end
    of [archives], and [plan_ref] set with the plan notice; the
    messages it loaded are in [conversation_<ts>.json] and the entry,
    stamped with [ts], is in [compact_<ts>.json], each unless it is
    the conversation file itself, which it is not when the state's id
    is the context's; no other file changes.  And it returns true when
    the directory and the three files can be written, the metadata
    are null or an object whose [archives] is absent, null or an
    array, and the three values written are valid UTF-8. *)
Theorem compact_context_effects ts now fs ctx entry st :
  load_context read_value F base fs ctx = Ret (Some st) ->
  let P := context_path base ctx in
  let archive_path := P +:+ "/conversation_" +:+ ts +:+ ".json" in
  let compact_path := P +:+ "/compact_" +:+ ts +:+ ".json" in
  let state_path := context_path base (id st) +:+ "/conversation.json" in
  let has_plan :=
    negb (Str.empty (plan_ref entry)) || Fs.exists_ fs (P +:+ "/plan.md") in
  let body :=
    "# Previous Context Summary" +:+ Str.newline +:+ Str.newline +:+
    summary entry +:+ Str.newline +:+
    (if Str.empty (current_state entry) then ""
     else Str.newline +:+ "## Current State" +:+ Str.newline +:+
          current_state entry +:+ Str.newline) +:+
    (match pending_tasks entry with
     | [] => ""
     | _ :: _ =>
         Str.newline +:+ "## Pending Tasks" +:+ Str.newline +:+
         String.concat ""
           (List.map (fun task_ => "- " +:+ task_ +:+ Str.newline)
                     (pending_tasks entry))
     end) +:+
    (match files_modified entry with
     | [] => ""
     | _ :: _ =>
         Str.newline +:+ "## Files Modified" +:+ Str.newline +:+
         String.concat ""
           (List.map (fun f => "- " +:+ f +:+ Str.newline) (files_modified entry))
     end) +:+
    (if has_plan then
       Str.newline +:+ "## Active Plan" +:+ Str.newline +:+
       "plan.md exists - use read_plan tool to review if needed" +:+ Str.newline
     else "") in
  let record :=
    JObj [("timestamp", JStr ts);
          ("message_count",
           JNum (Json.to_int32 (Z.of_nat (Json.size (messages st)))));
          ("compact_ref", JStr ("compact_" +:+ ts +:+ ".json"))] in
  let members := match metadata st with JObj kv => kv | _ => [] end in
  let archives := match Json.assoc "archives" members with
                  | Some (JArr l) => l
                  | _ => []
                  end in
  let with_record :=
    Json.set_assoc "archives" (JArr (archives ++ [record])) members in
  let compacted :=
    JObj [("id", JStr (id st)); ("created_at", JStr (created_at st));
          ("updated_at", JStr now);
          ("messages",
           JArr [JObj [("role", JStr "system"); ("content", JStr body)]]);
          ("metadata",
           JObj (if has_plan
                 then Json.set_assoc "plan_ref" (JStr "plan.md") with_record
                 else with_record))] in
  let stamped :=
    entry_to_json
      (mk_entry ts (user_messages entry) (files_modified entry)
                (commands_run entry) (plan_ref entry) (summary entry)
                (key_decisions entry) (current_state entry)
                (pending_tasks entry)) in
  (forall fs',
     compact_context read_value dump F base ts now fs ctx entry = (Ret true, fs') ->
     Fs.fails_late F (archive_path +:+ ".tmp") = false ->
     Fs.fails_late F (compact_path +:+ ".tmp") = false ->
     Fs.fails_late F (state_path +:+ ".tmp") = false ->
     Fs.files fs' !! state_path = Some (dump compacted) /\
     (state_path <> archive_path ->
      Fs.files fs' !! archive_path = Some (dump (messages st))) /\
     (state_path <> compact_path ->
      Fs.files fs' !! compact_path = Some (dump stamped)) /\
     (forall q,
        q <> archive_path -> q <> archive_path +:+ ".tmp" ->
        q <> compact_path -> q <> compact_path +:+ ".tmp" ->
        q <> state_path -> q <> state_path +:+ ".tmp" ->
        Fs.files fs' !! q = Fs.files fs !! q)) /\
  (id st = ctx -> state_path <> archive_path /\ state_path <> compact_path) /\
  (Fs.mkdir_fails F (context_path base (id st)) = false ->
   Fs.writable F archive_path -> Fs.writable F compact_path ->
   Fs.writable F state_path ->
   metadata st = JNull \/ metadata st = JObj members ->
   Json.assoc "archives" members = None \/
   Json.assoc "archives" members = Some JNull \/
   Json.assoc "archives" members = Some (JArr archives) ->
   Utf8.dumps (messages st) = true -> Utf8.dumps stamped = true ->
   Utf8.dumps compacted = true ->
   fst (compact_context read_value dump F base ts now fs ctx entry) = Ret true).
Proof.
  intros Hload P archive_path compact_path state_path has_plan body record
         members archives with_record compacted stamped.
  assert (Hbody : restoration_message (set_timestamp ts entry) has_plan = body).
  { apply restoration_message_explicit. }
  assert (Hplan : forall fs2,
            Fs.dirs fs2 = Fs.dirs fs ->
            Fs.files fs2 !! (P +:+ "/plan.md") = Fs.files fs !! (P +:+ "/plan.md") ->
            negb (Str.empty (plan_ref (set_timestamp ts entry))) ||
            Fs.exists_ fs2 (P +:+ "/plan.md") = has_plan).
  { intros fs2 Hd Hf. unfold has_plan. f_equal.
    apply FsFacts.exists_ext; assumption. }
  assert (Hstate :
            to_json (mk_state (id st) (created_at st) now
                       (JArr [system_message body])
                       (JObj (if has_plan
                              then Json.set_assoc "plan_ref" (JStr "plan.md") with_record
                              else with_record)))
            = compacted).
  { unfold to_json, compacted, system_message.
    cbn [id created_at updated_at messages metadata].
    destruct has_plan; unfold with_record; rewrite set_assoc_not_empty;
      reflexivity. }
  split; [|split].
  - intros fs' H HlA HlC HlV. unfold compact_context in H. rewrite Hload in H.
    cbv zeta in H. fold P in H. fold archive_path in H. fold compact_path in H.
    subst archive_path compact_path.
    set (archive_path := P +:+ "/conversation_" +:+ ts +:+ ".json") in *.
    set (compact_path := P +:+ "/compact_" +:+ ts +:+ ".json") in *.
    assert (HAC : archive_path <> compact_path /\
                  archive_path <> compact_path +:+ ".tmp" /\
                  P +:+ "/plan.md" <> archive_path /\
                  P +:+ "/plan.md" <> archive_path +:+ ".tmp" /\
                  P +:+ "/plan.md" <> compact_path /\
                  P +:+ "/plan.md" <> compact_path +:+ ".tmp").
    { unfold archive_path, compact_path. repeat split; paths_differ. }
    destruct HAC as (N1 & N2 & N3 & N4 & N5 & N6).
    destruct (write_json dump F fs archive_path (messages st))
      as [[[|]|e] fs1] eqn:WA; try discriminate.
    apply write_json_true in WA as (_ & HA1 & Hd1 & Hk1); [|exact HlA].
    destruct (write_json dump F fs1 compact_path _)
      as [[[|]|e] fs2] eqn:WC; try discriminate.
    apply write_json_true in WC as (_ & HC2 & Hd2 & Hk2); [|exact HlC].
    destruct (add_archive (metadata st) _) as [md1|e] eqn:AA; [|discriminate].
    apply add_archive_result in AA. cbv zeta in AA. fold members in AA.
    fold archives in AA. unfold archive_record in AA. fold record in AA.
    fold with_record in AA. subst md1.
    rewrite (Hplan fs2) in H.
    2:{ congruence. }
    2:{ rewrite Hk2 by assumption. now apply Hk1. }
    rewrite Hbody in H.
    assert (Hmd : (if has_plan then Json.set (JObj with_record) "plan_ref" (JStr "plan.md")
                   else Ret (JObj with_record))
                  = Ret (JObj (if has_plan
                               then Json.set_assoc "plan_ref" (JStr "plan.md") with_record
                               else with_record))).
    { now destruct has_plan. }
    rewrite Hmd in H.
    match type of H with
    | save_context _ _ _ _ ?s = _ =>
        pose proof (save_context_result dump F base fs2 s) as R;
        pose proof (save_context_other dump F base fs2 s) as O;
        pose proof (save_context_true dump F base fs2 s) as T;
        rewrite Hstate in R
    end.
    rewrite H in R, O, T. simpl in R, O, T. fold state_path in R, O, T.
    destruct (Fs.write_fails F (state_path +:+ ".tmp")) eqn:Hw.
    { specialize (T eq_refl eq_refl). congruence. }
    assert (HT : archive_path <> state_path +:+ ".tmp" /\
                 compact_path <> state_path +:+ ".tmp").
    { unfold archive_path, compact_path.
      change ".json" with (".jso" +:+ "n"). change ".tmp" with (".tm" +:+ "p").
      rewrite <- !StrFacts.append_assoc.
      split; apply ends_differ; discriminate. }
    destruct HT as [T1 T2].
    split; [exact R|]. split; [|split].
    + intros Hne. rewrite O by congruence.
      rewrite Hk2 by assumption. exact HA1.
    + intros Hne. rewrite O by congruence. exact HC2.
    + intros q H1 H2 H3 H4 H5 H6. rewrite O by assumption.
      rewrite Hk2 by assumption. now apply Hk1.
  - intros Hid. unfold state_path, archive_path, compact_path, P. rewrite Hid.
    split; paths_differ.
  - intros Hmk HWA HWC HWV Hmd Har HdA HdC HdV.
    unfold compact_context. rewrite Hload. cbv zeta. fold P.
    fold archive_path. fold compact_path.
    assert (HAC : P +:+ "/plan.md" <> archive_path /\
                  P +:+ "/plan.md" <> archive_path +:+ ".tmp" /\
                  P +:+ "/plan.md" <> compact_path /\
                  P +:+ "/plan.md" <> compact_path +:+ ".tmp").
    { unfold archive_path, compact_path. repeat split; paths_differ. }
    destruct HAC as (N3 & N4 & N5 & N6).
    destruct (ContextFacts.write_json_ok dump F fs archive_path (messages st)
                HWA HdA) as (fs1 & -> & HA1 & Hd1 & Hk1).
    destruct (ContextFacts.write_json_ok dump F fs1 compact_path
                (entry_to_json (set_timestamp ts entry)) HWC HdC)
      as (fs2 & -> & HC2 & Hd2 & Hk2).
    destruct (add_archive_returns (metadata st)
                (archive_record ts (Json.size (messages st))) Hmd)
      as [md1 AA].
    { destruct Har as [E|[E|E]]; eauto. }
    rewrite AA. apply add_archive_result in AA. cbv zeta in AA.
    fold members in AA. fold archives in AA. unfold archive_record in AA.
    fold record in AA. fold with_record in AA. subst md1.
    rewrite (Hplan fs2).
    2:{ congruence. }
    2:{ rewrite Hk2 by assumption. now apply Hk1. }
    rewrite Hbody.
    assert (Hmd2 : (if has_plan then Json.set (JObj with_record) "plan_ref" (JStr "plan.md")
                    else Ret (JObj with_record))
                   = Ret (JObj (if has_plan
                                then Json.set_assoc "plan_ref" (JStr "plan.md") with_record
                                else with_record))).
    { now destruct has_plan. }
    rewrite Hmd2.
    unfold save_context, ensure_directory, Fs.create_directories.
    cbn [id]. rewrite Hmk. simpl negb. cbv iota. rewrite Hstate.
    fold state_path.
    match goal with
    | |- context [write_json dump F ?fsx state_path compacted] =>
        destruct (ContextFacts.write_json_ok dump F fsx state_path compacted
                    HWV HdV) as (fs3 & -> & _)
    end.
    reflexivity.
Qed.

End Compaction.

Lemma compact_context_effects_witness :
  let r := compact_context JsonText.read_value JsonText.dump Fs.no_faults "/data"
             "20260101_100600" "2026-01-01T10:06:00.000Z" example_fs "c1"
             example_entry in
  fst r = Ret true /\
  Fs.files (snd r) !! "/data/contexts/c1/conversation.json"
  = Some (JsonText.dump
            (JObj [("id", JStr "c1");
                   ("created_at", JStr "2026-01-01T10:00:00.000Z");
                   ("updated_at", JStr "2026-01-01T10:06:00.000Z");
                   ("messages",
                    JArr [JObj [("role", JStr "system");
                                ("content",
                                 JStr ("# Previous Context Summary" +:+
                                       Str.newline +:+ Str.newline +:+
                                       "done" +:+ Str.newline +:+ Str.newline +:+
                                       "## Current State" +:+ Str.newline +:+
                                       "both files written" +:+ Str.newline +:+
                                       Str.newline +:+
                                       "## Pending Tasks" +:+ Str.newline +:+
                                       "- run the tests" +:+ Str.newline +:+
                                       Str.newline +:+
                                       "## Files Modified" +:+ Str.newline +:+
                                       "- /a" +:+ Str.newline +:+
                                       "- /b" +:+ Str.newline))]]);
                   ("metadata",
                    JObj [("archives",
                           JArr [JObj [("timestamp", JStr "20260101_100600");
                                       ("message_count", JNum 3);
                                       ("compact_ref",
                                        JStr "compact_20260101_100600.json")]])])])).
Proof.
  pose proof (compact_context_effects JsonText.read_value JsonText.dump
                Fs.no_faults "/data" "20260101_100600"
                "2026-01-01T10:06:00.000Z" example_fs "c1" example_entry
                example_state) as H.
  cbv zeta in H. destruct H as (E & _ & R).
  { vm_compute. reflexivity. }
  cbv zeta. split.
  - apply R; try reflexivity; try (repeat split; reflexivity).
    + now right.
    + now left.
  - refine (proj1 (E _ _ _ _ _)); reflexivity.
Defined.

End ContextOpsFacts.

(** ** Modifications, the [spawn_agent] tool and [/compact] *)

Module SubagentFacts.
Import Subagent.

Lemma add_unique_NoDup path files : NoDup files -> NoDup (add_unique path files).
Proof.
  intros H. unfold add_unique.
  destruct (existsb (String.eqb path) files) eqn:E; [exact H|].
  apply NoDup_app. split; [exact H|]. split; [|apply NoDup_singleton].
  intros x Hx Hin. apply list_elem_of_singleton in Hin. subst x.
  apply list_elem_of_In in Hx.
  assert (existsb (String.eqb path) files = true); [|congruence].
  apply existsb_exists. exists path. split; [exact Hx|apply String.eqb_refl].
Qed.

Lemma add_files_NoDup l files : NoDup files -> NoDup (fst (add_files l files)).
Proof.
  revert files. induction l as [|f l IH]; intros files H; simpl; [exact H|].
  destruct (Json.get_string f); simpl; [|exact H].
  apply IH. now apply add_unique_NoDup.
Qed.

Section WithParser.
Variable parse : string -> option json.

Lemma add_nested_NoDup content acc :
  NoDup (fst acc) -> NoDup (fst (add_nested parse content acc)).
Proof.
  destruct acc as [files cmds]. simpl. intros H. unfold add_nested.
  destruct (parse content) as [j|]; [|exact H].
  destruct (Json.contains j "files_modified").
  - pose proof (add_files_NoDup (Json.items (Json.get j "files_modified")) files H)
      as H1.
    destruct (add_files _ files) as [files1 ok]. simpl in H1.
    destruct (ok && Json.contains j "commands_run"); exact H1.
  - destruct (true && Json.contains j "commands_run"); exact H.
Qed.

Lemma apply_call_NoDup messages tc tool_name args_str acc :
  NoDup (fst acc) ->
  NoDup (fst (apply_call parse messages tc tool_name args_str acc)).
Proof.
  destruct acc as [files cmds]. intros H. unfold apply_call.
  destruct (parse args_str) as [args|]; [|exact H].
  destruct (String.eqb tool_name "write" || String.eqb tool_name "edit").
  { destruct (Json.value_string args "file_path" "") as [path|]; [|exact H].
    destruct (Str.empty path); [exact H|]. simpl. now apply add_unique_NoDup. }
  destruct (String.eqb tool_name "bash").
  { destruct (Json.value_string args "command" "") as [cmd|]; [|exact H].
    destruct (Str.empty cmd); exact H. }
  destruct (String.eqb tool_name "spawn_agent"); [|exact H].
  destruct (Json.value_string tc "id" "") as [call_id|]; [|exact H].
  destruct (find_tool_result call_id messages) as [[result_msg|]|];
    try exact H.
  destruct (Json.value_string result_msg "content" "") as [content|]; [|exact H].
  now apply add_nested_NoDup.
Qed.

Lemma visit_calls_NoDup messages calls : forall acc acc',
  NoDup (fst acc) -> visit_calls parse messages calls acc = Ret acc' ->
  NoDup (fst acc').
Proof.
  induction calls as [|tc calls IH]; intros acc acc' H; simpl.
  - intros E. injection E as <-. exact H.
  - unfold visit_call, mbind, outcome_bind, obind.
    destruct (Json.value_json tc "function" (JObj [])) as [fn|]; [|discriminate].
    destruct (Json.value_string fn "name" "") as [tool_name|]; [|discriminate].
    destruct (Json.value_string fn "arguments" "") as [args_str|]; [|discriminate].
    apply IH. now apply apply_call_NoDup.
Qed.

Lemma visit_messages_NoDup messages msgs : forall acc acc',
  NoDup (fst acc) -> visit_messages parse messages msgs acc = Ret acc' ->
  NoDup (fst acc').
Proof.
  induction msgs as [|msg msgs IH]; intros acc acc' H; simpl.
  - intros E. injection E as <-. exact H.
  - unfold mbind, outcome_bind, obind.
    destruct (Json.value_string msg "role" "") as [r|]; [|discriminate].
    destruct (String.eqb r "assistant" && Json.contains msg "tool_calls").
    + destruct (visit_calls parse messages _ acc) as [acc1|] eqn:V; [|discriminate].
      apply IH. eapply visit_calls_NoDup; eauto.
    + now apply IH.
Qed.

(** X19: the list of modified files that [extract_modifications]
    returns never names a file twice, whatever the transcript: files
    written or edited several times, by the agent or by nested
    subagents, are reported once. *)
Theorem extract_modifications_no_duplicates (messages : json) files cmds :
  extract_modifications parse messages = Ret (files, cmds) -> NoDup files.
Proof.
  unfold extract_modifications. intros H.
  apply (visit_messages_NoDup _ _ ([], []) (files, cmds)) in H; [exact H|].
  apply NoDup_nil_2.
Qed.

End WithParser.

Lemma extract_modifications_no_duplicates_witness :
  extract_modifications JsonText.parse
    (Transcript.transcript_to_json Modifications.child_transcript)
  = Ret (["/a"; "/b"; "/c"],
         ["ls"; "make"; truncate_command Modifications.long_command]) /\
  NoDup ["/a"; "/b"; "/c"].
Proof.
  assert (H : extract_modifications JsonText.parse
                (Transcript.transcript_to_json Modifications.child_transcript)
              = Ret (["/a"; "/b"; "/c"],
                     ["ls"; "make"; truncate_command Modifications.long_command]))
    by (vm_compute; reflexivity).
  split; [exact H|].
  exact (extract_modifications_no_duplicates JsonText.parse _ _ _ H).
Defined.

End SubagentFacts.

Module SpawnToolFacts.
Import Registry Spawn SpawnTool.

Lemma frames_opened_app a b :
  frames_opened (a ++ b) = (frames_opened a + frames_opened b)%nat.
Proof. unfold frames_opened. now rewrite List.filter_app, length_app. Qed.

Lemma frames_closed_app a b :
  frames_closed (a ++ b) = (frames_closed a + frames_closed b)%nat.
Proof. unfold frames_closed. now rewrite List.filter_app, length_app. Qed.

Lemma empty_append_false (a b : string) :
  Str.empty a = false -> Str.empty (a +:+ b) = false.
Proof. destruct a; [discriminate|reflexivity]. Qed.

Ltac finish :=
  try reflexivity;
  try (simpl; rewrite <- !app_assoc; reflexivity);
  try (simpl; lia).

Section WithEnvironment.
Variable parse : string -> option json.
Variable dump : json -> string.
Variable registry : list agent_definition.
Variable get_tool : string -> option tool_def.
Variable resolve_path : string -> string -> string.
Variable new_context_id : string.
Variable base_path : string.
Variable run_loop : agent_config -> string -> loop_run.

#[local] Abbreviation spawn :=
  (Spawn.spawn parse dump registry get_tool resolve_path new_context_id
               base_path run_loop).

#[local] Abbreviation spawn_agent_execute :=
  (SpawnTool.spawn_agent_execute parse dump registry get_tool resolve_path
                                 new_context_id base_path run_loop).

Lemma leading_strings_map l :
  Modifications.leading_strings (List.map JStr l) = l.
Proof. induction l as [|x l IH]; [reflexivity|]. simpl. now rewrite IH. Qed.

Lemma all_strings_map l : Modifications.all_strings (List.map JStr l) = true.
Proof. induction l as [|x l IH]; [reflexivity|exact IH]. Qed.

(** What the parent reads in the JSON object of a successful
    [spawn_agent] call. *)
Lemma add_nested_spawn_output with_stats n result text files cmds :
  parse text = Some (spawn_output with_stats n result) ->
  Subagent.add_nested parse text (files, cmds)
  = (Modifications.dedup_onto files (files_modified result),
     cmds ++ commands_run result).
Proof.
  intros Hp. unfold Subagent.add_nested. rewrite Hp.
  unfold spawn_output.
  destruct with_stats, (negb (Json.empty (artifacts result)));
    destruct (files_modified result) as [|f fl] eqn:Ef;
    destruct (commands_run result) as [|c cl] eqn:Ec;
    cbn [app Json.contains Json.get Json.assoc String.eqb Ascii.eqb Bool.eqb
         Json.items Json.of_strings andb];
    rewrite ?ModificationsFacts.add_files_spec,
            ?ModificationsFacts.add_commands_spec,
            ?leading_strings_map, ?all_strings_map;
    cbn [fst snd andb Modifications.dedup_onto fold_left];
    rewrite ?app_nil_r; reflexivity.
Qed.

(** X21: what a child did reaches its parent: when the [spawn_agent]
    tool succeeds, its output is the dump of an object that names the
    agent and carries the result of [spawn]; read back by the parent's
    [extract_modifications] (the nested branch, on the content of the
    tool message), it adds the child's modified files, without
    duplicates, and the child's commands, in order, to the parent's
    lists.  A successful tool result comes from a successful [spawn]
    at the manager's current depth and carries no error. *)
Theorem child_modifications_reach_parent has_flag args m tr mgr' :
  spawn_agent_execute has_flag args (Some m) = (Ret tr, mgr') ->
  tr_success tr = true ->
  exists request result m',
    spawn request m = (Ret result, m') /\ mgr' = Some m' /\
    success result = true /\
    spawn_depth request = get_current_spawn_depth m /\
    tr_error tr = "" /\
    tr_output tr = dump (spawn_output has_flag (agent_name request) result) /\
    forall files cmds,
      parse (tr_output tr) = Some (spawn_output has_flag (agent_name request) result) ->
      Subagent.add_nested parse (tr_output tr) (files, cmds)
      = (Modifications.dedup_onto files (files_modified result),
         cmds ++ commands_run result).
Proof.
  unfold SpawnTool.spawn_agent_execute, mbind, outcome_bind, obind.
  destruct (Json.value_string args "agent_name" "") as [n|]; [|discriminate].
  destruct (Json.value_string args "task" "") as [t|]; [|discriminate].
  destruct (Json.value_json args "context" (JObj [])) as [c|]; [|discriminate].
  destruct (Json.value_int args "max_iterations" 20) as [mi|]; [|discriminate].
  simpl.
  destruct (Str.empty n); [intros [= <- _]; discriminate|].
  destruct (Str.empty t); [intros [= <- _]; discriminate|].
  destruct (Json.value_string args "working_dir" "") as [wd|]; [|discriminate].
  set (req := mk_request n t c mi false (get_current_spawn_depth m) wd).
  destruct (spawn req m) as [[result|e] m1] eqn:S; [|discriminate].
  destruct (success result) eqn:Ok; simpl; intros [= <- <-]; [|discriminate].
  intros _. exists req, result, m1.
  repeat (split; [reflexivity || assumption|]).
  intros files cmds Hp. simpl in *.
  exact (add_nested_spawn_output _ _ _ _ _ _ Hp).
Qed.

End WithEnvironment.

Lemma child_modifications_reach_parent_witness :
  exists request result m',
    Spawn.spawn JsonText.parse JsonText.dump [explorer] no_tools same_dir
                "ctx-1" "/proj/.llama-agent" writing_run request main_manager
    = (Ret result, m') /\
    snd (SpawnTool.spawn_agent_execute JsonText.parse JsonText.dump [explorer]
           no_tools same_dir "ctx-1" "/proj/.llama-agent" writing_run true
           explore_args (Some main_manager)) = Some m' /\
    success result = true /\
    spawn_depth request = get_current_spawn_depth main_manager /\
    "" = "" /\
    JsonText.dump
      (spawn_output true "explorer-agent"
         (mk_result true "done" (JObj []) 2 no_stats "" ["/a"; "/b"] ["make"]))
    = JsonText.dump (spawn_output true (agent_name request) result) /\
    forall files cmds,
      JsonText.parse
        (JsonText.dump
           (spawn_output true "explorer-agent"
              (mk_result true "done" (JObj []) 2 no_stats "" ["/a"; "/b"] ["make"])))
      = Some (spawn_output true (agent_name request) result) ->
      Subagent.add_nested JsonText.parse
        (JsonText.dump
           (spawn_output true "explorer-agent"
              (mk_result true "done" (JObj []) 2 no_stats "" ["/a"; "/b"] ["make"])))
        (files, cmds)
      = (Modifications.dedup_onto files (files_modified result),
         cmds ++ commands_run result).
Proof.
  apply (child_modifications_reach_parent JsonText.parse JsonText.dump
           [explorer] no_tools same_dir "ctx-1" "/proj/.llama-agent"
           writing_run true explore_args main_manager
           (mk_tool_result true
              (JsonText.dump
                 (spawn_output true "explorer-agent"
                    (mk_result true "done" (JObj []) 2 no_stats ""
                               ["/a"; "/b"] ["make"]))) "")).
  - vm_compute. reflexivity.
  - reflexivity.
Defined.

(** The tool message of that call, read by the parent. *)
Example parent_reads_child :
  Subagent.add_nested JsonText.parse
    (JsonText.dump
       (spawn_output true "explorer-agent"
          (mk_result true "done" (JObj []) 2 no_stats "" ["/a"; "/b"] ["make"])))
    (["/b"], ["ls"])
  = (["/b"; "/a"], ["ls"; "make"]).
Proof. vm_compute. reflexivity. Qed.

End SpawnToolFacts.

Module CompactionFacts.
Import Compaction.

(** A user message as [/compact] keeps it. *)
Lemma truncate_message_short content :
  Str.empty content = false ->
  truncate_message content <> "" /\
  (String.length (truncate_message content) <= 1000)%nat.
Proof.
  intros Hne. unfold truncate_message.
  destruct (1000 <? Str.size content)%nat eqn:L.
  - apply Nat.ltb_lt in L. unfold Str.size, Str.substr in *. split.
    + intros H. apply (f_equal String.length) in H.
      rewrite StrFacts.append_length in H. simpl in H. lia.
    + rewrite StrFacts.append_length, ModificationsFacts.substring_length by lia.
      simpl. lia.
  - apply Nat.ltb_ge in L. split; [|exact L].
    intros ->. discriminate.
Qed.

Section WithParser.
Variable parse : string -> option json.

Lemma scan_agrees messages msgs : forall users mods users' mods',
  scan parse messages msgs (users, mods) = Ret (users', mods') ->
  Subagent.visit_messages parse messages msgs mods = Ret mods' /\
  (Forall (fun u => u <> "" /\ (String.length u <= 1000)%nat) users ->
   Forall (fun u => u <> "" /\ (String.length u <= 1000)%nat) users').
Proof.
  induction msgs as [|msg msgs IH]; intros users mods users' mods'.
  - simpl. intros H. injection H as <- <-. split; [reflexivity|tauto].
  - cbn [scan Subagent.visit_messages]. unfold mbind, outcome_bind, obind.
    destruct (Json.value_string msg "role" "") as [role|]; [|discriminate].
    destruct (String.eqb_spec role "user") as [->|Hu].
    + simpl String.eqb. simpl andb. cbv iota.
      destruct (Json.value_string msg "content" "") as [content|]; [|discriminate].
      destruct (Str.empty content) eqn:Ec; simpl negb; cbv iota.
      * apply IH.
      * intros H. apply IH in H as [H1 H2]. split; [exact H1|].
        intros Hf. apply H2. apply Forall_app. split; [exact Hf|].
        constructor; [|constructor]. now apply truncate_message_short.
    + destruct (String.eqb role "assistant"); simpl andb; cbv iota.
      * destruct (Json.contains msg "tool_calls").
        -- destruct (Subagent.visit_calls parse messages _ mods) as [mods1|];
             [|discriminate].
           apply IH.
        -- apply IH.
      * apply IH.
Qed.

(** X22: the two extractions agree: whenever the programmatic phase
    of [/compact] returns, the files and commands it found are those
    that [subagent_manager::extract_modifications] returns for the
    same messages; and every user message it kept is non-empty and has
    at most 1000 characters. *)
Theorem compact_extraction_agrees (messages : json) users files cmds :
  extract parse messages = Ret (users, (files, cmds)) ->
  Subagent.extract_modifications parse messages = Ret (files, cmds) /\
  Forall (fun u => u <> "" /\ (String.length u <= 1000)%nat) users.
Proof.
  unfold extract, Subagent.extract_modifications. intros H.
  apply scan_agrees in H as [H1 H2]. split; [exact H1|].
  apply H2. constructor.
Qed.

End WithParser.

Lemma compact_extraction_agrees_witness :
  extract JsonText.parse conversation
  = Ret (["write /a then list"], (["/a"], ["ls"])) /\
  Subagent.extract_modifications JsonText.parse conversation
  = Ret (["/a"], ["ls"]).
Proof.
  assert (H : extract JsonText.parse conversation
              = Ret (["write /a then list"], (["/a"], ["ls"])))
    by (vm_compute; reflexivity).
  split; [exact H|].
  exact (proj1 (compact_extraction_agrees JsonText.parse conversation _ _ _ H)).
Defined.

End CompactionFacts.

Module CompactCommandFacts.
Import Context CompactCommand.

(** C3 (the defect): [/compact] cuts a user message of more than 1000
    bytes to its first 997 bytes, in the middle of a character when
    one begins at the last of them.  The conversation is valid UTF-8
    and loads;
    the entry built from it is not, so that [dump] of the entry throws
    [type_error] 316 out of [compact_context] and out of the command,
    which has no handler.  By then the messages are archived; the
    compact entry is not written (its temporary file is left, empty),
    no record is appended to [metadata.archives] and the conversation
    keeps all its messages.  With the same letter one byte earlier the
    same command compacts the conversation. *)
Theorem compact_cut_message_throws :
  let r := compact_of split_state llm_done in
  (Str.size (accent_after 996) = 1015%nat) /\
  (Utf8.dumps (to_json split_state) = true) /\
  (load_context JsonText.read_value Fs.no_faults "/data" (store_of split_state) "c1"
   = Ret (Some split_state)) /\
  (Compaction.extract JsonText.parse (messages split_state)
   = Ret ([Str.substr (accent_after 996) 0 997 +:+ "..."], ([], []))) /\
  (Utf8.valid (Str.substr (accent_after 996) 0 997 +:+ "...") = false) /\
  (fst r = Raise (type_error 316)) /\
  (Fs.files (snd r) !! "/data/contexts/c1/conversation_20260101_100600.json"
   = Some (JsonText.dump (messages split_state))) /\
  (Fs.files (snd r) !! "/data/contexts/c1/compact_20260101_100600.json" = None) /\
  (Fs.files (snd r) !! "/data/contexts/c1/compact_20260101_100600.json.tmp"
   = Some "") /\
  (load_context JsonText.read_value Fs.no_faults "/data" (snd r) "c1"
   = Ret (Some split_state)) /\
  (fst (compact_of whole_state llm_done) = Ret true) /\
  (fst (compact_of split_state (Llm.mk_result false "" JNull "" [] "timeout"))
   = Raise (type_error 316)).
Proof.
  cbv zeta. repeat apply conj; vm_compute; reflexivity.
Qed.

End CompactCommandFacts.

(** ** Agent definitions *)

Module RegistryOpsFacts.
Import Registry RegistryOps.

Lemma clamp_iterations_bounds n :
  (MIN_MAX_ITERATIONS <= clamp_iterations n <= SUBAGENT_MAX_ITERATIONS_LIMIT)%Z.
Proof.
  unfold clamp_iterations, MIN_MAX_ITERATIONS, SUBAGENT_MAX_ITERATIONS_LIMIT.
  destruct (n <? 1)%Z eqn:A.
  - simpl. lia.
  - apply Z.ltb_ge in A. destruct (100 <? n)%Z eqn:B; [lia|].
    apply Z.ltb_ge in B. lia.
Qed.

Lemma words_from_words cs : forall cur,
  forallb (fun c => negb (isspace c)) cur = true ->
  Forall is_word (words_from cs cur).
Proof.
  assert (Hword : forall cur, cur <> [] ->
            forallb (fun c => negb (isspace c)) cur = true ->
            is_word (string_of_list_ascii (rev cur))).
  { intros cur Hne Hc. split.
    - intros H. apply (f_equal list_ascii_of_string) in H.
      rewrite list_ascii_of_string_of_list_ascii in H. simpl in H.
      apply (f_equal (@rev _)) in H. rewrite rev_involutive in H. simpl in H.
      contradiction.
    - rewrite list_ascii_of_string_of_list_ascii.
      apply forallb_forall. intros c Hin. apply in_rev in Hin.
      rewrite forallb_forall in Hc. now apply Hc. }
  induction cs as [|c cs IH]; intros cur Hc; simpl.
  - destruct cur as [|d cur]; [constructor|].
    constructor; [|constructor]. apply Hword; [discriminate|exact Hc].
  - destruct (isspace c) eqn:S.
    + destruct cur as [|d cur]; [now apply IH|].
      constructor; [apply Hword; [discriminate|exact Hc]|now apply IH].
    + apply IH. simpl. now rewrite S.
Qed.

(** The invariants that the loop over the lines keeps. *)
Record line_invariant (p body : string) (a : agent_definition) : Prop := {
  li_iterations : (MIN_MAX_ITERATIONS <= max_iterations a
                   <= SUBAGENT_MAX_ITERATIONS_LIMIT)%Z;
  li_tools : Forall is_word (allowed_tools a);
  li_path : path a = p;
  li_dir : agent_dir a = "";
  li_instructions : instructions a = body
}.

Lemma read_line_invariant p body a line :
  line_invariant p body a -> line_invariant p body (read_line a line).
Proof.
  intros [Hi Ht Hp Hd Hb]. unfold read_line.
  destruct (drop_while is_space_or_tab line) as [|c rest]; [now constructor|].
  destruct (Ascii.eqb c "#"); [now constructor|].
  destruct (split_colon (c :: rest)) as [[k v]|]; [|now constructor].
  destruct (String.eqb _ "name"); [now constructor|].
  destruct (String.eqb _ "description"); [now constructor|].
  destruct (String.eqb _ "allowed-tools").
  { constructor; simpl; try assumption.
    apply Forall_app. split; [exact Ht|]. now apply words_from_words. }
  destruct (String.eqb _ "max-iterations").
  { destruct (stoi _) as [n|]; [|now constructor].
    constructor; simpl; try assumption. apply clamp_iterations_bounds. }
  now constructor.
Qed.

Lemma read_lines_invariant p body lines : forall a,
  line_invariant p body a -> line_invariant p body (fold_left read_line lines a).
Proof.
  induction lines as [|l lines IH]; intros a H; simpl; [exact H|].
  apply IH. now apply read_line_invariant.
Qed.

Lemma drop_while_newline_head cs :
  Str.starts_with Str.newline
    (string_of_list_ascii (drop_while (Ascii.eqb Str.nl) cs)) = false.
Proof.
  induction cs as [|c cs IH]; [reflexivity|]. cbn [drop_while].
  destruct (Ascii.eqb Str.nl c) eqn:E; [exact IH|].
  change (Ascii.eqb Str.nl c && true = false). now rewrite E.
Qed.

(** X23: a definition that [parse_frontmatter] accepts is well
    formed: its name passes [validate_name], its description is not
    empty, its iteration limit lies between 1 and 100 whatever the
    front matter asked for, every allowed tool is a non-empty word without white space, its
    instructions do not begin with a newline, and it carries the path
    it was read from; [parse_agent] adds the directory.  Content that
    does not begin with three dashes is never accepted. *)
Theorem parsed_agent_is_well_formed (content path_ : string) (a : agent_definition) :
  parse_frontmatter content path_ = Some a ->
  well_formed a /\ path a = path_ /\ agent_dir a = "" /\
  Str.substr content 0 3 = "---" /\
  forall F fs dir b,
    parse_agent_file F fs dir = Some b ->
    well_formed b /\ agent_dir b = dir /\ path b = dir +:+ "/AGENT.md".
Proof.
  assert (G : forall c p b, parse_frontmatter c p = Some b ->
            well_formed b /\ path b = p /\ agent_dir b = "" /\
            Str.substr c 0 3 = "---").
  { intros c p b. unfold parse_frontmatter.
    destruct (negb (String.eqb (Str.substr c 0 4) ("---" +:+ Str.newline)) &&
              negb (String.eqb (Str.substr c 0 3) "---")) eqn:Hd; [discriminate|].
    assert (Hdash : Str.substr c 0 3 = "---").
    { apply andb_false_iff in Hd as [Hd|Hd]; apply negb_false_iff in Hd;
        apply String.eqb_eq in Hd; [|exact Hd].
      unfold Str.substr in *.
      destruct c as [|c1 [|c2 [|c3 [|c4 c]]]]; try discriminate Hd.
      simpl in Hd. injection Hd as -> -> -> _. simpl.
      now destruct c. }
    destruct (Str.find c _ _) as [end_|]; [|discriminate].
    set (body := string_of_list_ascii _).
    set (a0 := mk_agent "" "" body [] 20 JNull p "").
    assert (H0 : line_invariant p body a0).
    { constructor; try reflexivity; [|constructor].
      unfold MIN_MAX_ITERATIONS, SUBAGENT_MAX_ITERATIONS_LIMIT. simpl. lia. }
    pose proof (read_lines_invariant p body
                  (getlines (list_ascii_of_string
                     (Str.substr c (if bool_decide (Str.at_ c 3 = Some Str.nl)
                                    then 4 else 3)%nat
                                 (end_ - (if bool_decide (Str.at_ c 3 = Some Str.nl)
                                          then 4 else 3)%nat)))) a0 H0)
      as [Hi Ht Hp Hdir Hb].
    set (ag := fold_left read_line _ a0) in *.
    destruct (Str.empty (name ag) || negb (AgentName.validate_name (name ag)))
      eqn:Hn; [discriminate|].
    destruct (Str.empty (description ag)) eqn:Hdesc; [discriminate|].
    intros H. injection H as <-.
    apply orb_false_iff in Hn as [_ Hn]. apply negb_false_iff in Hn.
    split; [|repeat split; assumption].
    constructor; try assumption.
    - intros E. rewrite E in Hdesc. discriminate.
    - rewrite Hb. apply drop_while_newline_head. }
  intros H. destruct (G _ _ _ H) as (W & P & Dd & Hdash).
  split; [exact W|]. split; [exact P|]. split; [exact Dd|].
  split; [exact Hdash|].
  intros F fs dir b H0. unfold parse_agent_file in H0.
  destruct (negb (Fs.exists_ fs _)); [discriminate|].
  destruct (Fs.read_in F fs _) as [c|]; [|discriminate].
  destruct (parse_frontmatter c _) as [ag|] eqn:E; [|discriminate].
  injection H0 as <-. destruct (G _ _ _ E) as (Wb & Pb & _).
  split; [destruct Wb; now constructor|]. split; [reflexivity|exact Pb].
Qed.

Lemma parsed_agent_is_well_formed_witness :
  parse_frontmatter greedy_md "/agents/greedy/AGENT.md"
  = Some (mk_agent "greedy" "wants it all" "Take everything." ["bash"; "write"]
                   100 JNull "/agents/greedy/AGENT.md" "") /\
  well_formed (mk_agent "greedy" "wants it all" "Take everything."
                        ["bash"; "write"] 100 JNull "/agents/greedy/AGENT.md" "").
Proof.
  assert (H : parse_frontmatter greedy_md "/agents/greedy/AGENT.md"
              = Some (mk_agent "greedy" "wants it all" "Take everything."
                               ["bash"; "write"] 100 JNull
                               "/agents/greedy/AGENT.md" ""))
    by (vm_compute; reflexivity).
  split; [exact H|].
  exact (proj1 (parsed_agent_is_well_formed greedy_md "/agents/greedy/AGENT.md"
                  _ H)).
Defined.

#[local] Instance name_le_total : Total name_le.
Proof. intros a b. apply String.leb_total. Qed.

Section Discover.
Variable D : disk.
Variable embedded : gmap string agent_definition.

Lemma load_paths_keys paths : forall m,
  (forall k a, m !! k = Some a -> name a = k) ->
  forall k a, fold_left (load_path D embedded) paths m !! k = Some a -> name a = k.
Proof.
  induction paths as [|p paths IH]; intros m Hm; simpl; [exact Hm|].
  apply IH. unfold load_path. destruct (negb (exists_ D p)); [exact Hm|].
  apply (RegistryFacts.load_entries_invariant D embedded
           (fun k a => name a = k)); [exact Hm|].
  reflexivity.
Qed.

Lemma agents_by_name_keys paths :
  (forall k a, embedded !! k = Some a -> name a = k) ->
  forall k a, agents_by_name D embedded paths !! k = Some a -> name a = k.
Proof.
  intros He k a. unfold agents_by_name. rewrite lookup_union_Some_raw.
  intros [H|[_ H]]; [now apply He|].
  revert H. unfold disk_agents. apply load_paths_keys.
  intros k' a'. now rewrite lookup_empty.
Qed.

(** X24: the list that [discover] builds is sorted by name and has
    one agent for each name of the map it was built from (its length
    is the count [discover] returns); every embedded agent is in it,
    whatever the disk holds; and when the embedded agents are
    registered under their own names, no two agents of the list bear
    the same name. *)
Theorem discover_sorted_by_name (search_paths : list string) :
  let agents_ := discover D embedded search_paths in
  Sorted name_le agents_ /\
  List.length agents_ = base.size (agents_by_name D embedded search_paths) /\
  (forall k e, embedded !! k = Some e -> In e agents_) /\
  ((forall k a, embedded !! k = Some a -> name a = k) ->
   NoDup (List.map name agents_)).
Proof.
  cbv zeta. unfold discover.
  set (M := agents_by_name D embedded search_paths).
  pose proof (merge_sort_Permutation name_le (List.map snd (map_to_list M))) as HP.
  split; [apply Sorted_merge_sort; apply _|]. split; [|split].
  - rewrite (Permutation_length HP), length_map. apply length_map_to_list.
  - intros k e He. eapply Permutation_in; [symmetry; exact HP|].
    apply in_map_iff. exists (k, e). split; [reflexivity|].
    apply list_elem_of_In, elem_of_map_to_list.
    unfold M, agents_by_name. apply lookup_union_Some_l. exact He.
  - intros He. apply (Permutation_map name) in HP. rewrite HP.
    rewrite map_map. rewrite (map_ext_in _ fst).
    + apply (NoDup_fst_map_to_list M).
    + intros [k a] Hin. simpl. apply (agents_by_name_keys search_paths He).
      now apply elem_of_map_to_list, list_elem_of_In.
Qed.

End Discover.

Lemma discover_sorted_by_name_witness :
  NoDup (List.map name
           (discover example_disk example_embedded
                     ["/proj/.llama-agent/agents"; "/home/u/.llama-agent/agents"])).
Proof.
  exact (proj2 (proj2 (proj2
           (discover_sorted_by_name example_disk example_embedded
              ["/proj/.llama-agent/agents"; "/home/u/.llama-agent/agents"])))
           RegistryFacts.example_embedded_keys).
Defined.

End RegistryOpsFacts.

(** ** Escaping, commands and tools *)

Module CommonFacts.
Import Common.

Lemma escape_xml_char_shape c :
  (special c = false /\ escape_xml_char c = String c "") \/
  (special c = true /\
   exists body, escape_xml_char c = String "&" body /\
     forallb (fun d => negb (special d)) (list_ascii_of_string body) = true /\
     body <> "").
Proof.
  unfold escape_xml_char, special.
  destruct (Ascii.eqb c "&") eqn:E1; [right; split; [reflexivity|]; eexists;
    split; [reflexivity|split; [reflexivity|discriminate]]|].
  destruct (Ascii.eqb c "<") eqn:E2; [right; split; [reflexivity|]; eexists;
    split; [reflexivity|split; [reflexivity|discriminate]]|].
  destruct (Ascii.eqb c ">") eqn:E3; [right; split; [reflexivity|]; eexists;
    split; [reflexivity|split; [reflexivity|discriminate]]|].
  destruct (Ascii.eqb c Str.quote) eqn:E4; [right; split; [reflexivity|]; eexists;
    split; [reflexivity|split; [reflexivity|discriminate]]|].
  destruct (Ascii.eqb c "'") eqn:E5; [right; split; [reflexivity|]; eexists;
    split; [reflexivity|split; [reflexivity|discriminate]]|].
  left. split; reflexivity.
Qed.

Lemma special_markup c : markup c = true -> special c = true.
Proof.
  unfold markup, special. destruct (Ascii.eqb c "&"); [reflexivity|]. simpl. tauto.
Qed.

Lemma escape_xml_char_safe c d :
  In d (list_ascii_of_string (escape_xml_char c)) -> markup d = false.
Proof.
  destruct (escape_xml_char_shape c) as [[Hs ->]|[_ (body & -> & Hb & _)]]; simpl.
  - intros [<-|[]]. destruct (markup c) eqn:M; [|reflexivity].
    apply special_markup in M. congruence.
  - intros [<-|H]; [reflexivity|].
    rewrite forallb_forall in Hb. specialize (Hb d H).
    destruct (markup d) eqn:M; [|reflexivity].
    apply special_markup in M. rewrite M in Hb. discriminate.
Qed.

Lemma escape_xml_char_inj c d s t :
  escape_xml_char c +:+ s = escape_xml_char d +:+ t -> c = d /\ s = t.
Proof.
  unfold escape_xml_char.
  destruct (Ascii.eqb_spec c "&") as [->|C1]; destruct (Ascii.eqb_spec d "&") as [->|D1];
    [intros H; cbv [append] in H; injection H as H; auto | | |].
  all: repeat match goal with
       | |- context [Ascii.eqb ?x ?k] =>
           destruct (Ascii.eqb_spec x k) as [->|?]
       end;
    intros H; cbv [append] in H;
    try discriminate H;
    try (injection H as H; subst; auto; fail);
    try (injection H as H1 H; subst; contradiction || auto).
Qed.

(** X25: [escape_xml] makes a text safe to embed and loses nothing:
    its result contains no [<], no [>], no double quote and no
    apostrophe, whatever the text; two different texts are never
    escaped to the same result; a text without any of the five special
    characters is returned as it is; and the result is never shorter
    than the text. *)
Theorem escape_xml_safe_and_injective (str : string) :
  (forall d, In d (list_ascii_of_string (escape_xml str)) -> markup d = false) /\
  (forall other, escape_xml str = escape_xml other -> str = other) /\
  (forallb (fun c => negb (special c)) (list_ascii_of_string str) = true ->
   escape_xml str = str) /\
  (String.length str <= String.length (escape_xml str))%nat.
Proof.
  split; [|split; [|split]].
  - induction str as [|c str IH]; simpl; [tauto|].
    intros d. rewrite StrFacts.list_ascii_of_append. intros H.
    apply in_app_or in H as [H|H]; [now apply (escape_xml_char_safe c)|now apply IH].
  - induction str as [|c str IH]; intros [|d other]; simpl.
    + reflexivity.
    + intros H. exfalso.
      destruct (escape_xml_char_shape d) as [[_ E]|[_ (b & E & _)]];
        rewrite E in H; discriminate H.
    + intros H. exfalso.
      destruct (escape_xml_char_shape c) as [[_ E]|[_ (b & E & _)]];
        rewrite E in H; discriminate H.
    + intros H. apply escape_xml_char_inj in H as [-> H]. f_equal. now apply IH.
  - induction str as [|c str IH]; simpl; [reflexivity|].
    intros H. apply andb_true_iff in H as [Hc H]. apply negb_true_iff in Hc.
    destruct (escape_xml_char_shape c) as [[_ ->]|[Hs _]]; [|congruence].
    rewrite (IH H). reflexivity.
  - induction str as [|c str IH]; simpl; [lia|].
    rewrite StrFacts.append_length.
    destruct (escape_xml_char_shape c) as [[_ ->]|[_ (b & -> & _)]]; simpl; lia.
Qed.

Lemma escape_xml_safe_and_injective_witness :
  escape_xml "reviewer-2" = "reviewer-2".
Proof.
  refine (proj1 (proj2 (proj2 (escape_xml_safe_and_injective "reviewer-2"))) _).
  reflexivity.
Defined.

Example escape_xml_example :
  escape_xml "a<b & 'c'" = "a&lt;b &amp; &apos;c&apos;".
Proof. reflexivity. Qed.

End CommonFacts.

Module DispatcherFacts.
Import Dispatcher.

Lemma prefix_drop p s :
  Str.starts_with p s = true -> s = p +:+ Str.drop (String.length p) s.
Proof.
  revert s. induction p as [|a p IH]; intros s; [reflexivity|].
  destruct s as [|b s]; simpl; [discriminate|].
  destruct (Ascii.eqb_spec a b) as [->|]; simpl; [|discriminate].
  intros H. change (String b s = String b (p +:+ Str.drop (String.length p) s)).
  f_equal. now apply IH.
Qed.

Lemma starts_with_self p s : Str.starts_with p (p +:+ s) = true.
Proof.
  induction p as [|a p IH]; [reflexivity|].
  change (Ascii.eqb a a && Str.starts_with p (p +:+ s) = true).
  now rewrite Ascii.eqb_refl, IH.
Qed.

Lemma calls_of_prefix name input :
  Str.starts_with (name +:+ " ") input = true ->
  calls name (Str.drop (String.length name + 1) input) input.
Proof.
  intros H. right. apply prefix_drop in H.
  rewrite StrFacts.append_length in H. simpl String.length in H.
  now rewrite StrFacts.append_assoc in H.
Qed.

(** Two plain names called by the same input are the same name. *)
Lemma plain_calls_unique a b x y :
  plain a -> plain b -> a +:+ " " +:+ x = b +:+ " " +:+ y -> a = b /\ x = y.
Proof.
  unfold plain. revert b. induction a as [|c a IH]; intros [|d b] Ha Hb H.
  - cbv [append] in H. now injection H.
  - exfalso. cbv [append] in H. simpl in Hb.
    change (String " " x = String d (b +:+ String " " y)) in H.
    injection H as <- _. apply Hb. now left.
  - exfalso. simpl in Ha.
    change (String c (a +:+ String " " x) = String " " y) in H.
    injection H as -> _. apply Ha. now left.
  - change (String c (a +:+ " " +:+ x) = String d (b +:+ " " +:+ y)) in H.
    injection H as -> H. simpl in Ha, Hb.
    destruct (IH b) as [-> ->]; [tauto|tauto|exact H|]. split; reflexivity.
Qed.

Lemma calls_unique a b x y input :
  plain a -> plain b -> calls a x input -> calls b y input -> a = b /\ x = y.
Proof.
  intros Ha Hb [[-> ->]| ->] [[E ->]|E].
  - split; [now symmetry|reflexivity].
  - exfalso. apply Ha. rewrite E, StrFacts.list_ascii_of_append.
    apply in_or_app. right. now left.
  - exfalso. apply Hb. rewrite <- E, StrFacts.list_ascii_of_append.
    apply in_or_app. right. now left.
  - now apply plain_calls_unique.
Qed.

Section WithContext.
Variable State : Type.

Lemma any_command_dispatch (handlers_ : list (string * command_handler State))
      input ctx :
  any_command handlers_ input = true ->
  exists name handler args,
    In (name, handler) handlers_ /\ calls name args input /\
    dispatch handlers_ input ctx = handler args ctx.
Proof.
  induction handlers_ as [|[k h] hs IH]; simpl; [discriminate|].
  destruct (String.eqb_spec input k) as [->|Hne]; simpl.
  - intros _. exists k, h, "". split; [now left|]. split; [now left|reflexivity].
  - destruct (Str.starts_with (k +:+ " ") input) eqn:P.
    + intros _. exists k, h, (Str.drop (String.length k + 1) input).
      split; [now left|]. split; [now apply calls_of_prefix|reflexivity].
    + intros H. destruct (IH H) as (n & hd & a & Hin & Hc & Hd).
      exists n, hd, a. split; [now right|]. split; assumption.
Qed.

Lemma no_command_dispatch (handlers_ : list (string * command_handler State))
      input ctx :
  any_command handlers_ input = false ->
  dispatch handlers_ input ctx = (RUN_PROMPT, ctx) /\
  forall name handler args, In (name, handler) handlers_ -> ~ calls name args input.
Proof.
  induction handlers_ as [|[k h] hs IH]; simpl.
  - intros _. split; [reflexivity|]. intros ? ? ? [].
  - destruct (String.eqb_spec input k) as [->|Hne]; simpl; [discriminate|].
    destruct (Str.starts_with (k +:+ " ") input) eqn:P; [discriminate|].
    intros H. destruct (IH H) as [Hd Hn]. split; [exact Hd|].
    intros n hd a [E|Hin]; [|now apply (Hn n hd a)].
    injection E as <- <-. intros [[-> _]| ->]; [congruence|].
    rewrite <- StrFacts.append_assoc, starts_with_self in P. discriminate.
Qed.

Lemma dispatch_calls (handlers_ : list (string * command_handler State))
      name handler args input ctx :
  Forall plain (List.map fst handlers_) ->
  NoDup (List.map fst handlers_) ->
  In (name, handler) handlers_ -> calls name args input ->
  dispatch handlers_ input ctx = handler args ctx.
Proof.
  intros Hp Hnd Hin Hc.
  destruct (any_command handlers_ input) eqn:A.
  - destruct (any_command_dispatch handlers_ input ctx A)
      as (n & h & a & Hin' & Hc' & ->).
    assert (Hpn : plain name).
    { rewrite Forall_forall in Hp. apply Hp, list_elem_of_In, in_map_iff.
      now exists (name, handler). }
    assert (Hpn' : plain n).
    { rewrite Forall_forall in Hp. apply Hp, list_elem_of_In, in_map_iff.
      now exists (n, h). }
    destruct (calls_unique n name a args input Hpn' Hpn Hc' Hc) as [-> ->].
    f_equal.
    clear -Hnd Hin Hin'. induction handlers_ as [|[k0 h0] hs IH]; [destruct Hin|].
    simpl in Hnd. apply NoDup_cons in Hnd as [Hk Hnd].
    destruct Hin as [E|Hin], Hin' as [E'|Hin'].
    + congruence.
    + injection E as -> ->. exfalso. apply Hk, list_elem_of_In, in_map_iff.
      now exists (name, h).
    + injection E' as -> ->. exfalso. apply Hk, list_elem_of_In, in_map_iff.
      now exists (name, handler).
    + now apply IH.
  - exfalso. destruct (no_command_dispatch handlers_ input ctx A) as [_ Hn].
    exact (Hn _ _ _ Hin Hc).
Qed.

(** X26: [is_command] and [dispatch] agree, and the order of the
    handlers does not matter.  On an input that [is_command] accepts,
    [dispatch] runs the handler of a registered command that the
    input calls (the name alone, with no arguments, or the name, a
    blank and the arguments); on an input with a leading slash that
    it rejects, [dispatch] runs no handler, changes nothing and asks
    to run the input as a prompt.  When the registered names are
    distinct and blank-free, an input that calls a registered command
    runs exactly the handler of that command on exactly those
    arguments. *)
Theorem dispatch_agrees_with_is_command
        (handlers_ : list (string * command_handler State)) input ctx :
  (is_command handlers_ input = true ->
   exists name handler args,
     In (name, handler) handlers_ /\ calls name args input /\
     dispatch handlers_ input ctx = handler args ctx) /\
  (is_command handlers_ input = false ->
   Str.starts_with "/" input = true ->
   dispatch handlers_ input ctx = (RUN_PROMPT, ctx)) /\
  (Forall plain (List.map fst handlers_) ->
   NoDup (List.map fst handlers_) ->
   forall name handler args,
     In (name, handler) handlers_ -> calls name args input ->
     dispatch handlers_ input ctx = handler args ctx).
Proof.
  split; [|split].
  - unfold is_command. destruct (Str.empty input || _); [discriminate|].
    apply any_command_dispatch.
  - unfold is_command. intros H Hs.
    destruct input as [|c input]; [discriminate|].
    change (Ascii.eqb "/" c && true = true) in Hs.
    apply andb_true_iff in Hs as [Hc _].
    apply Ascii.eqb_eq in Hc. subst c.
    change (any_command handlers_ (String "/" input) = false) in H.
    now apply no_command_dispatch.
  - intros Hp Hnd name handler args. now apply dispatch_calls.
Qed.

End WithContext.

Lemma dispatch_agrees_with_is_command_witness :
  dispatch main_commands "/compact keep the plan" []
  = (RUN_PROMPT, []) /\
  dispatch main_commands "/plan add a cache" [] = (CONTINUE, [("/plan", "add a cache")]).
Proof.
  split.
  - refine (proj1 (proj2 (dispatch_agrees_with_is_command _ main_commands
                            "/compact keep the plan" [])) _ _); reflexivity.
  - vm_compute. reflexivity.
Defined.

Example main_command_names :
  get_command_names main_commands
  = ["/clear"; "/delete"; "/exit"; "/list"; "/plan"; "/quit"; "/skills";
     "/stats"; "/subagents"; "/switch"; "/tools"].
Proof. vm_compute. reflexivity. Qed.

End DispatcherFacts.

Module ContextPrefixFacts.
Import ContextPrefix.

Lemma count_matches_candidates target contexts : forall matched_id match_count,
  count_matches target contexts matched_id match_count
  = (match rev (candidates target contexts) with
     | [] => matched_id
     | c :: _ => cs_id c
     end,
     (match_count + Z.of_nat (List.length (candidates target contexts)))%Z).
Proof.
  induction contexts as [|c contexts IH]; intros m n; simpl.
  - f_equal. lia.
  - destruct (Str.starts_with target (cs_id c)) eqn:E; rewrite IH.
    + simpl. f_equal; [|lia].
      destruct (rev (candidates target contexts)) as [|d l] eqn:R;
        simpl; [reflexivity|]. reflexivity.
    + reflexivity.
Qed.

(** X27: [find_context_by_prefix] answers with a context exactly
    when the trimmed prefix is not empty and exactly one listed
    context has an id that begins with it, and then with the id of
    that context and no error; with no such context, with several, or
    with an empty prefix it answers with the empty id and an error
    message.  An id it returns always begins with the trimmed
    prefix. *)
Theorem prefix_match_is_unique (contexts : list context_summary) (prefix : string) :
  (forall c, trim_spaces prefix <> "" ->
             candidates (trim_spaces prefix) contexts = [c] ->
             find_context_by_prefix contexts prefix = (cs_id c, None)) /\
  (trim_spaces prefix = "" \/
   List.length (candidates (trim_spaces prefix) contexts) <> 1%nat ->
   fst (find_context_by_prefix contexts prefix) = "" /\
   snd (find_context_by_prefix contexts prefix) <> None) /\
  (snd (find_context_by_prefix contexts prefix) = None ->
   exists c, In c contexts /\
     fst (find_context_by_prefix contexts prefix) = cs_id c /\
     Str.starts_with (trim_spaces prefix) (cs_id c) = true).
Proof.
  unfold find_context_by_prefix. set (target := trim_spaces prefix).
  rewrite count_matches_candidates.
  destruct (Str.empty target) eqn:Et.
  { assert (target = "") as -> by (destruct target; [reflexivity|discriminate]).
    split; [congruence|]. split; [intros _; split; [reflexivity|discriminate]|].
    discriminate. }
  assert (Hne : target <> "") by (intros E; rewrite E in Et; discriminate).
  destruct (candidates target contexts) as [|c [|d l]] eqn:C.
  - simpl. split; [discriminate|]. split; [|discriminate].
    intros _. split; [reflexivity|discriminate].
  - simpl. split; [intros c' _ [= <-]; reflexivity|]. split.
    + intros [E|E]; [contradiction|]. now destruct E.
    + intros _. exists c.
      assert (Hin : In c (candidates target contexts)) by (rewrite C; now left).
      unfold candidates in Hin. apply filter_In in Hin as [Hin Hp].
      split; [exact Hin|]. split; [reflexivity|exact Hp].
  - set (n := (0 + Z.of_nat (List.length (c :: d :: l)))%Z).
    assert (Hn : (2 <= n)%Z) by (subst n; simpl List.length; lia).
    clearbody n.
    assert (Hz : (n =? 0)%Z = false) by (apply Z.eqb_neq; lia).
    assert (Hc : (1 <? n)%Z = true) by (apply Z.ltb_lt; lia).
    rewrite Hz, Hc. split; [discriminate|]. split; [|discriminate].
    intros _. split; [reflexivity|discriminate].
Qed.

Lemma prefix_match_is_unique_witness :
  find_context_by_prefix three_contexts "  0a1b2  "
  = ("0a1b2c3d-0000", None) /\
  fst (find_context_by_prefix three_contexts "0a1b") = "".
Proof.
  split.
  - refine (proj1 (prefix_match_is_unique three_contexts "  0a1b2  ")
              (mk_summary "0a1b2c3d-0000" "2026-01-03" "third" 4) _ _).
    + vm_compute. discriminate.
    + vm_compute. reflexivity.
  - refine (proj1 (proj1 (proj2 (prefix_match_is_unique three_contexts "0a1b")) _)).
    right. vm_compute. discriminate.
Defined.

End ContextPrefixFacts.

Module ReadPlanFacts.
Import Planning SpawnTool ReadPlan.

Lemma plan_path_agrees base id :
  (base +:+ "/contexts") +:+ "/" +:+ id +:+ "/plan.md"
  = context_path base id +:+ "/plan.md".
Proof.
  unfold context_path. rewrite !StrFacts.append_assoc. reflexivity.
Qed.

(** X28: the reader finds what the writers wrote: [read_plan] looks
    for the plan of a context at the very path that the planning
    machine ([get_plan_path]) and the context store ([save_plan_md])
    write it to.  When that file holds a non-empty plan and can be
    read, [read_plan], asked for the context by its argument or, with
    no argument, by the current context, succeeds with the plan under
    a two-line header that names the context and the path; on an
    empty plan file it fails with the message that the plan file is
    empty. *)
Theorem written_plan_is_read F recent (m : machine) (fs : Fs.t)
        (args : json) (ctx : tool_context) (content : string) :
  Fs.files fs !! get_plan_path m = Some content ->
  Fs.read_fails F (get_plan_path m) = false ->
  tc_context_base_path ctx = base_path m ->
  base_path m <> "" ->
  context_id (session_ m) <> "" ->
  Json.value_string args "context_id" "" = Ret (context_id (session_ m)) \/
  (Json.value_string args "context_id" "" = Ret "" /\ tc_context_id ctx = context_id (session_ m)) ->
  get_plan_path m = Context.context_path (base_path m) (context_id (session_ m)) +:+ "/plan.md" /\
  read_plan_execute F recent args ctx fs
  = Ret (if Str.empty content
         then mk_tool_result false "" ("Plan file is empty: " +:+ get_plan_path m)
         else mk_tool_result true
                ("# Plan from context: " +:+ context_id (session_ m) +:+ Str.newline +:+
                 "# Path: " +:+ get_plan_path m +:+ Str.newline +:+ Str.newline +:+
                 content) "").
Proof.
  set (id := context_id (session_ m)).
  intros Hf Hr Hb Hbase Hid Hargs. split; [reflexivity|].
  unfold read_plan_execute, mbind, outcome_bind, obind.
  assert (Hbe : Str.empty (tc_context_base_path ctx) = false).
  { rewrite Hb. destruct (base_path m); [contradiction|reflexivity]. }
  assert (Hie : Str.empty id = false) by (destruct id; [contradiction|reflexivity]).
  assert (Hex : Fs.exists_ fs (get_plan_path m) = true).
  { unfold Fs.exists_. rewrite Hf. now rewrite bool_decide_eq_true_2 by eauto. }
  assert (Hread : Fs.read_in F fs (get_plan_path m) = Some content).
  { unfold Fs.read_in. now rewrite Hr. }
  assert (Hpath : (tc_context_base_path ctx +:+ "/contexts") +:+ "/" +:+ id +:+ "/plan.md"
                  = get_plan_path m).
  { rewrite Hb. apply plan_path_agrees. }
  rewrite Hbe.
  destruct Hargs as [->|[-> Htc]].
  - fold id. rewrite Hie. simpl andb. cbv iota. rewrite Hie.
    rewrite Hpath, Hex. simpl negb. cbv iota. rewrite Hread.
    destruct (Str.empty content); reflexivity.
  - rewrite Htc. fold id. rewrite Hie. simpl andb. simpl negb. cbv iota.
    rewrite Hie. rewrite Hpath, Hex. simpl negb. cbv iota. rewrite Hread.
    destruct (Str.empty content); reflexivity.
Qed.

Lemma written_plan_is_read_witness :
  read_plan_execute Fs.no_faults none_recent (JObj [])
    (mk_tool_context "/proj" "/data" "c1") PlanCommand.old_plan_fs
  = Ret (mk_tool_result true
           ("# Plan from context: c1" +:+ Str.newline +:+
            "# Path: /data/contexts/c1/plan.md" +:+ Str.newline +:+ Str.newline +:+
            "# old plan") "").
Proof.
  refine (proj2 (written_plan_is_read Fs.no_faults none_recent PlanCommand.waiting
                   PlanCommand.old_plan_fs (JObj [])
                   (mk_tool_context "/proj" "/data" "c1") "# old plan"
                   _ _ _ _ _ _)).
  - reflexivity.
  - reflexivity.
  - reflexivity.
  - discriminate.
  - discriminate.
  - right. split; reflexivity.
Defined.

End ReadPlanFacts.

Module QaUiFacts.
Import Questions QaSession QaUi.

Lemma at_Some {A} (v : list A) i x :
  at_ v i = Some x <-> (0 <= i)%Z /\ v !! Z.to_nat i = Some x.
Proof.
  unfold at_. destruct (i <? 0)%Z eqn:E.
  - apply Z.ltb_lt in E. split; [discriminate|]. intros [? _]. lia.
  - apply Z.ltb_ge in E. tauto.
Qed.

Lemma at_range {A} (v : list A) i x :
  at_ v i = Some x -> (0 <= i < size v)%Z.
Proof.
  intros H. apply at_Some in H as [H0 H]. apply lookup_lt_Some in H.
  unfold size. lia.
Qed.

Lemma at_in_range {A} (v : list A) i :
  (0 <= i < size v)%Z -> exists x, at_ v i = Some x.
Proof.
  intros [H0 H1]. unfold size in H1.
  destruct (lookup_lt_is_Some_2 v (Z.to_nat i)) as [x Hx]; [lia|].
  exists x. apply at_Some. split; [exact H0|exact Hx].
Qed.

Lemma at_put_same (qs : list plan_question) i q q' :
  at_ qs i = Some q -> at_ (<[Z.to_nat i := q']> qs) i = Some q'.
Proof.
  intros H. apply at_Some in H as [H0 H]. apply at_Some. split; [exact H0|].
  apply list_lookup_insert_eq. now apply lookup_lt_Some in H.
Qed.

Lemma size_insert (qs : list plan_question) i q :
  size (<[i := q]> qs) = size qs.
Proof. unfold size. now rewrite length_insert. Qed.

Lemma frame_insert (qs : list plan_question) i q a x c :
  at_ qs i = Some q ->
  List.map frame (<[Z.to_nat i := answer a x c q]> qs) = List.map frame qs.
Proof.
  intros H. apply at_Some in H as [_ H].
  change (List.map frame) with (fmap (M := list) frame).
  rewrite list_fmap_insert. apply list_insert_id.
  rewrite list_lookup_fmap, H. reflexivity.
Qed.

Lemma consistent_insert (qs : list plan_question) i q :
  Forall consistent qs -> consistent q -> Forall consistent (<[i := q]> qs).
Proof. intros H Hq. now apply Forall_insert. Qed.

Lemma consistent_at (qs : list plan_question) i q :
  Forall consistent qs -> at_ qs i = Some q -> consistent q.
Proof.
  intros H Hq. apply at_Some in Hq as [_ Hq].
  rewrite Forall_lookup in H. exact (H _ _ Hq).
Qed.

Lemma consistent_custom a q : consistent (answer a (-1) true q).
Proof.
  unfold consistent, answer; simpl. split; [unfold size; lia|lia].
Qed.

Lemma consistent_option a i q :
  at_ (options q) i = Some a -> consistent (answer a i false q).
Proof.
  intros H. pose proof (at_range _ _ _ H) as Hr. apply at_Some in H as [H0 H].
  unfold consistent, answer; simpl. split; [lia|]. intros _. exact H.
Qed.

(** The state after the current question got an answer. *)
Lemma inv_answer u q a x c :
  inv u ->
  at_ (questions (session_ u)) (current_question_index (session_ u)) = Some q ->
  consistent (answer a x c q) ->
  inv (set_session
         (put_question (current_question_index (session_ u)) (answer a x c q)
            (session_ u)) u) /\
  same_frame u
    (set_session
       (put_question (current_question_index (session_ u)) (answer a x c q)
          (session_ u)) u).
Proof.
  intros (Hc & q0 & Hq0 & Hcur & Hm) Hq Hcons.
  rewrite Hq in Hq0. injection Hq0 as <-.
  split.
  - unfold inv; simpl. split; [now apply consistent_insert|].
    exists (answer a x c q). split; [now apply (at_put_same _ _ q)|].
    simpl. split; [exact Hcur|exact Hm].
  - unfold same_frame; simpl. now apply frame_insert.
Qed.

Lemma same_frame_refl u : same_frame u u.
Proof. reflexivity. Qed.

Lemma same_frame_trans u v w : same_frame u v -> same_frame v w -> same_frame u w.
Proof. unfold same_frame. congruence. Qed.

Lemma same_frame_size u v :
  same_frame u v -> size (questions (session_ v)) = size (questions (session_ u)).
Proof.
  unfold same_frame, size. intros H.
  apply (f_equal (@List.length _)) in H. rewrite !length_map in H. lia.
Qed.

Lemma inv_restore u q i :
  Forall consistent (questions (session_ u)) ->
  at_ (questions (session_ u)) i = Some q ->
  inv (restore_selection q (set_question_index i u)) /\
  same_frame u (restore_selection q (set_question_index i u)).
Proof.
  intros Hc Hq. pose proof (consistent_at _ _ _ Hc Hq) as [Hr _].
  assert (Hs : (0 <= size (options q))%Z) by (unfold size; lia).
  unfold restore_selection.
  destruct (is_custom q); [|destruct (0 <=? selected_option_index q)%Z eqn:E];
    (split; [|reflexivity]); unfold inv; simpl;
    (split; [exact Hc|]); exists q; (split; [exact Hq|]);
    (split; [|discriminate]).
  - lia.
  - apply Z.leb_le in E. lia.
  - lia.
Qed.

Lemma prev_option_inv u :
  inv u -> in_custom_mode_ u = false ->
  inv (prev_option u) /\ same_frame u (prev_option u) /\
  in_custom_mode_ (prev_option u) = false.
Proof.
  intros (Hc & q & Hq & Hcur & Hm) Hn. unfold prev_option.
  destruct (0 <? current_option_index_ u)%Z eqn:E.
  - apply Z.ltb_lt in E. split; [|split; [reflexivity|exact Hn]].
    unfold inv; simpl. split; [exact Hc|]. exists q. split; [exact Hq|].
    split; [lia|]. rewrite Hn. discriminate.
  - split; [|split; [reflexivity|exact Hn]].
    unfold inv. split; [exact Hc|]. exists q. tauto.
Qed.

Lemma option_count_inv u :
  inv u -> exists q,
    at_ (questions (session_ u)) (current_question_index (session_ u)) = Some q /\
    option_count u = Some (size (options q) + 1)%Z.
Proof.
  intros (Hc & q & Hq & Hcur & Hm). exists q. split; [exact Hq|].
  unfold option_count. pose proof (at_range _ _ _ Hq) as Hr.
  destruct (size (questions (session_ u)) <=? current_question_index (session_ u))%Z eqn:E.
  - apply Z.leb_le in E. lia.
  - rewrite Hq. reflexivity.
Qed.

Lemma next_option_inv u :
  inv u -> exists u', next_option u = Some u' /\ inv u' /\ same_frame u u'.
Proof.
  intros Hi. destruct (option_count_inv u Hi) as (q & Hq & Hn).
  unfold next_option. rewrite Hn. simpl.
  destruct Hi as (Hc & q0 & Hq0 & Hcur & Hm).
  rewrite Hq in Hq0. injection Hq0 as <-.
  eexists. split; [reflexivity|].
  destruct (current_option_index_ u <? size (options q) + 1 - 1)%Z eqn:E.
  - apply Z.ltb_lt in E. split; [|reflexivity].
    unfold inv; simpl. split; [exact Hc|]. exists q. split; [exact Hq|].
    split; [lia|]. intros Hcm. specialize (Hm Hcm). lia.
  - split; [|reflexivity]. unfold inv. split; [exact Hc|]. exists q. tauto.
Qed.

Lemma select_current_option_inv u :
  inv u -> exists u', select_current_option u = Some u' /\ inv u' /\ same_frame u u' /\
    current_question_index (session_ u') = current_question_index (session_ u) /\
    current_option_index_ u' = current_option_index_ u /\
    in_custom_mode_ u' = in_custom_mode_ u.
Proof.
  intros Hi. pose proof Hi as (Hc & q & Hq & Hcur & Hm).
  unfold select_current_option. pose proof (at_range _ _ _ Hq) as Hr.
  destruct (size (questions (session_ u)) <=? current_question_index (session_ u))%Z eqn:E;
    [apply Z.leb_le in E; lia|].
  rewrite Hq. simpl.
  destruct (current_option_index_ u <? size (options q))%Z eqn:E1.
  - apply Z.ltb_lt in E1.
    destruct (at_in_range (options q) (current_option_index_ u)) as [a Ha]; [lia|].
    rewrite Ha. simpl. eexists. split; [reflexivity|].
    destruct (inv_answer u q a (current_option_index_ u) false Hi Hq) as [H1 H2];
      [now apply consistent_option|].
    exact (conj H1 (conj H2 (conj eq_refl (conj eq_refl eq_refl)))).
  - destruct (in_custom_mode_ u && negb (Str.empty (custom_input_ u))).
    + eexists. split; [reflexivity|].
      destruct (inv_answer u q (custom_input_ u) (-1) true Hi Hq) as [H1 H2];
        [apply consistent_custom|].
      exact (conj H1 (conj H2 (conj eq_refl (conj eq_refl eq_refl)))).
    + exists u.
      exact (conj eq_refl (conj Hi (conj eq_refl (conj eq_refl (conj eq_refl eq_refl))))).
Qed.

Lemma save_current_selection_inv u :
  inv u -> exists u', save_current_selection u = Some u' /\ inv u' /\ same_frame u u' /\
    current_question_index (session_ u') = current_question_index (session_ u).
Proof.
  intros Hi. pose proof Hi as (Hc & q & Hq & Hcur & Hm).
  unfold save_current_selection.
  destruct (in_custom_mode_ u && negb (Str.empty (custom_input_ u))).
  - rewrite Hq. simpl. eexists. split; [reflexivity|].
    destruct (inv_answer u q (custom_input_ u) (-1) true Hi Hq) as [H1 H2];
      [apply consistent_custom|].
    exact (conj H1 (conj H2 eq_refl)).
  - exists u. exact (conj eq_refl (conj Hi (conj eq_refl eq_refl))).
Qed.

Lemma next_tab_inv u :
  inv u -> exists u', next_tab u = Some u' /\ inv u' /\ same_frame u u'.
Proof.
  intros Hi. destruct (save_current_selection_inv u Hi) as (u1 & E1 & Hi1 & Hf1 & Hx).
  unfold next_tab. rewrite E1. simpl.
  pose proof Hi1 as (Hc & q & Hq & _). pose proof (at_range _ _ _ Hq) as Hr.
  destruct (current_question_index (session_ u1) <? size (questions (session_ u1)) - 1)%Z eqn:E.
  - apply Z.ltb_lt in E.
    destruct (at_in_range (questions (session_ u1))
                (current_question_index (session_ u1) + 1)) as [q' Hq']; [lia|].
    simpl. rewrite Hq'. simpl. eexists. split; [reflexivity|].
    destruct (inv_restore u1 q' _ Hc Hq') as [H1 H2].
    split; [exact H1|]. eapply same_frame_trans; eassumption.
  - exists u1. exact (conj eq_refl (conj Hi1 Hf1)).
Qed.

Lemma prev_tab_inv u :
  inv u -> exists u', prev_tab u = Some u' /\ inv u' /\ same_frame u u'.
Proof.
  intros Hi. destruct (save_current_selection_inv u Hi) as (u1 & E1 & Hi1 & Hf1 & Hx).
  unfold prev_tab. rewrite E1. simpl.
  pose proof Hi1 as (Hc & q & Hq & _). pose proof (at_range _ _ _ Hq) as Hr.
  destruct (0 <? current_question_index (session_ u1))%Z eqn:E.
  - apply Z.ltb_lt in E.
    destruct (at_in_range (questions (session_ u1))
                (current_question_index (session_ u1) - 1)) as [q' Hq']; [lia|].
    simpl. rewrite Hq'. simpl. eexists. split; [reflexivity|].
    destruct (inv_restore u1 q' _ Hc Hq') as [H1 H2].
    split; [exact H1|]. eapply same_frame_trans; eassumption.
  - exists u1. exact (conj eq_refl (conj Hi1 Hf1)).
Qed.

Lemma toggle_custom_mode_inv u :
  inv u -> exists u', toggle_custom_mode u = Some u' /\ inv u' /\ same_frame u u'.
Proof.
  intros (Hc & q & Hq & Hcur & Hm). unfold toggle_custom_mode.
  rewrite Hq. simpl. assert (Hs : (0 <= size (options q))%Z) by (unfold size; lia).
  destruct (in_custom_mode_ u) eqn:Em; simpl.
  - eexists. split; [reflexivity|]. split; [|reflexivity].
    unfold inv; simpl. split; [exact Hc|]. exists q. split; [exact Hq|].
    split; [exact Hcur|discriminate].
  - eexists. split; [reflexivity|]. split; [|reflexivity].
    unfold inv; simpl. split; [exact Hc|]. exists q. split; [exact Hq|].
    split; [lia|reflexivity].
Qed.

Lemma inv_set_custom_input u t : inv u -> inv (set_custom_input t u).
Proof. intros H. exact H. Qed.

Lemma inv_leave_custom u : inv u -> inv (set_custom_mode false u).
Proof.
  intros (Hc & q & Hq & Hcur & Hm). unfold inv; simpl.
  split; [exact Hc|]. exists q. split; [exact Hq|]. split; [exact Hcur|discriminate].
Qed.

Lemma handle_custom_input_inv ch u :
  inv u -> exists u', handle_custom_input ch u = Some u' /\ inv u' /\ same_frame u u'.
Proof.
  intros Hi. unfold handle_custom_input.
  destruct ((ch =? KEY_ENTER)%Z || (ch =? KEY_NEWLINE)%Z).
  - destruct (negb (Str.empty (custom_input_ u))).
    + destruct (select_current_option_inv u Hi) as (u1 & E1 & Hi1 & Hf1 & _).
      rewrite E1. simpl. eexists. split; [reflexivity|].
      split; [now apply inv_leave_custom|exact Hf1].
    + exists u. exact (conj eq_refl (conj Hi eq_refl)).
  - destruct ((ch =? KEY_DEL)%Z || (ch =? KEY_BS)%Z).
    + destruct (negb (Str.empty (custom_input_ u)));
        eexists; (split; [reflexivity|]); (split; [exact Hi|reflexivity]).
    + destruct ((32 <=? ch)%Z && (ch <? 127)%Z);
        eexists; (split; [reflexivity|]); (split; [exact Hi|reflexivity]).
Qed.

Lemma seek_unanswered_inv turns : forall i start n u,
  inv u -> (0 <= start)%Z -> (0 <= i)%Z -> n = size (questions (session_ u)) ->
  exists u', seek_unanswered turns i start n u = Some u' /\ inv u' /\ same_frame u u'.
Proof.
  induction turns as [|turns IH]; intros i start n u Hi Hs H0 Hn; simpl.
  - exists u. exact (conj eq_refl (conj Hi eq_refl)).
  - pose proof Hi as (Hc & q & Hq & _). pose proof (at_range _ _ _ Hq) as Hr.
    assert (Hpos : (0 < n)%Z) by lia.
    pose proof (Z.rem_bound_pos (start + i) n ltac:(lia) Hpos) as Hb.
    destruct (at_in_range (questions (session_ u)) (Z.rem (start + i) n)) as [q' Hq'];
      [lia|].
    rewrite Hq'. simpl. destruct (Str.empty (selected_answer q')).
    + eexists. split; [reflexivity|]. now apply inv_restore.
    + apply IH; [exact Hi|exact Hs|lia|exact Hn].
Qed.

(** One key: the screen stays as [inv] says, and nothing is read out
    of range. *)
Lemma handle_input_inv keys u :
  inv u ->
  match handle_input keys u with
  | Got (_, u') rest =>
      inv u' /\ same_frame u u' /\ (List.length rest < List.length keys)%nat
  | Blocked => True
  | Undefined => False
  end.
Proof.
  intros Hi. unfold handle_input, continue, abort_or_continue, confirm_abort, defined.
  assert (Hrefl : same_frame u u) by reflexivity.
  destruct keys as [|ch keys1]; [exact I|].
  destruct (ch =? 0)%Z; [simpl; split; [exact Hi|split; [exact Hrefl|simpl; lia]]|].
  destruct (ch =? KEY_ESC)%Z.
  { destruct keys1 as [|next keys2]; [exact I|].
    destruct (next =? KEY_BRACKET)%Z.
    { destruct keys2 as [|code keys3]; [exact I|].
      destruct (in_custom_mode_ u) eqn:Em.
      - destruct (code =? KEY_A)%Z; [simpl; split; [exact Hi|split; [exact Hrefl|simpl; lia]]|].
        destruct (code =? KEY_B)%Z; [simpl; split; [exact Hi|split; [exact Hrefl|simpl; lia]]|].
        destruct (code =? KEY_C)%Z; [simpl; split; [exact Hi|split; [exact Hrefl|simpl; lia]]|].
        destruct (code =? KEY_D)%Z; simpl; (split; [exact Hi|split; [exact Hrefl|simpl; lia]]).
      - destruct (code =? KEY_A)%Z.
        { destruct (prev_option_inv u Hi Em) as (H1 & H2 & _).
          simpl. split; [exact H1|split; [exact H2|simpl; lia]]. }
        destruct (code =? KEY_B)%Z.
        { destruct (next_option_inv u Hi) as (u' & -> & H1 & H2).
          simpl. split; [exact H1|split; [exact H2|simpl; lia]]. }
        destruct (code =? KEY_C)%Z.
        { destruct (next_tab_inv u Hi) as (u' & -> & H1 & H2).
          simpl. split; [exact H1|split; [exact H2|simpl; lia]]. }
        destruct (code =? KEY_D)%Z.
        { destruct (prev_tab_inv u Hi) as (u' & -> & H1 & H2).
          simpl. split; [exact H1|split; [exact H2|simpl; lia]]. }
        simpl. split; [exact Hi|split; [exact Hrefl|simpl; lia]]. }
    destruct ((next =? 0)%Z || (next =? KEY_ESC)%Z).
    { destruct (in_custom_mode_ u).
      - simpl. split; [|split; [reflexivity|simpl; lia]].
        apply inv_set_custom_input. now apply inv_leave_custom.
      - destruct keys2 as [|c keys3]; [exact I|].
        simpl. split; [exact Hi|split; [exact Hrefl|simpl; lia]]. }
    simpl. split; [exact Hi|split; [exact Hrefl|simpl; lia]]. }
  destruct (in_custom_mode_ u) eqn:Em.
  { destruct (handle_custom_input_inv ch u Hi) as (u' & -> & H1 & H2).
    simpl. split; [exact H1|split; [exact H2|simpl; lia]]. }
  destruct ((ch =? KEY_ENTER)%Z || (ch =? KEY_NEWLINE)%Z).
  { destruct (select_current_option_inv u Hi) as (u1 & -> & H1 & H2 & _).
    simpl. destruct (all_answered u1).
    - simpl. split; [exact H1|split; [exact H2|simpl; lia]].
    - pose proof H1 as (_ & q & Hq & _). pose proof (at_range _ _ _ Hq) as Hr.
      destruct (seek_unanswered_inv
                  (Z.to_nat (size (questions (session_ u1)))) 1
                  (current_question_index (session_ u1))
                  (size (questions (session_ u1))) u1 H1)
        as (u2 & -> & H3 & H4); [lia|lia|reflexivity|].
      simpl. split; [exact H3|split; [|simpl; lia]].
      eapply same_frame_trans; eassumption. }
  destruct (ch =? KEY_TAB)%Z.
  { destruct (toggle_custom_mode_inv u Hi) as (u' & -> & H1 & H2).
    simpl. split; [exact H1|split; [exact H2|simpl; lia]]. }
  destruct (ch =? KEY_CTRL_D)%Z; [simpl; split; [exact Hi|split; [exact Hrefl|simpl; lia]]|].
  destruct (ch =? KEY_j)%Z.
  { destruct (next_option_inv u Hi) as (u' & -> & H1 & H2).
    simpl. split; [exact H1|split; [exact H2|simpl; lia]]. }
  destruct (ch =? KEY_k)%Z.
  { destruct (prev_option_inv u Hi Em) as (H1 & H2 & _).
    simpl. split; [exact H1|split; [exact H2|simpl; lia]]. }
  destruct (ch =? KEY_h)%Z.
  { destruct (prev_tab_inv u Hi) as (u' & -> & H1 & H2).
    simpl. split; [exact H1|split; [exact H2|simpl; lia]]. }
  destruct (ch =? KEY_l)%Z.
  { destruct (next_tab_inv u Hi) as (u' & -> & H1 & H2).
    simpl. split; [exact H1|split; [exact H2|simpl; lia]]. }
  destruct (ch =? KEY_q)%Z.
  { destruct keys1 as [|c keys2]; [exact I|].
    simpl. split; [exact Hi|split; [exact Hrefl|simpl; lia]]. }
  simpl. split; [exact Hi|split; [exact Hrefl|simpl; lia]].
Qed.

Lemma render_inv u : inv u -> render u = Some tt.
Proof.
  intros (_ & q & Hq & _). unfold render. rewrite Hq.
  now destruct (size (questions (session_ u)) <=? current_question_index (session_ u))%Z.
Qed.

Lemma loop_inv is_interrupted fuel : forall i keys u,
  inv u ->
  match loop fuel is_interrupted i keys u with
  | Got (r, u') rest =>
      inv u' /\ same_frame u u' /\
      (List.length rest <= List.length keys)%nat /\
      (r = INTERRUPTED -> exists j, is_interrupted j = true) /\
      r <> ABORTED
  | Blocked => True
  | Undefined => False
  end.
Proof.
  induction fuel as [|fuel IH]; intros i keys u Hi; simpl; [exact I|].
  destruct (is_interrupted i) eqn:Eint.
  { split; [exact Hi|]. split; [reflexivity|]. split; [lia|].
    split; [intros _; now exists i|discriminate]. }
  pose proof (handle_input_inv keys u Hi) as H.
  destruct (handle_input keys u) as [[b u1] rest| |]; [|exact I|exact H].
  destruct H as (Hi1 & Hf1 & Hlen). destruct b.
  - rewrite (render_inv u1 Hi1).
    specialize (IH (S i) rest u1 Hi1).
    destruct (loop fuel is_interrupted (S i) rest u1) as [[r u2] rest2| |];
      [|exact I|exact IH].
    destruct IH as (Hi2 & Hf2 & Hlen2 & Hint & Hab).
    split; [exact Hi2|]. split; [eapply same_frame_trans; eassumption|].
    split; [lia|]. split; assumption.
  - split; [exact Hi1|]. split; [exact Hf1|]. split; [lia|].
    split; discriminate.
Qed.

(** The fuel that [show] gives the loop is never used up: more of it
    changes nothing. *)
Lemma loop_fuel is_interrupted fuel : forall fuel' i keys u,
  inv u ->
  (List.length keys < fuel)%nat -> (List.length keys < fuel')%nat ->
  loop fuel is_interrupted i keys u = loop fuel' is_interrupted i keys u.
Proof.
  induction fuel as [|fuel IH]; intros fuel' i keys u Hi Hf Hf'; [lia|].
  destruct fuel' as [|fuel']; [lia|]. simpl.
  destruct (is_interrupted i); [reflexivity|].
  pose proof (handle_input_inv keys u Hi) as H.
  destruct (handle_input keys u) as [[b u1] rest| |]; [|reflexivity|reflexivity].
  destruct H as (Hi1 & _ & Hlen). destruct b; [|reflexivity].
  destruct (render u1); [|reflexivity].
  apply IH; [exact Hi1|lia|lia].
Qed.

Lemma new_ui_inv session :
  well_formed session -> no_questions session = false ->
  exists u, new_ui session = Some u /\ inv u /\ session_ u = session.
Proof.
  intros [Hidx Hc] Hne. unfold new_ui. rewrite Hne.
  destruct Hidx as [He|Hidx];
    [unfold no_questions in Hne; rewrite He in Hne; discriminate|].
  destruct (at_in_range _ _ Hidx) as [q Hq]. rewrite Hq. simpl.
  pose proof (consistent_at _ _ _ Hc Hq) as [Hr _].
  assert (Hs : (0 <= size (options q))%Z) by (unfold size; lia).
  destruct (0 <=? selected_option_index q)%Z eqn:E;
    [|destruct (is_custom q)];
    eexists; (split; [reflexivity|]); (split; [|reflexivity]);
    unfold inv; simpl; (split; [exact Hc|]); exists q; (split; [exact Hq|]).
  - apply Z.leb_le in E. split; [lia|discriminate].
  - split; [lia|reflexivity].
  - split; [lia|discriminate].
Qed.

Lemma inv_well_formed u : inv u -> well_formed (session_ u).
Proof.
  intros (Hc & q & Hq & _). split; [|exact Hc].
  right. exact (at_range _ _ _ Hq).
Qed.

(** ** Answering with Enter *)

Lemma answered_prefix_length k qs :
  List.length (answered_prefix k qs) = List.length qs.
Proof.
  unfold answered_prefix. rewrite length_app, length_map, length_take, length_drop. lia.
Qed.

Lemma answered_prefix_lookup_ge k qs j :
  (k <= j)%nat -> answered_prefix k qs !! j = qs !! j.
Proof.
  intros H. unfold answered_prefix.
  destruct (decide (k <= List.length qs)%nat) as [Hk|Hk].
  - rewrite lookup_app_r; rewrite length_map, length_take, Nat.min_l by lia; [|lia].
    rewrite lookup_drop. f_equal. lia.
  - rewrite drop_ge by lia. rewrite app_nil_r.
    rewrite (lookup_ge_None_2 qs) by lia.
    apply lookup_ge_None_2. rewrite length_map, length_take. lia.
Qed.

Lemma answered_prefix_step k qs q :
  qs !! k = Some q ->
  <[k := first_option q]> (answered_prefix k qs) = answered_prefix (S k) qs.
Proof.
  intros H. unfold answered_prefix.
  pose proof (lookup_lt_Some _ _ _ H) as Hlt.
  rewrite insert_app_r_alt; rewrite length_map, length_take, Nat.min_l by lia; [|lia].
  rewrite Nat.sub_diag.
  rewrite (drop_S _ _ _ H). simpl.
  rewrite (take_S_r _ _ _ H).
  change (List.map first_option (take k qs ++ [q]))
    with (first_option <$> (take k qs ++ [q])).
  rewrite fmap_app. simpl. rewrite <- app_assoc. reflexivity.
Qed.

Lemma answered_prefix_all qs :
  answered_prefix (List.length qs) qs = List.map first_option qs.
Proof.
  unfold answered_prefix. rewrite firstn_all, drop_all. apply app_nil_r.
Qed.

Lemma first_option_answered q :
  fresh q -> Str.empty (selected_answer (first_option q)) = false.
Proof.
  intros [(_ & Ho & _) Hne]. unfold first_option.
  destruct (options q) as [|a rest] eqn:E; [contradiction|].
  simpl. specialize (Hne a rest eq_refl). now destruct a.
Qed.

Lemma all_answered_app l1 l2 :
  QaSession.all_answered (l1 ++ l2)
  = QaSession.all_answered l1 && QaSession.all_answered l2.
Proof.
  induction l1 as [|q l1 IH]; simpl; [reflexivity|].
  now destruct (Str.empty (selected_answer q)).
Qed.

Lemma all_answered_first_options qs :
  Forall fresh qs -> QaSession.all_answered (List.map first_option qs) = true.
Proof.
  induction 1 as [|q qs Hq _ IH]; simpl; [reflexivity|].
  now rewrite (first_option_answered q Hq).
Qed.

Lemma is_complete_prefix qs k i :
  Forall fresh qs -> qs <> [] ->
  is_complete (mk_qa (answered_prefix k qs) i) = (List.length qs <=? k)%nat.
Proof.
  intros Hf Hne. unfold is_complete. simpl.
  unfold answered_prefix at 1. rewrite all_answered_app.
  rewrite all_answered_first_options by (now apply Forall_take).
  simpl. destruct (List.length qs <=? k)%nat eqn:E.
  - apply Nat.leb_le in E. rewrite drop_ge by lia. simpl.
    pose proof (answered_prefix_length k qs) as Hl.
    destruct (answered_prefix k qs); [|reflexivity].
    destruct qs; [contradiction|simpl in Hl; lia].
  - apply Nat.leb_gt in E.
    destruct (lookup_lt_is_Some_2 qs k E) as [q Hq].
    rewrite (drop_S _ _ _ Hq). simpl.
    rewrite Forall_lookup in Hf. destruct (Hf _ _ Hq) as [(_ & _ & Ha & _) _].
    now rewrite Ha.
Qed.

(** Enter on question [k], the questions before it answered and the
    others not. *)
Lemma enter_step qs k q keys :
  Forall fresh qs -> qs !! k = Some q ->
  handle_input (KEY_ENTER :: keys) (on_question (answered_prefix k qs) (Z.of_nat k))
  = if (List.length qs <=? S k)%nat
    then Got (false, on_question (answered_prefix (S k) qs) (Z.of_nat k)) keys
    else Got (true, on_question (answered_prefix (S k) qs) (Z.of_nat (S k))) keys.
Proof.
  intros Hf Hq. pose proof (lookup_lt_Some _ _ _ Hq) as Hlt.
  assert (Hne : qs <> []) by (intros ->; simpl in Hlt; lia).
  pose proof Hf as Hf'. rewrite Forall_lookup in Hf'.
  destruct (Hf' _ _ Hq) as [(_ & Ho & Ha & Hc & Hx) Hfirst].
  destruct (options q) as [|a rest] eqn:Eo; [contradiction|].
  assert (Hat : at_ (answered_prefix k qs) (Z.of_nat k) = Some q).
  { apply at_Some. split; [lia|]. rewrite Nat2Z.id.
    now rewrite answered_prefix_lookup_ge by lia. }
  assert (Hsel : select_current_option (on_question (answered_prefix k qs) (Z.of_nat k))
                 = Some (on_question (answered_prefix (S k) qs) (Z.of_nat k))).
  { unfold select_current_option, on_question. simpl.
    unfold size at 1. rewrite answered_prefix_length.
    destruct (Z.of_nat (List.length qs) <=? Z.of_nat k)%Z eqn:E;
      [apply Z.leb_le in E; lia|].
    rewrite Hat. simpl. rewrite Eo. simpl.
    unfold set_session, put_question. simpl. rewrite Nat2Z.id.
    rewrite <- (answered_prefix_step k qs q Hq).
    unfold first_option. rewrite Eo. reflexivity. }
  unfold handle_input.
  change (KEY_ENTER =? 0)%Z with false. change (KEY_ENTER =? KEY_ESC)%Z with false.
  change (in_custom_mode_ (on_question (answered_prefix k qs) (Z.of_nat k))) with false.
  change ((KEY_ENTER =? KEY_ENTER)%Z || (KEY_ENTER =? KEY_NEWLINE)%Z) with true.
  cbv iota. rewrite Hsel. simpl.
  unfold all_answered. simpl.
  rewrite (is_complete_prefix qs (S k) (Z.of_nat k) Hf Hne).
  destruct (List.length qs <=? S k)%nat eqn:E; [reflexivity|].
  apply Nat.leb_gt in E.
  unfold size. rewrite answered_prefix_length.
  rewrite Nat2Z.id.
  destruct (List.length qs) as [|n] eqn:En; [lia|].
  cbn [seek_unanswered].
  assert (Hrem : Z.rem (Z.of_nat k + 1) (Z.of_nat (S n)) = Z.of_nat (S k)).
  { rewrite Z.rem_small by lia. lia. }
  simpl session_. cbn [current_question_index questions]. rewrite Hrem.
  destruct (lookup_lt_is_Some_2 qs (S k)) as [q' Hq']; [lia|].
  assert (Hat' : at_ (answered_prefix (S k) qs) (Z.of_nat (S k)) = Some q').
  { apply at_Some. split; [lia|]. rewrite Nat2Z.id.
    now rewrite answered_prefix_lookup_ge by lia. }
  rewrite Hat'. simpl.
  destruct (Hf' _ _ Hq') as [(_ & _ & Ha' & Hc' & Hx') _].
  rewrite Ha'. simpl. unfold restore_selection. rewrite Hc', Hx'. reflexivity.
Qed.

Lemma inv_on_question qs k :
  Forall fresh qs -> (k < List.length qs)%nat ->
  render (on_question (answered_prefix k qs) (Z.of_nat k)) = Some tt.
Proof.
  intros Hf Hk. destruct (lookup_lt_is_Some_2 qs k Hk) as [q Hq].
  unfold render, on_question. simpl.
  assert (Hat : at_ (answered_prefix k qs) (Z.of_nat k) = Some q).
  { apply at_Some. split; [lia|]. rewrite Nat2Z.id.
    now rewrite answered_prefix_lookup_ge by lia. }
  rewrite Hat. simpl.
  now destruct (size (answered_prefix k qs) <=? Z.of_nat k)%Z.
Qed.

Lemma enter_loop qs rest m : forall k fuel i,
  Forall fresh qs -> (k + S m = List.length qs)%nat -> (m < fuel)%nat ->
  loop fuel never i (repeat KEY_ENTER (S m) ++ rest)
       (on_question (answered_prefix k qs) (Z.of_nat k))
  = Got (COMPLETED,
         on_question (List.map first_option qs) (Z.of_nat (List.length qs) - 1))
        rest.
Proof.
  induction m as [|m IH]; intros k fuel i Hf Hk Hfuel.
  - destruct fuel as [|fuel]; [lia|]. cbn [loop never repeat app].
    destruct (lookup_lt_is_Some_2 qs k) as [q Hq]; [lia|].
    rewrite (enter_step qs k q rest Hf Hq).
    assert (E : (List.length qs <=? S k)%nat = true) by (apply Nat.leb_le; lia).
    rewrite E. replace (S k) with (List.length qs) by lia.
    rewrite answered_prefix_all. do 3 f_equal. lia.
  - destruct fuel as [|fuel]; [lia|].
    change (repeat KEY_ENTER (S (S m)) ++ rest)
      with (KEY_ENTER :: (repeat KEY_ENTER (S m) ++ rest)).
    cbn [loop never].
    destruct (lookup_lt_is_Some_2 qs k) as [q Hq]; [lia|].
    rewrite (enter_step qs k q _ Hf Hq).
    assert (E : (List.length qs <=? S k)%nat = false) by (apply Nat.leb_gt; lia).
    rewrite E. rewrite inv_on_question by (exact Hf || lia).
    apply IH; [exact Hf|lia|lia].
Qed.

Lemma fresh_consistent q : fresh q -> consistent q.
Proof.
  intros [(_ & _ & _ & _ & Hx) _]. unfold consistent. rewrite Hx.
  split; [unfold size; lia|lia].
Qed.

(** X29: the Q&A screen never reads outside its vectors.  For a
    session whose current question is one of its questions and whose
    recorded option indices are indices of options, whatever keys are
    typed and whenever the interrupt flag is raised, [show] has no
    undefined behaviour; when it returns, the session is again such a
    session, its questions are the same ones with the same options
    (only answers changed), INTERRUPTED is returned only if the flag
    was raised, and, the terminal being in raw mode, ABORTED only with
    an incomplete session.  And it does return: on questions fresh
    from the parser, whose first options are not empty texts, one
    Enter for each question answers each with its first option and
    returns COMPLETED, leaving the other keys unread. *)
Theorem show_is_safe_and_completes
        (raw_mode : bool) (is_interrupted : nat -> bool) (keys : list Z)
        (session : qa_session) :
  well_formed session ->
  match show raw_mode is_interrupted keys session with
  | Got (r, s') rest =>
      well_formed s' /\
      List.map frame (questions s') = List.map frame (questions session) /\
      (List.length rest <= List.length keys)%nat /\
      (r = INTERRUPTED -> exists j, is_interrupted j = true) /\
      (r = ABORTED -> raw_mode = true -> is_complete s' = false)
  | Blocked => True
  | Undefined => False
  end /\
  (Forall fresh (questions session) -> questions session <> [] ->
   current_question_index session = 0%Z ->
   show true never
        (repeat KEY_ENTER (List.length (questions session)) ++ keys) session
   = Got (COMPLETED,
          mk_qa (List.map first_option (questions session))
                (size (questions session) - 1))
         keys).
Proof.
  intros Hwf. split.
  - unfold show. destruct (no_questions session) eqn:Hne.
    + assert (Hu : new_ui session = Some (mk_ui session 0 false ""))
        by (unfold new_ui; now rewrite Hne).
      rewrite Hu. simpl. rewrite Hne.
      split; [exact Hwf|]. split; [reflexivity|]. split; [lia|].
      split; discriminate.
    + destruct (new_ui_inv session Hwf Hne) as (u & -> & Hi & Hs).
      rewrite Hs, Hne. destruct raw_mode; simpl negb; cbv iota.
      2:{ split; [exact Hwf|]. split; [reflexivity|]. split; [lia|].
          split; [discriminate|]. intros _. discriminate. }
      rewrite (render_inv u Hi).
      pose proof (loop_inv is_interrupted (S (List.length keys)) 0 keys u Hi) as H.
      destruct (loop (S (List.length keys)) is_interrupted 0 keys u)
        as [[r u1] rest| |]; [|exact I|exact H].
      destruct H as (Hi1 & Hf1 & Hlen & Hint & Hab).
      pose proof Hi1 as (_ & q & Hq & _). rewrite Hq.
      unfold same_frame in Hf1. rewrite Hs in Hf1.
      destruct (Str.empty (selected_answer q) && negb (all_answered u1)) eqn:E.
      * split; [now apply inv_well_formed|]. split; [exact Hf1|].
        split; [exact Hlen|]. split; [discriminate|].
        intros _ _. apply andb_true_iff in E as [_ E].
        now apply negb_true_iff in E.
      * split; [now apply inv_well_formed|]. split; [exact Hf1|].
        split; [exact Hlen|]. split; [exact Hint|].
        intros ->. contradiction.
  - intros Hf Hne Hidx. destruct session as [qs idx]. simpl in *. subst idx.
    destruct qs as [|q0 qs0] eqn:Eqs; [contradiction|]. rewrite <- Eqs in *.
    assert (Hq0 : qs !! 0%nat = Some q0) by (rewrite Eqs; reflexivity).
    pose proof Hf as Hf'. rewrite Forall_lookup in Hf'.
    destruct (Hf' _ _ Hq0) as [(_ & _ & Ha & Hc & Hx) _].
    assert (Hu : new_ui (mk_qa qs 0) = Some (on_question (answered_prefix 0 qs) 0)).
    { unfold new_ui, no_questions. simpl. rewrite Eqs at 1.
      assert (Hat : at_ qs 0 = Some q0) by (apply at_Some; split; [lia|exact Hq0]).
      rewrite Hat. simpl. rewrite Hx, Hc. reflexivity. }
    unfold show. rewrite Hu.
    assert (Hl : List.length qs = S (List.length qs0)) by (rewrite Eqs; reflexivity).
    assert (Hnq : no_questions (session_ (on_question (answered_prefix 0 qs) 0)) = false).
    { unfold no_questions, answered_prefix. simpl. rewrite Eqs. reflexivity. }
    rewrite Hnq. simpl negb. cbv iota.
    change 0%Z with (Z.of_nat 0).
    rewrite inv_on_question by (exact Hf || lia).
    replace (repeat KEY_ENTER (List.length qs))
      with (repeat KEY_ENTER (S (List.length qs0))) by (now rewrite Hl).
    rewrite (enter_loop qs keys (List.length qs0) 0 _ 0 Hf) by (rewrite ?length_app, ?repeat_length; simpl; lia).
    unfold size.
    simpl session_. cbn [questions current_question_index].
    destruct (lookup_lt_is_Some_2 qs (List.length qs0)) as [q Hq]; [lia|].
    assert (Hat : at_ (List.map first_option qs) (Z.of_nat (List.length qs) - 1)
                  = Some (first_option q)).
    { apply at_Some. split; [lia|].
      replace (Z.to_nat (Z.of_nat (List.length qs) - 1)) with (List.length qs0) by lia.
      change (List.map first_option qs) with (first_option <$> qs).
      rewrite list_lookup_fmap, Hq. reflexivity. }
    rewrite Hat. rewrite (first_option_answered q (Hf' _ _ Hq)). reflexivity.
Qed.

Lemma two_questions_fresh : Forall fresh (questions two_questions).
Proof.
  repeat constructor; try discriminate; intros a rest [= <- <-]; discriminate.
Qed.

Lemma two_questions_well_formed : well_formed two_questions.
Proof.
  split; [right; unfold size; simpl; lia|].
  eapply Forall_impl; [exact two_questions_fresh|exact fresh_consistent].
Qed.

Lemma show_is_safe_and_completes_witness :
  show true never [KEY_ENTER; KEY_ENTER; KEY_q] two_questions
  = Got (COMPLETED,
         mk_qa [mk_question 1 "Which store?" ["sqlite"; "files"] "sqlite" false 0;
                mk_question 2 "Which format?" ["json"] "json" false 0] 1)
        [KEY_q].
Proof.
  refine (proj2 (show_is_safe_and_completes true never [KEY_q] two_questions _) _ _ _).
  - exact two_questions_well_formed.
  - exact two_questions_fresh.
  - discriminate.
  - reflexivity.
Defined.

(** Keys of a longer exchange: down, Enter; then a custom answer
    typed for the second question and confirmed, and the answers
    submitted with Ctrl+D. *)
Example show_custom_answer :
  show true never
       [KEY_j; KEY_ENTER; KEY_TAB; 116; 111; 109; 108; KEY_ENTER; KEY_CTRL_D]%Z
       two_questions
  = Got (COMPLETED,
         mk_qa [mk_question 1 "Which store?" ["sqlite"; "files"] "files" false 1;
                mk_question 2 "Which format?" ["json"] "toml" true (-1)] 1)
        [].
Proof. vm_compute. reflexivity. Qed.

(** A confirmed abort on an answered question is reported as
    COMPLETED, the other question being without answer. *)
Example show_abort_after_answer :
  show true never [KEY_ENTER; KEY_h; KEY_q; KEY_y] two_questions
  = Got (COMPLETED,
         mk_qa [mk_question 1 "Which store?" ["sqlite"; "files"] "sqlite" false 0;
                mk_question 2 "Which format?" ["json"] "" false (-1)] 0)
        [].
Proof. vm_compute. reflexivity. Qed.

End QaUiFacts.

Module PlanResumeFacts.
Import Planning PlanningOps Questions Dispatcher PlanResume.

Section WithEnvironment.
Variable dump : json -> string.
Variable parse : string -> option json.
Variable F : Fs.faults.
Variable Env : Type.
Variable get_timestamp : Env -> string * Env.
Variable readline : Env -> option string * Env.
Variable show : qa_session -> Env -> QaUi.qa_result * qa_session * Env.
Variable prompt_approval : string -> Env -> bool * Env.
Variable run_planning_workflow :
  machine -> Fs.t -> Env -> outcome command_result * machine * Fs.t * Env.

#[local] Abbreviation approval_ :=
  (approval dump F Env get_timestamp prompt_approval).
#[local] Abbreviation resume_ :=
  (resume_planning_session dump F Env get_timestamp show prompt_approval
     run_planning_workflow).
#[local] Abbreviation handle_ :=
  (handle_plan_impl dump parse F Env get_timestamp readline show prompt_approval
     run_planning_workflow).

#[local] Ltac settle :=
  unfold machine_after, files_after, result_of; simpl;
  repeat split;
  first [reflexivity | left; reflexivity | right; reflexivity | discriminate].

(** In a state of questions the approval changes nothing. *)
Lemma approval_in_questions m fs e :
  current_state m = QUESTIONING \/ current_state m = AWAITING_ANSWERS ->
  exists e', approval_ m fs e = (Ret CONTINUE, m, fs, e').
Proof.
  intros Hs. unfold approval, psm_transition_to.
  assert (H1 : validate_transition (current_state m) AWAITING_APPROVAL = false)
    by (destruct Hs as [-> | ->]; reflexivity).
  assert (H2 : validate_transition (current_state m) APPROVED = false)
    by (destruct Hs as [-> | ->]; reflexivity).
  rewrite H1. destruct (prompt_approval "Approve this plan?" e) as [yes e2].
  destruct yes; [rewrite H2|]; eexists; reflexivity.
Qed.

Lemma resume_in_questions m fs e :
  current_state m = QUESTIONING \/ current_state m = AWAITING_ANSWERS ->
  exists r m' fs' e',
    resume_ m fs e = (r, m', fs', e') /\
    current_state m' = current_state m /\
    plan_content (session_ m') = plan_content (session_ m) /\
    Planning.questions (session_ m') = Planning.questions (session_ m) /\
    (fs' = fs \/ fs' = snd (save dump F m fs)) /\
    r <> Ret EXIT /\ r <> Ret RUN_PROMPT.
Proof.
  intros Hs.
  assert (H1 : validate_transition (current_state m) AWAITING_APPROVAL = false)
    by (destruct Hs as [-> | ->]; reflexivity).
  assert (Hbody :
    resume_ m fs e
    = match QaSession.from_json (Planning.questions (session_ m)) with
      | Raise x => (Raise x, m, fs, e)
      | Ret qa =>
          match Questions.questions qa with
          | [] =>
              match psm_transition_to dump F Env get_timestamp AWAITING_APPROVAL m fs e with
              | (Raise x, m1, fs1, e1) => (Raise x, m1, fs1, e1)
              | (Ret _, m1, fs1, e1) => approval_ m1 fs1 e1
              end
          | _ :: _ =>
              let '(result, qa1, e1) := show qa e in
              match result with
              | QaUi.COMPLETED =>
                  let '(now, e2) := get_timestamp e1 in
                  approval_ (set_answers now (QaSession.to_json qa1) m) fs e2
              | _ =>
                  match save dump F m fs with
                  | (Raise x, fs1) => (Raise x, m, fs1, e1)
                  | (Ret _, fs1) => (Ret CONTINUE, m, fs1, e1)
                  end
              end
          end
      end).
  { unfold resume_planning_session. destruct Hs as [-> | ->]; reflexivity. }
  rewrite Hbody. clear Hbody.
  destruct (QaSession.from_json (Planning.questions (session_ m))) as [qa|x].
  2:{ do 4 eexists. split; [reflexivity|]. settle. }
  destruct (Questions.questions qa) as [|q qs].
  - unfold psm_transition_to at 1. rewrite H1.
    destruct (approval_in_questions m fs e Hs) as [e' ->].
    do 4 eexists. split; [reflexivity|]. settle.
  - destruct (show qa e) as [[result qa1] e1].
    assert (Hsave : exists r m' fs' e',
      match save dump F m fs with
      | (Raise x, fs1) => (Raise x, m, fs1, e1)
      | (Ret _, fs1) => (Ret CONTINUE, m, fs1, e1)
      end = (r, m', fs', e') /\
      current_state m' = current_state m /\
      plan_content (session_ m') = plan_content (session_ m) /\
      Planning.questions (session_ m') = Planning.questions (session_ m) /\
      (fs' = fs \/ fs' = snd (save dump F m fs)) /\
      r <> Ret EXIT /\ r <> Ret RUN_PROMPT).
    { destruct (save dump F m fs) as [[b|x] fs1];
        do 4 eexists; (split; [reflexivity|]); settle. }
    destruct result; [|exact Hsave|exact Hsave].
    destruct (get_timestamp e1) as [now e2].
    destruct (approval_in_questions (set_answers now (QaSession.to_json qa1) m) fs e2)
      as [e' ->]; [exact Hs|].
    do 4 eexists. split; [reflexivity|]. settle.
Qed.

Lemma active_not_idle m : is_active m = true -> bool_decide (current_state m = IDLE) = false.
Proof.
  unfold is_active. destruct (current_state m); simpl; try discriminate; reflexivity.
Qed.

(** X30: [/plan] on a saved session that is active.  If the user
    does not ask to resume, no session is started, whatever the task:
    the command returns CONTINUE, the workflow is not run and no file
    is written.  If the saved state is QUESTIONING or AWAITING_ANSWERS,
    the command never leaves that state, whatever the user answers,
    resumes or approves: the state, the plan and the questions of the
    machine stay as loaded, the only write there can be is a save of
    the loaded session, and the command does not ask to exit.  If the
    saved state is AWAITING_APPROVAL and the user resumes, the machine
    ends APPROVED exactly when the user approves. *)
Theorem plan_on_active_session
        (agents : list Registry.agent_definition)
        (base current_context_id args : string) (fs : Fs.t) (e : Env)
        (loaded : machine) :
  Registry.get_agent agents "planning-agent" <> None ->
  has_saved_session (new_machine base) fs current_context_id = true ->
  load parse F current_context_id (new_machine base) fs = (true, loaded) ->
  is_active loaded = true ->
  (wants_resume (fst (readline e)) = false ->
   handle_ agents base current_context_id args fs e
   = (Ret CONTINUE, loaded, fs, snd (readline e))) /\
  (current_state loaded = QUESTIONING \/ current_state loaded = AWAITING_ANSWERS ->
   current_state (machine_after (handle_ agents base current_context_id args fs e))
   = current_state loaded /\
   plan_content (session_ (machine_after (handle_ agents base current_context_id args fs e)))
   = plan_content (session_ loaded) /\
   Planning.questions
     (session_ (machine_after (handle_ agents base current_context_id args fs e)))
   = Planning.questions (session_ loaded) /\
   (files_after (handle_ agents base current_context_id args fs e) = fs \/
    files_after (handle_ agents base current_context_id args fs e)
    = snd (save dump F loaded fs)) /\
   result_of (handle_ agents base current_context_id args fs e) <> Ret EXIT /\
   result_of (handle_ agents base current_context_id args fs e) <> Ret RUN_PROMPT) /\
  (current_state loaded = AWAITING_APPROVAL ->
   wants_resume (fst (readline e)) = true ->
   current_state (machine_after (handle_ agents base current_context_id args fs e))
   = if fst (prompt_approval "Approve this plan?" (snd (readline e)))
     then APPROVED else AWAITING_APPROVAL).
Proof.
  intros Hagent Hsaved Hload Hactive.
  assert (Hdecline : forall e1,
    (if Str.empty args then (Ret CONTINUE, loaded, fs, e1)
     else
       match psm_start dump F Env get_timestamp args current_context_id loaded fs e1 with
       | (Raise x, m1, fs1, e2) => (Raise x, m1, fs1, e2)
       | (Ret false, m1, fs1, e2) => (Ret CONTINUE, m1, fs1, e2)
       | (Ret true, m1, fs1, e2) => run_planning_workflow m1 fs1 e2
       end) = (Ret CONTINUE, loaded, fs, e1)).
  { intros e1. destruct (Str.empty args); [reflexivity|].
    unfold psm_start. now rewrite (active_not_idle loaded Hactive). }
  assert (Hbody :
    handle_ agents base current_context_id args fs e
    = if wants_resume (fst (readline e))
      then resume_ loaded fs (snd (readline e))
      else (Ret CONTINUE, loaded, fs, snd (readline e))).
  { unfold handle_plan_impl.
    destruct (Registry.get_agent agents "planning-agent"); [|contradiction].
    rewrite Hsaved, Hload, Hactive.
    destruct (readline e) as [response e1]. simpl fst. simpl snd.
    destruct (wants_resume response); [reflexivity|apply Hdecline]. }
  rewrite Hbody. clear Hbody. split; [|split].
  - intros ->. reflexivity.
  - intros Hs. destruct (wants_resume (fst (readline e))).
    + destruct (resume_in_questions loaded fs (snd (readline e)) Hs)
        as (r & m' & fs' & e' & -> & H1 & H2 & H3 & H4 & H5 & H6).
      unfold machine_after, files_after, result_of. simpl.
      repeat split; assumption.
    + settle.
  - intros Hs ->. unfold resume_planning_session. rewrite Hs.
    unfold approval, psm_transition_to. rewrite Hs.
    change (validate_transition AWAITING_APPROVAL AWAITING_APPROVAL) with false.
    cbv iota.
    destruct (prompt_approval "Approve this plan?" (snd (readline e))) as [yes e2].
    simpl fst. destruct yes; [|exact Hs].
    rewrite Hs. change (validate_transition AWAITING_APPROVAL APPROVED) with true.
    cbv iota. destruct (get_timestamp e2) as [now e3].
    unfold transition_to. rewrite Hs.
    change (negb (validate_transition AWAITING_APPROVAL APPROVED)) with false.
    cbv iota.
    destruct (save dump F _ fs) as [[b|x] fs1]; reflexivity.
Qed.

End WithEnvironment.

Lemma plan_on_active_session_witness :
  current_state
    (machine_after
       (handle_plan_impl JsonText.dump JsonText.parse Fs.no_faults (list Z)
          frozen_clock scripted_readline scripted_show scripted_approval no_workflow
          [planner] "/data" "c1" "" questioning_fs resume_answer_approve))
  = QUESTIONING.
Proof.
  refine (proj1 (proj1 (proj2
            (plan_on_active_session JsonText.dump JsonText.parse Fs.no_faults (list Z)
               frozen_clock scripted_readline scripted_show scripted_approval
               no_workflow [planner] "/data" "c1" "" questioning_fs
               resume_answer_approve (machine_of "/data" questioning_session)
               _ _ _ _)) _)).
  - vm_compute. discriminate.
  - reflexivity.
  - vm_compute. reflexivity.
  - reflexivity.
  - left. reflexivity.
Defined.

(** The session resumed, answered and approved: the answers are in
    the machine, the state is the one loaded and no file was written. *)
Example resumed_answers_are_not_saved :
  answers
    (session_
       (machine_after
          (handle_plan_impl JsonText.dump JsonText.parse Fs.no_faults (list Z)
             frozen_clock scripted_readline scripted_show scripted_approval no_workflow
             [planner] "/data" "c1" "" questioning_fs resume_answer_approve)))
  = QaSession.to_json
      (mk_qa (List.map QaUi.first_option (Questions.questions QaUi.two_questions)) 1) /\
  files_after
    (handle_plan_impl JsonText.dump JsonText.parse Fs.no_faults (list Z)
       frozen_clock scripted_readline scripted_show scripted_approval no_workflow
       [planner] "/data" "c1" "" questioning_fs resume_answer_approve)
  = questioning_fs.
Proof. vm_compute. split; reflexivity. Qed.

End PlanResumeFacts.

(** ** The workflow of [/plan] *)

Module PlanWorkflowFacts.
Import Planning PlanningOps Questions Dispatcher PlanWorkflow.

#[local] Existing Instance step_ret.
#[local] Existing Instance step_bind.

Lemma active_states m :
  is_active m = true <->
  current_state m <> IDLE /\ current_state m <> APPROVED /\ current_state m <> ABORTED.
Proof.
  unfold is_active. destruct (current_state m); simpl;
    intuition (discriminate || congruence).
Qed.

(** At an active session [abort] is the request for ABORTED, and the
    table grants it. *)
Lemma abort_validated dump F now m fs :
  is_active m = true ->
  In (current_state m, ABORTED) transition_table /\
  abort dump F now m fs = validated_abort dump F now m fs.
Proof.
  intros H. assert (V : validate_transition (current_state m) ABORTED = true).
  { revert H. unfold is_active. destruct (current_state m); vm_compute; congruence. }
  split; [now apply PlanningFacts.validate_transition_table|].
  unfold validated_abort, transition_to, abort. now rewrite V.
Qed.

Section WithEnvironment.
Variable dump : json -> string.
Variable parse : string -> option json.
Variable F : Fs.faults.
Variable Env : Type.
Variable get_timestamp : Env -> string * Env.
Variable show : qa_session -> Env -> QaUi.qa_result * qa_session * Env.
Variable prompt_approval : string -> Env -> bool * Env.
Variable spawn : Spawn.subagent_request -> Env -> Spawn.subagent_result * Env.
Variable run : Registry.agent_definition -> string -> Env -> Spawn.loop_run * Env.

Lemma agree_bind {A B : Type} (c : step Env A) (k1 k2 : A -> step Env B) :
  keeps_active c -> (forall a, agree (k1 a) (k2 a)) ->
  agree (c ≫= k1) (c ≫= k2).
Proof.
  intros Hc Hk m fs e Hm. unfold mbind, step_bind.
  destruct (c m fs e) as [[[[[a|x] m1] fs1] e1]|] eqn:E; [|reflexivity..].
  apply Hk. exact (Hc _ _ _ _ _ _ _ Hm E).
Qed.

Lemma agree_refl {A : Type} (c : step Env A) : agree c c.
Proof. intros m fs e _. reflexivity. Qed.

Lemma transition_keeps_active T :
  T <> APPROVED -> T <> ABORTED -> T <> IDLE ->
  keeps_active (psm_transition_to dump F Env get_timestamp T).
Proof.
  intros H1 H2 H3 m fs e r m1 fs1 e1 Hm.
  unfold psm_transition_to, PlanResume.psm_transition_to, transition_to.
  destruct (validate_transition (current_state m) T) eqn:V.
  - destruct (get_timestamp e) as [now e'].
    destruct (save dump F _ fs) as [r' fs']. intros H. inversion H; subst.
    apply active_states. unfold current_state. simpl. tauto.
  - intros H. inversion H; subst. exact Hm.
Qed.

Lemma set_keeps_active f :
  (forall now m, current_state (f now m) = current_state m) ->
  keeps_active (psm_set Env get_timestamp f).
Proof.
  intros Hf m fs e r m1 fs1 e1 Hm. unfold psm_set.
  destruct (get_timestamp e) as [now e']. intros H. inversion H; subst.
  apply active_states. rewrite Hf. now apply active_states.
Qed.

Lemma save_keeps_active : keeps_active (psm_save dump F Env).
Proof.
  intros m fs e r m1 fs1 e1 Hm. unfold psm_save.
  destruct (save dump F m fs) as [r' fs']. intros H. now inversion H; subst.
Qed.

Lemma get_keeps_active : keeps_active (psm_get Env).
Proof.
  intros m fs e r m1 fs1 e1 Hm. unfold psm_get. intros H. now inversion H; subst.
Qed.

Lemma ask_keeps_active {A : Type} (f : Env -> A * Env) : keeps_active (ask Env f).
Proof.
  intros m fs e r m1 fs1 e1 Hm. unfold ask.
  destruct (f e) as [a e']. intros H. now inversion H; subst.
Qed.

Lemma abort_agree :
  agree (psm_abort Env get_timestamp (abort dump F))
        (psm_abort Env get_timestamp (validated_abort dump F)).
Proof.
  intros m fs e Hm. unfold psm_abort. destruct (get_timestamp e) as [now e1].
  now rewrite (proj2 (abort_validated dump F now m fs Hm)).
Qed.

Lemma abort_continue_agree :
  agree (psm_abort Env get_timestamp (abort dump F) ≫= (fun _ => mret CONTINUE))
        (psm_abort Env get_timestamp (validated_abort dump F) ≫= (fun _ => mret CONTINUE)).
Proof.
  intros m fs e Hm. unfold mbind, step_bind. now rewrite abort_agree.
Qed.

Ltac step_agree :=
  first
    [ apply agree_refl
    | apply abort_continue_agree
    | apply agree_bind;
      [ first [ apply transition_keeps_active; discriminate
              | apply set_keeps_active; reflexivity
              | apply save_keeps_active
              | apply get_keeps_active
              | apply ask_keeps_active ]
      | intros ? ] ].

Lemma qa_loop_agree rounds planning_agent : forall qa plan_content,
  agree (qa_loop dump parse F Env get_timestamp show prompt_approval run
                 (abort dump F) rounds planning_agent qa plan_content)
        (qa_loop dump parse F Env get_timestamp show prompt_approval run
                 (validated_abort dump F) rounds planning_agent qa plan_content).
Proof.
  induction rounds as [|rounds IH]; intros qa plan_content; simpl.
  - destruct (Questions.questions qa); apply agree_refl.
  - destruct (Questions.questions qa); [apply agree_refl|].
    do 5 step_agree.
    match goal with a : (QaUi.qa_result * qa_session)%type |- _ =>
      destruct a as [[| |] qa1] end.
    + do 4 step_agree.
      match goal with a : Spawn.loop_run |- _ =>
        destruct (Spawn.stop_reason a) end; try apply agree_refl.
      step_agree. apply IH.
    + step_agree.
    + step_agree.
Qed.

Lemma workflow_agree rounds agents :
  agree (run_planning_workflow dump parse F Env get_timestamp show
           prompt_approval spawn run rounds agents)
        (run_planning_workflow_with dump parse F Env get_timestamp show
           prompt_approval spawn run (validated_abort dump F) rounds agents).
Proof.
  unfold run_planning_workflow, run_planning_workflow_with.
  destruct (Registry.get_agent agents "explorer-agent") as [explorer_agent|];
    [|step_agree].
  destruct (Registry.get_agent agents "planning-agent") as [planning_agent|];
    [|step_agree].
  do 3 step_agree.
  match goal with a : Spawn.subagent_result |- _ =>
    destruct (negb (Spawn.success a)) end; [step_agree|].
  do 4 step_agree.
  match goal with a : Spawn.loop_run |- _ =>
    destruct (Spawn.stop_reason a) end; try step_agree.
  apply qa_loop_agree.
Qed.

End WithEnvironment.

Section Command.
Variable dump : json -> string.
Variable parse : string -> option json.
Variable F : Fs.faults.
Variable Env : Type.
Variable get_timestamp : Env -> string * Env.
Variable readline : Env -> option string * Env.
Variable show : qa_session -> Env -> QaUi.qa_result * qa_session * Env.
Variable prompt_approval : string -> Env -> bool * Env.

(** A session that [start] has saved is exploring. *)
Lemma started_is_active task_ ctx m fs e m1 fs1 e1 :
  PlanResume.psm_start dump F Env get_timestamp task_ ctx m fs e
  = (Ret true, m1, fs1, e1) ->
  current_state m = IDLE /\ current_state m1 = EXPLORING.
Proof.
  unfold PlanResume.psm_start, start.
  destruct (bool_decide_reflect (current_state m = IDLE)) as [Hi|Hn];
    [|discriminate].
  destruct (get_timestamp e) as [now e']. simpl negb. cbv iota.
  destruct (save dump F _ fs) as [r fs']. intros H. inversion H; subst.
  split; [exact Hi|reflexivity].
Qed.

(** [handle_plan_impl] hands only active sessions to the workflow: two
    workflows that agree on them give the same command. *)
Lemma command_runs_active_sessions
      (W1 W2 : machine -> Fs.t -> Env ->
               outcome command_result * machine * Fs.t * Env) :
  (forall m fs e, is_active m = true -> W1 m fs e = W2 m fs e) ->
  forall agents base current_context_id args fs e,
    PlanResume.handle_plan_impl dump parse F Env get_timestamp readline show
      prompt_approval W1 agents base current_context_id args fs e
    = PlanResume.handle_plan_impl dump parse F Env get_timestamp readline show
        prompt_approval W2 agents base current_context_id args fs e.
Proof.
  intros HW agents base ctx args fs e. unfold PlanResume.handle_plan_impl.
  destruct (Registry.get_agent agents "planning-agent"); [|reflexivity].
  assert (Hfresh : forall psm1 e1,
    (if Str.empty args then (Ret CONTINUE, psm1, fs, e1)
     else match PlanResume.psm_start dump F Env get_timestamp args ctx psm1 fs e1 with
          | (Raise x, m1, fs1, e2) => (Raise x, m1, fs1, e2)
          | (Ret false, m1, fs1, e2) => (Ret CONTINUE, m1, fs1, e2)
          | (Ret true, m1, fs1, e2) => W1 m1 fs1 e2
          end)
    = (if Str.empty args then (Ret CONTINUE, psm1, fs, e1)
       else match PlanResume.psm_start dump F Env get_timestamp args ctx psm1 fs e1 with
            | (Raise x, m1, fs1, e2) => (Raise x, m1, fs1, e2)
            | (Ret false, m1, fs1, e2) => (Ret CONTINUE, m1, fs1, e2)
            | (Ret true, m1, fs1, e2) => W2 m1 fs1 e2
            end)).
  { intros psm1 e1. destruct (Str.empty args); [reflexivity|].
    destruct (PlanResume.psm_start dump F Env get_timestamp args ctx psm1 fs e1)
      as [[[[[|]|x] m1] fs1] e2] eqn:S; try reflexivity.
    apply started_is_active in S as [_ S]. apply HW.
    apply active_states. rewrite S. repeat split; discriminate. }
  destruct (has_saved_session _ fs ctx); [|apply Hfresh].
  destruct (load parse F ctx _ fs) as [loaded psm1].
  destruct loaded; [|apply Hfresh].
  destruct (is_active psm1) eqn:A; [|apply Hfresh].
  destruct (readline e) as [response e1].
  destruct (PlanResume.wants_resume response); [|apply Hfresh].
  unfold PlanResume.resume_planning_session.
  pose proof (proj1 (active_states psm1) A) as (H1 & H2 & H3).
  destruct (current_state psm1) eqn:S; try reflexivity; try congruence;
    apply HW; exact A.
Qed.

End Command.

Lemma transition_to_changes dump F now T m fs :
  current_state (snd (fst (transition_to dump F now T m fs))) <> current_state m ->
  In (current_state m, T) transition_table /\
  current_state (snd (fst (transition_to dump F now T m fs))) = T.
Proof.
  unfold transition_to.
  destruct (validate_transition (current_state m) T) eqn:V; simpl.
  - destruct (save dump F _ fs) as [r fs1]. simpl. intros _.
    split; [now apply PlanningFacts.validate_transition_table|reflexivity].
  - intros H. now destruct H.
Qed.

Lemma transition_to_granted dump F now T m fs :
  In (current_state m, T) transition_table ->
  current_state (snd (fst (transition_to dump F now T m fs))) = T.
Proof.
  intros H. apply PlanningFacts.validate_transition_table in H.
  unfold transition_to. rewrite H. simpl.
  now destruct (save dump F _ fs).
Qed.

Lemma start_validated dump F now task_ ctx m fs :
  (current_state m <> IDLE -> start dump F now task_ ctx m fs = (Ret false, m, fs)) /\
  (current_state m = IDLE ->
   current_state (snd (fst (start dump F now task_ ctx m fs))) = EXPLORING /\
   In (IDLE, EXPLORING) transition_table).
Proof.
  unfold start. split.
  - intros H. now rewrite bool_decide_eq_false_2.
  - intros H. rewrite bool_decide_eq_true_2 by exact H. simpl negb. cbv iota.
    destruct (save dump F _ fs) as [r fs1]. simpl. split; [reflexivity|].
    now apply PlanningFacts.validate_transition_table.
Qed.


End PlanWorkflowFacts.

(** ** Runs of the workflow *)

Module PlanRunsFacts.
Import Planning Questions Dispatcher PlanWorkflow PlanRuns.

(** The session that the workflow receives from [start]. *)
Example start_gives_started :
  PlanResume.psm_start JsonText.dump Fs.no_faults script clock "refactor foo"
    "c1" (new_machine "/data") Fs.empty_fs (mk_script [] [])
  = (Ret true, started,
     snd (save JsonText.dump Fs.no_faults started Fs.empty_fs), mk_script [] []).
Proof. vm_compute. reflexivity. Qed.

(** The explorer fails: the session is aborted, from EXPLORING. *)
Example exploration_fails :
  let r := workflow 3 agents started Fs.empty_fs (mk_script [] []) in
  state_in_memory r = Some ABORTED /\ state_on_disk r = Some ABORTED /\
  In (EXPLORING, ABORTED) transition_table.
Proof. vm_compute. tauto. Qed.

(** The planning agent asks one question, the user answers it, the
    agent refines the plan and the user approves. *)
Example answered_and_approved :
  let r := workflow 3 agents started Fs.empty_fs
             (mk_script [QaUi.KEY_ENTER; QaUi.KEY_y]
                        ["findings"; Extract.fenced_reply; "# Plan B"]) in
  state_in_memory r = Some APPROVED /\ state_on_disk r = Some APPROVED.
Proof. vm_compute. split; reflexivity. Qed.

(** The user leaves the questions with Escape: the session is aborted,
    from AWAITING_ANSWERS. *)
Example questions_aborted :
  let r := workflow 3 agents started Fs.empty_fs
             (mk_script [QaUi.KEY_ESC]
                        ["findings"; Extract.fenced_reply; "# Plan B"]) in
  state_in_memory r = Some ABORTED /\ state_on_disk r = Some ABORTED /\
  In (AWAITING_ANSWERS, ABORTED) transition_table.
Proof. vm_compute. tauto. Qed.

(** With no round allowed the loop of questions is still running. *)
Example questions_need_a_round :
  workflow 0 agents started Fs.empty_fs
    (mk_script [QaUi.KEY_ESC] ["findings"; Extract.fenced_reply; "# Plan B"])
  = None.
Proof. vm_compute. reflexivity. Qed.


End PlanRunsFacts.
